(** * Family points: the service abstraction layer

    A shallow embedding of [lib/services]: the shared type contracts
    ([types.ts]), the two authentication services ([auth.service.ts]), the two
    data services ([data.service.ts]) and the service factory ([index.ts]).

    Asynchronous methods are programs in a state-and-exception monad over a
    world [W]: a rejected promise is a thrown value, [await] is bind.  The
    Supabase client is injected through the constructor in the source and is a
    record of operations here; [fetch] and [localStorage] are the globals of
    the remote-HTTP services. *)

From Stdlib Require Import ZArith Lia.
From Stdlib Require SpecFloat.
From stdpp Require Import base strings list gmap pretty sorting.

(** ** JavaScript values *)

(** A value of TypeScript type [T | null | undefined]. *)
Inductive js (T : Type) : Type :=
  | null
  | undefined
  | val (v : T).
Arguments null {T}.
Arguments undefined {T}.
Arguments val {T} v.

Global Instance js_eq_dec {T} `{EqDecision T} : EqDecision (js T).
Proof. solve_decision. Defined.

(** Truthiness of a non-nullish value: the empty string and [0] are falsy,
    objects and arrays are truthy. *)
Class Truthy (T : Type) := truthy : T → bool.
Global Instance string_truthy : Truthy string := λ s, negb (String.eqb s EmptyString).
Global Instance Z_truthy : Truthy Z := λ n, negb (n =? 0)%Z.
Global Instance list_truthy {A} : Truthy (list A) := λ _, true.

Definition js_truthy {T} `{Truthy T} (x : js T) : bool :=
  match x with
  | val v => truthy v
  | _ => false
  end.

(** [x || d] *)
Definition js_or {T} `{Truthy T} (x : js T) (d : T) : T :=
  match x with
  | val v => if truthy v then v else d
  | _ => d
  end.

(** [x?.f] *)
Definition js_chain {A B} (x : js A) (f : A → js B) : js B :=
  match x with
  | val a => f a
  | _ => undefined
  end.

(** [x?.map(f)] *)
Definition js_map {A B} (x : js (list A)) (f : A → B) : js (list B) :=
  js_chain x (λ l, val (f <$> l)).

(** A thrown value or an error object of a client library: it carries a
    [message] and, for the store's errors, a [code]. *)
Record JsError := { err_message : string; err_code : js string }.
Global Instance JsError_truthy : Truthy JsError := λ _, true.

(** ** Asynchronous computations *)

Inductive Outcome (A : Type) : Type :=
  | Ok (a : A)
  | Throw (e : JsError).
Arguments Ok {A} a.
Arguments Throw {A} e.

Definition Async (W A : Type) : Type := W → Outcome A * W.

Definition ret {W A} (a : A) : Async W A := λ w, (Ok a, w).
Definition throw {W A} (e : JsError) : Async W A := λ w, (Throw e, w).
Definition bind {W A B} (m : Async W A) (k : A → Async W B) : Async W B :=
  λ w, match m w with
       | (Ok a, w') => k a w'
       | (Throw e, w') => (Throw e, w')
       end.
Definition try_catch {W A} (body : Async W A) (handler : JsError → Async W A)
  : Async W A :=
  λ w, match body w with
       | (Ok a, w') => (Ok a, w')
       | (Throw e, w') => handler e w'
       end.
Definition get_world {W} : Async W W := λ w, (Ok w, w).
Definition modify_world {W} (f : W → W) : Async W unit := λ w, (Ok tt, f w).

Declare Scope async_scope.
Delimit Scope async_scope with async.
Notation "x <- m ;; k" := (bind m (λ x, k))
  (at level 100, m at next level, right associativity) : async_scope.
Notation "m ;;; k" := (bind m (λ _, k))
  (at level 100, right associativity) : async_scope.
Notation "'try' body 'catch' x => handler" := (try_catch body (λ x, handler))
  (at level 100, x name, body at level 200, handler at level 200) : async_scope.
Open Scope async_scope.

(** [if (error) throw error] *)
Definition throw_if {W} (error : js JsError) : Async W unit :=
  match error with
  | val e => if truthy e then throw e else ret tt
  | _ => ret tt
  end.

(** ** Shared type contracts ([types.ts]) *)

Inductive UserRole := parent | kid | admin.
Inductive Status := pending | approved | rejected.

Global Instance UserRole_eq_dec : EqDecision UserRole.
Proof. solve_decision. Defined.
Global Instance Status_eq_dec : EqDecision Status.
Proof. solve_decision. Defined.

(** ISO-8601 timestamps denote instants; the store compares instants. *)
Definition timestamp := Z.

Module AuthUser.
Record t := {
  id : string;
  email : js string;
  role : js UserRole;
  family_id : js string;
  display_name : js string;
  created_at : js timestamp;
  updated_at : js timestamp }.
End AuthUser.
Global Instance AuthUser_truthy : Truthy AuthUser.t := λ _, true.

Module Kid.
Record t := { id : string; display_name : string; total_points : Z }.
End Kid.

Module PendingActivity.
Record t := {
  id : string;
  activity_name : string;
  kid_name : string;
  points : Z;
  submitted_at : timestamp }.
End PendingActivity.

Module DashboardStats.
Record t := {
  totalKids : Z;
  totalActivities : Z;
  totalRewards : Z;
  pendingApprovals : Z }.
End DashboardStats.

Module Activity.
Record t := {
    id : string;
    name : string;
    description : js string;
    points : Z;
    category : js string;
    family_id : string;
    created_by : string;
    created_at : timestamp;
    updated_at : timestamp }.
(** [Omit<Activity, 'id' | 'created_at' | 'updated_at'>] *)
Record input := {
    i_name : string;
    i_description : js string;
    i_points : Z;
    i_category : js string;
    i_family_id : string;
    i_created_by : string }.
(** [Partial<Activity>]: [None] is a key that is not in the patch. *)
Record partial := {
    p_name : option string;
    p_description : option (js string);
    p_points : option Z;
    p_category : option (js string) }.
End Activity.

Module Reward.
Record t := {
  id : string;
  name : string;
  description : js string;
  points_required : Z;
  family_id : string;
  created_by : string;
  created_at : timestamp;
  updated_at : timestamp }.
Record input := {
  i_name : string;
  i_description : js string;
  i_points_required : Z;
  i_family_id : string;
  i_created_by : string }.
Record partial := {
  p_name : option string;
  p_description : option (js string);
  p_points_required : option Z }.
End Reward.

Module PointEntry.
Record t := {
    id : string;
    family_id : string;
    user_id : string;
    activity_id : js string;
    points : Z;
    description : js string;
    status : Status;
    approved_by : js string;
    approved_at : js timestamp;
    created_at : timestamp }.
(** [Omit<PointEntry, 'id' | 'created_at'>] *)
Record input := {
    i_family_id : string;
    i_user_id : string;
    i_activity_id : js string;
    i_points : Z;
    i_description : js string;
    i_status : Status;
    i_approved_by : js string;
    i_approved_at : js timestamp }.
(** [Partial<PointEntry>] *)
Record partial := {
    p_activity_id : option (js string);
    p_points : option Z;
    p_description : option (js string);
    p_status : option Status;
    p_approved_by : option (js string);
    p_approved_at : option (js timestamp) }.
End PointEntry.

Module RewardRedemption.
Record t := {
  id : string;
  family_id : string;
  user_id : string;
  reward_id : string;
  points_spent : Z;
  status : Status;
  approved_by : js string;
  approved_at : js timestamp;
  created_at : timestamp }.
Record input := {
  i_family_id : string;
  i_user_id : string;
  i_reward_id : string;
  i_points_spent : Z;
  i_status : Status;
  i_approved_by : js string;
  i_approved_at : js timestamp }.
Record partial := {
  p_status : option Status;
  p_approved_by : option (js string);
  p_approved_at : option (js timestamp) }.
End RewardRedemption.

Module Family.
Record t := {
    id : string;
    name : string;
    created_by : string;
    created_at : timestamp;
    updated_at : timestamp }.
(** The object literal that [signUp] inserts. *)
Record input := { i_id : string; i_name : string; i_created_by : string }.
End Family.

Module UserProfile.
Record t := {
    user_id : string;
    email : string;
    display_name : string;
    role : UserRole;
    family_id : js string;
    created_at : timestamp;
    updated_at : timestamp }.
(** The object literal that [signUp] inserts. *)
Record input := {
    i_user_id : string;
    i_email : string;
    i_display_name : string;
    i_role : UserRole;
    i_family_id : js string }.
End UserProfile.

(** [ApiResponse<T>] *)
Record ApiResponse (T : Type) := { data : js T; error : js string }.
Arguments data {T} _.
Arguments error {T} _.

(** [ApiListResponse<T>]; [count] is [undefined] when the key is not set. *)
Record ApiListResponse (T : Type) := {
  list_data : js (list T);
  list_error : js string;
  count : js Z }.
Arguments list_data {T} _.
Arguments list_error {T} _.
Arguments count {T} _.

Module ServiceConfig.
Record t := { type : string; baseUrl : js string; apiKey : js string }.
End ServiceConfig.

(** ** The Supabase client

    The client library is not part of the repository: the services receive it
    through their constructor.  Each field below stands for one call chain of
    the source and returns what the awaited chain resolves to. *)

(** [{ data, error, count }] of a query. *)
Record SbResponse (T : Type) := {
  sb_data : js T;
  sb_error : js JsError;
  sb_count : js Z }.
Arguments sb_data {T} _.
Arguments sb_error {T} _.
Arguments sb_count {T} _.

(** [{ data: { user }, error }] of [auth.signInWithPassword] and [auth.signUp]. *)
Record AuthResult := { auth_user : js AuthUser.t; auth_error : js JsError }.

(** [session] of [auth.getSession()]. *)
Record Session := { session_user : js AuthUser.t }.

(** [{ user }], the result of [getSession()] and the payload of an
    auth-state event. *)
Record SessionView := { user : js AuthUser.t }.

(** An auth-state listener; two registrations of one function object carry
    the same identity. *)
Definition Callback := nat.

(** Rows of [select("user_id, display_name, point_entries!inner(points)")]. *)
Module KidRow.
Record entry := { points : Z }.
Record t := {
  user_id : string;
  display_name : string;
  point_entries : js (list entry) }.
End KidRow.

(** Rows of
  [select("id, points, created_at, activities(name), user_profiles(display_name)")]. *)
Module PendingRow.
Record activity := { name : string }.
Record profile := { display_name : string }.
Record t := {
  id : string;
  points : Z;
  created_at : timestamp;
  activities : js activity;
  user_profiles : js profile }.
End PendingRow.

(** The row of [select("role, family_id, display_name")]. *)
Module ProfileCols.
Record t := { role : UserRole; family_id : js string; display_name : string }.
End ProfileCols.

Module Supabase.
Set Implicit Arguments.
Record Client (W : Type) := {
  (** [auth.getSession()], resolving to [{ data: { session } }] *)
  auth_getSession : Async W (js Session);
  (** [auth.onAuthStateChange(callback)], giving [{ data: { subscription } }],
      and [subscription.unsubscribe()] *)
  auth_onAuthStateChange : Callback → W → nat * W;
  auth_unsubscribe : nat → W → W;
  (** [auth.signInWithPassword({ email, password })] *)
  auth_signInWithPassword : string → string → Async W AuthResult;
  (** [auth.signUp({ email, password, options: { data: { display_name, role } } })] *)
  auth_signUp : string → string → string → UserRole → Async W AuthResult;
  (** [auth.signOut()] *)
  auth_signOut : Async W (SbResponse unit);
  (** [from("user_profiles").insert(row)] *)
  insert_user_profile : UserProfile.input → Async W (SbResponse unit);
  (** [from("families").insert(row)] *)
  insert_family : Family.input → Async W (SbResponse unit);
  (** [from("user_profiles").select("role, family_id, display_name")
       .eq("user_id", userId).single()] *)
  select_profile : string → Async W (SbResponse ProfileCols.t);
  (** [from("user_profiles")
       .select("user_id, display_name, point_entries!inner(points)")
       .eq("family_id", familyId).eq("role", "kid")
       .eq("point_entries.status", "approved")] *)
  select_kids_with_points : string → Async W (SbResponse (list KidRow.t));
  (** [from("point_entries")
       .select("id, points, created_at, activities(name), user_profiles(display_name)")
       .eq("family_id", familyId).eq("status", "pending")
       .order("created_at", { ascending: false })] *)
  select_pending_entries : string → Async W (SbResponse (list PendingRow.t));
  (** [from(t).select("id", { count: "exact" }).eq("family_id", familyId)],
      for [user_profiles] with [.eq("role", "kid")] and for [point_entries]
      with [.eq("status", "pending")] *)
  count_kids : string → Async W (SbResponse (list string));
  count_activities : string → Async W (SbResponse (list string));
  count_rewards : string → Async W (SbResponse (list string));
  count_pending : string → Async W (SbResponse (list string));
  (** [from("activities")]: [select("*").eq("family_id", familyId)
      .order("created_at", { ascending: false })], [insert(a).select().single()],
      [update(u).eq("id", id).select().single()], [delete().eq("id", id)] *)
  select_activities : string → Async W (SbResponse (list Activity.t));
  insert_activity : Activity.input → Async W (SbResponse Activity.t);
  update_activity : string → Activity.partial → Async W (SbResponse Activity.t);
  delete_activity : string → Async W (SbResponse unit);
  (** the same four chains on [from("rewards")] *)
  select_rewards : string → Async W (SbResponse (list Reward.t));
  insert_reward : Reward.input → Async W (SbResponse Reward.t);
  update_reward : string → Reward.partial → Async W (SbResponse Reward.t);
  delete_reward : string → Async W (SbResponse unit);
  (** [from("point_entries")]; the second argument of the select is the
      [user_id] of the optional [.eq("user_id", userId)] *)
  select_point_entries :
    string → option string → Async W (SbResponse (list PointEntry.t));
  insert_point_entry : PointEntry.input → Async W (SbResponse PointEntry.t);
  update_point_entry :
    string → PointEntry.partial → Async W (SbResponse PointEntry.t);
  (** [from("reward_redemptions")] *)
  select_reward_redemptions :
    string → option string → Async W (SbResponse (list RewardRedemption.t));
  insert_reward_redemption :
    RewardRedemption.input → Async W (SbResponse RewardRedemption.t);
  update_reward_redemption :
    string → RewardRedemption.partial → Async W (SbResponse RewardRedemption.t) }.
Unset Implicit Arguments.
End Supabase.

(** [Promise.all([a, b, c, d])]: the four requests are all issued; the
    result rejects with the first rejection. *)
Definition promise_all4 {W A} (a b c d : Async W A) : Async W (A * A * A * A) :=
  λ w, let '(ra, w1) := a w in
       let '(rb, w2) := b w1 in
       let '(rc, w3) := c w2 in
       let '(rd, w4) := d w3 in
       match ra, rb, rc, rd with
       | Ok va, Ok vb, Ok vc, Ok vd => (Ok (va, vb, vc, vd), w4)
       | Throw e, _, _, _ => (Throw e, w4)
       | _, Throw e, _, _ => (Throw e, w4)
       | _, _, Throw e, _ => (Throw e, w4)
       | _, _, _, Throw e => (Throw e, w4)
       end.

(** The [catch] block shared by the methods. *)
Definition error_response {W T} (e : JsError) : Async W (ApiResponse T) :=
  ret {| data := null; error := val (err_message e) |}.
Definition error_list_response {W T} (e : JsError) : Async W (ApiListResponse T) :=
  ret {| list_data := null; list_error := val (err_message e); count := undefined |}.

(** ** [SupabaseAuthService] *)
Module SupabaseAuthService.
Section Methods.
Context {W : Type} (supabase : Supabase.Client W).

Definition getSession : Async W SessionView :=
  session <- Supabase.auth_getSession supabase ;;
  ret {| user := match js_chain session session_user with
                 | val u => if truthy u then val u else null
                 | _ => null
                 end |}.

Definition onAuthStateChange (callback : Callback) (w : W) : nat * W :=
  Supabase.auth_onAuthStateChange supabase callback w.

Definition unsubscribe (subscription : nat) (w : W) : W :=
  Supabase.auth_unsubscribe supabase subscription w.

Definition signIn (email password : string) : Async W (ApiResponse AuthUser.t) :=
  try (
    r <- Supabase.auth_signInWithPassword supabase email password ;;
    throw_if (auth_error r) ;;;
    ret {| data := auth_user r; error := null |}
  ) catch e => error_response e.

(** The row of [from("user_profiles").insert(...)] *)
Definition profile_row (u : AuthUser.t) (email displayName : string) (role : UserRole)
  : UserProfile.input :=
  {| UserProfile.i_user_id := AuthUser.id u;
     UserProfile.i_email := email;
     UserProfile.i_display_name := displayName;
     UserProfile.i_role := role;
     UserProfile.i_family_id :=
       if decide (role = parent) then val (AuthUser.id u) else null |}.

(** The row of [from("families").insert(...)] *)
Definition family_row (u : AuthUser.t) (displayName : string) : Family.input :=
  {| Family.i_id := AuthUser.id u;
     Family.i_name := displayName +:+ "'s Family";
     Family.i_created_by := AuthUser.id u |}.

Definition signUp (email password displayName : string) (role : UserRole)
  : Async W (ApiResponse AuthUser.t) :=
  try (
    r <- Supabase.auth_signUp supabase email password displayName role ;;
    throw_if (auth_error r) ;;;
    (match auth_user r with
     | val u =>
         if truthy u then
           (* Create user profile *)
           p <- Supabase.insert_user_profile supabase
                  (profile_row u email displayName role) ;;
           throw_if (sb_error p) ;;;
           (* If parent, create family record *)
           if decide (role = parent) then
             f <- Supabase.insert_family supabase (family_row u displayName) ;;
             throw_if (sb_error f)
           else ret tt
         else ret tt
     | _ => ret tt
     end) ;;;
    ret {| data := auth_user r; error := null |}
  ) catch e => error_response e.

Definition signOut : Async W (ApiResponse unit) :=
  try (
    r <- Supabase.auth_signOut supabase ;;
    throw_if (sb_error r) ;;;
    ret {| data := null; error := null |}
  ) catch e => error_response e.

Definition fetchUserProfile (userId : string) : Async W (ApiResponse AuthUser.t) :=
  try (
    r <- Supabase.select_profile supabase userId ;;
    let profile := sb_data r in
    (match sb_error r with
     | val e => if bool_decide (err_code e ≠ val "PGRST116") then throw e else ret tt
     | _ => ret tt
     end) ;;;
    ret {| data := val {| AuthUser.id := userId;
                          AuthUser.email := undefined;
                          AuthUser.role := js_chain profile (λ p, val (ProfileCols.role p));
                          AuthUser.family_id := js_chain profile ProfileCols.family_id;
                          AuthUser.display_name :=
                            js_chain profile (λ p, val (ProfileCols.display_name p));
                          AuthUser.created_at := undefined;
                          AuthUser.updated_at := undefined |};
           error := null |}
  ) catch e => error_response e.
End Methods.
End SupabaseAuthService.

(** ** [SupabaseDataService] *)
Module SupabaseDataService.
Section Methods.
Context {W : Type} (supabase : Supabase.Client W).
(** [new Date().toISOString()], the clock of the runtime *)
Variable date_now : W → timestamp.

(** [if (error) throw error; return { data: data || [], error: null }] *)
Definition list_result {T} (r : SbResponse (list T)) : Async W (ApiListResponse T) :=
  throw_if (sb_error r) ;;;
  ret {| list_data := val (js_or (sb_data r) []); list_error := null;
         count := undefined |}.

(** [if (error) throw error; return { data, error: null }] *)
Definition single_result {T} (r : SbResponse T) : Async W (ApiResponse T) :=
  throw_if (sb_error r) ;;;
  ret {| data := sb_data r; error := null |}.

(** [if (error) throw error; return { data: null, error: null }] *)
Definition null_result (r : SbResponse unit) : Async W (ApiResponse unit) :=
  throw_if (sb_error r) ;;;
  ret {| data := null; error := null |}.

Definition kid_of_row (kid : KidRow.t) : Kid.t :=
  {| Kid.id := KidRow.user_id kid;
     Kid.display_name := KidRow.display_name kid;
     Kid.total_points :=
       js_or (js_chain (KidRow.point_entries kid)
                (λ entries,
                   val (foldl (λ sum entry, sum + KidRow.points entry)%Z 0%Z entries)))
             0%Z |}.

Definition fetchKidsWithPoints (familyId : string) : Async W (ApiListResponse Kid.t) :=
  try (
    r <- Supabase.select_kids_with_points supabase familyId ;;
    throw_if (sb_error r) ;;;
    let kids := js_or (js_map (sb_data r) kid_of_row) [] in
    ret {| list_data := val kids; list_error := null; count := undefined |}
  ) catch e => error_list_response e.

Definition pending_of_row (entry : PendingRow.t) : PendingActivity.t :=
  {| PendingActivity.id := PendingRow.id entry;
     PendingActivity.activity_name :=
       js_or (js_chain (PendingRow.activities entry) (λ a, val (PendingRow.name a)))
             "Unknown Activity";
     PendingActivity.kid_name :=
       js_or (js_chain (PendingRow.user_profiles entry)
                (λ p, val (PendingRow.display_name p)))
             "Unknown Kid";
     PendingActivity.points := PendingRow.points entry;
     PendingActivity.submitted_at := PendingRow.created_at entry |}.

Definition fetchPendingActivities (familyId : string)
  : Async W (ApiListResponse PendingActivity.t) :=
  try (
    r <- Supabase.select_pending_entries supabase familyId ;;
    throw_if (sb_error r) ;;;
    let activities := js_or (js_map (sb_data r) pending_of_row) [] in
    ret {| list_data := val activities; list_error := null; count := undefined |}
  ) catch e => error_list_response e.

Definition fetchDashboardStats (familyId : string)
  : Async W (ApiResponse DashboardStats.t) :=
  try (
    counts <- promise_all4
                (Supabase.count_kids supabase familyId)
                (Supabase.count_activities supabase familyId)
                (Supabase.count_rewards supabase familyId)
                (Supabase.count_pending supabase familyId) ;;
    let '(kidsCount, activitiesCount, rewardsCount, pendingCount) := counts in
    let stats :=
      {| DashboardStats.totalKids := js_or (sb_count kidsCount) 0%Z;
         DashboardStats.totalActivities := js_or (sb_count activitiesCount) 0%Z;
         DashboardStats.totalRewards := js_or (sb_count rewardsCount) 0%Z;
         DashboardStats.pendingApprovals := js_or (sb_count pendingCount) 0%Z |} in
    ret {| data := val stats; error := null |}
  ) catch e => error_response e.

Definition fetchActivities (familyId : string) : Async W (ApiListResponse Activity.t) :=
  try (r <- Supabase.select_activities supabase familyId ;; list_result r)
  catch e => error_list_response e.

Definition createActivity (activity : Activity.input) : Async W (ApiResponse Activity.t) :=
  try (r <- Supabase.insert_activity supabase activity ;; single_result r)
  catch e => error_response e.

Definition updateActivity (id : string) (updates : Activity.partial)
  : Async W (ApiResponse Activity.t) :=
  try (r <- Supabase.update_activity supabase id updates ;; single_result r)
  catch e => error_response e.

Definition deleteActivity (id : string) : Async W (ApiResponse unit) :=
  try (r <- Supabase.delete_activity supabase id ;; null_result r)
  catch e => error_response e.

Definition fetchRewards (familyId : string) : Async W (ApiListResponse Reward.t) :=
  try (r <- Supabase.select_rewards supabase familyId ;; list_result r)
  catch e => error_list_response e.

Definition createReward (reward : Reward.input) : Async W (ApiResponse Reward.t) :=
  try (r <- Supabase.insert_reward supabase reward ;; single_result r)
  catch e => error_response e.

Definition updateReward (id : string) (updates : Reward.partial)
  : Async W (ApiResponse Reward.t) :=
  try (r <- Supabase.update_reward supabase id updates ;; single_result r)
  catch e => error_response e.

Definition deleteReward (id : string) : Async W (ApiResponse unit) :=
  try (r <- Supabase.delete_reward supabase id ;; null_result r)
  catch e => error_response e.

(** [if (userId) query = query.eq("user_id", userId)] *)
Definition user_filter (userId : js string) : option string :=
  match userId with
  | val u => if truthy u then Some u else None
  | _ => None
  end.

Definition fetchPointEntries (familyId : string) (userId : js string)
  : Async W (ApiListResponse PointEntry.t) :=
  try (r <- Supabase.select_point_entries supabase familyId (user_filter userId) ;;
       list_result r)
  catch e => error_list_response e.

Definition createPointEntry (entry : PointEntry.input)
  : Async W (ApiResponse PointEntry.t) :=
  try (r <- Supabase.insert_point_entry supabase entry ;; single_result r)
  catch e => error_response e.

Definition updatePointEntry (id : string) (updates : PointEntry.partial)
  : Async W (ApiResponse PointEntry.t) :=
  try (r <- Supabase.update_point_entry supabase id updates ;; single_result r)
  catch e => error_response e.

(** [approved ? "approved" : "rejected"] *)
Definition approval_status (flag : bool) : Status :=
  if flag then approved else rejected.

(** [{ status: ..., approved_at: new Date().toISOString(), approved_by: approvedBy }] *)
Definition approval (approved : bool) (now : timestamp) (approvedBy : string)
  : PointEntry.partial :=
  {| PointEntry.p_activity_id := None;
     PointEntry.p_points := None;
     PointEntry.p_description := None;
     PointEntry.p_status := Some (approval_status approved);
     PointEntry.p_approved_at := Some (val now);
     PointEntry.p_approved_by := Some (val approvedBy) |}.

Definition approvePointEntry (id : string) (approved : bool) (approvedBy : string)
  : Async W (ApiResponse PointEntry.t) :=
  try (
    w <- get_world ;;
    r <- Supabase.update_point_entry supabase id
           (approval approved (date_now w) approvedBy) ;;
    single_result r
  ) catch e => error_response e.

Definition fetchRewardRedemptions (familyId : string) (userId : js string)
  : Async W (ApiListResponse RewardRedemption.t) :=
  try (r <- Supabase.select_reward_redemptions supabase familyId (user_filter userId) ;;
       list_result r)
  catch e => error_list_response e.

Definition createRewardRedemption (redemption : RewardRedemption.input)
  : Async W (ApiResponse RewardRedemption.t) :=
  try (r <- Supabase.insert_reward_redemption supabase redemption ;; single_result r)
  catch e => error_response e.

Definition redemption_approval (approved : bool) (now : timestamp) (approvedBy : string)
  : RewardRedemption.partial :=
  {| RewardRedemption.p_status := Some (approval_status approved);
     RewardRedemption.p_approved_at := Some (val now);
     RewardRedemption.p_approved_by := Some (val approvedBy) |}.

Definition approveRewardRedemption (id : string) (approved : bool) (approvedBy : string)
  : Async W (ApiResponse RewardRedemption.t) :=
  try (
    w <- get_world ;;
    r <- Supabase.update_reward_redemption supabase id
           (redemption_approval approved (date_now w) approvedBy) ;;
    single_result r
  ) catch e => error_response e.
End Methods.
End SupabaseDataService.

(** ** The globals of the remote-HTTP services: [fetch] and [localStorage]

    The values are taken here at the types that the source announces for
    them.  [Runtime], further down, embeds the two remote-HTTP classes once
    more on the values of the platform, and the lemmas [announced_signIn] and
    the like relate the two embeddings. *)
Module Rest.
(** The argument of [JSON.stringify] in a request body. *)
Inductive Payload :=
    | Credentials (email password : string)
    | Registration (email password displayName : string) (role : UserRole)
    | ActivityBody (activity : Activity.input)
    | ActivityUpdates (updates : Activity.partial)
    | RewardBody (reward : Reward.input)
    | RewardUpdates (updates : Reward.partial)
    | PointEntryBody (entry : PointEntry.input)
    | PointEntryUpdates (updates : PointEntry.partial)
    | RedemptionBody (redemption : RewardRedemption.input)
    | Approval (approved : bool) (approvedBy : string).

(** [RequestInit] as the services fill it. *)
Record Options := {
  opt_method : js string;
  opt_body : js Payload;
  opt_headers : gmap string string }.
Definition no_options : Options :=
  {| opt_method := undefined; opt_body := undefined; opt_headers := ∅ |}.

Record Request := {
  url : string;
  method : js string;
  body : js Payload;
  headers : gmap string string }.

(** The parsed JSON body, [result]. *)
Record Body (T : Type) := {
  message : js string;
  body_data : js T;
  body_count : js Z }.
Arguments message {T} _.
Arguments body_data {T} _.
Arguments body_count {T} _.

(** A [Response]: [ok] and what [response.json()] resolves or rejects to. *)
Record Response (T : Type) := { ok : bool; json : Outcome (Body T) }.
Arguments ok {T} _.
Arguments json {T} _.

(** An auth-state event as a listener receives it. *)
Record Delivery := {
  listener : Callback;
  event : string;
  session : js SessionView }.

(** The browser and the service instance: [N] is the state of the remote
    server, [requests] logs every call of [fetch], [authStateCallbacks] is
    the field of [RestApiAuthService] and [delivered] logs every call of a
    listener.  Listeners are code of the consumer; they are taken not to call
    back into the service while they run. *)
Record World (N : Type) := {
  localStorage : gmap string string;
  network : N;
  requests : list Request;
  authStateCallbacks : list Callback;
  delivered : list Delivery }.
Arguments localStorage {N} _.
Arguments network {N} _.
Arguments requests {N} _.
Arguments authStateCallbacks {N} _.
Arguments delivered {N} _.

(** The global [fetch], at the type [T] that [apiCall<T>] gives to
    [result.data]: it resolves to a response or rejects. *)
Definition Fetch (N T : Type) : Type := Request → N → Outcome (Response T) * N.

(** [this.baseUrl] and [this.apiKey]. *)
Record Instance := { baseUrl : string; apiKey : string }.

Section Globals.
Context {N : Type}.

Definition localStorage_getItem (key : string) : Async (World N) (js string) :=
    λ w, (Ok (match localStorage w !! key with Some v => val v | None => null end), w).

Definition localStorage_setItem (key value : string) : Async (World N) unit :=
    modify_world (λ w, {| localStorage := <[key := value]> (localStorage w);
                          network := network w;
                          requests := requests w;
                          authStateCallbacks := authStateCallbacks w;
                          delivered := delivered w |}).

Definition localStorage_removeItem (key : string) : Async (World N) unit :=
    modify_world (λ w, {| localStorage := delete key (localStorage w);
                          network := network w;
                          requests := requests w;
                          authStateCallbacks := authStateCallbacks w;
                          delivered := delivered w |}).

Definition call_fetch {T} (fetch : Fetch N T) (request : Request)
    : Async (World N) (Response T) :=
    λ w, let '(response, n) := fetch request (network w) in
         (response, {| localStorage := localStorage w;
                       network := n;
                       requests := requests w ++ [request];
                       authStateCallbacks := authStateCallbacks w;
                       delivered := delivered w |}).

Definition response_json {T} (response : Response T) : Async (World N) (Body T) :=
    λ w, (json response, w).
End Globals.

(** [`${x}`] *)
Definition template (x : js string) : string :=
  match x with
  | val s => s
  | null => "null"
  | undefined => "undefined"
  end.

(** [{ 'Content-Type': ..., 'Authorization': `Bearer ${credential}`,
      ...options.headers }] *)
Definition request_headers (credential : js string) (options : Options)
  : gmap string string :=
  opt_headers options ∪
  <["Content-Type" := "application/json"]>
    (<["Authorization" := "Bearer " +:+ template credential]> ∅).

Definition request_of (url : string) (credential : js string) (options : Options)
  : Request :=
  {| url := url;
     method := opt_method options;
     body := opt_body options;
     headers := request_headers credential options |}.
End Rest.

(** ** [RestApiAuthService] *)
Module RestApiAuthService.
Import Rest.

(** [{ user: AuthUser, token: string }] *)
Record AuthPayload := { payload_user : AuthUser.t; token : string }.
Global Instance AuthPayload_truthy : Truthy AuthPayload := λ _, true.

Section Methods.
Context {N : Type} (this : Instance).

Definition apiCall {T} (fetch : Fetch N T) (endpoint : string) (options : Options)
  : Async (World N) (ApiResponse T) :=
  try (
    response <- call_fetch fetch
                  (request_of (baseUrl this +:+ endpoint) (val (apiKey this)) options) ;;
    result <- response_json response ;;
    if negb (ok response) then
      ret {| data := null; error := val (js_or (message result) "API request failed") |}
    else
      ret {| data := body_data result; error := null |}
  ) catch e => error_response e.

Definition getSession (fetch : Fetch N AuthUser.t) : Async (World N) SessionView :=
  token <- localStorage_getItem "auth_token" ;;
  if negb (js_truthy token) then ret {| user := null |}
  else
    result <- apiCall fetch "/auth/me" no_options ;;
    ret {| user := data result |}.

(** The handle keeps the callback it was created for. *)
Record Handle := { registered : Callback }.

Definition set_callbacks (callbacks : list Callback) (w : World N) : World N :=
  {| localStorage := localStorage w;
     network := network w;
     requests := requests w;
     authStateCallbacks := callbacks;
     delivered := delivered w |}.

Definition onAuthStateChange (callback : Callback) (w : World N) : Handle * World N :=
  ({| registered := callback |},
   set_callbacks (authStateCallbacks w ++ [callback]) w).

(** [Array.prototype.indexOf]: the first index of the callback, or [-1]. *)
Fixpoint indexOf (callbacks : list Callback) (callback : Callback) : Z :=
  match callbacks with
  | [] => -1
  | c :: rest =>
      if decide (c = callback) then 0
      else let i := indexOf rest callback in
           if decide (i = -1)%Z then -1 else (i + 1)
  end%Z.

(** [splice(index, 1)] for an index that is not negative. *)
Definition splice1 (index : Z) (callbacks : list Callback) : list Callback :=
  take (Z.to_nat index) callbacks ++ drop (S (Z.to_nat index)) callbacks.

Definition unsubscribe (handle : Handle) (w : World N) : World N :=
  let index := indexOf (authStateCallbacks w) (registered handle) in
  if decide (index > -1)%Z then
    set_callbacks (splice1 index (authStateCallbacks w)) w
  else w.

Definition notifyAuthStateChange (event : string) (session : js SessionView)
  : Async (World N) unit :=
  modify_world (λ w,
    {| localStorage := localStorage w;
       network := network w;
       requests := requests w;
       authStateCallbacks := authStateCallbacks w;
       delivered :=
         delivered w ++
         ((λ callback, {| listener := callback; event := event; session := session |})
            <$> authStateCallbacks w) |}).

Definition signIn (fetch : Fetch N AuthPayload) (email password : string)
  : Async (World N) (ApiResponse AuthUser.t) :=
  result <- apiCall fetch "/auth/signin"
              {| opt_method := val "POST";
                 opt_body := val (Credentials email password);
                 opt_headers := ∅ |} ;;
  match data result with
  | val d =>
      if truthy d then
        localStorage_setItem "auth_token" (token d) ;;;
        notifyAuthStateChange "SIGNED_IN" (val {| user := val (payload_user d) |}) ;;;
        ret {| data := val (payload_user d); error := null |}
      else ret {| data := null; error := error result |}
  | _ => ret {| data := null; error := error result |}
  end.

Definition signUp (fetch : Fetch N AuthPayload)
    (email password displayName : string) (role : UserRole)
  : Async (World N) (ApiResponse AuthUser.t) :=
  result <- apiCall fetch "/auth/signup"
              {| opt_method := val "POST";
                 opt_body := val (Registration email password displayName role);
                 opt_headers := ∅ |} ;;
  match data result with
  | val d =>
      if truthy d then
        localStorage_setItem "auth_token" (token d) ;;;
        notifyAuthStateChange "SIGNED_UP" (val {| user := val (payload_user d) |}) ;;;
        ret {| data := val (payload_user d); error := null |}
      else ret {| data := null; error := error result |}
  | _ => ret {| data := null; error := error result |}
  end.

Definition signOut : Async (World N) (ApiResponse unit) :=
  localStorage_removeItem "auth_token" ;;;
  notifyAuthStateChange "SIGNED_OUT" null ;;;
  ret {| data := null; error := null |}.

Definition fetchUserProfile (fetch : Fetch N AuthUser.t) (userId : string)
  : Async (World N) (ApiResponse AuthUser.t) :=
  apiCall fetch ("/auth/profile/" +:+ userId) no_options.
End Methods.
End RestApiAuthService.

(** ** [RestApiDataService] *)
Module RestApiDataService.
Import Rest.

Section Methods.
Context {N : Type} (this : Instance).

Definition apiCall {T} (fetch : Fetch N T) (endpoint : string) (options : Options)
  : Async (World N) (ApiResponse T) :=
  try (
    token <- localStorage_getItem "auth_token" ;;
    response <- call_fetch fetch
                  (request_of (baseUrl this +:+ endpoint) token options) ;;
    result <- response_json response ;;
    if negb (ok response) then
      ret {| data := null; error := val (js_or (message result) "API request failed") |}
    else
      ret {| data := body_data result; error := null |}
  ) catch e => error_response e.

Definition apiListCall {T} (fetch : Fetch N (list T)) (endpoint : string)
    (options : Options) : Async (World N) (ApiListResponse T) :=
  try (
    token <- localStorage_getItem "auth_token" ;;
    response <- call_fetch fetch
                  (request_of (baseUrl this +:+ endpoint) token options) ;;
    result <- response_json response ;;
    if negb (ok response) then
      ret {| list_data := null;
             list_error := val (js_or (message result) "API request failed");
             count := undefined |}
    else
      ret {| list_data := body_data result; list_error := null;
             count := body_count result |}
  ) catch e => error_list_response e.

Definition post (payload : Payload) : Options :=
  {| opt_method := val "POST"; opt_body := val payload; opt_headers := ∅ |}.
Definition put (payload : Payload) : Options :=
  {| opt_method := val "PUT"; opt_body := val payload; opt_headers := ∅ |}.
Definition delete_options : Options :=
  {| opt_method := val "DELETE"; opt_body := undefined; opt_headers := ∅ |}.

Definition fetchKidsWithPoints (fetch : Fetch N (list Kid.t)) (familyId : string) :=
  apiListCall fetch ("/families/" +:+ familyId +:+ "/kids-with-points") no_options.

Definition fetchPendingActivities (fetch : Fetch N (list PendingActivity.t))
    (familyId : string) :=
  apiListCall fetch ("/families/" +:+ familyId +:+ "/pending-activities") no_options.

Definition fetchDashboardStats (fetch : Fetch N DashboardStats.t) (familyId : string) :=
  apiCall fetch ("/families/" +:+ familyId +:+ "/dashboard-stats") no_options.

Definition fetchActivities (fetch : Fetch N (list Activity.t)) (familyId : string) :=
  apiListCall fetch ("/families/" +:+ familyId +:+ "/activities") no_options.

Definition createActivity (fetch : Fetch N Activity.t) (activity : Activity.input) :=
  apiCall fetch "/activities" (post (ActivityBody activity)).

Definition updateActivity (fetch : Fetch N Activity.t) (id : string)
    (updates : Activity.partial) :=
  apiCall fetch ("/activities/" +:+ id) (put (ActivityUpdates updates)).

Definition deleteActivity (fetch : Fetch N unit) (id : string) :=
  apiCall fetch ("/activities/" +:+ id) delete_options.

Definition fetchRewards (fetch : Fetch N (list Reward.t)) (familyId : string) :=
  apiListCall fetch ("/families/" +:+ familyId +:+ "/rewards") no_options.

Definition createReward (fetch : Fetch N Reward.t) (reward : Reward.input) :=
  apiCall fetch "/rewards" (post (RewardBody reward)).

Definition updateReward (fetch : Fetch N Reward.t) (id : string)
    (updates : Reward.partial) :=
  apiCall fetch ("/rewards/" +:+ id) (put (RewardUpdates updates)).

Definition deleteReward (fetch : Fetch N unit) (id : string) :=
  apiCall fetch ("/rewards/" +:+ id) delete_options.

(** [userId ? `${base}?user_id=${userId}` : base] *)
Definition with_user (base : string) (userId : js string) : string :=
  match userId with
  | val u => if truthy u then base +:+ "?user_id=" +:+ u else base
  | _ => base
  end.

Definition fetchPointEntries (fetch : Fetch N (list PointEntry.t))
    (familyId : string) (userId : js string) :=
  apiListCall fetch
    (with_user ("/families/" +:+ familyId +:+ "/point-entries") userId) no_options.

Definition createPointEntry (fetch : Fetch N PointEntry.t) (entry : PointEntry.input) :=
  apiCall fetch "/point-entries" (post (PointEntryBody entry)).

Definition updatePointEntry (fetch : Fetch N PointEntry.t) (id : string)
    (updates : PointEntry.partial) :=
  apiCall fetch ("/point-entries/" +:+ id) (put (PointEntryUpdates updates)).

Definition approvePointEntry (fetch : Fetch N PointEntry.t) (id : string)
    (approved : bool) (approvedBy : string) :=
  apiCall fetch ("/point-entries/" +:+ id +:+ "/approve")
    (post (Approval approved approvedBy)).

Definition fetchRewardRedemptions (fetch : Fetch N (list RewardRedemption.t))
    (familyId : string) (userId : js string) :=
  apiListCall fetch
    (with_user ("/families/" +:+ familyId +:+ "/reward-redemptions") userId) no_options.

Definition createRewardRedemption (fetch : Fetch N RewardRedemption.t)
    (redemption : RewardRedemption.input) :=
  apiCall fetch "/reward-redemptions" (post (RedemptionBody redemption)).

Definition approveRewardRedemption (fetch : Fetch N RewardRedemption.t) (id : string)
    (approved : bool) (approvedBy : string) :=
  apiCall fetch ("/reward-redemptions/" +:+ id +:+ "/approve")
    (post (Approval approved approvedBy)).
End Methods.
End RestApiDataService.

(** ** The service factory ([index.ts]) *)
Module ServiceFactory.
(** [process.env.NAME] *)
Definition env_get (env : gmap string string) (name : string) : js string :=
    match env !! name with
    | Some v => val v
    | None => undefined
    end.

Definition getServiceConfig (env : gmap string string) : ServiceConfig.t :=
  let serviceType := js_or (env_get env "NEXT_PUBLIC_SERVICE_TYPE") "supabase" in
  {| ServiceConfig.type := serviceType;
     ServiceConfig.baseUrl := env_get env "NEXT_PUBLIC_API_BASE_URL";
     ServiceConfig.apiKey := env_get env "NEXT_PUBLIC_API_KEY" |}.

(** What [createClient(supabaseUrl, supabaseAnonKey)] was called with. *)
Record SupabaseHandle := { supabaseUrl : string; supabaseAnonKey : string }.

(** The service objects: [new SupabaseAuthService(client)] and the like. *)
Inductive AuthService :=
  | NewSupabaseAuthService (supabaseClient : SupabaseHandle)
  | NewRestApiAuthService (baseUrl apiKey : string).
Inductive DataService :=
  | NewSupabaseDataService (supabaseClient : SupabaseHandle)
  | NewRestApiDataService (baseUrl apiKey : string).

(** An object with its identity: two objects are the same instance when
    their addresses are equal. *)
Record Object (A : Type) := { address : nat; fields : A }.
Arguments address {A} _.
Arguments fields {A} _.
Global Instance Object_truthy {A} : Truthy (Object A) := λ _, true.

(** The private fields of the factory. *)
Record t := {
  config : ServiceConfig.t;
  authService : js (Object AuthService);
  dataService : js (Object DataService) }.
Global Instance t_truthy : Truthy t := λ _, true.

(** [env] is [process.env], [next_address] the next free object identity,
    [this] the factory object. *)
Record World := {
  env : gmap string string;
  next_address : nat;
  this : t }.

Definition configuration_error (msg : string) : JsError :=
  {| err_message := msg; err_code := undefined |}.

Definition supabase_configuration_missing : JsError :=
  configuration_error
    ("Supabase configuration is missing or using placeholder values. "
     +:+ "Please configure NEXT_PUBLIC_SUPABASE_URL and "
     +:+ "NEXT_PUBLIC_SUPABASE_ANON_KEY in your .env.local file.").

Definition createSupabaseClient : Async World SupabaseHandle :=
  w <- get_world ;;
  let supabaseUrl := env_get (env w) "NEXT_PUBLIC_SUPABASE_URL" in
  let supabaseAnonKey := env_get (env w) "NEXT_PUBLIC_SUPABASE_ANON_KEY" in
  match supabaseUrl, supabaseAnonKey with
  | val url, val key =>
      if negb (truthy url) || negb (truthy key)
         || bool_decide (url = "your-supabase-url-here")
         || bool_decide (key = "your-supabase-anon-key-here")
      then throw supabase_configuration_missing
      else ret {| supabaseUrl := url; supabaseAnonKey := key |}
  | _, _ =>
      throw supabase_configuration_missing
  end.

(** [new C(...)]: a fresh object. *)
Definition new {A} (x : A) : Async World (Object A) :=
  λ w, (Ok {| address := next_address w; fields := x |},
        {| env := env w; next_address := S (next_address w); this := this w |}).

Definition set_authService (s : js (Object AuthService)) : Async World unit :=
  modify_world (λ w,
    {| env := env w; next_address := next_address w;
       this := {| config := config (this w);
                  authService := s;
                  dataService := dataService (this w) |} |}).

Definition set_dataService (s : js (Object DataService)) : Async World unit :=
  modify_world (λ w,
    {| env := env w; next_address := next_address w;
       this := {| config := config (this w);
                  authService := authService (this w);
                  dataService := s |} |}).

Definition set_config (c : ServiceConfig.t) : Async World unit :=
  modify_world (λ w,
    {| env := env w; next_address := next_address w;
       this := {| config := c;
                  authService := authService (this w);
                  dataService := dataService (this w) |} |}).

(** [private constructor()] *)
Definition constructor (env : gmap string string) : t :=
  {| config := getServiceConfig env; authService := null; dataService := null |}.

(** [ServiceFactory.getInstance()], on the static field [instance]. *)
Definition getInstance (env : gmap string string) (instance : js t) : t * js t :=
  let instance' := if negb (js_truthy instance) then val (constructor env) else instance in
  match instance' with
  | val f => (f, instance')
  | _ => (constructor env, instance')
  end.

Definition getAuthService : Async World (js (Object AuthService)) :=
  w <- get_world ;;
  (if negb (js_truthy (authService (this w))) then
     let type := ServiceConfig.type (config (this w)) in
     if decide (type = "supabase") then
       supabaseClient <- createSupabaseClient ;;
       s <- new (NewSupabaseAuthService supabaseClient) ;;
       set_authService (val s)
     else if decide (type = "rest-api") then
       match ServiceConfig.baseUrl (config (this w)), ServiceConfig.apiKey (config (this w)) with
       | val baseUrl, val apiKey =>
           if negb (truthy baseUrl) || negb (truthy apiKey) then
             throw (configuration_error
                      "REST API configuration missing: baseUrl and apiKey are required")
           else
             s <- new (NewRestApiAuthService baseUrl apiKey) ;;
             set_authService (val s)
       | _, _ =>
           throw (configuration_error
                    "REST API configuration missing: baseUrl and apiKey are required")
       end
     else throw (configuration_error ("Unsupported service type: " +:+ type))
   else ret tt) ;;;
  w' <- get_world ;;
  ret (authService (this w')).

Definition getDataService : Async World (js (Object DataService)) :=
  w <- get_world ;;
  (if negb (js_truthy (dataService (this w))) then
     let type := ServiceConfig.type (config (this w)) in
     if decide (type = "supabase") then
       supabaseClient <- createSupabaseClient ;;
       s <- new (NewSupabaseDataService supabaseClient) ;;
       set_dataService (val s)
     else if decide (type = "rest-api") then
       match ServiceConfig.baseUrl (config (this w)), ServiceConfig.apiKey (config (this w)) with
       | val baseUrl, val apiKey =>
           if negb (truthy baseUrl) || negb (truthy apiKey) then
             throw (configuration_error
                      "REST API configuration missing: baseUrl and apiKey are required")
           else
             s <- new (NewRestApiDataService baseUrl apiKey) ;;
             set_dataService (val s)
       | _, _ =>
           throw (configuration_error
                    "REST API configuration missing: baseUrl and apiKey are required")
       end
     else throw (configuration_error ("Unsupported service type: " +:+ type))
   else ret tt) ;;;
  w' <- get_world ;;
  ret (dataService (this w')).

Definition getConfig : Async World ServiceConfig.t :=
  w <- get_world ;; ret (config (this w)).

Definition reset : Async World unit :=
  set_authService null ;;;
  set_dataService null ;;;
  w <- get_world ;;
  set_config (getServiceConfig (env w)).
End ServiceFactory.

(** ** A reference store behind the Supabase client

  The tables hold the rows the caller can see.  A request is first put to
  [policy], which stands for everything that makes the backend refuse it
  (row-level security, constraints, the connection): when it gives an error,
  the request resolves with that error and changes nothing.  Otherwise the
  request is carried out as its call chain reads. *)
Module Store.
Record Tables := {
  families : list Family.t;
  user_profiles : list UserProfile.t;
  activities : list Activity.t;
  rewards : list Reward.t;
  point_entries : list PointEntry.t;
  reward_redemptions : list RewardRedemption.t }.

Record Account := { account_password : string; account_user : AuthUser.t }.

Record t := {
  tables : Tables;
  accounts : list Account;
  session : js Session;
  subscriptions : list (nat * Callback);
  clock : timestamp;
  serial : nat }.

Inductive Request :=
  | AuthSignIn (email password : string)
  | AuthSignUp (email password displayName : string) (role : UserRole)
  | AuthSignOut
  | InsertUserProfile (row : UserProfile.input)
  | InsertFamily (row : Family.input)
  | SelectProfile (userId : string)
  | SelectKidsWithPoints (familyId : string)
  | SelectPendingEntries (familyId : string)
  | CountKids (familyId : string)
  | CountActivities (familyId : string)
  | CountRewards (familyId : string)
  | CountPending (familyId : string)
  | SelectActivities (familyId : string)
  | InsertActivity (row : Activity.input)
  | UpdateActivity (id : string) (updates : Activity.partial)
  | DeleteActivity (id : string)
  | SelectRewards (familyId : string)
  | InsertReward (row : Reward.input)
  | UpdateReward (id : string) (updates : Reward.partial)
  | DeleteReward (id : string)
  | SelectPointEntries (familyId : string) (userId : option string)
  | InsertPointEntry (row : PointEntry.input)
  | UpdatePointEntry (id : string) (updates : PointEntry.partial)
  | SelectRewardRedemptions (familyId : string) (userId : option string)
  | InsertRewardRedemption (row : RewardRedemption.input)
  | UpdateRewardRedemption (id : string) (updates : RewardRedemption.partial).

Definition set_tables (f : Tables → Tables) (s : t) : t :=
  {| tables := f (tables s); accounts := accounts s; session := session s;
     subscriptions := subscriptions s; clock := clock s; serial := serial s |}.
Definition set_session (x : js Session) (s : t) : t :=
  {| tables := tables s; accounts := accounts s; session := x;
     subscriptions := subscriptions s; clock := clock s; serial := serial s |}.
Definition set_accounts (x : list Account) (s : t) : t :=
  {| tables := tables s; accounts := x; session := session s;
     subscriptions := subscriptions s; clock := clock s; serial := serial s |}.
Definition set_subscriptions (x : list (nat * Callback)) (s : t) : t :=
  {| tables := tables s; accounts := accounts s; session := session s;
     subscriptions := x; clock := clock s; serial := serial s |}.
Definition set_clock (x : timestamp) (s : t) : t :=
  {| tables := tables s; accounts := accounts s; session := session s;
     subscriptions := subscriptions s; clock := x; serial := serial s |}.
Definition next_serial (s : t) : t :=
  {| tables := tables s; accounts := accounts s; session := session s;
     subscriptions := subscriptions s; clock := clock s; serial := S (serial s) |}.

Definition set_families x (d : Tables) : Tables :=
  {| families := x; user_profiles := user_profiles d; activities := activities d;
     rewards := rewards d; point_entries := point_entries d;
     reward_redemptions := reward_redemptions d |}.
Definition set_user_profiles x (d : Tables) : Tables :=
  {| families := families d; user_profiles := x; activities := activities d;
     rewards := rewards d; point_entries := point_entries d;
     reward_redemptions := reward_redemptions d |}.
Definition set_activities x (d : Tables) : Tables :=
  {| families := families d; user_profiles := user_profiles d; activities := x;
     rewards := rewards d; point_entries := point_entries d;
     reward_redemptions := reward_redemptions d |}.
Definition set_rewards x (d : Tables) : Tables :=
  {| families := families d; user_profiles := user_profiles d;
     activities := activities d; rewards := x; point_entries := point_entries d;
     reward_redemptions := reward_redemptions d |}.
Definition set_point_entries x (d : Tables) : Tables :=
  {| families := families d; user_profiles := user_profiles d;
     activities := activities d; rewards := rewards d; point_entries := x;
     reward_redemptions := reward_redemptions d |}.
Definition set_reward_redemptions x (d : Tables) : Tables :=
  {| families := families d; user_profiles := user_profiles d;
     activities := activities d; rewards := rewards d;
     point_entries := point_entries d; reward_redemptions := x |}.

(** *** Query semantics on lists of rows *)

(** [.order("created_at", { ascending: false })] *)
Definition newest_first {R} (created_at : R → timestamp) : relation R :=
  λ a b, (created_at b ≤ created_at a)%Z.
Global Instance newest_first_dec {R} (created_at : R → timestamp) a b
  : Decision (newest_first created_at a b).
Proof. unfold newest_first. apply _. Defined.

Definition order_desc {R} (created_at : R → timestamp) (rows : list R) : list R :=
  merge_sort (newest_first created_at) rows.

(** [.single()] on no row or on several rows *)
Definition not_single : JsError :=
  {| err_message := "JSON object requested, multiple (or no) rows returned";
     err_code := val "PGRST116" |}.

Definition ok_response {T} (x : js T) : SbResponse T :=
  {| sb_data := x; sb_error := null; sb_count := null |}.
Definition error_of {T} (e : JsError) : SbResponse T :=
  {| sb_data := null; sb_error := val e; sb_count := null |}.

(** [.update(patch).eq("id", id).select().single()] *)
Definition update_single {R} (key : R → string) (patch : R → R) (id : string)
    (rows : list R) : option (R * list R) :=
  match filter (λ r, key r = id) rows with
  | [r] => Some (patch r, (λ x, if decide (key x = id) then patch x else x) <$> rows)
  | _ => None
  end.

(** [.select("id", { count: "exact" })] with its filters *)
Definition count_response {R} (key : R → string) (rows : list R)
  : SbResponse (list string) :=
  {| sb_data := val (key <$> rows); sb_error := null;
     sb_count := val (Z.of_nat (length rows)) |}.

Definition by_user {R} (user_id : R → string) (userId : option string) (r : R) : Prop :=
  match userId with
  | Some u => user_id r = u
  | None => True
  end.
Global Instance by_user_dec {R} (user_id : R → string) userId r
  : Decision (by_user user_id userId r).
Proof. unfold by_user. destruct userId; apply _. Defined.

(** *** Rows from inserts and patches *)

Definition new_family (row : Family.input) (now : timestamp) : Family.t :=
  {| Family.id := Family.i_id row; Family.name := Family.i_name row;
     Family.created_by := Family.i_created_by row;
     Family.created_at := now; Family.updated_at := now |}.

Definition new_user_profile (row : UserProfile.input) (now : timestamp) : UserProfile.t :=
  {| UserProfile.user_id := UserProfile.i_user_id row;
     UserProfile.email := UserProfile.i_email row;
     UserProfile.display_name := UserProfile.i_display_name row;
     UserProfile.role := UserProfile.i_role row;
     UserProfile.family_id := UserProfile.i_family_id row;
     UserProfile.created_at := now; UserProfile.updated_at := now |}.

Definition new_activity (row : Activity.input) (id : string) (now : timestamp)
  : Activity.t :=
  {| Activity.id := id; Activity.name := Activity.i_name row;
     Activity.description := Activity.i_description row;
     Activity.points := Activity.i_points row;
     Activity.category := Activity.i_category row;
     Activity.family_id := Activity.i_family_id row;
     Activity.created_by := Activity.i_created_by row;
     Activity.created_at := now; Activity.updated_at := now |}.

Definition patch_activity (u : Activity.partial) (r : Activity.t) : Activity.t :=
  {| Activity.id := Activity.id r;
     Activity.name := default (Activity.name r) (Activity.p_name u);
     Activity.description := default (Activity.description r) (Activity.p_description u);
     Activity.points := default (Activity.points r) (Activity.p_points u);
     Activity.category := default (Activity.category r) (Activity.p_category u);
     Activity.family_id := Activity.family_id r;
     Activity.created_by := Activity.created_by r;
     Activity.created_at := Activity.created_at r;
     Activity.updated_at := Activity.updated_at r |}.

Definition new_reward (row : Reward.input) (id : string) (now : timestamp) : Reward.t :=
  {| Reward.id := id; Reward.name := Reward.i_name row;
     Reward.description := Reward.i_description row;
     Reward.points_required := Reward.i_points_required row;
     Reward.family_id := Reward.i_family_id row;
     Reward.created_by := Reward.i_created_by row;
     Reward.created_at := now; Reward.updated_at := now |}.

Definition patch_reward (u : Reward.partial) (r : Reward.t) : Reward.t :=
  {| Reward.id := Reward.id r;
     Reward.name := default (Reward.name r) (Reward.p_name u);
     Reward.description := default (Reward.description r) (Reward.p_description u);
     Reward.points_required :=
       default (Reward.points_required r) (Reward.p_points_required u);
     Reward.family_id := Reward.family_id r;
     Reward.created_by := Reward.created_by r;
     Reward.created_at := Reward.created_at r;
     Reward.updated_at := Reward.updated_at r |}.

Definition new_point_entry (row : PointEntry.input) (id : string) (now : timestamp)
  : PointEntry.t :=
  {| PointEntry.id := id;
     PointEntry.family_id := PointEntry.i_family_id row;
     PointEntry.user_id := PointEntry.i_user_id row;
     PointEntry.activity_id := PointEntry.i_activity_id row;
     PointEntry.points := PointEntry.i_points row;
     PointEntry.description := PointEntry.i_description row;
     PointEntry.status := PointEntry.i_status row;
     PointEntry.approved_by := PointEntry.i_approved_by row;
     PointEntry.approved_at := PointEntry.i_approved_at row;
     PointEntry.created_at := now |}.

Definition patch_point_entry (u : PointEntry.partial) (r : PointEntry.t) : PointEntry.t :=
  {| PointEntry.id := PointEntry.id r;
     PointEntry.family_id := PointEntry.family_id r;
     PointEntry.user_id := PointEntry.user_id r;
     PointEntry.activity_id :=
       default (PointEntry.activity_id r) (PointEntry.p_activity_id u);
     PointEntry.points := default (PointEntry.points r) (PointEntry.p_points u);
     PointEntry.description :=
       default (PointEntry.description r) (PointEntry.p_description u);
     PointEntry.status := default (PointEntry.status r) (PointEntry.p_status u);
     PointEntry.approved_by :=
       default (PointEntry.approved_by r) (PointEntry.p_approved_by u);
     PointEntry.approved_at :=
       default (PointEntry.approved_at r) (PointEntry.p_approved_at u);
     PointEntry.created_at := PointEntry.created_at r |}.

Definition new_reward_redemption (row : RewardRedemption.input) (id : string)
    (now : timestamp) : RewardRedemption.t :=
  {| RewardRedemption.id := id;
     RewardRedemption.family_id := RewardRedemption.i_family_id row;
     RewardRedemption.user_id := RewardRedemption.i_user_id row;
     RewardRedemption.reward_id := RewardRedemption.i_reward_id row;
     RewardRedemption.points_spent := RewardRedemption.i_points_spent row;
     RewardRedemption.status := RewardRedemption.i_status row;
     RewardRedemption.approved_by := RewardRedemption.i_approved_by row;
     RewardRedemption.approved_at := RewardRedemption.i_approved_at row;
     RewardRedemption.created_at := now |}.

Definition patch_reward_redemption (u : RewardRedemption.partial)
    (r : RewardRedemption.t) : RewardRedemption.t :=
  {| RewardRedemption.id := RewardRedemption.id r;
     RewardRedemption.family_id := RewardRedemption.family_id r;
     RewardRedemption.user_id := RewardRedemption.user_id r;
     RewardRedemption.reward_id := RewardRedemption.reward_id r;
     RewardRedemption.points_spent := RewardRedemption.points_spent r;
     RewardRedemption.status :=
       default (RewardRedemption.status r) (RewardRedemption.p_status u);
     RewardRedemption.approved_by :=
       default (RewardRedemption.approved_by r) (RewardRedemption.p_approved_by u);
     RewardRedemption.approved_at :=
       default (RewardRedemption.approved_at r) (RewardRedemption.p_approved_at u);
     RewardRedemption.created_at := RewardRedemption.created_at r |}.

Definition add_user_profile (row : UserProfile.input) (s : t) : t :=
  set_tables (λ d, set_user_profiles
                     (user_profiles d ++ [new_user_profile row (clock s)]) d) s.

Definition add_family (row : Family.input) (s : t) : t :=
  set_tables (λ d, set_families (families d ++ [new_family row (clock s)]) d) s.

(** *** The two joined selects *)

(** The rows of [point_entries] embedded under a profile, after
    [.eq("point_entries.status", "approved")]. *)
Definition approved_entries_of (d : Tables) (userId : string) : list PointEntry.t :=
  filter (λ e, PointEntry.user_id e = userId ∧ PointEntry.status e = approved)
         (point_entries d).

Definition kid_profiles (d : Tables) (familyId : string) : list UserProfile.t :=
  filter (λ p, UserProfile.family_id p = val familyId ∧ UserProfile.role p = kid)
         (user_profiles d).

(** [point_entries!inner(points)] keeps a profile only when at least one
    row is embedded under it. *)
Definition kids_with_points (d : Tables) (familyId : string) : list KidRow.t :=
  (λ p, {| KidRow.user_id := UserProfile.user_id p;
           KidRow.display_name := UserProfile.display_name p;
           KidRow.point_entries :=
             val ((λ e, {| KidRow.points := PointEntry.points e |})
                    <$> approved_entries_of d (UserProfile.user_id p)) |})
  <$> filter (λ p, approved_entries_of d (UserProfile.user_id p) ≠ [])
             (kid_profiles d familyId).

(** [activities(name)]: the activity the entry refers to, or [null]. *)
Definition activity_of (d : Tables) (e : PointEntry.t) : js PendingRow.activity :=
  match PointEntry.activity_id e with
  | val a =>
      match list_find (λ x, Activity.id x = a) (activities d) with
      | Some (_, x) => val {| PendingRow.name := Activity.name x |}
      | None => null
      end
  | _ => null
  end.

(** [user_profiles(display_name)]: the profile of the entry's user, or [null]. *)
Definition profile_of (d : Tables) (e : PointEntry.t) : js PendingRow.profile :=
  match list_find (λ p, UserProfile.user_id p = PointEntry.user_id e) (user_profiles d) with
  | Some (_, p) => val {| PendingRow.display_name := UserProfile.display_name p |}
  | None => null
  end.

Definition pending_of (d : Tables) (familyId : string) : list PointEntry.t :=
  filter (λ e, PointEntry.family_id e = familyId ∧ PointEntry.status e = pending)
         (point_entries d).

Definition pending_row (d : Tables) (e : PointEntry.t) : PendingRow.t :=
  {| PendingRow.id := PointEntry.id e;
     PendingRow.points := PointEntry.points e;
     PendingRow.created_at := PointEntry.created_at e;
     PendingRow.activities := activity_of d e;
     PendingRow.user_profiles := profile_of d e |}.

Definition pending_entries (d : Tables) (familyId : string) : list PendingRow.t :=
  pending_row d <$> order_desc PointEntry.created_at (pending_of d familyId).

(** *** The client *)
Section Client.
Variable policy : Request → t → js JsError.
(** [gen_random_uuid()] and the ids of new accounts *)
Variable uuid : nat → string.

Definition guarded {T} (request : Request) (run : t → SbResponse T * t)
  : Async t (SbResponse T) :=
  λ s, match policy request s with
       | val e => (Ok (error_of e), s)
       | _ => let '(r, s') := run s in (Ok r, s')
       end.

Definition read {T} (request : Request) (rows : Tables → list T)
  : Async t (SbResponse (list T)) :=
  guarded request (λ s, (ok_response (val (rows (tables s))), s)).

Definition insert_returning {R} (request : Request) (row : string → timestamp → R)
    (table : Tables → list R) (set : list R → Tables → Tables)
  : Async t (SbResponse R) :=
  guarded request (λ s,
    let r := row (uuid (serial s)) (clock s) in
    (ok_response (val r),
     next_serial (set_tables (λ d, set (table d ++ [r]) d) s))).

Definition update_returning {R} (request : Request) (key : R → string)
    (patch : R → R) (id : string)
    (table : Tables → list R) (set : list R → Tables → Tables)
  : Async t (SbResponse R) :=
  guarded request (λ s,
    match update_single key patch id (table (tables s)) with
    | Some (r, rows) => (ok_response (val r), set_tables (set rows) s)
    | None => (error_of not_single, s)
    end).

Definition delete_where {R} (request : Request) (key : R → string) (id : string)
    (table : Tables → list R) (set : list R → Tables → Tables)
  : Async t (SbResponse unit) :=
  guarded request (λ s,
    (ok_response null,
     set_tables (λ d, set (filter (λ r, key r ≠ id) (table d)) d) s)).

Definition sign_up (email password displayName : string) (role : UserRole)
  : Async t AuthResult :=
  λ s, match policy (AuthSignUp email password displayName role) s with
       | val e => (Ok {| auth_user := null; auth_error := val e |}, s)
       | _ =>
           let u := {| AuthUser.id := uuid (serial s);
                       AuthUser.email := val email;
                       AuthUser.role := undefined;
                       AuthUser.family_id := undefined;
                       AuthUser.display_name := undefined;
                       AuthUser.created_at := val (clock s);
                       AuthUser.updated_at := val (clock s) |} in
           (Ok {| auth_user := val u; auth_error := null |},
            next_serial
              (set_session (val {| session_user := val u |})
                 (set_accounts
                    (accounts s ++ [{| account_password := password;
                                       account_user := u |}]) s)))
       end.

Definition invalid_credentials : JsError :=
  {| err_message := "Invalid login credentials"; err_code := undefined |}.

Definition sign_in (email password : string) : Async t AuthResult :=
  λ s, match policy (AuthSignIn email password) s with
       | val e => (Ok {| auth_user := null; auth_error := val e |}, s)
       | _ =>
           match list_find
                   (λ a, AuthUser.email (account_user a) = val email
                         ∧ account_password a = password) (accounts s) with
           | Some (_, a) =>
               (Ok {| auth_user := val (account_user a); auth_error := null |},
                set_session (val {| session_user := val (account_user a) |}) s)
           | None =>
               (Ok {| auth_user := null; auth_error := val invalid_credentials |}, s)
           end
       end.

Definition client : Supabase.Client t :=
  {| Supabase.auth_getSession := λ s, (Ok (session s), s);
     Supabase.auth_onAuthStateChange := λ callback s,
       (serial s,
        next_serial (set_subscriptions (subscriptions s ++ [(serial s, callback)]) s));
     Supabase.auth_unsubscribe := λ subscription s,
       set_subscriptions (filter (λ x, x.1 ≠ subscription) (subscriptions s)) s;
     Supabase.auth_signInWithPassword := sign_in;
     Supabase.auth_signUp := sign_up;
     Supabase.auth_signOut :=
       guarded AuthSignOut (λ s, (ok_response null, set_session null s));
     Supabase.insert_user_profile := λ row,
       guarded (InsertUserProfile row) (λ s, (ok_response null, add_user_profile row s));
     Supabase.insert_family := λ row,
       guarded (InsertFamily row) (λ s, (ok_response null, add_family row s));
     Supabase.select_profile := λ userId,
       guarded (SelectProfile userId) (λ s,
         (match filter (λ p, UserProfile.user_id p = userId)
                       (user_profiles (tables s)) with
          | [p] => ok_response
                     (val {| ProfileCols.role := UserProfile.role p;
                             ProfileCols.family_id := UserProfile.family_id p;
                             ProfileCols.display_name := UserProfile.display_name p |})
          | _ => error_of not_single
          end, s));
     Supabase.select_kids_with_points := λ familyId,
       read (SelectKidsWithPoints familyId) (λ d, kids_with_points d familyId);
     Supabase.select_pending_entries := λ familyId,
       read (SelectPendingEntries familyId) (λ d, pending_entries d familyId);
     Supabase.count_kids := λ familyId,
       guarded (CountKids familyId) (λ s,
         (count_response UserProfile.user_id (kid_profiles (tables s) familyId), s));
     Supabase.count_activities := λ familyId,
       guarded (CountActivities familyId) (λ s,
         (count_response Activity.id
            (filter (λ r, Activity.family_id r = familyId) (activities (tables s))), s));
     Supabase.count_rewards := λ familyId,
       guarded (CountRewards familyId) (λ s,
         (count_response Reward.id
            (filter (λ r, Reward.family_id r = familyId) (rewards (tables s))), s));
     Supabase.count_pending := λ familyId,
       guarded (CountPending familyId) (λ s,
         (count_response PointEntry.id (pending_of (tables s) familyId), s));
     Supabase.select_activities := λ familyId,
       read (SelectActivities familyId) (λ d,
         order_desc Activity.created_at
           (filter (λ r, Activity.family_id r = familyId) (activities d)));
     Supabase.insert_activity := λ row,
       insert_returning (InsertActivity row) (new_activity row) activities set_activities;
     Supabase.update_activity := λ id updates,
       update_returning (UpdateActivity id updates) Activity.id (patch_activity updates)
         id activities set_activities;
     Supabase.delete_activity := λ id,
       delete_where (DeleteActivity id) Activity.id id activities set_activities;
     Supabase.select_rewards := λ familyId,
       read (SelectRewards familyId) (λ d,
         order_desc Reward.created_at
           (filter (λ r, Reward.family_id r = familyId) (rewards d)));
     Supabase.insert_reward := λ row,
       insert_returning (InsertReward row) (new_reward row) rewards set_rewards;
     Supabase.update_reward := λ id updates,
       update_returning (UpdateReward id updates) Reward.id (patch_reward updates)
         id rewards set_rewards;
     Supabase.delete_reward := λ id,
       delete_where (DeleteReward id) Reward.id id rewards set_rewards;
     Supabase.select_point_entries := λ familyId userId,
       read (SelectPointEntries familyId userId) (λ d,
         order_desc PointEntry.created_at
           (filter (λ r, PointEntry.family_id r = familyId
                         ∧ by_user PointEntry.user_id userId r) (point_entries d)));
     Supabase.insert_point_entry := λ row,
       insert_returning (InsertPointEntry row) (new_point_entry row)
         point_entries set_point_entries;
     Supabase.update_point_entry := λ id updates,
       update_returning (UpdatePointEntry id updates) PointEntry.id
         (patch_point_entry updates) id point_entries set_point_entries;
     Supabase.select_reward_redemptions := λ familyId userId,
       read (SelectRewardRedemptions familyId userId) (λ d,
         order_desc RewardRedemption.created_at
           (filter (λ r, RewardRedemption.family_id r = familyId
                         ∧ by_user RewardRedemption.user_id userId r)
                   (reward_redemptions d)));
     Supabase.insert_reward_redemption := λ row,
       insert_returning (InsertRewardRedemption row) (new_reward_redemption row)
         reward_redemptions set_reward_redemptions;
     Supabase.update_reward_redemption := λ id updates,
       update_returning (UpdateRewardRedemption id updates) RewardRedemption.id
         (patch_reward_redemption updates) id reward_redemptions
         set_reward_redemptions |}.
End Client.

(** A policy that refuses nothing. *)
Definition permissive : Request → t → js JsError := λ _ _, null.
End Store.

(** A client without a connection: every awaited call rejects with [e]. *)
Definition unreachable_client (e : JsError) : Supabase.Client unit :=
  {| Supabase.auth_getSession := throw e;
     Supabase.auth_onAuthStateChange := λ _ w, (0, w);
     Supabase.auth_unsubscribe := λ _ w, w;
     Supabase.auth_signInWithPassword := λ _ _, throw e;
     Supabase.auth_signUp := λ _ _ _ _, throw e;
     Supabase.auth_signOut := throw e;
     Supabase.insert_user_profile := λ _, throw e;
     Supabase.insert_family := λ _, throw e;
     Supabase.select_profile := λ _, throw e;
     Supabase.select_kids_with_points := λ _, throw e;
     Supabase.select_pending_entries := λ _, throw e;
     Supabase.count_kids := λ _, throw e;
     Supabase.count_activities := λ _, throw e;
     Supabase.count_rewards := λ _, throw e;
     Supabase.count_pending := λ _, throw e;
     Supabase.select_activities := λ _, throw e;
     Supabase.insert_activity := λ _, throw e;
     Supabase.update_activity := λ _ _, throw e;
     Supabase.delete_activity := λ _, throw e;
     Supabase.select_rewards := λ _, throw e;
     Supabase.insert_reward := λ _, throw e;
     Supabase.update_reward := λ _ _, throw e;
     Supabase.delete_reward := λ _, throw e;
     Supabase.select_point_entries := λ _ _, throw e;
     Supabase.insert_point_entry := λ _, throw e;
     Supabase.update_point_entry := λ _ _, throw e;
     Supabase.select_reward_redemptions := λ _ _, throw e;
     Supabase.insert_reward_redemption := λ _, throw e;
     Supabase.update_reward_redemption := λ _ _, throw e |}.

(** ** Every operation that returns an envelope *)

(** What an operation hands back: a single-item or a list envelope. *)
Inductive Envelope : Type :=
  | Single (T : Type) (r : ApiResponse T)
  | Listed (T : Type) (r : ApiListResponse T).

Definition single {W T} (m : Async W (ApiResponse T)) : Async W Envelope :=
  r <- m ;; ret (Single T r).
Definition listed {W T} (m : Async W (ApiListResponse T)) : Async W Envelope :=
  r <- m ;; ret (Listed T r).

(** [error !== null ⇒ data === null] *)
Definition exclusive (e : Envelope) : Prop :=
  match e with
  | Single _ r => error r ≠ null → data r = null
  | Listed _ r => list_error r ≠ null → list_data r = null
  end.

(** The calls of the two embedded-backend services. *)
Inductive SupabaseCall :=
  | sb_signIn (email password : string)
  | sb_signUp (email password displayName : string) (role : UserRole)
  | sb_signOut
  | sb_fetchUserProfile (userId : string)
  | sb_fetchKidsWithPoints (familyId : string)
  | sb_fetchPendingActivities (familyId : string)
  | sb_fetchDashboardStats (familyId : string)
  | sb_fetchActivities (familyId : string)
  | sb_createActivity (activity : Activity.input)
  | sb_updateActivity (id : string) (updates : Activity.partial)
  | sb_deleteActivity (id : string)
  | sb_fetchRewards (familyId : string)
  | sb_createReward (reward : Reward.input)
  | sb_updateReward (id : string) (updates : Reward.partial)
  | sb_deleteReward (id : string)
  | sb_fetchPointEntries (familyId : string) (userId : js string)
  | sb_createPointEntry (entry : PointEntry.input)
  | sb_updatePointEntry (id : string) (updates : PointEntry.partial)
  | sb_approvePointEntry (id : string) (approved : bool) (approvedBy : string)
  | sb_fetchRewardRedemptions (familyId : string) (userId : js string)
  | sb_createRewardRedemption (redemption : RewardRedemption.input)
  | sb_approveRewardRedemption (id : string) (approved : bool) (approvedBy : string).

Definition run_supabase {W} (supabase : Supabase.Client W) (date_now : W → timestamp)
    (c : SupabaseCall) : Async W Envelope :=
  match c with
  | sb_signIn email password => single (SupabaseAuthService.signIn supabase email password)
  | sb_signUp email password displayName role =>
      single (SupabaseAuthService.signUp supabase email password displayName role)
  | sb_signOut => single (SupabaseAuthService.signOut supabase)
  | sb_fetchUserProfile userId => single (SupabaseAuthService.fetchUserProfile supabase userId)
  | sb_fetchKidsWithPoints f => listed (SupabaseDataService.fetchKidsWithPoints supabase f)
  | sb_fetchPendingActivities f =>
      listed (SupabaseDataService.fetchPendingActivities supabase f)
  | sb_fetchDashboardStats f => single (SupabaseDataService.fetchDashboardStats supabase f)
  | sb_fetchActivities f => listed (SupabaseDataService.fetchActivities supabase f)
  | sb_createActivity a => single (SupabaseDataService.createActivity supabase a)
  | sb_updateActivity id u => single (SupabaseDataService.updateActivity supabase id u)
  | sb_deleteActivity id => single (SupabaseDataService.deleteActivity supabase id)
  | sb_fetchRewards f => listed (SupabaseDataService.fetchRewards supabase f)
  | sb_createReward r => single (SupabaseDataService.createReward supabase r)
  | sb_updateReward id u => single (SupabaseDataService.updateReward supabase id u)
  | sb_deleteReward id => single (SupabaseDataService.deleteReward supabase id)
  | sb_fetchPointEntries f u => listed (SupabaseDataService.fetchPointEntries supabase f u)
  | sb_createPointEntry e => single (SupabaseDataService.createPointEntry supabase e)
  | sb_updatePointEntry id u => single (SupabaseDataService.updatePointEntry supabase id u)
  | sb_approvePointEntry id a by_ =>
      single (SupabaseDataService.approvePointEntry supabase date_now id a by_)
  | sb_fetchRewardRedemptions f u =>
      listed (SupabaseDataService.fetchRewardRedemptions supabase f u)
  | sb_createRewardRedemption r =>
      single (SupabaseDataService.createRewardRedemption supabase r)
  | sb_approveRewardRedemption id a by_ =>
      single (SupabaseDataService.approveRewardRedemption supabase date_now id a by_)
  end.

(** The calls of the remote-HTTP auth service, each with the [fetch] it
    reaches the network through. *)
Inductive RestAuthCall (N : Type) :=
  | ra_signIn (fetch : Rest.Fetch N RestApiAuthService.AuthPayload) (email password : string)
  | ra_signUp (fetch : Rest.Fetch N RestApiAuthService.AuthPayload)
      (email password displayName : string) (role : UserRole)
  | ra_signOut
  | ra_fetchUserProfile (fetch : Rest.Fetch N AuthUser.t) (userId : string).
Arguments ra_signIn {N}.
Arguments ra_signUp {N}.
Arguments ra_signOut {N}.
Arguments ra_fetchUserProfile {N}.

Definition run_rest_auth {N} (this : Rest.Instance) (c : RestAuthCall N)
  : Async (Rest.World N) Envelope :=
  match c with
  | ra_signIn fetch email password =>
      single (RestApiAuthService.signIn this fetch email password)
  | ra_signUp fetch email password displayName role =>
      single (RestApiAuthService.signUp this fetch email password displayName role)
  | ra_signOut => single RestApiAuthService.signOut
  | ra_fetchUserProfile fetch userId =>
      single (RestApiAuthService.fetchUserProfile this fetch userId)
  end.

(** The calls of the remote-HTTP data service. *)
Inductive RestDataCall (N : Type) :=
  | rd_fetchKidsWithPoints (fetch : Rest.Fetch N (list Kid.t)) (familyId : string)
  | rd_fetchPendingActivities (fetch : Rest.Fetch N (list PendingActivity.t))
      (familyId : string)
  | rd_fetchDashboardStats (fetch : Rest.Fetch N DashboardStats.t) (familyId : string)
  | rd_fetchActivities (fetch : Rest.Fetch N (list Activity.t)) (familyId : string)
  | rd_createActivity (fetch : Rest.Fetch N Activity.t) (activity : Activity.input)
  | rd_updateActivity (fetch : Rest.Fetch N Activity.t) (id : string)
      (updates : Activity.partial)
  | rd_deleteActivity (fetch : Rest.Fetch N unit) (id : string)
  | rd_fetchRewards (fetch : Rest.Fetch N (list Reward.t)) (familyId : string)
  | rd_createReward (fetch : Rest.Fetch N Reward.t) (reward : Reward.input)
  | rd_updateReward (fetch : Rest.Fetch N Reward.t) (id : string) (updates : Reward.partial)
  | rd_deleteReward (fetch : Rest.Fetch N unit) (id : string)
  | rd_fetchPointEntries (fetch : Rest.Fetch N (list PointEntry.t)) (familyId : string)
      (userId : js string)
  | rd_createPointEntry (fetch : Rest.Fetch N PointEntry.t) (entry : PointEntry.input)
  | rd_updatePointEntry (fetch : Rest.Fetch N PointEntry.t) (id : string)
      (updates : PointEntry.partial)
  | rd_approvePointEntry (fetch : Rest.Fetch N PointEntry.t) (id : string)
      (approved : bool) (approvedBy : string)
  | rd_fetchRewardRedemptions (fetch : Rest.Fetch N (list RewardRedemption.t))
      (familyId : string) (userId : js string)
  | rd_createRewardRedemption (fetch : Rest.Fetch N RewardRedemption.t)
      (redemption : RewardRedemption.input)
  | rd_approveRewardRedemption (fetch : Rest.Fetch N RewardRedemption.t) (id : string)
      (approved : bool) (approvedBy : string).
Arguments rd_fetchKidsWithPoints {N}.
Arguments rd_fetchPendingActivities {N}.
Arguments rd_fetchDashboardStats {N}.
Arguments rd_fetchActivities {N}.
Arguments rd_createActivity {N}.
Arguments rd_updateActivity {N}.
Arguments rd_deleteActivity {N}.
Arguments rd_fetchRewards {N}.
Arguments rd_createReward {N}.
Arguments rd_updateReward {N}.
Arguments rd_deleteReward {N}.
Arguments rd_fetchPointEntries {N}.
Arguments rd_createPointEntry {N}.
Arguments rd_updatePointEntry {N}.
Arguments rd_approvePointEntry {N}.
Arguments rd_fetchRewardRedemptions {N}.
Arguments rd_createRewardRedemption {N}.
Arguments rd_approveRewardRedemption {N}.

Definition run_rest_data {N} (this : Rest.Instance) (c : RestDataCall N)
  : Async (Rest.World N) Envelope :=
  match c with
  | rd_fetchKidsWithPoints fetch f =>
      listed (RestApiDataService.fetchKidsWithPoints this fetch f)
  | rd_fetchPendingActivities fetch f =>
      listed (RestApiDataService.fetchPendingActivities this fetch f)
  | rd_fetchDashboardStats fetch f =>
      single (RestApiDataService.fetchDashboardStats this fetch f)
  | rd_fetchActivities fetch f => listed (RestApiDataService.fetchActivities this fetch f)
  | rd_createActivity fetch a => single (RestApiDataService.createActivity this fetch a)
  | rd_updateActivity fetch id u =>
      single (RestApiDataService.updateActivity this fetch id u)
  | rd_deleteActivity fetch id => single (RestApiDataService.deleteActivity this fetch id)
  | rd_fetchRewards fetch f => listed (RestApiDataService.fetchRewards this fetch f)
  | rd_createReward fetch r => single (RestApiDataService.createReward this fetch r)
  | rd_updateReward fetch id u => single (RestApiDataService.updateReward this fetch id u)
  | rd_deleteReward fetch id => single (RestApiDataService.deleteReward this fetch id)
  | rd_fetchPointEntries fetch f u =>
      listed (RestApiDataService.fetchPointEntries this fetch f u)
  | rd_createPointEntry fetch e => single (RestApiDataService.createPointEntry this fetch e)
  | rd_updatePointEntry fetch id u =>
      single (RestApiDataService.updatePointEntry this fetch id u)
  | rd_approvePointEntry fetch id a by_ =>
      single (RestApiDataService.approvePointEntry this fetch id a by_)
  | rd_fetchRewardRedemptions fetch f u =>
      listed (RestApiDataService.fetchRewardRedemptions this fetch f u)
  | rd_createRewardRedemption fetch r =>
      single (RestApiDataService.createRewardRedemption this fetch r)
  | rd_approveRewardRedemption fetch id a by_ =>
      single (RestApiDataService.approveRewardRedemption this fetch id a by_)
  end.

(** ** Specification vocabulary *)

(** [m] always returns, and what it returns satisfies [P]. *)
Definition returns {W A} (P : A → Prop) (m : Async W A) : Prop :=
  ∀ w, ∃ a w', m w = (Ok a, w') ∧ P a.

(** Whatever [m] returns satisfies [P]; it may throw. *)
Definition guards {W A} (P : A → Prop) (m : Async W A) : Prop :=
  ∀ w, match m w with (Ok a, _) => P a | (Throw _, _) => True end.

(** The backend does not refuse the request in state [s]. *)
Definition permits (policy : Store.Request → Store.t → js JsError)
    (request : Store.Request) (s : Store.t) : Prop :=
  ∀ e, policy request s ≠ val e.

(** The sum of the points of the entries. *)
Definition points_total (entries : list PointEntry.t) : Z :=
  foldr (λ e acc, PointEntry.points e + acc)%Z 0%Z entries.

(** The Kid of a profile: its total is the sum over the user's approved
    entries. *)
Definition kid_per_spec (d : Store.Tables) (p : UserProfile.t) : Kid.t :=
  {| Kid.id := UserProfile.user_id p;
     Kid.display_name := UserProfile.display_name p;
     Kid.total_points := points_total (Store.approved_entries_of d (UserProfile.user_id p)) |}.

(** One Kid per user with role kid in the family. *)
Definition kids_per_spec (d : Store.Tables) (familyId : string) : list Kid.t :=
  kid_per_spec d <$> Store.kid_profiles d familyId.

(** The rows an entry refers to. *)
Definition referenced_activity (d : Store.Tables) (e : PointEntry.t) : option Activity.t :=
  match PointEntry.activity_id e with
  | val a => snd <$> list_find (λ x, Activity.id x = a) (Store.activities d)
  | _ => None
  end.
Definition referenced_kid (d : Store.Tables) (e : PointEntry.t) : option UserProfile.t :=
  snd <$> list_find (λ p, UserProfile.user_id p = PointEntry.user_id e) (Store.user_profiles d).

(** The pending activity of an entry with the names resolved, the defaults
    standing in for a missing row only. *)
Definition pending_per_spec (d : Store.Tables) (e : PointEntry.t) : PendingActivity.t :=
  {| PendingActivity.id := PointEntry.id e;
     PendingActivity.activity_name :=
       from_option Activity.name "Unknown Activity" (referenced_activity d e);
     PendingActivity.kid_name :=
       from_option UserProfile.display_name "Unknown Kid" (referenced_kid d e);
     PendingActivity.points := PointEntry.points e;
     PendingActivity.submitted_at := PointEntry.created_at e |}.

Definition nonempty_or (default name : string) : string :=
  if decide (name = EmptyString) then default else name.

(** The same with the defaults standing in for an empty name as well. *)
Definition pending_view (d : Store.Tables) (e : PointEntry.t) : PendingActivity.t :=
  {| PendingActivity.id := PointEntry.id e;
     PendingActivity.activity_name :=
       from_option (λ a, nonempty_or "Unknown Activity" (Activity.name a))
         "Unknown Activity" (referenced_activity d e);
     PendingActivity.kid_name :=
       from_option (λ p, nonempty_or "Unknown Kid" (UserProfile.display_name p))
         "Unknown Kid" (referenced_kid d e);
     PendingActivity.points := PointEntry.points e;
     PendingActivity.submitted_at := PointEntry.created_at e |}.

(** The auth-state events that running [m] in [w] delivers, and the HTTP
    requests it issues. *)
Definition fired {N A} (m : Async (Rest.World N) A) (w : Rest.World N)
  : list Rest.Delivery :=
  drop (length (Rest.delivered w)) (Rest.delivered (m w).2).
Definition issued {N A} (m : Async (Rest.World N) A) (w : Rest.World N)
  : list Rest.Request :=
  drop (length (Rest.requests w)) (Rest.requests (m w).2).

Definition signed_out (c : Callback) : Rest.Delivery :=
  {| Rest.listener := c; Rest.event := "SIGNED_OUT"; Rest.session := null |}.

(** [localStorage.getItem('auth_token')] in [w]. *)
Definition stored_token {N} (w : Rest.World N) : js string :=
  match Rest.localStorage w !! "auth_token" with
  | Some v => val v
  | None => null
  end.

(** The error string of a non-2xx response: the [message] of the body when
    it is a string that is not empty, the generic string otherwise. *)
Definition failure_text (message : js string) : string :=
  match message with
  | val m => nonempty_or "API request failed" m
  | _ => "API request failed"
  end.

Definition signed_in (u : AuthUser.t) (c : Callback) : Rest.Delivery :=
  {| Rest.listener := c; Rest.event := "SIGNED_IN";
     Rest.session := val {| user := val u |} |}.

(** The body of the sign-in request. *)
Definition signin_options (email password : string) : Rest.Options :=
  {| Rest.opt_method := val "POST";
     Rest.opt_body := val (Rest.Credentials email password);
     Rest.opt_headers := ∅ |}.

(** What can happen to the factory between two calls of a getter, short of
    [reset()]: a getter is called, or the environment changes. *)
Inductive Use :=
  | UseAuthService
  | UseDataService
  | ChangeEnv (env : gmap string string).

Definition use (u : Use) (w : ServiceFactory.World) : ServiceFactory.World :=
  match u with
  | UseAuthService => (ServiceFactory.getAuthService w).2
  | UseDataService => (ServiceFactory.getDataService w).2
  | ChangeEnv env =>
      {| ServiceFactory.env := env;
         ServiceFactory.next_address := ServiceFactory.next_address w;
         ServiceFactory.this := ServiceFactory.this w |}
  end.

Definition after (uses : list Use) (w : ServiceFactory.World) : ServiceFactory.World :=
  foldl (λ w u, use u w) w uses.

(** The world right after [new ServiceFactory()]. *)
Definition constructed (env : gmap string string) (next : nat) : ServiceFactory.World :=
  {| ServiceFactory.env := env;
     ServiceFactory.next_address := next;
     ServiceFactory.this := ServiceFactory.constructor env |}.

(** Every cached service object was allocated before [next_address]. *)
Definition allocated (w : ServiceFactory.World) : Prop :=
  (∀ o, ServiceFactory.authService (ServiceFactory.this w) = val o →
        ServiceFactory.address o < ServiceFactory.next_address w)
  ∧ (∀ o, ServiceFactory.dataService (ServiceFactory.this w) = val o →
          ServiceFactory.address o < ServiceFactory.next_address w).

(** The world after a getter has created [o] and put it in its cache. *)
Definition caching_auth (o : ServiceFactory.Object ServiceFactory.AuthService)
    (w : ServiceFactory.World) : ServiceFactory.World :=
  {| ServiceFactory.env := ServiceFactory.env w;
     ServiceFactory.next_address := S (ServiceFactory.next_address w);
     ServiceFactory.this :=
       {| ServiceFactory.config := ServiceFactory.config (ServiceFactory.this w);
          ServiceFactory.authService := val o;
          ServiceFactory.dataService :=
            ServiceFactory.dataService (ServiceFactory.this w) |} |}.
Definition caching_data (o : ServiceFactory.Object ServiceFactory.DataService)
    (w : ServiceFactory.World) : ServiceFactory.World :=
  {| ServiceFactory.env := ServiceFactory.env w;
     ServiceFactory.next_address := S (ServiceFactory.next_address w);
     ServiceFactory.this :=
       {| ServiceFactory.config := ServiceFactory.config (ServiceFactory.this w);
          ServiceFactory.authService :=
            ServiceFactory.authService (ServiceFactory.this w);
          ServiceFactory.dataService := val o |} |}.

Definition unsupported (type : string) : JsError :=
  ServiceFactory.configuration_error ("Unsupported service type: " +:+ type).
Definition rest_configuration_missing : JsError :=
  ServiceFactory.configuration_error
    "REST API configuration missing: baseUrl and apiKey are required".

(** A copy of an entry with the three approval fields stamped anew. *)
Definition restamped (e : PointEntry.t) (flag : bool) (now : timestamp)
    (approvedBy : string) : PointEntry.t :=
  {| PointEntry.id := PointEntry.id e;
     PointEntry.family_id := PointEntry.family_id e;
     PointEntry.user_id := PointEntry.user_id e;
     PointEntry.activity_id := PointEntry.activity_id e;
     PointEntry.points := PointEntry.points e;
     PointEntry.description := PointEntry.description e;
     PointEntry.status := if flag then approved else rejected;
     PointEntry.approved_by := val approvedBy;
     PointEntry.approved_at := val now;
     PointEntry.created_at := PointEntry.created_at e |}.

(** ** A household, a browser and a server to run the services on *)

Definition member (id name : string) (role : UserRole) : UserProfile.t :=
  {| UserProfile.user_id := id;
     UserProfile.email := id +:+ "@example.org";
     UserProfile.display_name := name;
     UserProfile.role := role;
     UserProfile.family_id := val "f1";
     UserProfile.created_at := 0%Z;
     UserProfile.updated_at := 0%Z |}.

Definition chore (id name : string) (points : Z) : Activity.t :=
  {| Activity.id := id;
     Activity.name := name;
     Activity.description := null;
     Activity.points := points;
     Activity.category := val "obligation";
     Activity.family_id := "f1";
     Activity.created_by := "p1";
     Activity.created_at := 0%Z;
     Activity.updated_at := 0%Z |}.

Definition entry (id user : string) (activity : js string) (points : Z)
    (status : Status) (created : timestamp) : PointEntry.t :=
  {| PointEntry.id := id;
     PointEntry.family_id := "f1";
     PointEntry.user_id := user;
     PointEntry.activity_id := activity;
     PointEntry.points := points;
     PointEntry.description := null;
     PointEntry.status := status;
     PointEntry.approved_by := null;
     PointEntry.approved_at := null;
     PointEntry.created_at := created |}.

(** Kim has approved entries of +10 and +5 and a rejected one of +100; Lee
    has one pending entry, for an activity whose name is the empty string. *)
Definition household : Store.t :=
  {| Store.tables :=
       {| Store.families :=
            [{| Family.id := "f1"; Family.name := "Pat's Family";
                Family.created_by := "p1";
                Family.created_at := 0%Z; Family.updated_at := 0%Z |}];
          Store.user_profiles :=
            [member "p1" "Pat" parent; member "k1" "Kim" kid; member "k2" "Lee" kid];
          Store.activities := [chore "a1" "Dishes" 10; chore "a2" EmptyString 7];
          Store.rewards := [];
          Store.point_entries :=
            [entry "e1" "k1" (val "a1") 10 approved 1%Z;
             entry "e2" "k1" (val "a1") 5 approved 2%Z;
             entry "e3" "k1" (val "a1") 100 rejected 3%Z;
             entry "e4" "k2" (val "a2") 7 pending 4%Z];
          Store.reward_redemptions := [] |};
     Store.accounts := [];
     Store.session := null;
     Store.subscriptions := [];
     Store.clock := 50%Z;
     Store.serial := 0 |}.

Definition connection_lost : JsError :=
  {| err_message := "Failed to fetch"; err_code := undefined |}.

Definition api : Rest.Instance :=
  {| Rest.baseUrl := "https://api.example.org"; Rest.apiKey := "key-1" |}.

Definition browser (storage : gmap string string) (callbacks : list Callback)
  : Rest.World unit :=
  {| Rest.localStorage := storage;
     Rest.network := tt;
     Rest.requests := [];
     Rest.authStateCallbacks := callbacks;
     Rest.delivered := [] |}.

(** A server that cannot be reached, one that answers 403, one that signs in. *)
Definition unreachable {T} : Rest.Fetch unit T := λ _ n, (Throw connection_lost, n).
Definition forbidding {T} (message : js string) : Rest.Fetch unit T :=
  λ _ n, (Ok {| Rest.ok := false;
                Rest.json := Ok {| Rest.message := message;
                                   Rest.body_data := null;
                                   Rest.body_count := undefined |} |}, n).
Definition granting (d : RestApiAuthService.AuthPayload)
  : Rest.Fetch unit RestApiAuthService.AuthPayload :=
  λ _ n, (Ok {| Rest.ok := true;
                Rest.json := Ok {| Rest.message := undefined;
                                   Rest.body_data := val d;
                                   Rest.body_count := undefined |} |}, n).

Definition pat : AuthUser.t :=
  {| AuthUser.id := "p1"; AuthUser.email := val "pat@example.org";
     AuthUser.role := val parent; AuthUser.family_id := val "f1";
     AuthUser.display_name := val "Pat";
     AuthUser.created_at := undefined; AuthUser.updated_at := undefined |}.

Definition rest_env : gmap string string :=
  <["NEXT_PUBLIC_SERVICE_TYPE" := "rest-api"]>
    (<["NEXT_PUBLIC_API_BASE_URL" := "https://api.example.org"]>
       (<["NEXT_PUBLIC_API_KEY" := "key-1"]> ∅)).

(** A backend whose row-level security refuses to select pending entries. *)
Definition pending_closed : Store.Request → Store.t → js JsError :=
  λ request _,
    match request with
    | Store.SelectPendingEntries _ =>
        val {| err_message := "permission denied for table point_entries";
               err_code := val "42501" |}
    | _ => null
    end.

(** A backend whose row-level security refuses every insert into [families]. *)
Definition families_closed : Store.Request → Store.t → js JsError :=
  λ request _,
    match request with
    | Store.InsertFamily _ =>
        val {| err_message := "new row violates row-level security policy";
               err_code := val "42501" |}
    | _ => null
    end.

(** Environments with a service type that is not supported, and with the
    remote-HTTP type and no API key. *)
Definition firebase_env : gmap string string :=
  {["NEXT_PUBLIC_SERVICE_TYPE" := "firebase"]}.
Definition keyless_env : gmap string string :=
  <["NEXT_PUBLIC_SERVICE_TYPE" := "rest-api"]>
    {["NEXT_PUBLIC_API_BASE_URL" := "https://api.example.org"]}.

(** The remote-HTTP configuration of another server. *)
Definition moved_env : gmap string string :=
  <["NEXT_PUBLIC_SERVICE_TYPE" := "rest-api"]>
    (<["NEXT_PUBLIC_API_BASE_URL" := "https://api.example.net"]>
       (<["NEXT_PUBLIC_API_KEY" := "key-2"]> ∅)).

Definition first_auth_service : ServiceFactory.Object ServiceFactory.AuthService :=
  {| ServiceFactory.address := 0;
     ServiceFactory.fields :=
       ServiceFactory.NewRestApiAuthService "https://api.example.org" "key-1" |}.

(** * The consumers of the services

    The interfaces [IAuthService] and [IDataService] as the components
    import them, the auth context ([components/auth-provider.tsx], before and
    after it was moved onto the service layer), the home page, the parent
    layout and the parent dashboard. *)

(** ** The service interfaces *)

Module IAuthService.
Set Implicit Arguments.
Record t (W : Type) := {
  getSession : Async W SessionView;
  (** the closure is the [unsubscribe] of the handle that is returned *)
  onAuthStateChange : Callback → W → (W → W) * W;
  signIn : string → string → Async W (ApiResponse AuthUser.t);
  signUp : string → string → string → UserRole → Async W (ApiResponse AuthUser.t);
  signOut : Async W (ApiResponse unit);
  fetchUserProfile : string → Async W (ApiResponse AuthUser.t) }.
Unset Implicit Arguments.
End IAuthService.

Module IDataService.
Set Implicit Arguments.
Record t (W : Type) := {
  fetchKidsWithPoints : string → Async W (ApiListResponse Kid.t);
  fetchPendingActivities : string → Async W (ApiListResponse PendingActivity.t);
  fetchDashboardStats : string → Async W (ApiResponse DashboardStats.t);
  fetchActivities : string → Async W (ApiListResponse Activity.t);
  createActivity : Activity.input → Async W (ApiResponse Activity.t);
  updateActivity : string → Activity.partial → Async W (ApiResponse Activity.t);
  deleteActivity : string → Async W (ApiResponse unit);
  fetchRewards : string → Async W (ApiListResponse Reward.t);
  createReward : Reward.input → Async W (ApiResponse Reward.t);
  updateReward : string → Reward.partial → Async W (ApiResponse Reward.t);
  deleteReward : string → Async W (ApiResponse unit);
  fetchPointEntries : string → js string → Async W (ApiListResponse PointEntry.t);
  createPointEntry : PointEntry.input → Async W (ApiResponse PointEntry.t);
  updatePointEntry : string → PointEntry.partial → Async W (ApiResponse PointEntry.t);
  approvePointEntry : string → bool → string → Async W (ApiResponse PointEntry.t);
  fetchRewardRedemptions :
    string → js string → Async W (ApiListResponse RewardRedemption.t);
  createRewardRedemption :
    RewardRedemption.input → Async W (ApiResponse RewardRedemption.t);
  approveRewardRedemption :
    string → bool → string → Async W (ApiResponse RewardRedemption.t) }.
Unset Implicit Arguments.
End IDataService.

(** [class SupabaseAuthService implements IAuthService] *)
Definition supabase_auth_service {W} (supabase : Supabase.Client W) : IAuthService.t W :=
  {| IAuthService.getSession := SupabaseAuthService.getSession supabase;
     IAuthService.onAuthStateChange := λ callback w,
       let '(subscription, w') := SupabaseAuthService.onAuthStateChange supabase callback w in
       (SupabaseAuthService.unsubscribe supabase subscription, w');
     IAuthService.signIn := SupabaseAuthService.signIn supabase;
     IAuthService.signUp := SupabaseAuthService.signUp supabase;
     IAuthService.signOut := SupabaseAuthService.signOut supabase;
     IAuthService.fetchUserProfile := SupabaseAuthService.fetchUserProfile supabase |}.


(** [class SupabaseDataService implements IDataService] *)
Definition supabase_data_service {W} (supabase : Supabase.Client W)
    (date_now : W → timestamp) : IDataService.t W :=
  {| IDataService.fetchKidsWithPoints := SupabaseDataService.fetchKidsWithPoints supabase;
     IDataService.fetchPendingActivities :=
       SupabaseDataService.fetchPendingActivities supabase;
     IDataService.fetchDashboardStats := SupabaseDataService.fetchDashboardStats supabase;
     IDataService.fetchActivities := SupabaseDataService.fetchActivities supabase;
     IDataService.createActivity := SupabaseDataService.createActivity supabase;
     IDataService.updateActivity := SupabaseDataService.updateActivity supabase;
     IDataService.deleteActivity := SupabaseDataService.deleteActivity supabase;
     IDataService.fetchRewards := SupabaseDataService.fetchRewards supabase;
     IDataService.createReward := SupabaseDataService.createReward supabase;
     IDataService.updateReward := SupabaseDataService.updateReward supabase;
     IDataService.deleteReward := SupabaseDataService.deleteReward supabase;
     IDataService.fetchPointEntries := SupabaseDataService.fetchPointEntries supabase;
     IDataService.createPointEntry := SupabaseDataService.createPointEntry supabase;
     IDataService.updatePointEntry := SupabaseDataService.updatePointEntry supabase;
     IDataService.approvePointEntry :=
       SupabaseDataService.approvePointEntry supabase date_now;
     IDataService.fetchRewardRedemptions :=
       SupabaseDataService.fetchRewardRedemptions supabase;
     IDataService.createRewardRedemption :=
       SupabaseDataService.createRewardRedemption supabase;
     IDataService.approveRewardRedemption :=
       SupabaseDataService.approveRewardRedemption supabase date_now |}.

(** [class RestApiDataService implements IDataService] *)
Definition rest_api_data_service {N} (this : Rest.Instance) (fetch : ∀ T, Rest.Fetch N T)
  : IDataService.t (Rest.World N) :=
  {| IDataService.fetchKidsWithPoints :=
       RestApiDataService.fetchKidsWithPoints this (fetch _);
     IDataService.fetchPendingActivities :=
       RestApiDataService.fetchPendingActivities this (fetch _);
     IDataService.fetchDashboardStats :=
       RestApiDataService.fetchDashboardStats this (fetch _);
     IDataService.fetchActivities := RestApiDataService.fetchActivities this (fetch _);
     IDataService.createActivity := RestApiDataService.createActivity this (fetch _);
     IDataService.updateActivity := RestApiDataService.updateActivity this (fetch _);
     IDataService.deleteActivity := RestApiDataService.deleteActivity this (fetch _);
     IDataService.fetchRewards := RestApiDataService.fetchRewards this (fetch _);
     IDataService.createReward := RestApiDataService.createReward this (fetch _);
     IDataService.updateReward := RestApiDataService.updateReward this (fetch _);
     IDataService.deleteReward := RestApiDataService.deleteReward this (fetch _);
     IDataService.fetchPointEntries := RestApiDataService.fetchPointEntries this (fetch _);
     IDataService.createPointEntry := RestApiDataService.createPointEntry this (fetch _);
     IDataService.updatePointEntry := RestApiDataService.updatePointEntry this (fetch _);
     IDataService.approvePointEntry := RestApiDataService.approvePointEntry this (fetch _);
     IDataService.fetchRewardRedemptions :=
       RestApiDataService.fetchRewardRedemptions this (fetch _);
     IDataService.createRewardRedemption :=
       RestApiDataService.createRewardRedemption this (fetch _);
     IDataService.approveRewardRedemption :=
       RestApiDataService.approveRewardRedemption this (fetch _) |}.

(** ** Components

    A handler of a component runs over the world of the service it calls and
    the state of the component.  A state setter takes effect at once: the
    state below is the one of the render after the handler has settled. *)

(** [await m], for a call [m] of a service *)
Definition await {W S A} (m : Async W A) : Async (W * S) A :=
  λ ws, let '(r, w') := m ws.1 in (r, (w', ws.2)).

Definition get_state {W S} : Async (W * S) S := λ ws, (Ok ws.2, ws).
Definition set_state {W S} (f : S → S) : Async (W * S) unit :=
  modify_world (λ ws, (ws.1, f ws.2)).

(** [try { body } finally { last }] *)
Definition try_finally {W A} (body : Async W A) (last : Async W unit) : Async W A :=
  λ w, let '(r, w') := body w in
       match last w' with
       | (Ok _, w'') => (r, w'')
       | (Throw e, w'') => (Throw e, w'')
       end.

(** [new Error(message)] *)
Definition new_Error (message : string) : JsError :=
  {| err_message := message; err_code := undefined |}.

(** [if (error) throw new Error(error)] *)
Definition throw_new_Error {W} (error : js string) : Async W unit :=
  match error with
  | val message => if truthy message then throw (new_Error message) else ret tt
  | _ => ret tt
  end.

(** [Promise.all([a, b, c])] *)
Definition promise_all3 {W A B C} (a : Async W A) (b : Async W B) (c : Async W C)
  : Async W (A * B * C) :=
  λ w, let '(ra, w1) := a w in
       let '(rb, w2) := b w1 in
       let '(rc, w3) := c w2 in
       match ra, rb, rc with
       | Ok va, Ok vb, Ok vc => (Ok (va, vb, vc), w3)
       | Throw e, _, _ => (Throw e, w3)
       | _, Throw e, _ => (Throw e, w3)
       | _, _, Throw e => (Throw e, w3)
       end.

(** [{ id: userId }] *)
Definition bare_user (userId : string) : AuthUser.t :=
  {| AuthUser.id := userId;
     AuthUser.email := undefined;
     AuthUser.role := undefined;
     AuthUser.family_id := undefined;
     AuthUser.display_name := undefined;
     AuthUser.created_at := undefined;
     AuthUser.updated_at := undefined |}.

(** ** The auth context on the service layer *)
Module AuthProvider.
(** [user] and [loading] are the two [useState] cells, [mounted] is the
    variable of the effect, [console] collects the calls of
    [console.error(label, error)] with the message of what was logged. *)
Record State := {
  user : js AuthUser.t;
  loading : bool;
  mounted : bool;
  console : list (string * string) }.

Definition initial : State :=
  {| user := null; loading := true; mounted := true; console := [] |}.

Section Component.
Context {W : Type} (authService : IAuthService.t W).

Definition setUser (u : js AuthUser.t) : Async (W * State) unit :=
  set_state (λ s, {| user := u; loading := loading s; mounted := mounted s;
                     console := console s |}).

Definition setLoading (b : bool) : Async (W * State) unit :=
  set_state (λ s, {| user := user s; loading := b; mounted := mounted s;
                     console := console s |}).

Definition console_error (label message : string) : Async (W * State) unit :=
  set_state (λ s, {| user := user s; loading := loading s; mounted := mounted s;
                     console := console s ++ [(label, message)] |}).

Definition fetchUserProfile (userId : string) : Async (W * State) unit :=
  try_finally
    (try (
       r <- await (IAuthService.fetchUserProfile authService userId) ;;
       match error r with
       | val message =>
           if truthy message then
             console_error "Error fetching user profile:" message ;;;
             (* Set basic user data if profile fetch fails *)
             setUser (val (bare_user userId))
           else setUser (data r)
       | _ => setUser (data r)
       end
     ) catch e =>
       (console_error "Error fetching user profile:" (err_message e) ;;;
        setUser (val (bare_user userId))))
    (setLoading false).

(** A handler that waits at an [await] does not hold the page: other code
    runs before it resumes, the cleanup of the effect among it.  [meanwhile]
    is what that code has made of the service and of the component when the
    awaited call has settled. *)
Definition await_while {A} (meanwhile : W * State → W * State) (m : Async W A)
  : Async (W * State) A :=
  λ ws, let '(r, ws') := await m ws in (r, meanwhile ws').

(** [fetchUserProfile] with what happens while it waits; it looks at no
    variable of the effect when it resumes. *)
Definition fetchUserProfile_while (meanwhile : W * State → W * State) (userId : string)
  : Async (W * State) unit :=
  try_finally
    (try (
       r <- await_while meanwhile (IAuthService.fetchUserProfile authService userId) ;;
       match error r with
       | val message =>
           if truthy message then
             console_error "Error fetching user profile:" message ;;;
             (* Set basic user data if profile fetch fails *)
             setUser (val (bare_user userId))
           else setUser (data r)
       | _ => setUser (data r)
       end
     ) catch e =>
       (console_error "Error fetching user profile:" (err_message e) ;;;
        setUser (val (bare_user userId))))
    (setLoading false).

(** [getInitialSession] waits twice: for [getSession()], in the handler
    itself, and for the profile, inside [fetchUserProfile]; [first] and
    [second] are what happens meanwhile.  [mounted] is read once, between the
    two. *)
Definition getInitialSession (first second : W * State → W * State)
  : Async (W * State) unit :=
  try (
    r <- await_while first (IAuthService.getSession authService) ;;
    let 'Build_SessionView sessionUser := r in
    s <- get_state ;;
    if mounted s then
      match sessionUser with
      | val u =>
          if truthy u then fetchUserProfile_while second (AuthUser.id u)
          else setLoading false
      | _ => setLoading false
      end
    else ret tt
  ) catch e =>
    (console_error "Error getting initial session:" (err_message e) ;;;
     s <- get_state ;;
     if mounted s then setLoading false else ret tt).

(** The function passed to [authService.onAuthStateChange]. *)
Definition listener (event : string) (session : js SessionView)
  : Async (W * State) unit :=
  s <- get_state ;;
  if negb (mounted s) then ret tt
  else
    match js_chain session (λ v, let 'Build_SessionView u := v in u) with
    | val u =>
        if truthy u then fetchUserProfile (AuthUser.id u)
        else (setUser null ;;; setLoading false)
    | _ => setUser null ;;; setLoading false
    end.

(** The cleanup of the effect. *)
Definition cleanup (unsubscribe : W → W) (ws : W * State) : W * State :=
  (unsubscribe ws.1,
   {| user := user ws.2; loading := loading ws.2; mounted := false;
      console := console ws.2 |}).

Definition signIn (email password : string) : Async (W * State) unit :=
  r <- await (IAuthService.signIn authService email password) ;;
  throw_new_Error (error r).

Definition signUp (email password displayName : string) (role : UserRole)
  : Async (W * State) unit :=
  r <- await (IAuthService.signUp authService email password displayName role) ;;
  throw_new_Error (error r).

Definition signOut : Async (W * State) unit :=
  r <- await (IAuthService.signOut authService) ;;
  throw_new_Error (error r).
End Component.
End AuthProvider.

(** ** The auth context on the Supabase client ([components/auth-provider.tsx]) *)
Module SupabaseAuthProvider.
Section Component.
Context {W : Type} (supabase : Supabase.Client W).

Definition signIn (email password : string) : Async W unit :=
  r <- Supabase.auth_signInWithPassword supabase email password ;;
  throw_if (auth_error r).

Definition signUp (email password displayName : string) (role : UserRole)
  : Async W unit :=
  r <- Supabase.auth_signUp supabase email password displayName role ;;
  throw_if (auth_error r) ;;;
  match auth_user r with
  | val u =>
      if truthy u then
        (* Create user profile *)
        p <- Supabase.insert_user_profile supabase
               (SupabaseAuthService.profile_row u email displayName role) ;;
        throw_if (sb_error p) ;;;
        (* If parent, create family record *)
        if decide (role = parent) then
          f <- Supabase.insert_family supabase
                 (SupabaseAuthService.family_row u displayName) ;;
          throw_if (sb_error f)
        else ret tt
      else ret tt
  | _ => ret tt
  end.

Definition signOut : Async W unit :=
  r <- Supabase.auth_signOut supabase ;;
  throw_if (sb_error r).
End Component.
End SupabaseAuthProvider.

(** ** The home page *)
Module HomePage.
Inductive Rendered := Spinner | Nothing | Landing.

(** The effect: where [router.push] is called with, if it is called. *)
Definition redirect (user : js AuthUser.t) (loading : bool) : option string :=
  if negb loading && js_truthy user then
    match js_chain user AuthUser.role with
    | val parent => Some "/parent/dashboard"
    | val kid => Some "/kid/dashboard"
    | val admin => Some "/admin/dashboard"
    | _ => None
    end
  else None.

Definition render (user : js AuthUser.t) (loading : bool) : Rendered :=
  if loading then Spinner
  else if js_truthy user then Nothing
  else Landing.
End HomePage.

(** ** The parent layout *)
Module ParentLayout.
Record Item := { name : string; href : string }.

Definition navigation : list Item :=
  [ {| name := "Dashboard"; href := "/parent/dashboard" |};
    {| name := "Kids"; href := "/parent/kids" |};
    {| name := "Activities"; href := "/parent/activities" |};
    {| name := "Rewards"; href := "/parent/rewards" |};
    {| name := "Settings"; href := "/parent/settings" |} ].

(** [String.prototype.startsWith] *)
Definition startsWith (s searchString : string) : bool := String.prefix searchString s.

Definition isActive (pathname : string) (item : Item) : bool :=
  startsWith pathname (href item).

End ParentLayout.

(** ** The parent dashboard *)
Global Instance DashboardStats_truthy : Truthy DashboardStats.t := λ _, true.

Module ParentDashboard.
Record State := {
  kids : list Kid.t;
  pendingActivities : list PendingActivity.t;
  stats : DashboardStats.t;
  loading : bool;
  console : list (string * string) }.

Definition no_stats : DashboardStats.t :=
  {| DashboardStats.totalKids := 0;
     DashboardStats.totalActivities := 0;
     DashboardStats.totalRewards := 0;
     DashboardStats.pendingApprovals := 0 |}.

Definition initial : State :=
  {| kids := []; pendingActivities := []; stats := no_stats; loading := true;
     console := [] |}.

Section Component.
Context {W : Type} (dataService : IDataService.t W).

Definition setKids (x : list Kid.t) : Async (W * State) unit :=
  set_state (λ s, {| kids := x; pendingActivities := pendingActivities s;
                     stats := stats s; loading := loading s; console := console s |}).

Definition setPendingActivities (x : list PendingActivity.t) : Async (W * State) unit :=
  set_state (λ s, {| kids := kids s; pendingActivities := x;
                     stats := stats s; loading := loading s; console := console s |}).

Definition setStats (x : DashboardStats.t) : Async (W * State) unit :=
  set_state (λ s, {| kids := kids s; pendingActivities := pendingActivities s;
                     stats := x; loading := loading s; console := console s |}).

Definition setLoading (b : bool) : Async (W * State) unit :=
  set_state (λ s, {| kids := kids s; pendingActivities := pendingActivities s;
                     stats := stats s; loading := b; console := console s |}).

Definition console_error (label message : string) : Async (W * State) unit :=
  set_state (λ s, {| kids := kids s; pendingActivities := pendingActivities s;
                     stats := stats s; loading := loading s;
                     console := console s ++ [(label, message)] |}).

(** [if (result.error) console.error(label, result.error) else set(...)] *)
Definition handle (error : js string) (label : string) (set : Async (W * State) unit)
  : Async (W * State) unit :=
  match error with
  | val message => if truthy message then console_error label message else set
  | _ => set
  end.

Definition fetchDashboardData (user : js AuthUser.t) : Async (W * State) unit :=
  match js_chain user AuthUser.family_id with
  | val familyId =>
      if truthy familyId then
        try_finally
          (try (
             (* Fetch all dashboard data in parallel *)
             results <- await (promise_all3
                                 (IDataService.fetchKidsWithPoints dataService familyId)
                                 (IDataService.fetchPendingActivities dataService familyId)
                                 (IDataService.fetchDashboardStats dataService familyId)) ;;
             let '(kidsResult, pendingResult, statsResult) := results in
             handle (list_error kidsResult) "Error fetching kids:"
               (setKids (js_or (list_data kidsResult) [])) ;;;
             handle (list_error pendingResult) "Error fetching pending activities:"
               (setPendingActivities (js_or (list_data pendingResult) [])) ;;;
             handle (error statsResult) "Error fetching stats:"
               (setStats (js_or (data statsResult) no_stats))
           ) catch e => console_error "Error fetching dashboard data:" (err_message e))
          (setLoading false)
      else ret tt
  | _ => ret tt
  end.

(** The refresh is started and not awaited, so the [catch] is not for it;
    [fetchDashboardData] handles its own failures.  The state below is the one
    after the refresh has settled. *)
Definition handleApproval (user : js AuthUser.t) (entryId : string) (approved : bool)
  : Async (W * State) unit :=
  match js_chain user (λ u, val (AuthUser.id u)) with
  | val userId =>
      if truthy userId then
        try (
          r <- await (IDataService.approvePointEntry dataService entryId approved userId) ;;
          match error r with
          | val message =>
              if truthy message then console_error "Error updating approval:" message
              else (* Refresh data *) fetchDashboardData user
          | _ => fetchDashboardData user
          end
        ) catch e => console_error "Error updating approval:" (err_message e)
      else ret tt
  | _ => ret tt
  end.
End Component.

(** [Array.prototype.sort(compareFn)] is stable: an element is put before
    the first element of the sorted rest that it does not compare greater
    than. *)
Fixpoint sort_insert {A} (compareFn : A → A → Z) (x : A) (sorted : list A) : list A :=
  match sorted with
  | [] => [x]
  | y :: rest =>
      if (compareFn x y <=? 0)%Z then x :: y :: rest
      else y :: sort_insert compareFn x rest
  end.

Definition array_sort {A} (compareFn : A → A → Z) (l : list A) : list A :=
  foldr (sort_insert compareFn) [] l.

(** [kids.sort((a, b) => b.total_points - a.total_points)] with the rank
    [index + 1] of each row. *)
Definition leaderboard (kids : list Kid.t) : list (Z * Kid.t) :=
  imap (λ index kid, (Z.of_nat index + 1, kid)%Z)
       (array_sort (λ a b, Kid.total_points b - Kid.total_points a)%Z kids).

(** [points >= 0 ? "default" : "destructive"] *)
Definition badge (points : Z) : string :=
  if (0 <=? points)%Z then "default" else "destructive".
End ParentDashboard.

(** ** Vocabulary of the further properties *)

(** The state that [fetchUserProfile] of the auth context sets when it
    resumes in [s] with what the lookup has settled to. *)
Definition looked_up (userId : string) (lookup : Outcome (ApiResponse AuthUser.t))
    (s : AuthProvider.State) : AuthProvider.State :=
  match lookup with
  | Ok r =>
      match error r with
      | val message =>
          if truthy message then
            {| AuthProvider.user := val (bare_user userId);
               AuthProvider.loading := false;
               AuthProvider.mounted := AuthProvider.mounted s;
               AuthProvider.console :=
                 AuthProvider.console s ++ [("Error fetching user profile:", message)] |}
          else
            {| AuthProvider.user := data r;
               AuthProvider.loading := false;
               AuthProvider.mounted := AuthProvider.mounted s;
               AuthProvider.console := AuthProvider.console s |}
      | _ => {| AuthProvider.user := data r;
                AuthProvider.loading := false;
                AuthProvider.mounted := AuthProvider.mounted s;
                AuthProvider.console := AuthProvider.console s |}
      end
  | Throw e =>
      {| AuthProvider.user := val (bare_user userId);
         AuthProvider.loading := false;
         AuthProvider.mounted := AuthProvider.mounted s;
         AuthProvider.console :=
           AuthProvider.console s
           ++ [("Error fetching user profile:", err_message e)] |}
  end.

(** The household with Pat signed in. *)
Definition signed_in_household : Store.t :=
  Store.set_session (val {| session_user := val pat |}) household.

(** A list envelope holds a list and no error, or an error and no list, and
    it has no [count]. *)
Definition list_or_error {T} (r : ApiListResponse T) : Prop :=
  ((∃ l, list_data r = val l ∧ list_error r = null)
   ∨ (list_data r = null ∧ ∃ message, list_error r = val message))
  ∧ count r = undefined.

(** What a count of [n] rows shows as when the backend may refuse the query. *)
Definition tally (policy : Store.Request → Store.t → js JsError)
    (request : Store.Request) (s : Store.t) (n : nat) : Z :=
  match policy request s with
  | val _ => 0
  | _ => Z.of_nat n
  end.

(** The rows that a [userId] argument asks for: those of the user, or all
    rows when the argument is missing or the empty string. *)
Definition asked_for (userId : js string) (user_id : string) : Prop :=
  match userId with
  | val u => if decide (u = EmptyString) then True else user_id = u
  | _ => True
  end.
Global Instance asked_for_dec userId user_id : Decision (asked_for userId user_id).
Proof. unfold asked_for. destruct userId; try apply _. case_decide; apply _. Defined.

(** The AuthUser that [fetchUserProfile] builds from a profile row. *)
Definition user_of_profile (userId : string) (p : UserProfile.t) : AuthUser.t :=
  {| AuthUser.id := userId;
     AuthUser.email := undefined;
     AuthUser.role := val (UserProfile.role p);
     AuthUser.family_id := UserProfile.family_id p;
     AuthUser.display_name := val (UserProfile.display_name p);
     AuthUser.created_at := undefined;
     AuthUser.updated_at := undefined |}.

Definition signed_up (u : AuthUser.t) (c : Callback) : Rest.Delivery :=
  {| Rest.listener := c; Rest.event := "SIGNED_UP";
     Rest.session := val {| user := val u |} |}.

(** The body of the sign-up request. *)
Definition signup_options (email password displayName : string) (role : UserRole)
  : Rest.Options :=
  {| Rest.opt_method := val "POST";
     Rest.opt_body := val (Rest.Registration email password displayName role);
     Rest.opt_headers := ∅ |}.

(** A copy of a redemption with the three approval fields stamped anew. *)
Definition redemption_restamped (r : RewardRedemption.t) (flag : bool) (now : timestamp)
    (approvedBy : string) : RewardRedemption.t :=
  {| RewardRedemption.id := RewardRedemption.id r;
     RewardRedemption.family_id := RewardRedemption.family_id r;
     RewardRedemption.user_id := RewardRedemption.user_id r;
     RewardRedemption.reward_id := RewardRedemption.reward_id r;
     RewardRedemption.points_spent := RewardRedemption.points_spent r;
     RewardRedemption.status := if flag then approved else rejected;
     RewardRedemption.approved_by := val approvedBy;
     RewardRedemption.approved_at := val now;
     RewardRedemption.created_at := RewardRedemption.created_at r |}.

(** An environment variable is set, not empty and not the placeholder of the
    template. *)
Definition configured (x : js string) (placeholder : string) : Prop :=
  ∃ v, x = val v ∧ v ≠ EmptyString ∧ v ≠ placeholder.

(** The household with two redemptions of Kim, one pending and one approved. *)
Definition voucher (id : string) (status : Status) : RewardRedemption.t :=
  {| RewardRedemption.id := id;
     RewardRedemption.family_id := "f1";
     RewardRedemption.user_id := "k1";
     RewardRedemption.reward_id := "r1";
     RewardRedemption.points_spent := 20;
     RewardRedemption.status := status;
     RewardRedemption.approved_by := null;
     RewardRedemption.approved_at := null;
     RewardRedemption.created_at := 5%Z |}.

Definition redeeming : Store.t :=
  Store.set_tables
    (Store.set_reward_redemptions [voucher "v1" pending; voucher "v2" approved])
    household.

(** Environments for the embedded backend: one that is filled in, and the
    template with its placeholders. *)
Definition supabase_env : gmap string string :=
  <["NEXT_PUBLIC_SUPABASE_URL" := "https://family.supabase.co"]>
    {["NEXT_PUBLIC_SUPABASE_ANON_KEY" := "anon-1"]}.
Definition template_env : gmap string string :=
  <["NEXT_PUBLIC_SUPABASE_URL" := "your-supabase-url-here"]>
    {["NEXT_PUBLIC_SUPABASE_ANON_KEY" := "your-supabase-anon-key-here"]}.

(** A handler of the auth context on the service layer does what the handler
    on the client did: it leaves the client's world as that one left it, its
    own state as it was, and rejects when that one rejected, with a new error
    of the same message, unless that message is the empty string. *)
Definition carried_over {W S} (old : Async W unit) (new : Async (W * S) unit) : Prop :=
  ∀ w s,
    match old w with
    | (Ok _, w') => new (w, s) = (Ok tt, (w', s))
    | (Throw e, w') =>
        new (w, s)
        = (if decide (err_message e = EmptyString) then Ok tt
           else Throw (new_Error (err_message e)), (w', s))
    end.

(** What [console.error(label, error)] adds to the log for an [error] of an
    envelope: nothing when it is null or the empty string. *)
Definition logged (label : string) (error : js string) : list (string * string) :=
  match error with
  | val message => if truthy message then [(label, message)] else []
  | _ => []
  end.

(** The state of the dashboard after three envelopes have come back: each
    part is replaced when its envelope has no error, and kept when it has. *)
Definition shown (kidsResult : ApiListResponse Kid.t)
    (pendingResult : ApiListResponse PendingActivity.t)
    (statsResult : ApiResponse DashboardStats.t)
    (s : ParentDashboard.State) : ParentDashboard.State :=
  {| ParentDashboard.kids :=
       if js_truthy (list_error kidsResult) then ParentDashboard.kids s
       else js_or (list_data kidsResult) [];
     ParentDashboard.pendingActivities :=
       if js_truthy (list_error pendingResult) then ParentDashboard.pendingActivities s
       else js_or (list_data pendingResult) [];
     ParentDashboard.stats :=
       if js_truthy (error statsResult) then ParentDashboard.stats s
       else js_or (data statsResult) ParentDashboard.no_stats;
     ParentDashboard.loading := false;
     ParentDashboard.console :=
       ParentDashboard.console s
       ++ logged "Error fetching kids:" (list_error kidsResult)
       ++ logged "Error fetching pending activities:" (list_error pendingResult)
       ++ logged "Error fetching stats:" (error statsResult) |}.

(** The state of the dashboard after one of the three calls has rejected. *)
Definition failed (e : JsError) (s : ParentDashboard.State) : ParentDashboard.State :=
  {| ParentDashboard.kids := ParentDashboard.kids s;
     ParentDashboard.pendingActivities := ParentDashboard.pendingActivities s;
     ParentDashboard.stats := ParentDashboard.stats s;
     ParentDashboard.loading := false;
     ParentDashboard.console :=
       ParentDashboard.console s ++ [("Error fetching dashboard data:", err_message e)] |}.

(** A data service of which only the three dashboard queries matter. *)
Definition dashboard_service {W}
    (kids : string → Async W (ApiListResponse Kid.t))
    (pendingActivities : string → Async W (ApiListResponse PendingActivity.t))
    (stats : string → Async W (ApiResponse DashboardStats.t))
  : IDataService.t W :=
  {| IDataService.fetchKidsWithPoints := kids;
     IDataService.fetchPendingActivities := pendingActivities;
     IDataService.fetchDashboardStats := stats;
     IDataService.fetchActivities := λ _, throw connection_lost;
     IDataService.createActivity := λ _, throw connection_lost;
     IDataService.updateActivity := λ _ _, throw connection_lost;
     IDataService.deleteActivity := λ _, throw connection_lost;
     IDataService.fetchRewards := λ _, throw connection_lost;
     IDataService.createReward := λ _, throw connection_lost;
     IDataService.updateReward := λ _ _, throw connection_lost;
     IDataService.deleteReward := λ _, throw connection_lost;
     IDataService.fetchPointEntries := λ _ _, throw connection_lost;
     IDataService.createPointEntry := λ _, throw connection_lost;
     IDataService.updatePointEntry := λ _ _, throw connection_lost;
     IDataService.approvePointEntry := λ _ _ _, throw connection_lost;
     IDataService.fetchRewardRedemptions := λ _ _, throw connection_lost;
     IDataService.createRewardRedemption := λ _, throw connection_lost;
     IDataService.approveRewardRedemption := λ _ _ _, throw connection_lost |}.

(** * The remote-HTTP services on the values of the platform

    [RestApiAuthService] and [RestApiDataService] above take the values they
    handle at the type that their annotations give them: a parsed body is a
    record with a [message] that is a string, what is caught has a [message],
    [localStorage] answers, and the listeners of the auth state only receive.
    The platform promises none of that.  [response.json()] resolves to [any],
    and so does what [catch] binds; reading [localStorage] throws where the
    storage is denied; and a listener is code of the page that runs inside
    [forEach] and may throw or call back into the service.  This part embeds
    the two classes once more, statement by statement, on those values. *)
Module Runtime.

(** ** Values *)

(** What [JSON.parse] produces, [undefined], and the error objects that the
    platform throws: an error object has a [name] and a [message]. *)
Local Unset Elimination Schemes.
Inductive value :=
  | Undefined
  | Null
  | Bool (b : bool)
  | Num (x : SpecFloat.spec_float)
  | Str (s : string)
  | Arr (items : list value)
  | Obj (members : list (string * value))
  | Err (name message : string).
Local Set Elimination Schemes.

(** [undefined], [null], [false], [0], [-0], [NaN] and [""] are falsy. *)
Global Instance value_truthy : Truthy value := λ v,
  match v with
  | Undefined | Null => false
  | Bool b => b
  | Num (SpecFloat.S754_zero _) | Num SpecFloat.S754_nan => false
  | Num _ => true
  | Str s => truthy s
  | Arr _ | Obj _ | Err _ _ => true
  end.

(** [a || b] *)
Definition or (a b : value) : value := if truthy a then a else b.

(** The properties that the services read.  No prototype defines one of
    them, so that a boolean, a number, a string or an array has none. *)
Module Key.
Inductive t := message | data | count | token | user.
Definition name (key : t) : string :=
  match key with
  | message => "message"
  | data => "data"
  | count => "count"
  | token => "token"
  | user => "user"
  end.
End Key.

(** The members of an object in the order of the JSON text: of two members
    with one name the later counts. *)
Definition member (name : string) (members : list (string * value)) : value :=
  match list_find (λ m, m.1 = name) (reverse members) with
  | Some (_, (_, v)) => v
  | None => Undefined
  end.

(** ** Computations that may throw any value *)

Inductive Result (A : Type) : Type :=
  | Return (a : A)
  | Reject (thrown : value).
Arguments Return {A} a.
Arguments Reject {A} thrown.

Definition Run (W A : Type) : Type := W → Result A * W.

Definition ret {W A} (a : A) : Run W A := λ w, (Return a, w).
Definition throw {W A} (thrown : value) : Run W A := λ w, (Reject thrown, w).
Definition bind {W A B} (m : Run W A) (k : A → Run W B) : Run W B :=
  λ w, match m w with
       | (Return a, w') => k a w'
       | (Reject thrown, w') => (Reject thrown, w')
       end.
Definition try_catch {W A} (body : Run W A) (handler : value → Run W A) : Run W A :=
  λ w, match body w with
       | (Return a, w') => (Return a, w')
       | (Reject thrown, w') => handler thrown w'
       end.

Declare Scope run_scope.
Delimit Scope run_scope with run.
Notation "x <- m ;; k" := (bind m (λ x, k))
  (at level 100, m at next level, right associativity) : run_scope.
Notation "m ;;; k" := (bind m (λ _, k))
  (at level 100, right associativity) : run_scope.
Notation "'try' body 'catch' x => handler" := (try_catch body (λ x, handler))
  (at level 100, x name, body at level 200, handler at level 200) : run_scope.
Local Open Scope run_scope.

(** What differs from one engine to the next and is not modelled further:
    [ToString], which [localStorage.setItem] applies to its second argument
    and which may call code of the value and throw, and the message of the
    [TypeError] for reading a property of [null] or [undefined]. *)
Record Engine := {
  ToString : value → Result string;
  cannot_read : value → Key.t → string }.

(** [null] and [undefined] have no properties. *)
Definition nullish (v : value) : bool :=
  match v with
  | Undefined | Null => true
  | _ => false
  end.

(** [v.key] for a value that has properties *)
Definition property (v : value) (key : Key.t) : value :=
  match v with
  | Obj members => member (Key.name key) members
  | Err _ message =>
      match key with Key.message => Str message | _ => Undefined end
  | _ => Undefined
  end.

(** [v.key] *)
Definition get (engine : Engine) (v : value) (key : Key.t) : Result value :=
  if nullish v then Reject (Err "TypeError" (cannot_read engine v key))
  else Return (property v key).

(** ** The page *)

(** [localStorage]: what it holds and, for each of the three methods that
    the services call, the value that the method throws when the storage is
    denied or full. *)
Record Storage := {
  items : gmap string string;
  getItem_throws : option value;
  setItem_throws : option value;
  removeItem_throws : option value }.

(** What code of the page can read and write: the storage, the remote
    server [N] through requests, and the listeners registered with the
    instance of [RestApiAuthService]. *)
Record Page (N : Type) := {
  localStorage : Storage;
  network : N;
  authStateCallbacks : list Callback }.
Arguments localStorage {N} _.
Arguments network {N} _.
Arguments authStateCallbacks {N} _.

(** An auth-state event as a listener receives it. *)
Record Delivery := {
  listener : Callback;
  event : string;
  session : value }.

(** The page, with the calls of [fetch] and the calls of listeners that the
    service call under consideration has made itself.  What a listener does
    while it runs, a call of the service included, is an effect on the page
    and is not entered in the two logs. *)
Record World (N : Type) := {
  page : Page N;
  requests : list Rest.Request;
  delivered : list Delivery }.
Arguments page {N} _.
Arguments requests {N} _.
Arguments delivered {N} _.

(** A [Response]: [ok] and what [response.json()] resolves or rejects to. *)
Record Response := { ok : bool; json : Result value }.

(** The global [fetch]: it resolves to a response or rejects. *)
Definition Fetch (N : Type) : Type := Rest.Request → N → Result Response * N.

(** The code of the listeners: what the function with a given identity does
    to the page when it is called with an event and a session, and whether it
    returns or throws. *)
Definition Listeners (N : Type) : Type :=
  Callback → string → value → Page N → Result unit * Page N.

(** The handle of a registration, [indexOf] and [splice] are those of
    [RestApiAuthService] above. *)
Definition Handle : Type := RestApiAuthService.Handle.
Definition registered : Handle → Callback := RestApiAuthService.registered.
Definition indexOf : list Callback → Callback → Z := RestApiAuthService.indexOf.
Definition splice1 : Z → list Callback → list Callback := RestApiAuthService.splice1.

Section Globals.
Context {N : Type}.

Definition on_page (f : Page N → Page N) (w : World N) : World N :=
  {| page := f (page w); requests := requests w; delivered := delivered w |}.

Definition set_items (f : gmap string string → gmap string string) (p : Page N)
  : Page N :=
  {| localStorage :=
       {| items := f (items (localStorage p));
          getItem_throws := getItem_throws (localStorage p);
          setItem_throws := setItem_throws (localStorage p);
          removeItem_throws := removeItem_throws (localStorage p) |};
     network := network p;
     authStateCallbacks := authStateCallbacks p |}.

Definition set_callbacks (callbacks : list Callback) (p : Page N) : Page N :=
  {| localStorage := localStorage p;
     network := network p;
     authStateCallbacks := callbacks |}.

Definition localStorage_getItem (key : string) : Run (World N) (js string) :=
  λ w, match getItem_throws (localStorage (page w)) with
       | Some thrown => (Reject thrown, w)
       | None =>
           (Return (match items (localStorage (page w)) !! key with
                    | Some v => val v
                    | None => null
                    end), w)
       end.

Definition localStorage_setItem (key value : string) : Run (World N) unit :=
  λ w, match setItem_throws (localStorage (page w)) with
       | Some thrown => (Reject thrown, w)
       | None => (Return tt, on_page (set_items (λ m, <[key := value]> m)) w)
       end.

Definition localStorage_removeItem (key : string) : Run (World N) unit :=
  λ w, match removeItem_throws (localStorage (page w)) with
       | Some thrown => (Reject thrown, w)
       | None => (Return tt, on_page (set_items (λ m, delete key m)) w)
       end.

Definition call_fetch (fetch : Fetch N) (request : Rest.Request)
  : Run (World N) Response :=
  λ w, let '(response, n) := fetch request (network (page w)) in
       (response,
        {| page := {| localStorage := localStorage (page w);
                      network := n;
                      authStateCallbacks := authStateCallbacks (page w) |};
           requests := requests w ++ [request];
           delivered := delivered w |}).

Definition response_json (response : Response) : Run (World N) value :=
  λ w, (json response, w).

(** [callback(event, session)] *)
Definition call (listeners : Listeners N) (callback : Callback) (event : string)
    (session : value) : Run (World N) unit :=
  λ w, let '(r, p) := listeners callback event session (page w) in
       (r, {| page := p;
              requests := requests w;
              delivered := delivered w
                           ++ [{| listener := callback; event := event;
                                  session := session |}] |}).
End Globals.

(** [{ data, error }] and [{ data, error, count }] as objects: a key that is
    not set reads as [undefined]. *)
Module Envelope.
Record t := { data : value; error : value; count : value }.
End Envelope.

(** [{ user }] *)
Module Session.
Record t := { user : value }.
End Session.

(** ** [RestApiAuthService] *)
Module RestApiAuthService.
Section Methods.
Context {N : Type} (engine : Engine) (fetch : Fetch N) (listeners : Listeners N)
  (this : Rest.Instance).

Definition apiCall (endpoint : string) (options : Rest.Options)
  : Run (World N) Envelope.t :=
  try (
    response <- call_fetch fetch
                  (Rest.request_of (Rest.baseUrl this +:+ endpoint)
                     (val (Rest.apiKey this)) options) ;;
    result <- response_json response ;;
    if negb (ok response) then
      message <- (λ w, (get engine result Key.message, w)) ;;
      ret {| Envelope.data := Null;
             Envelope.error := or message (Str "API request failed");
             Envelope.count := Undefined |}
    else
      data <- (λ w, (get engine result Key.data, w)) ;;
      ret {| Envelope.data := data; Envelope.error := Null;
             Envelope.count := Undefined |}
  ) catch error =>
    (message <- (λ w, (get engine error Key.message, w)) ;;
     ret {| Envelope.data := Null; Envelope.error := message;
            Envelope.count := Undefined |}).

Definition getSession : Run (World N) Session.t :=
  token <- localStorage_getItem "auth_token" ;;
  if negb (js_truthy token) then ret {| Session.user := Null |}
  else
    result <- apiCall "/auth/me" Rest.no_options ;;
    ret {| Session.user := Envelope.data result |}.

(** [this.authStateCallbacks.push(callback)] *)
Definition push (callback : Callback) (p : Page N) : Page N :=
  set_callbacks (authStateCallbacks p ++ [callback]) p.

Definition onAuthStateChange (callback : Callback) (w : World N) : Handle * World N :=
  ({| RestApiAuthService.registered := callback |}, on_page (push callback) w).

(** The body of [unsubscribe]: code of the page may call it at any time,
    also from inside a listener. *)
Definition remove (handle : Handle) (p : Page N) : Page N :=
  let index := indexOf (authStateCallbacks p) (registered handle) in
  if decide (index > -1)%Z then
    set_callbacks (splice1 index (authStateCallbacks p)) p
  else p.

Definition unsubscribe (handle : Handle) (w : World N) : World N :=
  on_page (remove handle) w.

(** [Array.prototype.forEach] on the array itself: the length is read once,
    before the first call; the element at an index is read when its turn
    comes, and an index that the array no longer has is passed over; a call
    that throws ends the loop. *)
Fixpoint forEach_from (event : string) (session : value) (turns index : nat)
  : Run (World N) unit :=
  match turns with
  | 0 => ret tt
  | S turns =>
      λ w, match authStateCallbacks (page w) !! index with
           | Some callback =>
               (call listeners callback event session ;;;
                forEach_from event session turns (S index)) w
           | None => forEach_from event session turns (S index) w
           end
  end.

Definition notifyAuthStateChange (event : string) (session : value)
  : Run (World N) unit :=
  λ w, forEach_from event session (length (authStateCallbacks (page w))) 0 w.

Definition session_of (data : value) : Run (World N) value :=
  user <- (λ w, (get engine data Key.user, w)) ;;
  ret (Obj [("user", user)]).

Definition signIn (email password : string) : Run (World N) Envelope.t :=
  result <- apiCall "/auth/signin"
              {| Rest.opt_method := val "POST";
                 Rest.opt_body := val (Rest.Credentials email password);
                 Rest.opt_headers := ∅ |} ;;
  if truthy (Envelope.data result) then
    token <- (λ w, (get engine (Envelope.data result) Key.token, w)) ;;
    text <- (λ w, (ToString engine token, w)) ;;
    localStorage_setItem "auth_token" text ;;;
    session <- session_of (Envelope.data result) ;;
    notifyAuthStateChange "SIGNED_IN" session ;;;
    user <- (λ w, (get engine (Envelope.data result) Key.user, w)) ;;
    ret {| Envelope.data := user; Envelope.error := Null;
           Envelope.count := Undefined |}
  else
    ret {| Envelope.data := Null; Envelope.error := Envelope.error result;
           Envelope.count := Undefined |}.

Definition signUp (email password displayName : string) (role : UserRole)
  : Run (World N) Envelope.t :=
  result <- apiCall "/auth/signup"
              {| Rest.opt_method := val "POST";
                 Rest.opt_body := val (Rest.Registration email password displayName role);
                 Rest.opt_headers := ∅ |} ;;
  if truthy (Envelope.data result) then
    token <- (λ w, (get engine (Envelope.data result) Key.token, w)) ;;
    text <- (λ w, (ToString engine token, w)) ;;
    localStorage_setItem "auth_token" text ;;;
    session <- session_of (Envelope.data result) ;;
    notifyAuthStateChange "SIGNED_UP" session ;;;
    user <- (λ w, (get engine (Envelope.data result) Key.user, w)) ;;
    ret {| Envelope.data := user; Envelope.error := Null;
           Envelope.count := Undefined |}
  else
    ret {| Envelope.data := Null; Envelope.error := Envelope.error result;
           Envelope.count := Undefined |}.

Definition signOut : Run (World N) Envelope.t :=
  localStorage_removeItem "auth_token" ;;;
  notifyAuthStateChange "SIGNED_OUT" Null ;;;
  ret {| Envelope.data := Null; Envelope.error := Null;
         Envelope.count := Undefined |}.

Definition fetchUserProfile (userId : string) : Run (World N) Envelope.t :=
  apiCall ("/auth/profile/" +:+ userId) Rest.no_options.
End Methods.
End RestApiAuthService.

(** ** [RestApiDataService] *)
Module RestApiDataService.
Section Methods.
Context {N : Type} (engine : Engine) (fetch : Fetch N) (this : Rest.Instance).

Definition apiCall (endpoint : string) (options : Rest.Options)
  : Run (World N) Envelope.t :=
  try (
    token <- localStorage_getItem "auth_token" ;;
    response <- call_fetch fetch
                  (Rest.request_of (Rest.baseUrl this +:+ endpoint) token options) ;;
    result <- response_json response ;;
    if negb (ok response) then
      message <- (λ w, (get engine result Key.message, w)) ;;
      ret {| Envelope.data := Null;
             Envelope.error := or message (Str "API request failed");
             Envelope.count := Undefined |}
    else
      data <- (λ w, (get engine result Key.data, w)) ;;
      ret {| Envelope.data := data; Envelope.error := Null;
             Envelope.count := Undefined |}
  ) catch error =>
    (message <- (λ w, (get engine error Key.message, w)) ;;
     ret {| Envelope.data := Null; Envelope.error := message;
            Envelope.count := Undefined |}).

Definition apiListCall (endpoint : string) (options : Rest.Options)
  : Run (World N) Envelope.t :=
  try (
    token <- localStorage_getItem "auth_token" ;;
    response <- call_fetch fetch
                  (Rest.request_of (Rest.baseUrl this +:+ endpoint) token options) ;;
    result <- response_json response ;;
    if negb (ok response) then
      message <- (λ w, (get engine result Key.message, w)) ;;
      ret {| Envelope.data := Null;
             Envelope.error := or message (Str "API request failed");
             Envelope.count := Undefined |}
    else
      data <- (λ w, (get engine result Key.data, w)) ;;
      count <- (λ w, (get engine result Key.count, w)) ;;
      ret {| Envelope.data := data; Envelope.error := Null; Envelope.count := count |}
  ) catch error =>
    (message <- (λ w, (get engine error Key.message, w)) ;;
     ret {| Envelope.data := Null; Envelope.error := message;
            Envelope.count := Undefined |}).

Definition fetchKidsWithPoints (familyId : string) :=
  apiListCall ("/families/" +:+ familyId +:+ "/kids-with-points") Rest.no_options.

Definition fetchPendingActivities (familyId : string) :=
  apiListCall ("/families/" +:+ familyId +:+ "/pending-activities") Rest.no_options.

Definition fetchDashboardStats (familyId : string) :=
  apiCall ("/families/" +:+ familyId +:+ "/dashboard-stats") Rest.no_options.

Definition fetchActivities (familyId : string) :=
  apiListCall ("/families/" +:+ familyId +:+ "/activities") Rest.no_options.

Definition createActivity (activity : Activity.input) :=
  apiCall "/activities" (RestApiDataService.post (Rest.ActivityBody activity)).

Definition updateActivity (id : string) (updates : Activity.partial) :=
  apiCall ("/activities/" +:+ id) (RestApiDataService.put (Rest.ActivityUpdates updates)).

Definition deleteActivity (id : string) :=
  apiCall ("/activities/" +:+ id) RestApiDataService.delete_options.

Definition fetchRewards (familyId : string) :=
  apiListCall ("/families/" +:+ familyId +:+ "/rewards") Rest.no_options.

Definition createReward (reward : Reward.input) :=
  apiCall "/rewards" (RestApiDataService.post (Rest.RewardBody reward)).

Definition updateReward (id : string) (updates : Reward.partial) :=
  apiCall ("/rewards/" +:+ id) (RestApiDataService.put (Rest.RewardUpdates updates)).

Definition deleteReward (id : string) :=
  apiCall ("/rewards/" +:+ id) RestApiDataService.delete_options.

Definition fetchPointEntries (familyId : string) (userId : js string) :=
  apiListCall
    (RestApiDataService.with_user ("/families/" +:+ familyId +:+ "/point-entries") userId)
    Rest.no_options.

Definition createPointEntry (entry : PointEntry.input) :=
  apiCall "/point-entries" (RestApiDataService.post (Rest.PointEntryBody entry)).

Definition updatePointEntry (id : string) (updates : PointEntry.partial) :=
  apiCall ("/point-entries/" +:+ id)
    (RestApiDataService.put (Rest.PointEntryUpdates updates)).

Definition approvePointEntry (id : string) (approved : bool) (approvedBy : string) :=
  apiCall ("/point-entries/" +:+ id +:+ "/approve")
    (RestApiDataService.post (Rest.Approval approved approvedBy)).

Definition fetchRewardRedemptions (familyId : string) (userId : js string) :=
  apiListCall
    (RestApiDataService.with_user ("/families/" +:+ familyId +:+ "/reward-redemptions")
       userId)
    Rest.no_options.

Definition createRewardRedemption (redemption : RewardRedemption.input) :=
  apiCall "/reward-redemptions" (RestApiDataService.post (Rest.RedemptionBody redemption)).

Definition approveRewardRedemption (id : string) (approved : bool) (approvedBy : string) :=
  apiCall ("/reward-redemptions/" +:+ id +:+ "/approve")
    (RestApiDataService.post (Rest.Approval approved approvedBy)).
End Methods.
End RestApiDataService.
(** ** Vocabulary *)

(** The HTTP requests that running [m] in [w] issues, and the auth-state
    events that it delivers. *)
Definition issued {N A} (m : Run (World N) A) (w : World N) : list Rest.Request :=
  drop (length (requests w)) (requests (m w).2).
Definition fired {N A} (m : Run (World N) A) (w : World N) : list Delivery :=
  drop (length (delivered w)) (delivered (m w).2).

(** [localStorage.getItem('auth_token')] where the storage can be read. *)
Definition stored_token {N} (p : Page N) : js string :=
  match items (localStorage p) !! "auth_token" with
  | Some v => val v
  | None => null
  end.

(** A listener that returns, whatever it is called with, and leaves the
    registrations as they are. *)
Definition quiet {N} (listeners : Listeners N) (callback : Callback) : Prop :=
  ∀ event session p,
    ∃ p', listeners callback event session p = (Return tt, p')
          ∧ authStateCallbacks p' = authStateCallbacks p.

(** A listener that throws [thrown], whatever it is called with. *)
Definition throws {N} (listeners : Listeners N) (callback : Callback) (thrown : value)
  : Prop :=
  ∀ event session p, ∃ p', listeners callback event session p = (Reject thrown, p').

(** A listener that throws [thrown] and has done nothing else. *)
Definition fails {N} (listeners : Listeners N) (callback : Callback) (thrown : value)
  : Prop :=
  ∀ event session p, listeners callback event session p = (Reject thrown, p).

(** A listener that returns and has done nothing. *)
Definition idle {N} (listeners : Listeners N) (callback : Callback) : Prop :=
  ∀ event session p, listeners callback event session p = (Return tt, p).

Definition notice (event : string) (session : value) (callback : Callback) : Delivery :=
  {| listener := callback; event := event; session := session |}.
Definition signed_out : Callback → Delivery := notice "SIGNED_OUT" Null.

(** The calls of the data service. *)
Inductive DataCall :=
  | fetchKidsWithPoints (familyId : string)
  | fetchPendingActivities (familyId : string)
  | fetchDashboardStats (familyId : string)
  | fetchActivities (familyId : string)
  | createActivity (activity : Activity.input)
  | updateActivity (id : string) (updates : Activity.partial)
  | deleteActivity (id : string)
  | fetchRewards (familyId : string)
  | createReward (reward : Reward.input)
  | updateReward (id : string) (updates : Reward.partial)
  | deleteReward (id : string)
  | fetchPointEntries (familyId : string) (userId : js string)
  | createPointEntry (entry : PointEntry.input)
  | updatePointEntry (id : string) (updates : PointEntry.partial)
  | approvePointEntry (id : string) (approved : bool) (approvedBy : string)
  | fetchRewardRedemptions (familyId : string) (userId : js string)
  | createRewardRedemption (redemption : RewardRedemption.input)
  | approveRewardRedemption (id : string) (approved : bool) (approvedBy : string).

Definition run_data {N} (engine : Engine) (fetch : Fetch N) (this : Rest.Instance)
    (c : DataCall) : Run (World N) Envelope.t :=
  match c with
  | fetchKidsWithPoints f => RestApiDataService.fetchKidsWithPoints engine fetch this f
  | fetchPendingActivities f =>
      RestApiDataService.fetchPendingActivities engine fetch this f
  | fetchDashboardStats f => RestApiDataService.fetchDashboardStats engine fetch this f
  | fetchActivities f => RestApiDataService.fetchActivities engine fetch this f
  | createActivity a => RestApiDataService.createActivity engine fetch this a
  | updateActivity id u => RestApiDataService.updateActivity engine fetch this id u
  | deleteActivity id => RestApiDataService.deleteActivity engine fetch this id
  | fetchRewards f => RestApiDataService.fetchRewards engine fetch this f
  | createReward r => RestApiDataService.createReward engine fetch this r
  | updateReward id u => RestApiDataService.updateReward engine fetch this id u
  | deleteReward id => RestApiDataService.deleteReward engine fetch this id
  | fetchPointEntries f u => RestApiDataService.fetchPointEntries engine fetch this f u
  | createPointEntry e => RestApiDataService.createPointEntry engine fetch this e
  | updatePointEntry id u => RestApiDataService.updatePointEntry engine fetch this id u
  | approvePointEntry id a by_ =>
      RestApiDataService.approvePointEntry engine fetch this id a by_
  | fetchRewardRedemptions f u =>
      RestApiDataService.fetchRewardRedemptions engine fetch this f u
  | createRewardRedemption r =>
      RestApiDataService.createRewardRedemption engine fetch this r
  | approveRewardRedemption id a by_ =>
      RestApiDataService.approveRewardRedemption engine fetch this id a by_
  end.

(** The calls of the auth service that go to the server whatever the
    storage holds. *)
Inductive AuthCall :=
  | signIn (email password : string)
  | signUp (email password displayName : string) (role : UserRole)
  | fetchUserProfile (userId : string).

Definition run_auth {N} (engine : Engine) (fetch : Fetch N) (listeners : Listeners N)
    (this : Rest.Instance) (c : AuthCall) : Run (World N) Envelope.t :=
  match c with
  | signIn email password =>
      RestApiAuthService.signIn engine fetch listeners this email password
  | signUp email password displayName role =>
      RestApiAuthService.signUp engine fetch listeners this email password displayName role
  | fetchUserProfile userId => RestApiAuthService.fetchUserProfile engine fetch this userId
  end.

(** The three private methods that call [fetch]. *)
Inductive ApiCall := AuthApiCall | DataApiCall | DataApiListCall.

Definition run_api {N} (engine : Engine) (fetch : Fetch N) (this : Rest.Instance)
    (c : ApiCall) (endpoint : string) (options : Rest.Options)
  : Run (World N) Envelope.t :=
  match c with
  | AuthApiCall => RestApiAuthService.apiCall engine fetch this endpoint options
  | DataApiCall => RestApiDataService.apiCall engine fetch this endpoint options
  | DataApiListCall => RestApiDataService.apiListCall engine fetch this endpoint options
  end.

(** What the [catch] block of an [apiCall] makes of what it has caught: the
    envelope with the [message] of the value, and a [TypeError] of its own
    when the value is [null] or [undefined]. *)
Definition caught (engine : Engine) (thrown : value) : Result Envelope.t :=
  if nullish thrown
  then Reject (Err "TypeError" (cannot_read engine thrown Key.message))
  else Return {| Envelope.data := Null; Envelope.error := property thrown Key.message;
                 Envelope.count := Undefined |}.

(** ** Examples *)

(** An engine for the examples: the messages are those of V8; [ToString] is
    that of strings, booleans, [null], [undefined] and error objects.  The
    examples convert nothing else, and what is chosen for the rest is
    arbitrary. *)
Definition v8 : Engine :=
  {| ToString := λ v,
       match v with
       | Undefined => Return "undefined"
       | Null => Return "null"
       | Bool true => Return "true"
       | Bool false => Return "false"
       | Str s => Return s
       | Err name message => Return (name +:+ ": " +:+ message)
       | Num _ | Arr _ | Obj _ => Return "[object Object]"
       end;
     cannot_read := λ v key,
       "Cannot read properties of "
       +:+ match v with Undefined => "undefined" | _ => "null" end
       +:+ " (reading '" +:+ Key.name key +:+ "')" |}.

Definition accessible (stored : gmap string string) : Storage :=
  {| items := stored; getItem_throws := None; setItem_throws := None;
     removeItem_throws := None |}.

(** A storage that the browser denies to the page. *)
Definition security_error : value := Err "SecurityError" "The operation is insecure.".
Definition denied : Storage :=
  {| items := ∅; getItem_throws := Some security_error;
     setItem_throws := Some security_error;
     removeItem_throws := Some security_error |}.

Definition browser (storage : Storage) (callbacks : list Callback) : World unit :=
  {| page := {| localStorage := storage; network := tt;
                authStateCallbacks := callbacks |};
     requests := [];
     delivered := [] |}.

(** Listeners that do nothing; one that throws; one that unsubscribes itself
    when it is called. *)
Definition inert : Listeners unit := λ _ _ _ p, (Return tt, p).
Definition failing (callback : Callback) (thrown : value) : Listeners unit :=
  λ c _ _ p, if decide (c = callback) then (Reject thrown, p) else (Return tt, p).
Definition leaving (callback : Callback) : Listeners unit :=
  λ c _ _ p,
    if decide (c = callback)
    then (Return tt,
          RestApiAuthService.remove {| RestApiAuthService.registered := callback |} p)
    else (Return tt, p).

(** A server that cannot be reached, one that answers every request with the
    same status and body, and one whose body is not JSON. *)
Definition failed_to_fetch : value := Err "TypeError" "Failed to fetch".
Definition unreachable : Fetch unit := λ _ n, (Reject failed_to_fetch, n).
Definition answering (ok : bool) (body : value) : Fetch unit :=
  λ _ n, (Return {| ok := ok; json := Return body |}, n).
Definition syntax_error : value :=
  Err "SyntaxError" "Unexpected token < in JSON at position 0".
Definition garbled (ok : bool) : Fetch unit :=
  λ _ n, (Return {| ok := ok; json := Reject syntax_error |}, n).
(** ** The values of the announced types among the values of the platform

    A body of the type that [apiCall<T>] announces is an object with the
    members [message], [data] and [count]; an error with a [message] is an
    error object; a storage that answers is one that throws nothing.  [encode]
    is the JSON of a [T], [number] that of an integer and [of_session] that of
    the payload of an event. *)
Section Announced.
Context {N T : Type} (encode : T → value) (number : Z → value)
  (of_session : js SessionView → value).

Definition of_js {A} (f : A → value) (x : js A) : value :=
  match x with
  | val a => f a
  | null => Null
  | undefined => Undefined
  end.

Definition of_error (e : JsError) : value := Err "Error" (err_message e).

Definition of_outcome {A B} (f : A → B) (o : Outcome A) : Result B :=
  match o with
  | Ok a => Return (f a)
  | Throw e => Reject (of_error e)
  end.

Definition of_body (b : Rest.Body T) : value :=
  Obj [("message", of_js Str (Rest.message b));
       ("data", of_js encode (Rest.body_data b));
       ("count", of_js number (Rest.body_count b))].

Definition of_response (r : Rest.Response T) : Response :=
  {| ok := Rest.ok r; json := of_outcome of_body (Rest.json r) |}.

Definition of_fetch (fetch : Rest.Fetch N T) : Fetch N :=
  λ request n, let '(o, n') := fetch request n in (of_outcome of_response o, n').

Definition of_envelope (r : ApiResponse T) : Envelope.t :=
  {| Envelope.data := of_js encode (data r);
     Envelope.error := of_js Str (error r);
     Envelope.count := Undefined |}.

Definition of_list_envelope (r : ApiListResponse T) : Envelope.t :=
  {| Envelope.data := of_js (λ l, Arr (encode <$> l)) (list_data r);
     Envelope.error := of_js Str (list_error r);
     Envelope.count := of_js number (count r) |}.

Definition of_delivery (d : Rest.Delivery) : Delivery :=
  {| listener := Rest.listener d; event := Rest.event d;
     session := of_session (Rest.session d) |}.

Definition of_world (w : Rest.World N) : World N :=
  {| page := {| localStorage := accessible (Rest.localStorage w);
                network := Rest.network w;
                authStateCallbacks := Rest.authStateCallbacks w |};
     requests := Rest.requests w;
     delivered := of_delivery <$> Rest.delivered w |}.
End Announced.

(** [{ user, token }] and [{ user }] *)
Definition of_payload (encode_user : AuthUser.t → value)
    (d : RestApiAuthService.AuthPayload) : value :=
  Obj [("user", encode_user (RestApiAuthService.payload_user d));
       ("token", Str (RestApiAuthService.token d))].

Definition of_view (encode_user : AuthUser.t → value) (v : SessionView) : Session.t :=
  {| Session.user := of_js encode_user (let 'Build_SessionView u := v in u) |}.
End Runtime.

(** * Properties *)

(** ** Values *)

Lemma js_or_Z (z : Z) : js_or (val z) 0%Z = z.
Proof.
  unfold js_or, truthy, Z_truthy. destruct (Z.eqb_spec z 0); simpl; congruence.
Qed.

Lemma js_or_string (s d : string) : js_or (val s) d = nonempty_or d s.
Proof.
  unfold js_or, truthy, string_truthy, nonempty_or.
  destruct (String.eqb_spec s EmptyString); simpl; case_decide; congruence.
Qed.

Lemma js_or_message (m : js string) : js_or m "API request failed" = failure_text m.
Proof. destruct m; try reflexivity. apply js_or_string. Qed.

Lemma truthy_nonempty (v : string) : v ≠ EmptyString → truthy v = true.
Proof.
  intros H. unfold truthy, string_truthy. by destruct (String.eqb_spec v EmptyString).
Qed.

Lemma truthy_empty (v : string) : truthy v = false → v = EmptyString.
Proof.
  unfold truthy, string_truthy. by destruct (String.eqb_spec v EmptyString).
Qed.

Lemma filter_all {A} (P : A → Prop) `{∀ x, Decision (P x)} (l : list A) :
  Forall P l → filter P l = l.
Proof.
  induction 1 as [|x l Hx Hl IH]; [reflexivity|].
  by rewrite filter_cons_True, IH.
Qed.

(** ** Asynchronous computations *)

Section MonadLaws.
Context {W : Type}.

Lemma guards_ret {A} (P : A → Prop) a : P a → guards (W:=W) P (ret a).
Proof. intros H w. exact H. Qed.

Lemma guards_throw {A} (P : A → Prop) e : guards (W:=W) P (throw e).
Proof. intros w. exact I. Qed.

Lemma guards_bind {A B} (P : B → Prop) (m : Async W A) k :
  (∀ a, guards P (k a)) → guards P (bind m k).
Proof.
  intros H w. unfold bind. destruct (m w) as [[a|e] w']; [apply H | exact I].
Qed.

Lemma returns_ret {A} (P : A → Prop) a : P a → returns (W:=W) P (ret a).
Proof. intros H w. exists a, w. split; [reflexivity | exact H]. Qed.

Lemma returns_bind {A B} (Q : A → Prop) (P : B → Prop) (m : Async W A) k :
  returns Q m → (∀ a, Q a → returns P (k a)) → returns P (bind m k).
Proof.
  intros Hm Hk w. destruct (Hm w) as (a & w' & E & Ha).
  unfold bind. rewrite E. apply Hk, Ha.
Qed.

Lemma returns_modify {A} (P : A → Prop) f (m : Async W A) :
  returns P m → returns P (modify_world f ;;; m).
Proof. intros H w. unfold bind, modify_world. apply H. Qed.

(** A [try] whose [catch] always returns, always returns. *)
Lemma returns_try {A} (P : A → Prop) (body : Async W A) handler :
  guards P body → (∀ e, returns P (handler e)) → returns P (try_catch body handler).
Proof.
  intros Hb Hh w. unfold try_catch. specialize (Hb w).
  destruct (body w) as [[a|e] w']; [by exists a, w' | apply Hh].
Qed.

Lemma returns_single {T} (m : Async W (ApiResponse T)) :
  returns (λ r, exclusive (Single T r)) m → returns exclusive (single m).
Proof.
  intros H. unfold single. eapply returns_bind; [exact H |].
  intros r Hr. by apply returns_ret.
Qed.

Lemma returns_listed {T} (m : Async W (ApiListResponse T)) :
  returns (λ r, exclusive (Listed T r)) m → returns exclusive (listed m).
Proof.
  intros H. unfold listed. eapply returns_bind; [exact H |].
  intros r Hr. by apply returns_ret.
Qed.

Lemma error_response_exclusive {T} e :
  returns (W:=W) (λ r, exclusive (Single T r)) (error_response e).
Proof. by apply returns_ret. Qed.

Lemma error_list_response_exclusive {T} e :
  returns (W:=W) (λ r, exclusive (Listed T r)) (error_list_response e).
Proof. by apply returns_ret. Qed.
End MonadLaws.

(** An envelope either carries no error or carries no data. *)
Ltac envelope_fact :=
  simpl; first [ intros _; reflexivity | intros Hne; exfalso; apply Hne; reflexivity ].

Ltac guard_step :=
  first
    [ apply guards_ret; envelope_fact
    | apply guards_throw
    | apply guards_bind; intros
    | match goal with
      | |- guards _ (match ?x with _ => _ end) => destruct x
      | |- guards _ (if ?b then _ else _) => destruct b
      | |- guards _ (let '(_, _) := ?x in _) => destruct x
      end ].

Ltac return_step :=
  first
    [ apply returns_ret; envelope_fact
    | match goal with
      | |- returns _ (match ?x with _ => _ end) => destruct x
      | |- returns _ (if ?b then _ else _) => destruct b
      end
    | apply returns_modify ].

(** ** The envelope invariant *)

Lemma supabase_call_exclusive {W} (supabase : Supabase.Client W) date_now
    (c : SupabaseCall) :
  returns exclusive (run_supabase supabase date_now c).
Proof.
  destruct c; simpl;
    (apply returns_single || apply returns_listed);
    (apply returns_try;
     [ | intros; (apply error_response_exclusive || apply error_list_response_exclusive)]).
  all: unfold SupabaseDataService.list_result, SupabaseDataService.single_result,
         SupabaseDataService.null_result.
  all: repeat guard_step.
Qed.

Section RestEnvelopes.
Context {N : Type} (this : Rest.Instance).

Lemma auth_apiCall_exclusive {T} (fetch : Rest.Fetch N T) endpoint options :
  returns (λ r, exclusive (Single T r))
          (RestApiAuthService.apiCall this fetch endpoint options).
Proof.
  apply returns_try; [ | intros; apply error_response_exclusive].
  repeat guard_step.
Qed.

Lemma data_apiCall_exclusive {T} (fetch : Rest.Fetch N T) endpoint options :
  returns (λ r, exclusive (Single T r))
          (RestApiDataService.apiCall this fetch endpoint options).
Proof.
  apply returns_try; [ | intros; apply error_response_exclusive].
  repeat guard_step.
Qed.

Lemma data_apiListCall_exclusive {T} (fetch : Rest.Fetch N (list T)) endpoint options :
  returns (λ r, exclusive (Listed T r))
          (RestApiDataService.apiListCall this fetch endpoint options).
Proof.
  apply returns_try; [ | intros; apply error_list_response_exclusive].
  repeat guard_step.
Qed.

Lemma rest_auth_call_exclusive (c : RestAuthCall N) :
  returns exclusive (run_rest_auth this c).
Proof.
  destruct c; simpl; apply returns_single.
  - eapply returns_bind; [apply auth_apiCall_exclusive |].
    intros r Hr. simpl in Hr.
    unfold Rest.localStorage_setItem, RestApiAuthService.notifyAuthStateChange.
    repeat return_step.
  - eapply returns_bind; [apply auth_apiCall_exclusive |].
    intros r Hr. simpl in Hr.
    unfold Rest.localStorage_setItem, RestApiAuthService.notifyAuthStateChange.
    repeat return_step.
  - unfold RestApiAuthService.signOut, Rest.localStorage_removeItem,
      RestApiAuthService.notifyAuthStateChange.
    repeat return_step.
  - apply auth_apiCall_exclusive.
Qed.

Lemma rest_data_call_exclusive (c : RestDataCall N) :
  returns exclusive (run_rest_data this c).
Proof.
  destruct c; simpl;
    first [ apply returns_single; apply data_apiCall_exclusive
          | apply returns_listed; apply data_apiListCall_exclusive ].
Qed.
End RestEnvelopes.

(** C1.  Every operation of the auth service and of the data service, in the
    embedded-backend and in the remote-HTTP variant, returns for every input,
    every client or server behaviour and every world an envelope, and in that
    envelope a non-null [error] comes with a null [data]. *)
Theorem error_excludes_data :
  (∀ W (supabase : Supabase.Client W) (date_now : W → timestamp) (c : SupabaseCall),
     returns exclusive (run_supabase supabase date_now c))
  ∧ (∀ N (this : Rest.Instance) (c : RestAuthCall N),
       returns exclusive (run_rest_auth this c))
  ∧ (∀ N (this : Rest.Instance) (c : RestDataCall N),
       returns exclusive (run_rest_data this c)).
Proof.
  split; [| split].
  - intros W supabase date_now c. apply supabase_call_exclusive.
  - intros N this c. apply rest_auth_call_exclusive.
  - intros N this c. apply rest_data_call_exclusive.
Qed.

(** ** The reference store *)

Lemma guarded_cases {T} policy request (run : Store.t → SbResponse T * Store.t) s :
  (∃ e, policy request s = val e
        ∧ Store.guarded policy request run s = (Ok (Store.error_of e), s))
  ∨ (permits policy request s
     ∧ Store.guarded policy request run s = (Ok (run s).1, (run s).2)).
Proof.
  unfold Store.guarded, permits.
  destruct (policy request s) as [| |e] eqn:E.
  - right. split; [done|]. by destruct (run s).
  - right. split; [done|]. by destruct (run s).
  - left. eauto.
Qed.

Lemma guarded_permitted {T} policy request (run : Store.t → SbResponse T * Store.t) s :
  permits policy request s →
  Store.guarded policy request run s = (Ok (run s).1, (run s).2).
Proof.
  intros H. destruct (guarded_cases policy request run s) as [(e & E & _) | [_ E]].
  - by destruct (H e).
  - exact E.
Qed.

Lemma permissive_permits request s : permits Store.permissive request s.
Proof. intros e. discriminate. Qed.

Lemma sign_up_cases policy uuid email password displayName role s :
  (∃ e, Store.sign_up policy uuid email password displayName role s
        = (Ok {| auth_user := null; auth_error := val e |}, s))
  ∨ (∃ u s1, Store.sign_up policy uuid email password displayName role s
             = (Ok {| auth_user := val u; auth_error := null |}, s1)).
Proof.
  unfold Store.sign_up.
  destruct (policy _ s) as [| |e]; [right | right | left]; eauto.
Qed.

(** ** Sign-up of a parent *)

Ltac signUp_step :=
  cbn -[Store.add_user_profile Store.add_family SupabaseAuthService.profile_row
        SupabaseAuthService.family_row Store.guarded].

(** C2.  On the reference store, a [signUp] with role parent that returns the
    new user without an error has added a family whose id and [created_by]
    are the user's id and whose name is the display name followed by
    "'s Family", and a profile of the user whose [family_id] is that id; and
    when the backend refuses the insert of the profile, or accepts it and
    refuses the insert of the family, the call returns an envelope with null
    data and the refusal's message as error. *)
Theorem signUp_parent_provisions_family
    policy uuid email password displayName s r s' :
  SupabaseAuthService.signUp (Store.client policy uuid) email password displayName parent s
  = (Ok r, s') →
  (∀ u, r = {| data := val u; error := null |} →
     ∃ f p,
       f ∈ Store.families (Store.tables s')
       ∧ Family.id f = AuthUser.id u
       ∧ Family.name f = displayName +:+ "'s Family"
       ∧ Family.created_by f = AuthUser.id u
       ∧ p ∈ Store.user_profiles (Store.tables s')
       ∧ UserProfile.user_id p = AuthUser.id u
       ∧ UserProfile.family_id p = val (AuthUser.id u))
  ∧ (∀ u s1 e,
       Store.sign_up policy uuid email password displayName parent s
       = (Ok {| auth_user := val u; auth_error := null |}, s1) →
       let profile := SupabaseAuthService.profile_row u email displayName parent in
       let family := SupabaseAuthService.family_row u displayName in
       policy (Store.InsertUserProfile profile) s1 = val e
       ∨ (permits policy (Store.InsertUserProfile profile) s1
          ∧ policy (Store.InsertFamily family) (Store.add_user_profile profile s1) = val e) →
       r = {| data := null; error := val (err_message e) |}).
Proof.
  unfold SupabaseAuthService.signUp, try_catch, bind.
  cbn [Supabase.auth_signUp Supabase.insert_user_profile Supabase.insert_family Store.client].
  destruct (sign_up_cases policy uuid email password displayName parent s)
    as [(e0 & E0) | (u0 & s1 & E0)]; rewrite E0; signUp_step.
  { intros [= <- <-]. split; [intros u [=] | intros u s1 e [=]]. }
  destruct (guarded_cases policy
              (Store.InsertUserProfile
                 (SupabaseAuthService.profile_row u0 email displayName parent))
              (λ s, (Store.ok_response (T:=unit) null,
                     Store.add_user_profile
                       (SupabaseAuthService.profile_row u0 email displayName parent) s))
              s1) as [(e1 & P1 & G1) | (P1 & G1)]; rewrite G1; signUp_step.
  { intros [= <- <-]. split; [intros u [=] |].
    intros u s1' e [= <- <-] [H | [H _]]; [congruence | by destruct (H e1)]. }
  destruct (guarded_cases policy
              (Store.InsertFamily (SupabaseAuthService.family_row u0 displayName))
              (λ s, (Store.ok_response (T:=unit) null,
                     Store.add_family
                       (SupabaseAuthService.family_row u0 displayName) s))
              (Store.add_user_profile
                 (SupabaseAuthService.profile_row u0 email displayName parent) s1))
    as [(e2 & P2 & G2) | (P2 & G2)];
    (destruct (decide (parent = parent)) as [_|?]; [|done]); cbn beta; rewrite G2;
    signUp_step.
  { intros [= <- <-]. split; [intros u [=] |].
    intros u s1' e [= <- <-] [H | [_ H]]; [by destruct (P1 e) | congruence]. }
  intros [= <- <-]. split.
  - intros u [= <-].
    exists (Store.new_family (SupabaseAuthService.family_row u0 displayName)
              (Store.clock s1)),
           (Store.new_user_profile
              (SupabaseAuthService.profile_row u0 email displayName parent)
              (Store.clock s1)).
    cbn. repeat split; try reflexivity.
    + apply elem_of_app. right. apply list_elem_of_singleton. reflexivity.
    + apply elem_of_app. right. apply list_elem_of_singleton. reflexivity.
  - intros u s1' e [= <- <-] [H | [_ H]]; [by destruct (P1 e) | by destruct (P2 e)].
Qed.

Lemma signUp_parent_provisions_family_witness :
  (∃ r s',
     SupabaseAuthService.signUp (Store.client Store.permissive pretty)
       "alice@example.org" "secret" "Alice" parent household = (Ok r, s')
     ∧ ∃ u, r = {| data := val u; error := null |}
       ∧ ∃ f p,
           f ∈ Store.families (Store.tables s')
           ∧ Family.id f = AuthUser.id u
           ∧ Family.name f = "Alice's Family"
           ∧ Family.created_by f = AuthUser.id u
           ∧ p ∈ Store.user_profiles (Store.tables s')
           ∧ UserProfile.user_id p = AuthUser.id u
           ∧ UserProfile.family_id p = val (AuthUser.id u))
  ∧ (∃ r s' u s1 e,
       SupabaseAuthService.signUp (Store.client families_closed pretty)
         "alice@example.org" "secret" "Alice" parent household = (Ok r, s')
       ∧ Store.sign_up families_closed pretty "alice@example.org" "secret" "Alice"
           parent household
         = (Ok {| auth_user := val u; auth_error := null |}, s1)
       ∧ permits families_closed
           (Store.InsertUserProfile
              (SupabaseAuthService.profile_row u "alice@example.org" "Alice" parent)) s1
       ∧ families_closed
           (Store.InsertFamily (SupabaseAuthService.family_row u "Alice"))
           (Store.add_user_profile
              (SupabaseAuthService.profile_row u "alice@example.org" "Alice" parent) s1)
         = val e
       ∧ r = {| data := null; error := val (err_message e) |}).
Proof.
  split.
  - do 2 eexists. split; [vm_compute; reflexivity|].
    eexists. split; [reflexivity|].
    refine (proj1 (signUp_parent_provisions_family Store.permissive pretty
                     "alice@example.org" "secret" "Alice" household _ _ _) _ _);
      vm_compute; reflexivity.
  - do 5 eexists.
    split; [vm_compute; reflexivity|].
    split; [vm_compute; reflexivity|].
    split; [intros e'; discriminate|].
    split; [reflexivity|].
    refine (proj2 (signUp_parent_provisions_family families_closed pretty
                     "alice@example.org" "secret" "Alice" household _ _ _) _ _ _ _ _).
    + vm_compute; reflexivity.
    + vm_compute; reflexivity.
    + right. split; [intros e'; discriminate | reflexivity].
Defined.

(** ** Kids with their points *)

Lemma foldl_points (l : list PointEntry.t) (acc : Z) :
  foldl (λ sum entry, sum + KidRow.points entry)%Z acc
        ((λ e, {| KidRow.points := PointEntry.points e |}) <$> l)
  = (acc + points_total l)%Z.
Proof.
  revert acc. induction l as [|e l IH]; intros acc; simpl.
  - lia.
  - rewrite IH. unfold points_total. simpl. lia.
Qed.

(** What a permitted [fetchKidsWithPoints] returns: the kids of the family
    that have an approved entry, each with the sum of those entries. *)
Lemma fetchKidsWithPoints_permitted policy uuid familyId s :
  permits policy (Store.SelectKidsWithPoints familyId) s →
  SupabaseDataService.fetchKidsWithPoints (Store.client policy uuid) familyId s
  = (Ok {| list_data :=
             val (kid_per_spec (Store.tables s)
                    <$> filter (λ p, Store.approved_entries_of (Store.tables s)
                                       (UserProfile.user_id p) ≠ [])
                               (Store.kid_profiles (Store.tables s) familyId));
           list_error := null; count := undefined |}, s).
Proof.
  intros H. unfold SupabaseDataService.fetchKidsWithPoints, try_catch, bind. simpl.
  unfold Store.read. rewrite guarded_permitted by done. simpl.
  unfold ret. do 4 f_equal. unfold Store.kids_with_points.
  rewrite <- list_fmap_compose. apply list_fmap_ext. intros i p _.
  unfold SupabaseDataService.kid_of_row, kid_per_spec, compose.
  cbn [KidRow.user_id KidRow.display_name KidRow.point_entries js_chain]. f_equal.
  rewrite foldl_points, js_or_Z. lia.
Qed.

(** When every kid of the family has an approved entry, the result is one Kid
    per kid. *)
Lemma fetchKidsWithPoints_when_all_have_approved policy uuid familyId s :
  permits policy (Store.SelectKidsWithPoints familyId) s →
  Forall (λ p, Store.approved_entries_of (Store.tables s) (UserProfile.user_id p) ≠ [])
         (Store.kid_profiles (Store.tables s) familyId) →
  SupabaseDataService.fetchKidsWithPoints (Store.client policy uuid) familyId s
  = (Ok {| list_data := val (kids_per_spec (Store.tables s) familyId);
           list_error := null; count := undefined |}, s).
Proof.
  intros Hp Hall. rewrite fetchKidsWithPoints_permitted by exact Hp.
  by rewrite filter_all.
Qed.

(** C3.  In the household, Kim has approved entries of +10 and +5 and a
    rejected one of +100, and Lee has no approved entry.  The claim asks for one
    Kid per kid of the family, Kim with 15 points and Lee with 0;
    [fetchKidsWithPoints] returns Kim with 15 points and leaves Lee out. *)
Theorem fetchKidsWithPoints_omits_kid_without_approved_entry :
  SupabaseDataService.fetchKidsWithPoints (Store.client Store.permissive pretty)
    "f1" household
  = (Ok {| list_data :=
             val [{| Kid.id := "k1"; Kid.display_name := "Kim";
                     Kid.total_points := 15 |}];
           list_error := null; count := undefined |}, household)
  ∧ kids_per_spec (Store.tables household) "f1"
    = [{| Kid.id := "k1"; Kid.display_name := "Kim"; Kid.total_points := 15 |};
       {| Kid.id := "k2"; Kid.display_name := "Lee"; Kid.total_points := 0 |}].
Proof. split; vm_compute; reflexivity. Qed.

(** ** Approval of a point entry *)

Section UpdateSingle.
Context {R : Type} (key : R → string) (patch : R → R) (id : string).
Hypothesis patch_key : ∀ x, key (patch x) = key x.

Lemma filter_patched (rows : list R) :
  filter (λ r, key r = id)
         ((λ x, if decide (key x = id) then patch x else x) <$> rows)
  = patch <$> filter (λ r, key r = id) rows.
Proof.
  induction rows as [|x rows IH]; [reflexivity|].
  rewrite fmap_cons. destruct (decide (key x = id)) as [E|E].
  - rewrite !filter_cons_True by (rewrite ?patch_key; done).
    rewrite fmap_cons. by rewrite IH.
  - rewrite !filter_cons_False by done. exact IH.
Qed.

Lemma update_single_Some rows r rows' :
  Store.update_single key patch id rows = Some (r, rows') →
  ∃ r0, filter (λ x, key x = id) rows = [r0] ∧ r = patch r0
        ∧ filter (λ x, key x = id) rows' = [r].
Proof.
  unfold Store.update_single. intros H.
  destruct (filter _ rows) as [|r0 [|? ?]] eqn:E; try discriminate.
  injection H as <- <-. exists r0. split; [done|]. split; [done|].
  rewrite filter_patched, E. reflexivity.
Qed.

Lemma update_single_again rows r :
  filter (λ x, key x = id) rows = [r] →
  Store.update_single key patch id rows
  = Some (patch r, (λ x, if decide (key x = id) then patch x else x) <$> rows).
Proof. intros E. unfold Store.update_single. by rewrite E. Qed.
End UpdateSingle.

Lemma patch_point_entry_id u r :
  PointEntry.id (Store.patch_point_entry u r) = PointEntry.id r.
Proof. reflexivity. Qed.

(** What [approvePointEntry] comes to on the reference store. *)
Lemma approvePointEntry_unfold policy uuid id approved approvedBy s :
  SupabaseDataService.approvePointEntry (Store.client policy uuid) Store.clock
    id approved approvedBy s
  = let u := SupabaseDataService.approval approved (Store.clock s) approvedBy in
    match policy (Store.UpdatePointEntry id u) s with
    | val e => (Ok {| data := null; error := val (err_message e) |}, s)
    | _ =>
        match Store.update_single PointEntry.id (Store.patch_point_entry u) id
                (Store.point_entries (Store.tables s)) with
        | Some (r, rows) =>
            (Ok {| data := val r; error := null |},
             Store.set_tables (Store.set_point_entries rows) s)
        | None => (Ok {| data := null; error := val (err_message Store.not_single) |}, s)
        end
    end.
Proof.
  unfold SupabaseDataService.approvePointEntry, try_catch, bind, get_world. simpl.
  unfold Store.update_returning, Store.guarded.
  destruct (policy _ s); try reflexivity;
    destruct (Store.update_single _ _ _ _) as [[r rows]|]; reflexivity.
Qed.

(** C4.  On the reference store, an [approvePointEntry] that returns the entry
    without an error leaves in the table exactly one entry with that id, with
    status approved or rejected as the flag says, [approved_at] the time of the
    call and [approved_by] the approver; a second call on the same entry, at
    any later time and with any flag and approver, succeeds whenever the
    backend does not refuse it, and changes these three fields and nothing
    else. *)
Theorem approvePointEntry_stamps_and_restamps
    policy uuid id flag approvedBy s e s' :
  SupabaseDataService.approvePointEntry (Store.client policy uuid) Store.clock
    id flag approvedBy s
  = (Ok {| data := val e; error := null |}, s') →
  (filter (λ x, PointEntry.id x = id) (Store.point_entries (Store.tables s')) = [e]
   ∧ PointEntry.status e = (if flag then approved else rejected)
   ∧ PointEntry.approved_at e = val (Store.clock s)
   ∧ PointEntry.approved_by e = val approvedBy)
  ∧ ∀ flag2 approvedBy2 now2,
      permits policy
        (Store.UpdatePointEntry id (SupabaseDataService.approval flag2 now2 approvedBy2))
        (Store.set_clock now2 s') →
      ∃ s'',
        SupabaseDataService.approvePointEntry (Store.client policy uuid) Store.clock
          id flag2 approvedBy2 (Store.set_clock now2 s')
        = (Ok {| data := val (restamped e flag2 now2 approvedBy2); error := null |}, s'')
        ∧ filter (λ x, PointEntry.id x = id) (Store.point_entries (Store.tables s''))
          = [restamped e flag2 now2 approvedBy2].
Proof.
  rewrite approvePointEntry_unfold. cbv zeta. intros H.
  assert (∃ rows,
    Store.update_single PointEntry.id
      (Store.patch_point_entry
         (SupabaseDataService.approval flag (Store.clock s) approvedBy)) id
      (Store.point_entries (Store.tables s)) = Some (e, rows)
    ∧ s' = Store.set_tables (Store.set_point_entries rows) s) as (rows & Hu & ->).
  { destruct (policy _ s); try discriminate;
      destruct (Store.update_single _ _ _ _) as [[r rows]|]; try discriminate;
      injection H as <- <-; eauto. }
  clear H.
  apply update_single_Some in Hu as (r0 & Hr0 & -> & Hf); [| apply patch_point_entry_id].
  split.
  - split; [exact Hf|]. by destruct flag.
  - intros flag2 approvedBy2 now2 Hp.
    rewrite approvePointEntry_unfold. cbv zeta.
    change (Store.clock (Store.set_clock now2 _)) with now2.
    assert (policy (Store.UpdatePointEntry id
                      (SupabaseDataService.approval flag2 now2 approvedBy2))
                   (Store.set_clock now2
                      (Store.set_tables (Store.set_point_entries rows) s))
            = null
            ∨ policy (Store.UpdatePointEntry id
                      (SupabaseDataService.approval flag2 now2 approvedBy2))
                   (Store.set_clock now2
                      (Store.set_tables (Store.set_point_entries rows) s))
            = undefined) as Hpol.
    { destruct (policy _ _) as [| |v] eqn:E; [by left | by right | by destruct (Hp v)]. }
    simpl in Hf.
    eexists.
    destruct Hpol as [-> | ->];
      cbn [Store.tables Store.set_clock Store.set_tables Store.point_entries
           Store.set_point_entries];
      erewrite update_single_again by exact Hf;
      (split; [reflexivity|]);
      cbn [Store.tables Store.set_clock Store.set_tables Store.point_entries
           Store.set_point_entries];
      rewrite filter_patched by apply patch_point_entry_id;
      rewrite Hf; reflexivity.
Qed.

Lemma approvePointEntry_stamps_and_restamps_witness :
  ∃ e s',
    SupabaseDataService.approvePointEntry (Store.client Store.permissive pretty)
      Store.clock "e4" true "p1" household
    = (Ok {| data := val e; error := null |}, s')
    ∧ (filter (λ x, PointEntry.id x = "e4") (Store.point_entries (Store.tables s')) = [e]
       ∧ PointEntry.status e = approved
       ∧ PointEntry.approved_at e = val 50%Z
       ∧ PointEntry.approved_by e = val "p1")
    ∧ permits Store.permissive
        (Store.UpdatePointEntry "e4" (SupabaseDataService.approval false 60%Z "p1"))
        (Store.set_clock 60%Z s')
    ∧ ∃ s'',
        SupabaseDataService.approvePointEntry (Store.client Store.permissive pretty)
          Store.clock "e4" false "p1" (Store.set_clock 60%Z s')
        = (Ok {| data := val (restamped e false 60%Z "p1"); error := null |}, s'')
        ∧ filter (λ x, PointEntry.id x = "e4") (Store.point_entries (Store.tables s''))
          = [restamped e false 60%Z "p1"].
Proof.
  do 2 eexists. split; [vm_compute; reflexivity|].
  split.
  - refine (proj1 (approvePointEntry_stamps_and_restamps Store.permissive pretty
                     "e4" true "p1" household _ _ _)).
    vm_compute; reflexivity.
  - split; [apply permissive_permits|].
    refine (proj2 (approvePointEntry_stamps_and_restamps Store.permissive pretty
                     "e4" true "p1" household _ _ _) false "p1" 60%Z _).
    + vm_compute; reflexivity.
    + apply permissive_permits.
Defined.

(** ** Sessions *)

(** The embedded-backend [getSession] awaits its client outside any [try]:
    what the client rejects with, the call rejects with. *)
Lemma supabase_getSession_rejects {W} (supabase : Supabase.Client W) w e w' :
  Supabase.auth_getSession supabase w = (Throw e, w') →
  SupabaseAuthService.getSession supabase w = (Throw e, w').
Proof. intros H. unfold SupabaseAuthService.getSession, bind. by rewrite H. Qed.

(** When the client resolves, the call returns the session's user, or null. *)
Lemma supabase_getSession_resolves {W} (supabase : Supabase.Client W) w session w' :
  Supabase.auth_getSession supabase w = (Ok session, w') →
  SupabaseAuthService.getSession supabase w
  = (Ok {| user := match session with
                   | val s => match session_user s with val u => val u | _ => null end
                   | _ => null
                   end |}, w').
Proof.
  intros H. unfold SupabaseAuthService.getSession, bind. rewrite H.
  destruct session as [| |[[| |u]]]; reflexivity.
Qed.

(** C5.  With a client whose [auth.getSession()] rejects because the
    connection is lost, the embedded-backend [getSession] does not return
    [{user: null}]: it rejects with the same error. *)
Theorem supabase_getSession_propagates_rejection :
  SupabaseAuthService.getSession (unreachable_client connection_lost) tt
  = (Throw connection_lost, tt).
Proof. reflexivity. Qed.

(** ** Pending activities *)

Lemma pending_of_row_view d e :
  SupabaseDataService.pending_of_row (Store.pending_row d e) = pending_view d e.
Proof.
  unfold SupabaseDataService.pending_of_row, Store.pending_row, pending_view.
  cbn [PendingRow.id PendingRow.points PendingRow.created_at PendingRow.activities
       PendingRow.user_profiles].
  f_equal.
  - unfold Store.activity_of, referenced_activity.
    destruct (PointEntry.activity_id e) as [| |a]; try reflexivity.
    destruct (list_find _ _) as [[i x]|]; simpl; [apply js_or_string | reflexivity].
  - unfold Store.profile_of, referenced_kid.
    destruct (list_find _ _) as [[i x]|]; simpl; [apply js_or_string | reflexivity].
Qed.

Lemma newest_first_trans {R} (c : R → timestamp) : Transitive (Store.newest_first c).
Proof. intros x y z. unfold Store.newest_first. lia. Qed.

Lemma newest_first_total {R} (c : R → timestamp) : Total (Store.newest_first c).
Proof. intros x y. unfold Store.newest_first. lia. Qed.

(** C8, as stated, fails in the household in two ways.  Lee's pending entry
    refers to an activity that exists and whose name is the empty string; the
    claim gives the pending activity that name, [fetchPendingActivities]
    gives it "Unknown Activity".  And when the backend refuses the query, the
    pending entry of the family is not returned: the envelope has null data
    and the message of the refusal. *)
Lemma fetchPendingActivities_replaces_empty_name :
  let e4 := entry "e4" "k2" (val "a2") 7 pending 4%Z in
  Store.pending_of (Store.tables household) "f1" = [e4]
  ∧ referenced_activity (Store.tables household) e4 = Some (chore "a2" EmptyString 7)
  ∧ PendingActivity.activity_name (pending_per_spec (Store.tables household) e4)
    = EmptyString
  ∧ (SupabaseDataService.fetchPendingActivities (Store.client Store.permissive pretty)
       "f1" household).1
    = Ok {| list_data :=
              val [{| PendingActivity.id := "e4";
                      PendingActivity.activity_name := "Unknown Activity";
                      PendingActivity.kid_name := "Lee";
                      PendingActivity.points := 7;
                      PendingActivity.submitted_at := 4%Z |}];
            list_error := null; count := undefined |}
  ∧ (SupabaseDataService.fetchPendingActivities (Store.client Store.permissive pretty)
       "f1" household).1
    ≠ Ok {| list_data := val [pending_per_spec (Store.tables household) e4];
            list_error := null; count := undefined |}
  ∧ (SupabaseDataService.fetchPendingActivities (Store.client pending_closed pretty)
       "f1" household).1
    = Ok {| list_data := null;
            list_error := val "permission denied for table point_entries";
            count := undefined |}.
Proof. repeat split; try (vm_compute; reflexivity). vm_compute. discriminate. Qed.

(** C8, amended.  Whenever the backend answers the query,
    [fetchPendingActivities] returns, without an error, the pending entries of
    the family, each exactly once, newest first by the submission time that it
    hands out; [activity_name] and [kid_name] are the names of the referenced
    activity and of the entry's user, and "Unknown Activity" or "Unknown Kid"
    when the referenced row is missing or its name is the empty string. *)
Theorem fetchPendingActivities_pending_newest_first policy uuid familyId s :
  permits policy (Store.SelectPendingEntries familyId) s →
  ∃ entries,
    SupabaseDataService.fetchPendingActivities (Store.client policy uuid) familyId s
    = (Ok {| list_data := val (pending_view (Store.tables s) <$> entries);
             list_error := null; count := undefined |}, s)
    ∧ entries ≡ₚ filter (λ e, PointEntry.family_id e = familyId
                               ∧ PointEntry.status e = pending)
                        (Store.point_entries (Store.tables s))
    ∧ StronglySorted
        (λ a b, PendingActivity.submitted_at b ≤ PendingActivity.submitted_at a)%Z
        (pending_view (Store.tables s) <$> entries).
Proof.
  intros H.
  exists (Store.order_desc PointEntry.created_at (Store.pending_of (Store.tables s) familyId)).
  split; [| split].
  - unfold SupabaseDataService.fetchPendingActivities, try_catch, bind. simpl.
    unfold Store.read. rewrite guarded_permitted by done. simpl.
    unfold ret. do 4 f_equal. unfold Store.pending_entries.
    rewrite <- list_fmap_compose. apply list_fmap_ext. intros i e _.
    apply pending_of_row_view.
  - apply merge_sort_Permutation.
  - apply (StronglySorted_fmap _ (Store.newest_first PointEntry.created_at)); [done|].
    apply (@StronglySorted_merge_sort _ (Store.newest_first PointEntry.created_at) _
             (newest_first_trans _) (newest_first_total _)).
Qed.

Lemma fetchPendingActivities_pending_newest_first_witness :
  permits Store.permissive (Store.SelectPendingEntries "f1") household
  ∧ ∃ entries,
      SupabaseDataService.fetchPendingActivities (Store.client Store.permissive pretty)
        "f1" household
      = (Ok {| list_data := val (pending_view (Store.tables household) <$> entries);
               list_error := null; count := undefined |}, household)
      ∧ entries ≡ₚ filter (λ e, PointEntry.family_id e = "f1"
                                 ∧ PointEntry.status e = pending)
                          (Store.point_entries (Store.tables household))
      ∧ StronglySorted
          (λ a b, PendingActivity.submitted_at b ≤ PendingActivity.submitted_at a)%Z
          (pending_view (Store.tables household) <$> entries).
Proof.
  split; [apply permissive_permits|].
  apply (fetchPendingActivities_pending_newest_first Store.permissive pretty "f1" household).
  apply permissive_permits.
Defined.

(** ** The remote-HTTP services: requests *)

Lemma getItem_token {N} (w : Rest.World N) :
  Rest.localStorage_getItem "auth_token" w = (Ok (stored_token w), w).
Proof. reflexivity. Qed.

Lemma authorization_header url credential options :
  Rest.opt_headers options !! "Authorization" = None →
  Rest.headers (Rest.request_of url credential options) !! "Authorization"
  = Some ("Bearer " +:+ Rest.template credential).
Proof.
  intros H. simpl. unfold Rest.request_headers.
  rewrite lookup_union_r by exact H.
  rewrite lookup_insert_ne by done. by rewrite lookup_insert_eq.
Qed.

Section RestCalls.
Context {N : Type} (this : Rest.Instance).
Import Rest.

(** One call of [fetch] logs one request and touches nothing else. *)
Lemma call_fetch_requests {T} (fetch : Fetch N T) request (w : World N) :
  requests (call_fetch fetch request w).2 = requests w ++ [request]
  ∧ localStorage (call_fetch fetch request w).2 = localStorage w
  ∧ authStateCallbacks (call_fetch fetch request w).2 = authStateCallbacks w
  ∧ delivered (call_fetch fetch request w).2 = delivered w.
Proof. unfold call_fetch. by destruct (fetch request (network w)). Qed.



Lemma auth_apiCall_world {T} (fetch : Fetch N T) endpoint options (w : World N) :
  ∃ r, RestApiAuthService.apiCall this fetch endpoint options w
       = (Ok r, (call_fetch fetch
                   (request_of (baseUrl this +:+ endpoint) (val (apiKey this)) options)
                   w).2).
Proof.
  unfold RestApiAuthService.apiCall, try_catch, bind.
  destruct (call_fetch _ _ w) as [[response|e] w1]; simpl; [|eauto].
  unfold response_json. destruct (json response) as [result|e]; simpl; [|eauto].
  destruct (ok response); simpl; eauto.
Qed.

Lemma issued_one {A} (m : Async (World N) A) (w w' : World N) request :
  (m w).2 = w' → requests w' = requests w ++ [request] → issued m w = [request].
Proof. intros E H. unfold issued. rewrite E, H. apply drop_app_length. Qed.

Lemma issued_single {T} (m : Async (World N) (ApiResponse T)) w :
  issued (single m) w = issued m w.
Proof. unfold issued, single, bind. destruct (m w) as [[r|e] w1]; reflexivity. Qed.




Lemma auth_apiCall_issued {T} (fetch : Fetch N T) endpoint options (w : World N) :
  length (issued (RestApiAuthService.apiCall this fetch endpoint options) w) = 1.
Proof.
  destruct (auth_apiCall_world fetch endpoint options w) as [r E].
  erewrite issued_one; [reflexivity | by rewrite E | apply call_fetch_requests].
Qed.


Lemma signOut_issued (w : World N) : issued RestApiAuthService.signOut w = [].
Proof. unfold issued, RestApiAuthService.signOut, bind. simpl. apply drop_all. Qed.

Lemma getSession_without_token (fetch : Fetch N AuthUser.t) (w : World N) :
  js_truthy (stored_token w) = false →
  RestApiAuthService.getSession this fetch w = (Ok {| user := null |}, w)
  ∧ issued (RestApiAuthService.getSession this fetch) w = [].
Proof.
  intros H. unfold issued, RestApiAuthService.getSession, bind.
  rewrite getItem_token, H. simpl. split; [reflexivity | apply drop_all].
Qed.



(** The requests of the auth service carry the API key of the instance. *)
Lemma auth_apiCall_credential {T} (fetch : Fetch N T) endpoint options (w : World N) :
  opt_headers options !! "Authorization" = None →
  ∃ request,
    issued (RestApiAuthService.apiCall this fetch endpoint options) w = [request]
    ∧ headers request !! "Authorization" = Some ("Bearer " +:+ apiKey this).
Proof.
  intros H. destruct (auth_apiCall_world fetch endpoint options w) as [r E].
  eexists. split.
  - eapply issued_one; [by rewrite E | apply call_fetch_requests].
  - by apply authorization_header.
Qed.

(** What [signIn] and [signUp] do after their [apiCall]. *)
Lemma session_call_cases (fetch : Fetch N RestApiAuthService.AuthPayload)
    endpoint options event (w : World N) :
  let m :=
    result <- RestApiAuthService.apiCall this fetch endpoint options ;;
    match data result with
    | val d =>
        if truthy d then
          localStorage_setItem "auth_token" (RestApiAuthService.token d) ;;;
          RestApiAuthService.notifyAuthStateChange event
            (val {| user := val (RestApiAuthService.payload_user d) |}) ;;;
          ret {| data := val (RestApiAuthService.payload_user d); error := null |}
        else ret {| data := null; error := error result |}
    | _ => ret {| data := null; error := error result |}
    end in
  ∃ r w1,
    RestApiAuthService.apiCall this fetch endpoint options w = (Ok r, w1)
    ∧ localStorage w1 = localStorage w
    ∧ authStateCallbacks w1 = authStateCallbacks w
    ∧ delivered w1 = delivered w
    ∧ length (requests w1) = S (length (requests w))
    ∧ ((js_truthy (data r) = false
        ∧ m w = (Ok {| data := null; error := error r |}, w1))
       ∨ (∃ d w2,
            data r = val d
            ∧ m w = (Ok {| data := val (RestApiAuthService.payload_user d);
                           error := null |}, w2)
            ∧ localStorage w2
              = <["auth_token" := RestApiAuthService.token d]> (localStorage w)
            ∧ authStateCallbacks w2 = authStateCallbacks w
            ∧ requests w2 = requests w1
            ∧ delivered w2
              = delivered w ++
                ((λ c, {| listener := c; event := event;
                          session :=
                            val {| user := val (RestApiAuthService.payload_user d) |} |})
                   <$> authStateCallbacks w))).
Proof.
  intros m. destruct (auth_apiCall_world fetch endpoint options w) as [r E].
  destruct (call_fetch_requests fetch
              (request_of (baseUrl this +:+ endpoint) (val (apiKey this)) options) w)
    as (Hr & Hl & Hc & Hd).
  set (w1 := (call_fetch fetch _ w).2) in *.
  exists r, w1. split; [exact E|]. split; [exact Hl|]. split; [exact Hc|].
  split; [exact Hd|]. split; [rewrite Hr, length_app; simpl; lia|].
  subst m. unfold bind. rewrite E.
  destruct (data r) as [| |d] eqn:Ed; [left; by split | left; by split |].
  right. exists d. eexists. split; [reflexivity|].
  simpl. split; [reflexivity|]. simpl. rewrite Hl, Hc, Hd. done.
Qed.



End RestCalls.

(** ** Sign-in over HTTP *)

(** C10.  Take the envelope that the sign-in request of [signIn] comes back
    with.  When its data is not a session (the response was not ok, the
    transport or the parsing failed, or the body had no data), [signIn] returns
    null data with that envelope's error, the stored token is what it was and
    no listener is called.  Whenever [signIn] changes the storage or calls a
    listener, the request had yielded a user and a token: the token is stored,
    every registered listener receives one "SIGNED_IN" event with that user,
    and the user is returned without an error. *)
Theorem signIn_failure_leaves_session
    {N} (this : Rest.Instance) (fetch : Rest.Fetch N RestApiAuthService.AuthPayload)
    email password (w : Rest.World N) r w1 :
  RestApiAuthService.apiCall this fetch "/auth/signin" (signin_options email password) w
  = (Ok r, w1) →
  (js_truthy (data r) = false →
     RestApiAuthService.signIn this fetch email password w
     = (Ok {| data := null; error := error r |}, w1)
     ∧ Rest.localStorage w1 = Rest.localStorage w
     ∧ Rest.authStateCallbacks w1 = Rest.authStateCallbacks w
     ∧ fired (RestApiAuthService.signIn this fetch email password) w = [])
  ∧ (∀ e w',
       RestApiAuthService.signIn this fetch email password w = (Ok e, w') →
       Rest.localStorage w' ≠ Rest.localStorage w
       ∨ fired (RestApiAuthService.signIn this fetch email password) w ≠ [] →
       ∃ d, data r = val d
            ∧ e = {| data := val (RestApiAuthService.payload_user d); error := null |}
            ∧ Rest.localStorage w'
              = <["auth_token" := RestApiAuthService.token d]> (Rest.localStorage w)
            ∧ fired (RestApiAuthService.signIn this fetch email password) w
              = signed_in (RestApiAuthService.payload_user d)
                  <$> Rest.authStateCallbacks w).
Proof.
  intros E.
  destruct (session_call_cases this fetch "/auth/signin"
              (signin_options email password) "SIGNED_IN" w)
    as (r' & w1' & E' & Hl & Hc & Hd & _ & Hcases).
  rewrite E in E'. injection E' as <- <-.
  change (bind (RestApiAuthService.apiCall this fetch "/auth/signin"
                  (signin_options email password)) _ w)
    with (RestApiAuthService.signIn this fetch email password w) in Hcases.
  destruct Hcases as [[Hf Es] | (d & w2 & Ed & Es & Hl2 & _ & _ & Hd2)].
  - assert (fired (RestApiAuthService.signIn this fetch email password) w = []) as Hfired.
    { unfold fired. rewrite Es. simpl. rewrite Hd. apply drop_all. }
    split; [intros _; by repeat split|].
    intros e w' Es' [Hne | Hne]; [| by destruct Hne].
    rewrite Es in Es'. injection Es' as <- <-. by destruct Hne.
  - assert (fired (RestApiAuthService.signIn this fetch email password) w
            = signed_in (RestApiAuthService.payload_user d)
                <$> Rest.authStateCallbacks w) as Hfired.
    { unfold fired. rewrite Es. simpl. rewrite Hd2. apply drop_app_length. }
    split; [intros Hf; rewrite Ed in Hf; discriminate|].
    intros e w' Es' _. rewrite Es in Es'. injection Es' as <- <-.
    exists d. by repeat split.
Qed.

Lemma signIn_failure_leaves_session_witness :
  let w := browser {["auth_token" := "t0"]} [3; 5] in
  (∃ r w1,
     RestApiAuthService.apiCall api unreachable "/auth/signin"
       (signin_options "pat@example.org" "wrong") w = (Ok r, w1)
     ∧ js_truthy (data r) = false
     ∧ RestApiAuthService.signIn api unreachable "pat@example.org" "wrong" w
       = (Ok {| data := null; error := val "Failed to fetch" |}, w1)
     ∧ Rest.localStorage w1 = {["auth_token" := "t0"]}
     ∧ Rest.authStateCallbacks w1 = [3; 5]
     ∧ fired (RestApiAuthService.signIn api unreachable "pat@example.org" "wrong") w = [])
  ∧ (∃ r w1 e w',
       let fetch := granting {| RestApiAuthService.payload_user := pat;
                                 RestApiAuthService.token := "t1" |} in
       RestApiAuthService.apiCall api fetch "/auth/signin"
         (signin_options "pat@example.org" "secret") w = (Ok r, w1)
       ∧ RestApiAuthService.signIn api fetch "pat@example.org" "secret" w = (Ok e, w')
       ∧ Rest.localStorage w' ≠ Rest.localStorage w
       ∧ ∃ d, data r = val d
              ∧ e = {| data := val (RestApiAuthService.payload_user d); error := null |}
              ∧ Rest.localStorage w'
                = <["auth_token" := RestApiAuthService.token d]> (Rest.localStorage w)
              ∧ fired (RestApiAuthService.signIn api fetch "pat@example.org" "secret") w
                = signed_in (RestApiAuthService.payload_user d)
                    <$> Rest.authStateCallbacks w).
Proof.
  intros w. split.
  - do 2 eexists. split; [reflexivity|]. split; [reflexivity|].
    refine (proj1 (signIn_failure_leaves_session api unreachable
                     "pat@example.org" "wrong" w _ _ eq_refl) eq_refl).
  - do 4 eexists. intros fetch. split; [reflexivity|]. split; [reflexivity|].
    assert (Rest.localStorage
              (RestApiAuthService.signIn api fetch "pat@example.org" "secret" w).2
            ≠ Rest.localStorage w) as Hne.
    { intros H. apply (f_equal (λ m, m !! "auth_token")) in H. vm_compute in H.
      discriminate. }
    split; [exact Hne|].
    refine (proj2 (signIn_failure_leaves_session api fetch
                     "pat@example.org" "secret" w _ _ eq_refl) _ _ eq_refl
              (or_introl Hne)).
Defined.

(** ** Auth-state listeners *)

Section Listeners.
Import Rest RestApiAuthService.

Lemma indexOf_cases (l : list Callback) cb :
  (indexOf l cb = (-1)%Z ∧ (cb ∉ l))
  ∨ (∃ l1 l2, l = l1 ++ cb :: l2 ∧ (cb ∉ l1) ∧ indexOf l cb = Z.of_nat (length l1)).
Proof.
  induction l as [|c l IH]; simpl.
  - left. split; [reflexivity | apply not_elem_of_nil].
  - destruct (decide (c = cb)) as [->|Hne].
    + right. exists [], l. repeat split. apply not_elem_of_nil.
    + destruct IH as [[E Hn] | (l1 & l2 & -> & Hn & E)].
      * left. rewrite E. simpl. split; [reflexivity|].
        apply not_elem_of_cons. split; [congruence | exact Hn].
      * right. exists (c :: l1), l2. rewrite E.
        destruct (decide (Z.of_nat (length l1) = -1)%Z) as [?|_]; [lia|].
        repeat split.
        -- apply not_elem_of_cons. split; [congruence | exact Hn].
        -- simpl length. lia.
Qed.

Lemma splice1_middle (l1 l2 : list Callback) cb :
  splice1 (Z.of_nat (length l1)) (l1 ++ cb :: l2) = l1 ++ l2.
Proof.
  unfold splice1. rewrite Nat2Z.id.
  rewrite take_app_length.
  rewrite drop_app_ge by lia.
  replace (S (length l1) - length l1) with 1 by lia. reflexivity.
Qed.

(** [unsubscribe] removes the first registration of its callback. *)
Lemma unsubscribe_callbacks {N} (h : Handle) (w : World N) :
  ((registered h ∉ authStateCallbacks w) ∧ unsubscribe h w = w)
  ∨ (∃ l1 l2, authStateCallbacks w = l1 ++ registered h :: l2
              ∧ (registered h ∉ l1)
              ∧ unsubscribe h w = set_callbacks (l1 ++ l2) w).
Proof.
  unfold unsubscribe.
  destruct (indexOf_cases (authStateCallbacks w) (registered h))
    as [[E Hn] | (l1 & l2 & El & Hn & E)]; rewrite E.
  - left. split; [exact Hn|]. destruct (decide (-1 > -1)%Z); [lia | reflexivity].
  - right. exists l1, l2. repeat split; [exact El | exact Hn |].
    destruct (decide (Z.of_nat (length l1) > -1)%Z); [|lia].
    rewrite El at 1. by rewrite splice1_middle.
Qed.

End Listeners.

(** ** The service factory *)

Section Factory.
Import ServiceFactory.

Lemma getAuthService_cached w o :
  authService (this w) = val o → getAuthService w = (Ok (val o), w).
Proof.
  intros H. unfold getAuthService, bind, get_world. rewrite H. simpl. by rewrite H.
Qed.

Lemma getDataService_cached w o :
  dataService (this w) = val o → getDataService w = (Ok (val o), w).
Proof.
  intros H. unfold getDataService, bind, get_world. rewrite H. simpl. by rewrite H.
Qed.

Ltac configuration_cases w finish :=
  destruct (decide (ServiceConfig.type (config (this w)) = "supabase"));
    [ unfold createSupabaseClient, bind, get_world;
      destruct (env_get (env w) "NEXT_PUBLIC_SUPABASE_URL") as [| |url]; simpl;
        try finish;
      destruct (env_get (env w) "NEXT_PUBLIC_SUPABASE_ANON_KEY") as [| |key]; simpl;
        try finish;
      destruct (_ || _); simpl; try finish
    | destruct (decide (ServiceConfig.type (config (this w)) = "rest-api"));
      [ destruct (ServiceConfig.baseUrl (config (this w))) as [| |b]; simpl;
          try finish;
        destruct (ServiceConfig.apiKey (config (this w))) as [| |k]; simpl;
          try finish;
        destruct (_ || _); simpl; try finish
      | simpl; try finish ] ].

(** A getter that returns has the returned object in its cache; it is the
    object that was cached, or one allocated by this call. *)
Lemma getAuthService_returns w s w1 :
  getAuthService w = (Ok s, w1) →
  ∃ o, s = val o ∧ authService (this w1) = val o
       ∧ dataService (this w1) = dataService (this w)
       ∧ ((authService (this w) = val o ∧ w1 = w)
          ∨ (js_truthy (authService (this w)) = false
             ∧ address o = next_address w
             ∧ next_address w1 = S (next_address w))).
Proof.
  unfold getAuthService, bind, get_world.
  destruct (authService (this w)) as [| |o] eqn:E; simpl.
  3: { intros [= <- <-]. exists o. rewrite E. repeat split. left. by split. }
  all: configuration_cases w discriminate.
  all: intros [= <- <-]; eexists; simpl; repeat split; right; by repeat split.
Qed.

Lemma getDataService_returns w s w1 :
  getDataService w = (Ok s, w1) →
  ∃ o, s = val o ∧ dataService (this w1) = val o
       ∧ authService (this w1) = authService (this w)
       ∧ ((dataService (this w) = val o ∧ w1 = w)
          ∨ (js_truthy (dataService (this w)) = false
             ∧ address o = next_address w
             ∧ next_address w1 = S (next_address w))).
Proof.
  unfold getDataService, bind, get_world.
  destruct (dataService (this w)) as [| |o] eqn:E; simpl.
  3: { intros [= <- <-]. exists o. rewrite E. repeat split. left. by split. }
  all: configuration_cases w discriminate.
  all: intros [= <- <-]; eexists; simpl; repeat split; right; by repeat split.
Qed.

(** A getter that throws leaves the factory as it was. *)
Lemma getAuthService_throws w e w1 : getAuthService w = (Throw e, w1) → w1 = w.
Proof.
  unfold getAuthService, bind, get_world.
  destruct (authService (this w)) as [| |o] eqn:E; simpl; try discriminate.
  all: configuration_cases w ltac:(by intros [= _ <-]).
  all: discriminate.
Qed.

Lemma getDataService_throws w e w1 : getDataService w = (Throw e, w1) → w1 = w.
Proof.
  unfold getDataService, bind, get_world.
  destruct (dataService (this w)) as [| |o] eqn:E; simpl; try discriminate.
  all: configuration_cases w ltac:(by intros [= _ <-]).
  all: discriminate.
Qed.

Lemma createSupabaseClient_configured w u k :
  env_get (env w) "NEXT_PUBLIC_SUPABASE_URL" = val u →
  env_get (env w) "NEXT_PUBLIC_SUPABASE_ANON_KEY" = val k →
  u ≠ EmptyString → u ≠ "your-supabase-url-here" →
  k ≠ EmptyString → k ≠ "your-supabase-anon-key-here" →
  createSupabaseClient w = (Ok {| supabaseUrl := u; supabaseAnonKey := k |}, w).
Proof.
  intros Eu Ek Hu Hu' Hk Hk'. unfold createSupabaseClient, bind, get_world.
  rewrite Eu, Ek, !truthy_nonempty by done. simpl.
  rewrite !bool_decide_eq_false_2 by done. reflexivity.
Qed.

(** The first call of a getter on a configured factory creates the service. *)
Lemma getAuthService_rest_api w b k :
  js_truthy (authService (this w)) = false →
  ServiceConfig.type (config (this w)) = "rest-api" →
  ServiceConfig.baseUrl (config (this w)) = val b →
  ServiceConfig.apiKey (config (this w)) = val k →
  b ≠ EmptyString → k ≠ EmptyString →
  let o := {| address := next_address w; fields := NewRestApiAuthService b k |} in
  getAuthService w = (Ok (val o), caching_auth o w).
Proof.
  intros Ha Ht Eb Ek Hb Hk o. unfold getAuthService, bind, get_world.
  rewrite Ha, Ht, Eb, Ek. simpl. by rewrite !truthy_nonempty.
Qed.

Lemma getDataService_rest_api w b k :
  js_truthy (dataService (this w)) = false →
  ServiceConfig.type (config (this w)) = "rest-api" →
  ServiceConfig.baseUrl (config (this w)) = val b →
  ServiceConfig.apiKey (config (this w)) = val k →
  b ≠ EmptyString → k ≠ EmptyString →
  let o := {| address := next_address w; fields := NewRestApiDataService b k |} in
  getDataService w = (Ok (val o), caching_data o w).
Proof.
  intros Ha Ht Eb Ek Hb Hk o. unfold getDataService, bind, get_world.
  rewrite Ha, Ht, Eb, Ek. simpl. by rewrite !truthy_nonempty.
Qed.

Lemma getAuthService_supabase w u k :
  js_truthy (authService (this w)) = false →
  ServiceConfig.type (config (this w)) = "supabase" →
  env_get (env w) "NEXT_PUBLIC_SUPABASE_URL" = val u →
  env_get (env w) "NEXT_PUBLIC_SUPABASE_ANON_KEY" = val k →
  u ≠ EmptyString → u ≠ "your-supabase-url-here" →
  k ≠ EmptyString → k ≠ "your-supabase-anon-key-here" →
  let o := {| address := next_address w;
              fields := NewSupabaseAuthService {| supabaseUrl := u; supabaseAnonKey := k |} |} in
  getAuthService w = (Ok (val o), caching_auth o w).
Proof.
  intros Ha Ht Eu Ek Hu Hu' Hk Hk' o. unfold getAuthService, bind, get_world.
  rewrite Ha, Ht. simpl.
  by rewrite (createSupabaseClient_configured w u k Eu Ek Hu Hu' Hk Hk').
Qed.

Lemma getDataService_supabase w u k :
  js_truthy (dataService (this w)) = false →
  ServiceConfig.type (config (this w)) = "supabase" →
  env_get (env w) "NEXT_PUBLIC_SUPABASE_URL" = val u →
  env_get (env w) "NEXT_PUBLIC_SUPABASE_ANON_KEY" = val k →
  u ≠ EmptyString → u ≠ "your-supabase-url-here" →
  k ≠ EmptyString → k ≠ "your-supabase-anon-key-here" →
  let o := {| address := next_address w;
              fields := NewSupabaseDataService {| supabaseUrl := u; supabaseAnonKey := k |} |} in
  getDataService w = (Ok (val o), caching_data o w).
Proof.
  intros Ha Ht Eu Ek Hu Hu' Hk Hk' o. unfold getDataService, bind, get_world.
  rewrite Ha, Ht. simpl.
  by rewrite (createSupabaseClient_configured w u k Eu Ek Hu Hu' Hk Hk').
Qed.

Lemma use_keeps_services u w :
  (∀ o, authService (this w) = val o → authService (this (use u w)) = val o)
  ∧ (∀ o, dataService (this w) = val o → dataService (this (use u w)) = val o).
Proof.
  destruct u; simpl.
  - destruct (getAuthService w) as [[s|e] w1] eqn:E; simpl.
    + apply getAuthService_returns in E as (o & -> & Ha & Hd & [[Ho ->] | (Hf & _)]).
      * done.
      * split; [intros o' Ho'; rewrite Ho' in Hf; discriminate | intros o'; by rewrite Hd].
    + apply getAuthService_throws in E as ->. done.
  - destruct (getDataService w) as [[s|e] w1] eqn:E; simpl.
    + apply getDataService_returns in E as (o & -> & Hd & Ha & [[Ho ->] | (Hf & _)]).
      * done.
      * split; [intros o'; by rewrite Ha | intros o' Ho'; rewrite Ho' in Hf; discriminate].
    + apply getDataService_throws in E as ->. done.
  - done.
Qed.

Lemma after_keeps_services uses w :
  (∀ o, authService (this w) = val o → authService (this (after uses w)) = val o)
  ∧ (∀ o, dataService (this w) = val o → dataService (this (after uses w)) = val o).
Proof.
  revert w. induction uses as [|u uses IH]; intros w; [done|].
  simpl. destruct (use_keeps_services u w) as [Ha Hd].
  destruct (IH (use u w)) as [Ha' Hd']. split; eauto.
Qed.

Lemma reset_constructed w : reset w = (Ok tt, constructed (env w) (next_address w)).
Proof. reflexivity. Qed.

Lemma unsupported_type env next :
  let type := ServiceConfig.type (getServiceConfig env) in
  type ≠ "supabase" → type ≠ "rest-api" →
  getAuthService (constructed env next) = (Throw (unsupported type), constructed env next)
  ∧ getDataService (constructed env next) = (Throw (unsupported type), constructed env next).
Proof.
  intros type H1 H2. unfold getAuthService, getDataService, bind, get_world. simpl.
  change (js_or (env_get env "NEXT_PUBLIC_SERVICE_TYPE") "supabase") with type.
  destruct (decide (type = "supabase")) as [E|_]; [by destruct (H1 E)|].
  destruct (decide (type = "rest-api")) as [E|_]; [by destruct (H2 E)|]. by split.
Qed.

Lemma rest_api_unconfigured env next :
  let c := getServiceConfig env in
  ServiceConfig.type c = "rest-api" →
  js_truthy (ServiceConfig.baseUrl c) = false ∨ js_truthy (ServiceConfig.apiKey c) = false →
  getAuthService (constructed env next)
  = (Throw rest_configuration_missing, constructed env next)
  ∧ getDataService (constructed env next)
    = (Throw rest_configuration_missing, constructed env next).
Proof.
  intros c Ht Hmissing. subst c. simpl in Ht, Hmissing.
  unfold getAuthService, getDataService, bind, get_world. simpl.
  rewrite Ht. simpl.
  destruct (env_get env "NEXT_PUBLIC_API_BASE_URL") as [| |b]; try by split.
  destruct (env_get env "NEXT_PUBLIC_API_KEY") as [| |k]; try by split.
  simpl in Hmissing.
  destruct Hmissing as [-> | ->]; simpl; rewrite ?orb_true_r; by split.
Qed.
End Factory.

(** C9, as stated, fails for what [reset()] leaves to the next getter call:
    the factory below is constructed and reset while the environment names
    the server at example.org; then the environment changes to the server at
    example.net.  A getter that read the configuration anew would create a
    service for example.net; [getAuthService()] creates one for example.org,
    the configuration that [reset()] read. *)
Lemma getter_after_reset_keeps_the_configuration_of_reset :
  let w1 := (ServiceFactory.getAuthService (constructed rest_env 0)).2 in
  let w2 := use (ChangeEnv moved_env) (ServiceFactory.reset w1).2 in
  ServiceFactory.authService (ServiceFactory.this w2) = null
  ∧ ServiceFactory.dataService (ServiceFactory.this w2) = null
  ∧ ServiceFactory.getServiceConfig (ServiceFactory.env w2)
    = {| ServiceConfig.type := "rest-api";
         ServiceConfig.baseUrl := val "https://api.example.net";
         ServiceConfig.apiKey := val "key-2" |}
  ∧ (ServiceFactory.getAuthService w2).1
    = Ok (val {| ServiceFactory.address := 1;
                 ServiceFactory.fields :=
                   ServiceFactory.NewRestApiAuthService "https://api.example.org" "key-1" |})
  ∧ (ServiceFactory.getAuthService w2).1
    ≠ Ok (val {| ServiceFactory.address := 1;
                 ServiceFactory.fields :=
                   ServiceFactory.NewRestApiAuthService "https://api.example.net" "key-2" |}).
Proof. repeat split; try (vm_compute; reflexivity). vm_compute. discriminate. Qed.

(** C9, amended.  A getter of the factory that has returned an instance
    returns that same instance, and leaves the factory unchanged, on every
    later call, whatever getters are called and however the environment
    changes in between.  On a factory with the remote-HTTP type, a base URL and
    an API key, and on one with the embedded-backend type when the getter finds
    the URL and the key of the backend, the first call of each getter returns
    a new instance for those values.  A factory constructed with an
    unsupported service type, or with the remote-HTTP type and without a base
    URL or without an API key, exists, and both of its getters throw the
    configuration error when called.  [reset()] empties both caches and reads
    the configuration itself: it leaves the factory as one newly constructed
    in the environment of the reset, so that the next getter call creates a
    new instance, which is not the one cached before, from the service type,
    base URL and API key that [reset()] read, however the environment has
    changed since. *)
Theorem factory_caches_until_reset (w : ServiceFactory.World) :
  (∀ s w1, ServiceFactory.getAuthService w = (Ok s, w1) →
     ∃ o, s = val o
          ∧ ∀ uses, ServiceFactory.getAuthService (after uses w1)
                    = (Ok (val o), after uses w1))
  ∧ (∀ s w1, ServiceFactory.getDataService w = (Ok s, w1) →
       ∃ o, s = val o
            ∧ ∀ uses, ServiceFactory.getDataService (after uses w1)
                      = (Ok (val o), after uses w1))
  ∧ (∀ env next env' b k,
       let c := ServiceFactory.getServiceConfig env in
       let f := use (ChangeEnv env') (constructed env next) in
       ServiceConfig.type c = "rest-api" →
       ServiceConfig.baseUrl c = val b → ServiceConfig.apiKey c = val k →
       b ≠ EmptyString → k ≠ EmptyString →
       let a := {| ServiceFactory.address := next;
                   ServiceFactory.fields := ServiceFactory.NewRestApiAuthService b k |} in
       let d := {| ServiceFactory.address := next;
                   ServiceFactory.fields := ServiceFactory.NewRestApiDataService b k |} in
       ServiceFactory.getAuthService f = (Ok (val a), caching_auth a f)
       ∧ ServiceFactory.getDataService f = (Ok (val d), caching_data d f))
  ∧ (∀ env next env' u k,
       let f := use (ChangeEnv env') (constructed env next) in
       ServiceConfig.type (ServiceFactory.getServiceConfig env) = "supabase" →
       ServiceFactory.env_get env' "NEXT_PUBLIC_SUPABASE_URL" = val u →
       ServiceFactory.env_get env' "NEXT_PUBLIC_SUPABASE_ANON_KEY" = val k →
       u ≠ EmptyString → u ≠ "your-supabase-url-here" →
       k ≠ EmptyString → k ≠ "your-supabase-anon-key-here" →
       let client := {| ServiceFactory.supabaseUrl := u;
                        ServiceFactory.supabaseAnonKey := k |} in
       let a := {| ServiceFactory.address := next;
                   ServiceFactory.fields := ServiceFactory.NewSupabaseAuthService client |} in
       let d := {| ServiceFactory.address := next;
                   ServiceFactory.fields := ServiceFactory.NewSupabaseDataService client |} in
       ServiceFactory.getAuthService f = (Ok (val a), caching_auth a f)
       ∧ ServiceFactory.getDataService f = (Ok (val d), caching_data d f))
  ∧ (∀ env next,
       let type := ServiceConfig.type (ServiceFactory.getServiceConfig env) in
       type ≠ "supabase" → type ≠ "rest-api" →
       ServiceFactory.getAuthService (constructed env next)
       = (Throw (unsupported type), constructed env next)
       ∧ ServiceFactory.getDataService (constructed env next)
         = (Throw (unsupported type), constructed env next))
  ∧ (∀ env next,
       let c := ServiceFactory.getServiceConfig env in
       ServiceConfig.type c = "rest-api" →
       js_truthy (ServiceConfig.baseUrl c) = false
       ∨ js_truthy (ServiceConfig.apiKey c) = false →
       ServiceFactory.getAuthService (constructed env next)
       = (Throw rest_configuration_missing, constructed env next)
       ∧ ServiceFactory.getDataService (constructed env next)
         = (Throw rest_configuration_missing, constructed env next))
  ∧ ServiceFactory.reset w
    = (Ok tt, constructed (ServiceFactory.env w) (ServiceFactory.next_address w))
  ∧ (allocated w →
     ∀ env',
       let f := use (ChangeEnv env') (ServiceFactory.reset w).2 in
       (∀ s w1, ServiceFactory.getAuthService f = (Ok s, w1) →
          ∃ o, s = val o
               ∧ ServiceFactory.address o = ServiceFactory.next_address w
               ∧ ∀ old, ServiceFactory.authService (ServiceFactory.this w) = val old →
                        ServiceFactory.address o ≠ ServiceFactory.address old)
       ∧ (∀ s w1, ServiceFactory.getDataService f = (Ok s, w1) →
            ∃ o, s = val o
                 ∧ ServiceFactory.address o = ServiceFactory.next_address w
                 ∧ ∀ old, ServiceFactory.dataService (ServiceFactory.this w) = val old →
                          ServiceFactory.address o ≠ ServiceFactory.address old)).
Proof.
  split; [| split; [| split; [| split; [| split; [| split; [| split]]]]]].
  - intros s w1 E. apply getAuthService_returns in E as (o & -> & Ha & _).
    exists o. split; [reflexivity|]. intros uses.
    apply getAuthService_cached. by apply after_keeps_services.
  - intros s w1 E. apply getDataService_returns in E as (o & -> & Hd & _).
    exists o. split; [reflexivity|]. intros uses.
    apply getDataService_cached. by apply after_keeps_services.
  - intros env next env' b k c f Ht Eb Ek Hb Hk a d. split.
    + by apply (getAuthService_rest_api f b k).
    + by apply (getDataService_rest_api f b k).
  - intros env next env' u k f Ht Eu Ek Hu Hu' Hk Hk' client a d. split.
    + by apply (getAuthService_supabase f u k).
    + by apply (getDataService_supabase f u k).
  - apply unsupported_type.
  - apply rest_api_unconfigured.
  - apply reset_constructed.
  - intros [Ha Hd] env' f. subst f. rewrite reset_constructed. simpl. split.
    + intros s w1 E.
      apply getAuthService_returns in E as (o & -> & _ & _ & [[E _] | (_ & Hn & _)]);
        [discriminate|].
      exists o. simpl in Hn. repeat split; [exact Hn|].
      intros old Hold. specialize (Ha old Hold). lia.
    + intros s w1 E.
      apply getDataService_returns in E as (o & -> & _ & _ & [[E _] | (_ & Hn & _)]);
        [discriminate|].
      exists o. simpl in Hn. repeat split; [exact Hn|].
      intros old Hold. specialize (Hd old Hold). lia.
Qed.

Lemma factory_caches_until_reset_witness :
  let w := constructed rest_env 0 in
  let w1 := (ServiceFactory.getAuthService w).2 in
  let uses := [UseDataService; ChangeEnv firebase_env; UseAuthService] in
  let backend := {| ServiceFactory.supabaseUrl := "https://family.supabase.co";
                    ServiceFactory.supabaseAnonKey := "anon-1" |} in
  ServiceFactory.getAuthService w = (Ok (val first_auth_service), w1)
  ∧ ServiceFactory.getAuthService (after uses w1)
    = (Ok (val first_auth_service), after uses w1)
  ∧ (ServiceFactory.getDataService w).1
    = Ok (val {| ServiceFactory.address := 0;
                 ServiceFactory.fields :=
                   ServiceFactory.NewRestApiDataService "https://api.example.org" "key-1" |})
  ∧ (ServiceFactory.getAuthService (constructed supabase_env 0)).1
    = Ok (val {| ServiceFactory.address := 0;
                 ServiceFactory.fields := ServiceFactory.NewSupabaseAuthService backend |})
  ∧ (ServiceFactory.getDataService (constructed supabase_env 0)).1
    = Ok (val {| ServiceFactory.address := 0;
                 ServiceFactory.fields := ServiceFactory.NewSupabaseDataService backend |})
  ∧ (ServiceConfig.type (ServiceFactory.getServiceConfig firebase_env) ≠ "supabase"
     ∧ ServiceConfig.type (ServiceFactory.getServiceConfig firebase_env) ≠ "rest-api"
     ∧ ServiceFactory.getAuthService (constructed firebase_env 0)
       = (Throw (unsupported "firebase"), constructed firebase_env 0))
  ∧ (ServiceConfig.type (ServiceFactory.getServiceConfig keyless_env) = "rest-api"
     ∧ js_truthy (ServiceConfig.apiKey (ServiceFactory.getServiceConfig keyless_env))
       = false
     ∧ ServiceFactory.getDataService (constructed keyless_env 0)
       = (Throw rest_configuration_missing, constructed keyless_env 0))
  ∧ allocated w1
  ∧ ∃ o w2,
      ServiceFactory.getAuthService
        (use (ChangeEnv moved_env) (ServiceFactory.reset w1).2) = (Ok (val o), w2)
      ∧ ServiceFactory.address o = 1
      ∧ ServiceFactory.address o ≠ ServiceFactory.address first_auth_service.
Proof.
  intros w w1 uses backend.
  assert (ServiceFactory.getAuthService w = (Ok (val first_auth_service), w1)) as E
    by reflexivity.
  assert (allocated w1) as Hw1.
  { split; intros o Ho; vm_compute in Ho; [injection Ho as <-; vm_compute; lia | discriminate]. }
  assert (ServiceConfig.type (ServiceFactory.getServiceConfig firebase_env) ≠ "supabase")
    as F1 by (vm_compute; discriminate).
  assert (ServiceConfig.type (ServiceFactory.getServiceConfig firebase_env) ≠ "rest-api")
    as F2 by (vm_compute; discriminate).
  pose proof (factory_caches_until_reset w)
    as (Hauth & _ & Hrest & Hsupabase & Hunsupported & Hmissing & _ & _).
  split; [exact E|].
  split.
  { destruct (Hauth _ _ E) as (o & Eo & Huses). injection Eo as <-. exact (Huses uses). }
  split.
  { destruct (Hrest rest_env 0 rest_env "https://api.example.org" "key-1"
                eq_refl eq_refl eq_refl ltac:(discriminate) ltac:(discriminate))
      as [_ Ed].
    change (use (ChangeEnv rest_env) (constructed rest_env 0)) with w in Ed.
    by rewrite Ed. }
  destruct (Hsupabase supabase_env 0 supabase_env "https://family.supabase.co" "anon-1"
              eq_refl eq_refl eq_refl ltac:(discriminate) ltac:(discriminate)
              ltac:(discriminate) ltac:(discriminate)) as [Ea Ed].
  change (use (ChangeEnv supabase_env) (constructed supabase_env 0))
    with (constructed supabase_env 0) in Ea, Ed.
  split; [by rewrite Ea|]. split; [by rewrite Ed|].
  split.
  { split; [exact F1|]. split; [exact F2|].
    exact (proj1 (Hunsupported firebase_env 0 F1 F2)). }
  split.
  { split; [reflexivity|]. split; [reflexivity|].
    exact (proj2 (Hmissing keyless_env 0 eq_refl (or_intror eq_refl))). }
  split; [exact Hw1|].
  destruct (ServiceFactory.getAuthService
              (use (ChangeEnv moved_env) (ServiceFactory.reset w1).2))
    as [[s|e] w2] eqn:E2; [| vm_compute in E2; discriminate].
  destruct (proj1 (proj2 (proj2 (proj2 (proj2 (proj2 (proj2 (proj2
              (factory_caches_until_reset w1))))))) Hw1 moved_env) s w2 E2)
    as (o & -> & Ha & Hold).
  exists o, w2. split; [reflexivity|]. split; [exact Ha|].
  apply Hold. reflexivity.
Defined.

(** * The remote-HTTP services on the values of the platform *)

(** ** Auth-state listeners *)

Section RuntimeListeners.
Import Runtime Runtime.RestApiAuthService.
Context {N : Type} (listeners : Listeners N).

Lemma indexOf_fresh (l l2 : list Callback) cb :
  cb ∉ l → indexOf (l ++ cb :: l2) cb = Z.of_nat (length l).
Proof.
  unfold indexOf. induction l as [|c l IH]; intros Hn; simpl.
  - by destruct (decide (cb = cb)).
  - apply not_elem_of_cons in Hn as [Hne Hn].
    destruct (decide (c = cb)) as [->|_]; [done|].
    rewrite (IH Hn). destruct (decide (Z.of_nat (length l) = -1)%Z); lia.
Qed.

(** [unsubscribe] removes the first registration of its callback. *)
Lemma remove_callbacks (h : Handle) (p : Page N) :
  ((registered h ∉ authStateCallbacks p) ∧ remove h p = p)
  ∨ (∃ l1 l2, authStateCallbacks p = l1 ++ registered h :: l2
              ∧ (registered h ∉ l1)
              ∧ remove h p = set_callbacks (l1 ++ l2) p).
Proof.
  unfold remove, indexOf, splice1.
  destruct (indexOf_cases (authStateCallbacks p) (registered h))
    as [[E Hn] | (l1 & l2 & El & Hn & E)]; rewrite E.
  - left. split; [exact Hn|]. destruct (decide (-1 > -1)%Z); [lia | reflexivity].
  - right. exists l1, l2. repeat split; [exact El | exact Hn |].
    destruct (decide (Z.of_nat (length l1) > -1)%Z); [|lia].
    rewrite El at 1. by rewrite splice1_middle.
Qed.

Lemma remove_filter (h : Handle) (p : Page N) :
  NoDup (authStateCallbacks p) →
  authStateCallbacks (remove h p)
  = filter (λ c, c ≠ registered h) (authStateCallbacks p).
Proof.
  intros Hnd.
  destruct (remove_callbacks h p) as [[Hn ->] | (l1 & l2 & El & Hn & ->)].
  - symmetry. apply filter_all. apply Forall_forall. intros c Hc ->. by apply Hn.
  - rewrite El in Hnd. apply NoDup_app in Hnd as (_ & _ & Hnd2).
    apply NoDup_cons in Hnd2 as [Hn2 _]. simpl. rewrite El.
    rewrite filter_app, filter_cons_False by (intros H; by apply H).
    rewrite !filter_all; [reflexivity | |];
      apply Forall_forall; intros c Hc ->; [by apply Hn2 | by apply Hn].
Qed.

(** [forEach] over listeners that return and leave the registrations alone
    calls each of them once, in the order of registration. *)
Lemma forEach_from_quiet event session turns index (w : World N) :
  (∀ c, c ∈ authStateCallbacks (page w) → quiet listeners c) →
  ∃ w',
    forEach_from listeners event session turns index w = (Return tt, w')
    ∧ authStateCallbacks (page w') = authStateCallbacks (page w)
    ∧ requests w' = requests w
    ∧ delivered w'
      = delivered w
        ++ (notice event session <$> take turns (drop index (authStateCallbacks (page w)))).
Proof.
  revert index w. induction turns as [|turns IH]; intros index w Hq.
  - exists w. simpl. rewrite app_nil_r. by repeat split.
  - simpl. destruct (authStateCallbacks (page w) !! index) as [c|] eqn:Ec.
    + assert (c ∈ authStateCallbacks (page w)) as Hc by (by eapply list_elem_of_lookup_2).
      destruct (Hq c Hc event session (page w)) as (p' & Ep & Hp).
      unfold bind, call. rewrite Ep.
      set (w1 := {| page := p'; requests := requests w;
                    delivered := delivered w ++ [notice event session c] |}).
      destruct (IH (S index) w1) as (w' & E & Hcb & Hr & Hd).
      { simpl. rewrite Hp. exact Hq. }
      exists w'. split; [exact E|]. simpl in Hcb, Hr, Hd. rewrite Hp in Hcb, Hd.
      split; [exact Hcb|]. split; [exact Hr|].
      rewrite Hd, <- app_assoc. f_equal.
      rewrite (drop_S _ _ _ Ec). reflexivity.
    + destruct (IH (S index) w Hq) as (w' & E & Hcb & Hr & Hd).
      exists w'. split; [exact E|]. split; [exact Hcb|]. split; [exact Hr|].
      rewrite Hd. apply lookup_ge_None in Ec.
      rewrite !drop_ge by lia. by rewrite !take_nil.
Qed.

Lemma notify_quiet event session (w : World N) :
  (∀ c, c ∈ authStateCallbacks (page w) → quiet listeners c) →
  ∃ w',
    notifyAuthStateChange listeners event session w = (Return tt, w')
    ∧ authStateCallbacks (page w') = authStateCallbacks (page w)
    ∧ requests w' = requests w
    ∧ delivered w'
      = delivered w ++ (notice event session <$> authStateCallbacks (page w)).
Proof.
  intros Hq. unfold notifyAuthStateChange.
  destruct (forEach_from_quiet event session (length (authStateCallbacks (page w))) 0 w Hq)
    as (w' & E & Hcb & Hr & Hd).
  exists w'. rewrite drop_0, firstn_all in Hd. by repeat split.
Qed.

(** A listener that throws ends the loop: the listeners registered after it
    are not called, and the value it throws is what [forEach] throws. *)
Lemma forEach_from_throws event session turns index (w : World N) l1 c l2 thrown :
  authStateCallbacks (page w) = l1 ++ c :: l2 →
  (∀ x, x ∈ l1 → quiet listeners x) →
  throws listeners c thrown →
  index ≤ length l1 < index + turns →
  ∃ w',
    forEach_from listeners event session turns index w = (Reject thrown, w')
    ∧ requests w' = requests w
    ∧ delivered w'
      = delivered w ++ (notice event session <$> (drop index l1 ++ [c])).
Proof.
  revert index w. induction turns as [|turns IH]; intros index w El Hq Hthrows Hi; [lia|].
  simpl. destruct (decide (index = length l1)) as [->|Hne].
  - rewrite El, list_lookup_middle by reflexivity.
    destruct (Hthrows event session (page w)) as (p' & Ep).
    unfold bind, call. rewrite Ep. eexists. split; [reflexivity|]. simpl.
    split; [reflexivity|]. by rewrite drop_all.
  - assert (index < length l1) as Hlt by lia.
    destruct (lookup_lt_is_Some_2 l1 index Hlt) as [x Ex].
    rewrite El, (lookup_app_l_Some _ _ _ _ Ex).
    assert (x ∈ l1) as Hx by (by eapply list_elem_of_lookup_2).
    destruct (Hq x Hx event session (page w)) as (p' & Ep & Hp).
    unfold bind, call. rewrite Ep.
    set (w1 := {| page := p'; requests := requests w;
                  delivered := delivered w ++ [notice event session x] |}).
    destruct (IH (S index) w1) as (w' & E & Hr & Hd); try done.
    { simpl. by rewrite Hp. }
    { lia. }
    exists w'. split; [exact E|]. split; [exact Hr|].
    rewrite Hd. simpl. rewrite <- app_assoc. f_equal.
    rewrite (drop_S _ _ _ Ex). reflexivity.
Qed.

Lemma notify_throws event session (w : World N) l1 c l2 thrown :
  authStateCallbacks (page w) = l1 ++ c :: l2 →
  (∀ x, x ∈ l1 → quiet listeners x) →
  throws listeners c thrown →
  ∃ w',
    notifyAuthStateChange listeners event session w = (Reject thrown, w')
    ∧ requests w' = requests w
    ∧ delivered w' = delivered w ++ (notice event session <$> (l1 ++ [c])).
Proof.
  intros El Hq Hthrows. unfold notifyAuthStateChange.
  destruct (forEach_from_throws event session (length (authStateCallbacks (page w))) 0 w
              l1 c l2 thrown El Hq Hthrows) as (w' & E & Hr & Hd).
  { rewrite El, length_app. simpl. lia. }
  exists w'. by repeat split.
Qed.

(** [signOut] where the token can be removed: the listeners are notified in
    the page without the token. *)
Lemma signOut_unfold (w : World N) :
  removeItem_throws (localStorage (page w)) = None →
  signOut listeners w
  = (let '(r, w') := notifyAuthStateChange listeners "SIGNED_OUT" Null
                       (on_page (set_items (λ m, delete "auth_token" m)) w) in
     match r with
     | Return _ => (Return {| Envelope.data := Null; Envelope.error := Null;
                              Envelope.count := Undefined |}, w')
     | Reject thrown => (Reject thrown, w')
     end).
Proof.
  intros H. unfold signOut, bind, localStorage_removeItem. rewrite H.
  by destruct (notifyAuthStateChange _ _ _ _) as [[[]|thrown] w'].
Qed.

Lemma signOut_quiet (w : World N) :
  removeItem_throws (localStorage (page w)) = None →
  (∀ c, c ∈ authStateCallbacks (page w) → quiet listeners c) →
  (signOut listeners w).1
  = Return {| Envelope.data := Null; Envelope.error := Null; Envelope.count := Undefined |}
  ∧ fired (signOut listeners) w = signed_out <$> authStateCallbacks (page w)
  ∧ issued (signOut listeners) w = [].
Proof.
  intros H Hq. unfold fired, issued. rewrite (signOut_unfold w H).
  destruct (notify_quiet "SIGNED_OUT" Null
              (on_page (set_items (λ m, delete "auth_token" m)) w) Hq)
    as (w' & -> & _ & Hr & Hd).
  simpl in *. rewrite Hd, Hr, drop_app_length, drop_all. by repeat split.
Qed.
End RuntimeListeners.

(** C6, as stated, fails in four ways.  With one function registered twice, a
    sign-out calls it twice; the first handle's [unsubscribe()] called once
    leaves one registration, called twice leaves none, and then a sign-out
    reaches the function no more although the second handle was never used.
    With a listener that throws, the sign-out rejects and the listener
    registered after it receives nothing.  With a listener that unsubscribes
    itself when it is called, the listener registered after it is passed over.
    And where the storage is denied, the sign-out rejects before any listener
    is called. *)
Lemma signOut_deliveries_that_differ :
  let twice :=
    (Runtime.RestApiAuthService.onAuthStateChange 7
       (Runtime.RestApiAuthService.onAuthStateChange 7
          (Runtime.browser (Runtime.accessible ∅) [])).2).2 in
  let first_handle :=
    (Runtime.RestApiAuthService.onAuthStateChange 7
       (Runtime.browser (Runtime.accessible ∅) [])).1 in
  let once := Runtime.RestApiAuthService.unsubscribe first_handle twice in
  let none := Runtime.RestApiAuthService.unsubscribe first_handle once in
  let two := Runtime.browser (Runtime.accessible ∅) [3; 5] in
  (Runtime.authStateCallbacks (Runtime.page twice) = [7; 7]
   ∧ Runtime.fired (Runtime.RestApiAuthService.signOut Runtime.inert) twice
     = [Runtime.signed_out 7; Runtime.signed_out 7]
   ∧ Runtime.authStateCallbacks (Runtime.page once) = [7]
   ∧ Runtime.authStateCallbacks (Runtime.page none) = []
   ∧ none ≠ once
   ∧ Runtime.fired (Runtime.RestApiAuthService.signOut Runtime.inert) none = [])
  ∧ ((Runtime.RestApiAuthService.signOut
        (Runtime.failing 3 (Runtime.Err "Error" "boom")) two).1
     = Runtime.Reject (Runtime.Err "Error" "boom")
     ∧ Runtime.fired (Runtime.RestApiAuthService.signOut
                        (Runtime.failing 3 (Runtime.Err "Error" "boom"))) two
       = [Runtime.signed_out 3])
  ∧ ((Runtime.RestApiAuthService.signOut (Runtime.leaving 3) two).1
     = Runtime.Return {| Runtime.Envelope.data := Runtime.Null;
                         Runtime.Envelope.error := Runtime.Null;
                         Runtime.Envelope.count := Runtime.Undefined |}
     ∧ Runtime.fired (Runtime.RestApiAuthService.signOut (Runtime.leaving 3)) two
       = [Runtime.signed_out 3])
  ∧ ((Runtime.RestApiAuthService.signOut Runtime.inert
        (Runtime.browser Runtime.denied [3; 5])).1
     = Runtime.Reject Runtime.security_error
     ∧ Runtime.fired (Runtime.RestApiAuthService.signOut Runtime.inert)
         (Runtime.browser Runtime.denied [3; 5])
       = []).
Proof.
  repeat split; try (vm_compute; reflexivity).
  intros H. apply (f_equal (λ w, Runtime.authStateCallbacks (Runtime.page w))) in H.
  vm_compute in H. discriminate.
Qed.

(** C6, amended.  In the remote-HTTP auth service, while the token can be
    removed from storage, no callback is registered more than once, and the
    listeners return and leave the registrations alone when they are called:
    after [onAuthStateChange(callback)], a [signOut()] resolves and delivers
    exactly one "SIGNED_OUT" event with a null session to every listener
    registered before it, the new one included, in the order of registration;
    the [unsubscribe()] of the handle removes the callback and leaves every
    other listener in place, also when it is called later, among other
    registrations; calling it twice gives the world that calling it once
    gives; and a sign-out after it delivers nothing to that callback and one
    event to each of the others. *)
Theorem signOut_and_unsubscribe_with_distinct_listeners
    {N} (listeners : Runtime.Listeners N) (w : Runtime.World N) (callback : Callback) :
  Runtime.removeItem_throws (Runtime.localStorage (Runtime.page w)) = None →
  NoDup (Runtime.authStateCallbacks (Runtime.page w)) →
  callback ∉ Runtime.authStateCallbacks (Runtime.page w) →
  (∀ c, c ∈ Runtime.authStateCallbacks (Runtime.page w) ∨ c = callback →
        Runtime.quiet listeners c) →
  let handle := (Runtime.RestApiAuthService.onAuthStateChange callback w).1 in
  let w1 := (Runtime.RestApiAuthService.onAuthStateChange callback w).2 in
  let w2 := Runtime.RestApiAuthService.unsubscribe handle w1 in
  (Runtime.RestApiAuthService.signOut listeners w1).1
  = Runtime.Return {| Runtime.Envelope.data := Runtime.Null;
                      Runtime.Envelope.error := Runtime.Null;
                      Runtime.Envelope.count := Runtime.Undefined |}
  ∧ Runtime.fired (Runtime.RestApiAuthService.signOut listeners) w1
    = Runtime.signed_out <$> (Runtime.authStateCallbacks (Runtime.page w) ++ [callback])
  ∧ Runtime.authStateCallbacks (Runtime.page w2)
    = Runtime.authStateCallbacks (Runtime.page w)
  ∧ Runtime.RestApiAuthService.unsubscribe handle w2 = w2
  ∧ Runtime.fired (Runtime.RestApiAuthService.signOut listeners) w2
    = Runtime.signed_out <$> Runtime.authStateCallbacks (Runtime.page w)
  ∧ (∀ later : Runtime.World N,
       NoDup (Runtime.authStateCallbacks (Runtime.page later)) →
       Runtime.authStateCallbacks
         (Runtime.page (Runtime.RestApiAuthService.unsubscribe handle later))
       = filter (λ c, c ≠ callback) (Runtime.authStateCallbacks (Runtime.page later))).
Proof.
  intros Hstorage Hnd Hfresh Hquiet handle w1 w2.
  assert (Runtime.authStateCallbacks (Runtime.page w2)
          = Runtime.authStateCallbacks (Runtime.page w)) as Hw2.
  { subst w2 w1 handle. simpl.
    unfold Runtime.RestApiAuthService.remove. simpl.
    rewrite indexOf_fresh by exact Hfresh.
    destruct (decide (Z.of_nat (length (Runtime.authStateCallbacks (Runtime.page w))) > -1)%Z);
      [|lia].
    simpl. unfold Runtime.splice1. rewrite splice1_middle. apply app_nil_r. }
  assert (Runtime.removeItem_throws (Runtime.localStorage (Runtime.page w2)) = None)
    as Hstorage2.
  { subst w2 w1 handle. simpl. unfold Runtime.RestApiAuthService.remove.
    by destruct (decide _). }
  split; [| split; [| split; [exact Hw2 | split; [| split]]]].
  - apply (signOut_quiet listeners w1); [exact Hstorage|].
    intros c [Hc | ->%list_elem_of_singleton]%elem_of_app; apply Hquiet; first [by left | by right].
  - destruct (signOut_quiet listeners w1) as (_ & Hf & _); [exact Hstorage | | exact Hf].
    intros c [Hc | ->%list_elem_of_singleton]%elem_of_app; apply Hquiet; first [by left | by right].
  - unfold Runtime.RestApiAuthService.unsubscribe at 1.
    destruct (remove_callbacks handle (Runtime.page w2)) as [[_ E] | (l1 & l2 & El & _ & _)].
    + unfold Runtime.on_page. rewrite E. by destruct w2.
    + exfalso. apply Hfresh. rewrite <- Hw2, El. apply elem_of_app. right. by left.
  - destruct (signOut_quiet listeners w2) as (_ & Hf & _); [exact Hstorage2 | |].
    + intros c Hc. apply Hquiet. left. by rewrite <- Hw2.
    + by rewrite Hf, Hw2.
  - intros later Hlater. apply (remove_filter handle (Runtime.page later) Hlater).
Qed.

Lemma signOut_and_unsubscribe_with_distinct_listeners_witness :
  let w := Runtime.browser (Runtime.accessible {["auth_token" := "t1"]}) [3; 5; 8] in
  let handle := (Runtime.RestApiAuthService.onAuthStateChange 9 w).1 in
  let w1 := (Runtime.RestApiAuthService.onAuthStateChange 9 w).2 in
  let w2 := Runtime.RestApiAuthService.unsubscribe handle w1 in
  Runtime.fired (Runtime.RestApiAuthService.signOut Runtime.inert) w1
  = [Runtime.signed_out 3; Runtime.signed_out 5; Runtime.signed_out 8;
     Runtime.signed_out 9]
  ∧ Runtime.authStateCallbacks (Runtime.page w2) = [3; 5; 8]
  ∧ Runtime.RestApiAuthService.unsubscribe handle w2 = w2
  ∧ Runtime.fired (Runtime.RestApiAuthService.signOut Runtime.inert) w2
    = [Runtime.signed_out 3; Runtime.signed_out 5; Runtime.signed_out 8].
Proof.
  intros w handle w1 w2.
  assert (NoDup (Runtime.authStateCallbacks (Runtime.page w))) as Hnd.
  { apply (bool_decide_unpack _). vm_compute. exact I. }
  assert (9 ∉ Runtime.authStateCallbacks (Runtime.page w)) as Hfresh.
  { apply (bool_decide_unpack _). vm_compute. exact I. }
  destruct (signOut_and_unsubscribe_with_distinct_listeners Runtime.inert w 9
              eq_refl Hnd Hfresh) as (_ & Hf & Hc & Hu & Hf2 & _).
  { intros c _ event session p. exists p. by split. }
  split; [exact Hf|]. split; [exact Hc|]. split; [exact Hu|]. exact Hf2.
Defined.

(** ** Requests and responses *)

Section RuntimeCalls.
Import Runtime.
Context {N : Type} (engine : Engine) (fetch : Fetch N) (this : Rest.Instance).

Lemma rt_issued_one {A} (m : Run (World N) A) (w : World N) request :
  requests (m w).2 = requests w ++ [request] → issued m w = [request].
Proof. intros H. unfold issued. by rewrite H, drop_app_length. Qed.

Lemma rt_issued_none {A} (m : Run (World N) A) (w : World N) :
  requests (m w).2 = requests w → issued m w = [].
Proof. intros H. unfold issued. by rewrite H, drop_all. Qed.

Ltac settle :=
  repeat match goal with
         | |- context [nullish ?v] => destruct (nullish v) eqn:?; simpl
         | |- context [match ?x with Return _ => _ | Reject _ => _ end] =>
             destruct x; simpl
         | |- context [if ?b then _ else _] => destruct b; simpl
         end.

(** Whatever comes back, an [apiCall] leaves the world as the call of
    [fetch] left it. *)
Lemma rt_auth_apiCall_world endpoint options (w : World N) :
  (RestApiAuthService.apiCall engine fetch this endpoint options w).2
  = (call_fetch fetch
       (Rest.request_of (Rest.baseUrl this +:+ endpoint) (val (Rest.apiKey this)) options)
       w).2.
Proof.
  unfold RestApiAuthService.apiCall, try_catch, bind, call_fetch, response_json, get, ret.
  destruct (fetch _ _) as [[[ok [result|e]]|e] n]; simpl; settle; reflexivity.
Qed.

Lemma rt_data_apiCall_world endpoint options (w : World N) :
  getItem_throws (localStorage (page w)) = None →
  (RestApiDataService.apiCall engine fetch this endpoint options w).2
  = (call_fetch fetch
       (Rest.request_of (Rest.baseUrl this +:+ endpoint) (stored_token (page w)) options)
       w).2.
Proof.
  intros H.
  unfold RestApiDataService.apiCall, try_catch, bind, call_fetch, response_json, get, ret,
    localStorage_getItem, stored_token.
  rewrite H.
  destruct (fetch _ _) as [[[ok [result|e]]|e] n]; simpl; settle; reflexivity.
Qed.

Lemma rt_data_apiListCall_world endpoint options (w : World N) :
  getItem_throws (localStorage (page w)) = None →
  (RestApiDataService.apiListCall engine fetch this endpoint options w).2
  = (call_fetch fetch
       (Rest.request_of (Rest.baseUrl this +:+ endpoint) (stored_token (page w)) options)
       w).2.
Proof.
  intros H.
  unfold RestApiDataService.apiListCall, try_catch, bind, call_fetch, response_json, get,
    ret, localStorage_getItem, stored_token.
  rewrite H.
  destruct (fetch _ _) as [[[ok [result|e]]|e] n]; simpl; settle; reflexivity.
Qed.

(** Where the storage cannot be read, the data service asks the server
    nothing. *)
Lemma rt_data_apiCall_denied endpoint options (w : World N) thrown :
  getItem_throws (localStorage (page w)) = Some thrown →
  (RestApiDataService.apiCall engine fetch this endpoint options w).2 = w
  ∧ (RestApiDataService.apiListCall engine fetch this endpoint options w).2 = w.
Proof.
  intros H.
  unfold RestApiDataService.apiCall, RestApiDataService.apiListCall, try_catch, bind,
    get, ret, localStorage_getItem.
  rewrite H. simpl. split; settle; reflexivity.
Qed.

Lemma rt_call_fetch_requests request (w : World N) :
  requests (call_fetch fetch request w).2 = requests w ++ [request].
Proof. unfold call_fetch. by destruct (fetch _ _). Qed.

Lemma rt_call_fetch_page request (w : World N) :
  localStorage (page (call_fetch fetch request w).2) = localStorage (page w)
  ∧ authStateCallbacks (page (call_fetch fetch request w).2) = authStateCallbacks (page w)
  ∧ delivered (call_fetch fetch request w).2 = delivered w.
Proof. unfold call_fetch. by destruct (fetch _ _). Qed.

Lemma rt_run_data_issued (c : DataCall) (w : World N) :
  getItem_throws (localStorage (page w)) = None →
  ∃ request,
    issued (run_data engine fetch this c) w = [request]
    ∧ Rest.headers request !! "Authorization"
      = Some ("Bearer " +:+ Rest.template (stored_token (page w))).
Proof.
  intros H.
  assert (∀ endpoint options,
            Rest.opt_headers options = ∅ →
            ∃ request,
              issued (RestApiDataService.apiCall engine fetch this endpoint options) w
              = [request]
              ∧ Rest.headers request !! "Authorization"
                = Some ("Bearer " +:+ Rest.template (stored_token (page w)))) as Hsingle.
  { intros endpoint options Hh. eexists. split.
    - apply rt_issued_one. rewrite rt_data_apiCall_world by exact H. apply rt_call_fetch_requests.
    - apply authorization_header. by rewrite Hh. }
  assert (∀ endpoint options,
            Rest.opt_headers options = ∅ →
            ∃ request,
              issued (RestApiDataService.apiListCall engine fetch this endpoint options) w
              = [request]
              ∧ Rest.headers request !! "Authorization"
                = Some ("Bearer " +:+ Rest.template (stored_token (page w)))) as Hlist.
  { intros endpoint options Hh. eexists. split.
    - apply rt_issued_one. rewrite rt_data_apiListCall_world by exact H.
      apply rt_call_fetch_requests.
    - apply authorization_header. by rewrite Hh. }
  destruct c; simpl; first [by apply Hsingle | by apply Hlist].
Qed.
Lemma truthy_not_nullish (v : value) : truthy v = true → nullish v = false.
Proof. by destruct v. Qed.

(** The listeners cannot make the service call [fetch]. *)
Lemma rt_forEach_requests (listeners : Listeners N) event session turns index
    (w : World N) :
  requests (RestApiAuthService.forEach_from listeners event session turns index w).2
  = requests w.
Proof.
  revert index w. induction turns as [|turns IH]; intros index w; [reflexivity|].
  simpl. destruct (authStateCallbacks (page w) !! index) as [c|]; [|apply IH].
  unfold bind, call. destruct (listeners c event session (page w)) as [[[]|thrown] p];
    [|reflexivity].
  by rewrite IH.
Qed.

Lemma rt_notify_requests (listeners : Listeners N) event session (w : World N) :
  requests (RestApiAuthService.notifyAuthStateChange listeners event session w).2
  = requests w.
Proof. apply rt_forEach_requests. Qed.

Lemma rt_signIn_requests (listeners : Listeners N) email password (w : World N) :
  ∃ request,
    requests (RestApiAuthService.signIn engine fetch listeners this email password w).2
    = requests w ++ [request].
Proof.
  eexists. unfold RestApiAuthService.signIn.
  unfold RestApiAuthService.session_of, bind, ret, get, localStorage_setItem.
  match goal with
  | |- context [RestApiAuthService.apiCall engine fetch this ?endpoint ?options w] =>
      pose proof (rt_auth_apiCall_world endpoint options w) as Hw;
      destruct (RestApiAuthService.apiCall engine fetch this endpoint options w)
        as [[r|thrown] w1]
  end; simpl in Hw; subst w1; simpl; [|apply rt_call_fetch_requests].
  destruct (truthy (Envelope.data r)) eqn:Et; simpl; [|apply rt_call_fetch_requests].
  rewrite (truthy_not_nullish _ Et). simpl.
  destruct (ToString engine _) as [text|thrown]; simpl; [|apply rt_call_fetch_requests].
  destruct (setItem_throws _) as [thrown|]; simpl; [apply rt_call_fetch_requests|].
  match goal with
  | |- context [RestApiAuthService.notifyAuthStateChange listeners ?event ?session ?w] =>
      pose proof (rt_notify_requests listeners event session w) as Hn;
      destruct (RestApiAuthService.notifyAuthStateChange listeners event session w)
        as [[[]|thrown] w2]; simpl in *; rewrite Hn; apply rt_call_fetch_requests
  end.
Qed.

Lemma rt_signUp_requests (listeners : Listeners N) email password displayName role
    (w : World N) :
  ∃ request,
    requests (RestApiAuthService.signUp engine fetch listeners this
                email password displayName role w).2
    = requests w ++ [request].
Proof.
  eexists. unfold RestApiAuthService.signUp.
  unfold RestApiAuthService.session_of, bind, ret, get, localStorage_setItem.
  match goal with
  | |- context [RestApiAuthService.apiCall engine fetch this ?endpoint ?options w] =>
      pose proof (rt_auth_apiCall_world endpoint options w) as Hw;
      destruct (RestApiAuthService.apiCall engine fetch this endpoint options w)
        as [[r|thrown] w1]
  end; simpl in Hw; subst w1; simpl; [|apply rt_call_fetch_requests].
  destruct (truthy (Envelope.data r)) eqn:Et; simpl; [|apply rt_call_fetch_requests].
  rewrite (truthy_not_nullish _ Et). simpl.
  destruct (ToString engine _) as [text|thrown]; simpl; [|apply rt_call_fetch_requests].
  destruct (setItem_throws _) as [thrown|]; simpl; [apply rt_call_fetch_requests|].
  match goal with
  | |- context [RestApiAuthService.notifyAuthStateChange listeners ?event ?session ?w] =>
      pose proof (rt_notify_requests listeners event session w) as Hn;
      destruct (RestApiAuthService.notifyAuthStateChange listeners event session w)
        as [[[]|thrown] w2]; simpl in *; rewrite Hn; apply rt_call_fetch_requests
  end.
Qed.

Lemma rt_run_auth_issued (listeners : Listeners N) (c : AuthCall) (w : World N) :
  ∃ request, issued (run_auth engine fetch listeners this c) w = [request].
Proof.
  destruct c; simpl.
  - destruct (rt_signIn_requests listeners email password w) as (request & E).
    exists request. by apply rt_issued_one.
  - destruct (rt_signUp_requests listeners email password displayName role w)
      as (request & E).
    exists request. by apply rt_issued_one.
  - eexists. apply rt_issued_one. unfold RestApiAuthService.fetchUserProfile.
    rewrite rt_auth_apiCall_world. apply rt_call_fetch_requests.
Qed.

Lemma rt_signOut_issued (listeners : Listeners N) (w : World N) :
  issued (RestApiAuthService.signOut listeners) w = [].
Proof.
  apply rt_issued_none.
  unfold RestApiAuthService.signOut, bind, localStorage_removeItem.
  destruct (removeItem_throws _); [reflexivity|].
  match goal with
  | |- context [RestApiAuthService.notifyAuthStateChange listeners ?event ?session ?w] =>
      pose proof (rt_notify_requests listeners event session w) as Hn;
      destruct (RestApiAuthService.notifyAuthStateChange listeners event session w)
        as [[[]|thrown] w2]; simpl in *; by rewrite Hn
  end.
Qed.

(** [getSession]: what it makes of the token. *)
Lemma rt_getSession_denied (w : World N) thrown :
  getItem_throws (localStorage (page w)) = Some thrown →
  RestApiAuthService.getSession engine fetch this w = (Reject thrown, w).
Proof.
  intros H. unfold RestApiAuthService.getSession, bind, localStorage_getItem.
  by rewrite H.
Qed.

Lemma rt_getSession_without_token (w : World N) :
  getItem_throws (localStorage (page w)) = None →
  js_truthy (stored_token (page w)) = false →
  RestApiAuthService.getSession engine fetch this w
  = (Return {| Session.user := Null |}, w).
Proof.
  intros H Ht. unfold RestApiAuthService.getSession, bind, localStorage_getItem.
  rewrite H. fold (stored_token (page w)). by rewrite Ht.
Qed.

Lemma rt_getSession_with_token (w : World N) :
  getItem_throws (localStorage (page w)) = None →
  js_truthy (stored_token (page w)) = true →
  RestApiAuthService.getSession engine fetch this w
  = (let '(r, w') := RestApiAuthService.apiCall engine fetch this "/auth/me"
                       Rest.no_options w in
     match r with
     | Return result => (Return {| Session.user := Envelope.data result |}, w')
     | Reject thrown => (Reject thrown, w')
     end).
Proof.
  intros H Ht. unfold RestApiAuthService.getSession, bind, localStorage_getItem.
  rewrite H. fold (stored_token (page w)). rewrite Ht. simpl.
  by destruct (RestApiAuthService.apiCall _ _ _ _ _ _) as [[r|thrown] w'].
Qed.

Lemma rt_getSession_issued (w : World N) :
  (getItem_throws (localStorage (page w)) = None →
   js_truthy (stored_token (page w)) = true →
   issued (RestApiAuthService.getSession engine fetch this) w
   = [Rest.request_of (Rest.baseUrl this +:+ "/auth/me") (val (Rest.apiKey this))
        Rest.no_options])
  ∧ (getItem_throws (localStorage (page w)) ≠ None
     ∨ js_truthy (stored_token (page w)) = false →
     issued (RestApiAuthService.getSession engine fetch this) w = []).
Proof.
  split.
  - intros H Ht. apply rt_issued_one. rewrite rt_getSession_with_token by done.
    pose proof (rt_auth_apiCall_world "/auth/me" Rest.no_options w) as Hw.
    destruct (RestApiAuthService.apiCall _ _ _ _ _ _) as [[r|thrown] w']; simpl in *;
      subst w'; apply rt_call_fetch_requests.
  - intros Hno. apply rt_issued_none.
    destruct (getItem_throws (localStorage (page w))) as [thrown|] eqn:H.
    + by rewrite (rt_getSession_denied w thrown H).
    + destruct Hno as [Hno | Ht]; [done|]. by rewrite rt_getSession_without_token.
Qed.
(** A response that is not ok and whose body has properties. *)
Lemma rt_refused (w : World N) endpoint options result n' :
  nullish result = false →
  (∀ request, fetch request (network (page w))
              = (Return {| ok := false; json := Return result |}, n')) →
  let envelope :=
    {| Envelope.data := Null;
       Envelope.error := if truthy (property result Key.message)
                         then property result Key.message
                         else Str "API request failed";
       Envelope.count := Undefined |} in
  (RestApiAuthService.apiCall engine fetch this endpoint options w).1 = Return envelope
  ∧ (getItem_throws (localStorage (page w)) = None →
     (RestApiDataService.apiCall engine fetch this endpoint options w).1 = Return envelope
     ∧ (RestApiDataService.apiListCall engine fetch this endpoint options w).1
       = Return envelope).
Proof.
  intros Hn Hf envelope. subst envelope. split; [| intros H; split].
  - unfold RestApiAuthService.apiCall, try_catch, bind, call_fetch, response_json, get, ret.
    rewrite Hf. simpl. by rewrite Hn.
  - unfold RestApiDataService.apiCall, try_catch, bind, call_fetch, response_json, get,
      ret, localStorage_getItem.
    rewrite H, Hf. simpl. by rewrite Hn.
  - unfold RestApiDataService.apiListCall, try_catch, bind, call_fetch, response_json,
      get, ret, localStorage_getItem.
    rewrite H, Hf. simpl. by rewrite Hn.
Qed.
End RuntimeCalls.

(** C7, as stated, fails in six ways.  [signOut()] is one service call and
    issues no HTTP request, whatever is in storage; [getSession()] returns
    before any request when no token is stored; and where the storage cannot
    be read, a call of the data service ends in the error of the storage
    before any request.  A response that is not ok and whose [message] is the
    empty string gives the generic string, not the [message]; one whose body is
    not JSON gives the message of the parse error, and one whose body is
    [null] the message of a [TypeError], neither the [message] of the body nor
    the generic string. *)
Lemma rest_calls_without_request_and_other_errors :
  let w := Runtime.browser (Runtime.accessible {["auth_token" := "t1"]}) [] in
  let nowhere := Runtime.browser (Runtime.accessible ∅) [] in
  let deleteActivity fetch :=
    Runtime.RestApiDataService.deleteActivity Runtime.v8 fetch api "a1" in
  (Runtime.issued (Runtime.RestApiAuthService.signOut Runtime.inert) w = []
   ∧ (Runtime.RestApiAuthService.signOut Runtime.inert w).1
     = Runtime.Return {| Runtime.Envelope.data := Runtime.Null;
                         Runtime.Envelope.error := Runtime.Null;
                         Runtime.Envelope.count := Runtime.Undefined |})
  ∧ (Runtime.issued
       (Runtime.RestApiAuthService.getSession Runtime.v8 Runtime.unreachable api) nowhere
     = []
     ∧ (Runtime.RestApiAuthService.getSession Runtime.v8 Runtime.unreachable api nowhere).1
       = Runtime.Return {| Runtime.Session.user := Runtime.Null |})
  ∧ (Runtime.issued (deleteActivity Runtime.unreachable)
       (Runtime.browser Runtime.denied []) = []
     ∧ (deleteActivity Runtime.unreachable (Runtime.browser Runtime.denied [])).1
       = Runtime.Return {| Runtime.Envelope.data := Runtime.Null;
                           Runtime.Envelope.error :=
                             Runtime.Str "The operation is insecure.";
                           Runtime.Envelope.count := Runtime.Undefined |})
  ∧ (deleteActivity
       (Runtime.answering false
          (Runtime.Obj [("message", Runtime.Str EmptyString)])) w).1
    = Runtime.Return {| Runtime.Envelope.data := Runtime.Null;
                        Runtime.Envelope.error := Runtime.Str "API request failed";
                        Runtime.Envelope.count := Runtime.Undefined |}
  ∧ (deleteActivity (Runtime.garbled false) w).1
    = Runtime.Return {| Runtime.Envelope.data := Runtime.Null;
                        Runtime.Envelope.error :=
                          Runtime.Str "Unexpected token < in JSON at position 0";
                        Runtime.Envelope.count := Runtime.Undefined |}
  ∧ (deleteActivity (Runtime.answering false Runtime.Null) w).1
    = Runtime.Return {| Runtime.Envelope.data := Runtime.Null;
                        Runtime.Envelope.error :=
                          Runtime.Str "Cannot read properties of null (reading 'message')";
                        Runtime.Envelope.count := Runtime.Undefined |}.
Proof. repeat split; vm_compute; reflexivity. Qed.

(** C7, amended.  Where the storage can be read, every call of the
    remote-HTTP data service issues exactly one HTTP request, whose
    Authorization header is "Bearer " followed by the token that persistent
    storage holds when the call is made ("null" when it holds none).  In the
    remote-HTTP auth service [signIn], [signUp] and [fetchUserProfile] issue
    exactly one request themselves, also when a listener throws or changes the
    registrations, and so does [getSession] when it reads a token that is not
    empty; [signOut] issues none, and
    [getSession] none when no token is stored.  In both services a response
    that is not ok and whose body parses to a value other than [null] becomes
    an envelope with null data whose error is the [message] of the body when
    that is truthy, and "API request failed" when it is missing, [null],
    [false], [0] or the empty string. *)
Theorem rest_requests_and_refusals
    {N} (engine : Runtime.Engine) (fetch : Runtime.Fetch N)
    (listeners : Runtime.Listeners N) (this : Rest.Instance) (w : Runtime.World N) :
  let readable :=
    Runtime.getItem_throws (Runtime.localStorage (Runtime.page w)) = None in
  (∀ c : Runtime.DataCall,
     readable →
     ∃ request,
       Runtime.issued (Runtime.run_data engine fetch this c) w = [request]
       ∧ Rest.headers request !! "Authorization"
         = Some ("Bearer " +:+ Rest.template (Runtime.stored_token (Runtime.page w))))
  ∧ (∀ c : Runtime.AuthCall,
       ∃ request, Runtime.issued (Runtime.run_auth engine fetch listeners this c) w
                  = [request])
  ∧ (readable → js_truthy (Runtime.stored_token (Runtime.page w)) = true →
     ∃ request,
       Runtime.issued (Runtime.RestApiAuthService.getSession engine fetch this) w
       = [request])
  ∧ (js_truthy (Runtime.stored_token (Runtime.page w)) = false →
     Runtime.issued (Runtime.RestApiAuthService.getSession engine fetch this) w = [])
  ∧ Runtime.issued (Runtime.RestApiAuthService.signOut listeners) w = []
  ∧ (∀ result n' endpoint options,
       Runtime.nullish result = false →
       (∀ request, fetch request (Runtime.network (Runtime.page w))
                   = (Runtime.Return {| Runtime.ok := false;
                                        Runtime.json := Runtime.Return result |}, n')) →
       let message := Runtime.property result Runtime.Key.message in
       let envelope :=
         {| Runtime.Envelope.data := Runtime.Null;
            Runtime.Envelope.error :=
              if truthy message then message else Runtime.Str "API request failed";
            Runtime.Envelope.count := Runtime.Undefined |} in
       (Runtime.RestApiAuthService.apiCall engine fetch this endpoint options w).1
       = Runtime.Return envelope
       ∧ (readable →
          (Runtime.RestApiDataService.apiCall engine fetch this endpoint options w).1
          = Runtime.Return envelope
          ∧ (Runtime.RestApiDataService.apiListCall engine fetch this endpoint options w).1
            = Runtime.Return envelope)).
Proof.
  intros readable. subst readable.
  split; [intros c H; by apply rt_run_data_issued|].
  split; [intros c; apply rt_run_auth_issued|].
  split.
  { intros H Ht. eexists. by apply rt_getSession_issued. }
  split.
  { intros Ht. apply rt_getSession_issued. by right. }
  split; [apply rt_signOut_issued|].
  intros result n' endpoint options Hn Hf.
  exact (rt_refused engine fetch this w endpoint options result n' Hn Hf).
Qed.

Lemma rest_requests_and_refusals_witness :
  let w := Runtime.browser (Runtime.accessible {["auth_token" := "t1"]}) [3] in
  let refusing :=
    Runtime.answering false (Runtime.Obj [("message", Runtime.Str "Forbidden")]) in
  (∃ request,
     Runtime.issued (Runtime.run_data Runtime.v8 Runtime.unreachable api
                       (Runtime.deleteActivity "a1")) w = [request]
     ∧ Rest.headers request !! "Authorization" = Some "Bearer t1")
  ∧ (∃ request,
       Runtime.issued (Runtime.run_auth Runtime.v8 Runtime.unreachable
                         (Runtime.failing 3 (Runtime.Err "Error" "boom")) api
                         (Runtime.signIn "pat@example.org" "secret")) w = [request])
  ∧ (∃ request,
       Runtime.issued
         (Runtime.RestApiAuthService.getSession Runtime.v8 Runtime.unreachable api) w
       = [request])
  ∧ (Runtime.RestApiDataService.apiCall Runtime.v8 refusing api "/activities/a1"
       (RestApiDataService.put (Rest.ActivityUpdates
          {| Activity.p_name := Some "Dishes"; Activity.p_description := None;
             Activity.p_points := None; Activity.p_category := None |})) w).1
    = Runtime.Return {| Runtime.Envelope.data := Runtime.Null;
                        Runtime.Envelope.error := Runtime.Str "Forbidden";
                        Runtime.Envelope.count := Runtime.Undefined |}.
Proof.
  intros w refusing.
  destruct (rest_requests_and_refusals Runtime.v8 Runtime.unreachable
              (Runtime.failing 3 (Runtime.Err "Error" "boom")) api w)
    as (Hdata & Hauth & Hsession & _).
  destruct (rest_requests_and_refusals Runtime.v8 refusing Runtime.inert api w)
    as (_ & _ & _ & _ & _ & Hrefused).
  split; [exact (Hdata (Runtime.deleteActivity "a1") eq_refl)|].
  split; [exact (Hauth (Runtime.signIn "pat@example.org" "secret"))|].
  split; [exact (Hsession eq_refl eq_refl)|].
  destruct (Hrefused (Runtime.Obj [("message", Runtime.Str "Forbidden")]) tt
              "/activities/a1"
              (RestApiDataService.put (Rest.ActivityUpdates
                 {| Activity.p_name := Some "Dishes"; Activity.p_description := None;
                    Activity.p_points := None; Activity.p_category := None |}))
              eq_refl (λ request, eq_refl)) as [_ Hd].
  exact (proj1 (Hd eq_refl)).
Defined.

(** ** What comes back *)

Section RuntimeResponses.
Import Runtime.
Context {N : Type} (engine : Engine) (fetch : Fetch N) (this : Rest.Instance).

(** The three [apiCall]s make the same of what [fetch] and [json()] give
    them, but for the [count] of a list. *)
Lemma rt_apiCall_outcome endpoint options (w : World N) :
  let settled (count : bool) (sent : Result Response) :=
    match sent with
    | Reject e => caught engine e
    | Return response =>
        match json response with
        | Reject e => caught engine e
        | Return result =>
            if nullish result then
              Return {| Envelope.data := Null;
                        Envelope.error :=
                          Str (cannot_read engine result
                                 (if ok response then Key.data else Key.message));
                        Envelope.count := Undefined |}
            else if ok response then
              Return {| Envelope.data := property result Key.data;
                        Envelope.error := Null;
                        Envelope.count := if count then property result Key.count
                                          else Undefined |}
            else
              Return {| Envelope.data := Null;
                        Envelope.error := or (property result Key.message)
                                             (Str "API request failed");
                        Envelope.count := Undefined |}
        end
    end in
  (RestApiAuthService.apiCall engine fetch this endpoint options w).1
  = settled false
      (fetch (Rest.request_of (Rest.baseUrl this +:+ endpoint) (val (Rest.apiKey this))
                options) (network (page w))).1
  ∧ (getItem_throws (localStorage (page w)) = None →
     let request := Rest.request_of (Rest.baseUrl this +:+ endpoint)
                      (stored_token (page w)) options in
     (RestApiDataService.apiCall engine fetch this endpoint options w).1
     = settled false (fetch request (network (page w))).1
     ∧ (RestApiDataService.apiListCall engine fetch this endpoint options w).1
       = settled true (fetch request (network (page w))).1).
Proof.
  intros settled. subst settled. unfold caught. cbv zeta. split; [| intros H; split].
  - unfold RestApiAuthService.apiCall, try_catch, bind, call_fetch, response_json, get, ret.
    destruct (fetch _ _) as [[[ok [result|e]]|e] n]; simpl.
    + destruct ok; simpl; destruct (nullish result); reflexivity.
    + destruct ok; simpl; destruct (nullish e); reflexivity.
    + destruct (nullish e); reflexivity.
  - unfold RestApiDataService.apiCall, try_catch, bind, call_fetch, response_json, get,
      ret, localStorage_getItem, stored_token.
    rewrite H.
    destruct (fetch _ _) as [[[ok [result|e]]|e] n]; simpl.
    + destruct ok; simpl; destruct (nullish result); reflexivity.
    + destruct ok; simpl; destruct (nullish e); reflexivity.
    + destruct (nullish e); reflexivity.
  - unfold RestApiDataService.apiListCall, try_catch, bind, call_fetch, response_json,
      get, ret, localStorage_getItem, stored_token.
    rewrite H.
    destruct (fetch _ _) as [[[ok [result|e]]|e] n]; simpl.
    + destruct ok; simpl; destruct (nullish result); reflexivity.
    + destruct ok; simpl; destruct (nullish e); reflexivity.
    + destruct (nullish e); reflexivity.
Qed.
End RuntimeResponses.

(** X15.  In both remote-HTTP services the body of a response is parsed
    before its status is looked at, and every failure on the way is what the
    [catch] block makes of the value it catches.  When the transport fails,
    the envelope has null data and the [message] of that failure; when the
    body does not parse, it has null data and the [message] of the parse
    error, for a response that is ok as for one that is not; when the body is
    [null], it has null data and the message of the [TypeError] for reading a
    property of [null].  A response that is ok and whose body is another value
    is handed through: the envelope has the [data] of the body, which may be
    missing, a null error and, for a list, the [count] of the body.  The call
    itself rejects only when what it catches is [null] or [undefined].  The
    data service reads the storage first; where that throws, it calls
    [fetch] not at all and the envelope has the message of what the storage
    threw. *)
Theorem rest_failures_keep_their_message
    {N} (engine : Runtime.Engine) (fetch : Runtime.Fetch N) (this : Rest.Instance)
    (w : Runtime.World N) (c : Runtime.ApiCall) endpoint options :
  let outcome := (Runtime.run_api engine fetch this c endpoint options w).1 in
  let storage := Runtime.localStorage (Runtime.page w) in
  (c = Runtime.AuthApiCall ∨ Runtime.getItem_throws storage = None →
   (∀ e n',
      (∀ request, fetch request (Runtime.network (Runtime.page w))
                  = (Runtime.Reject e, n')) →
      outcome = Runtime.caught engine e)
   ∧ (∀ ok e n',
        (∀ request, fetch request (Runtime.network (Runtime.page w))
                    = (Runtime.Return {| Runtime.ok := ok;
                                         Runtime.json := Runtime.Reject e |}, n')) →
        outcome = Runtime.caught engine e)
   ∧ (∀ ok n',
        (∀ request, fetch request (Runtime.network (Runtime.page w))
                    = (Runtime.Return {| Runtime.ok := ok;
                                         Runtime.json := Runtime.Return Runtime.Null |},
                       n')) →
        outcome
        = Runtime.Return
            {| Runtime.Envelope.data := Runtime.Null;
               Runtime.Envelope.error :=
                 Runtime.Str (Runtime.cannot_read engine Runtime.Null
                                (if ok then Runtime.Key.data else Runtime.Key.message));
               Runtime.Envelope.count := Runtime.Undefined |})
   ∧ (∀ result n',
        Runtime.nullish result = false →
        (∀ request, fetch request (Runtime.network (Runtime.page w))
                    = (Runtime.Return {| Runtime.ok := true;
                                         Runtime.json := Runtime.Return result |}, n')) →
        outcome
        = Runtime.Return
            {| Runtime.Envelope.data := Runtime.property result Runtime.Key.data;
               Runtime.Envelope.error := Runtime.Null;
               Runtime.Envelope.count :=
                 match c with
                 | Runtime.DataApiListCall => Runtime.property result Runtime.Key.count
                 | _ => Runtime.Undefined
                 end |}))
  ∧ (∀ thrown,
       c ≠ Runtime.AuthApiCall → Runtime.getItem_throws storage = Some thrown →
       outcome = Runtime.caught engine thrown
       ∧ Runtime.issued (Runtime.run_api engine fetch this c endpoint options) w = []).
Proof.
  intros outcome storage. subst outcome storage. split.
  - intros Hc.
    destruct (rt_apiCall_outcome engine fetch this endpoint options w) as [Ha Hd].
    assert (∀ sent n',
              (∀ request, fetch request (Runtime.network (Runtime.page w)) = (sent, n')) →
              (Runtime.run_api engine fetch this c endpoint options w).1
              = match sent with
                | Runtime.Reject e => Runtime.caught engine e
                | Runtime.Return response =>
                    match Runtime.json response with
                    | Runtime.Reject e => Runtime.caught engine e
                    | Runtime.Return result =>
                        if Runtime.nullish result then
                          Runtime.Return
                            {| Runtime.Envelope.data := Runtime.Null;
                               Runtime.Envelope.error :=
                                 Runtime.Str
                                   (Runtime.cannot_read engine result
                                      (if Runtime.ok response then Runtime.Key.data
                                       else Runtime.Key.message));
                               Runtime.Envelope.count := Runtime.Undefined |}
                        else if Runtime.ok response then
                          Runtime.Return
                            {| Runtime.Envelope.data :=
                                 Runtime.property result Runtime.Key.data;
                               Runtime.Envelope.error := Runtime.Null;
                               Runtime.Envelope.count :=
                                 match c with
                                 | Runtime.DataApiListCall =>
                                     Runtime.property result Runtime.Key.count
                                 | _ => Runtime.Undefined
                                 end |}
                        else
                          Runtime.Return
                            {| Runtime.Envelope.data := Runtime.Null;
                               Runtime.Envelope.error :=
                                 Runtime.or (Runtime.property result Runtime.Key.message)
                                   (Runtime.Str "API request failed");
                               Runtime.Envelope.count := Runtime.Undefined |}
                    end
                end) as Hall.
    { intros sent n' Hf. destruct c; simpl.
      - rewrite Ha, Hf. reflexivity.
      - destruct Hc as [?|H]; [done|]. destruct (Hd H) as [-> _]. rewrite Hf. reflexivity.
      - destruct Hc as [?|H]; [done|]. destruct (Hd H) as [_ ->]. rewrite Hf. reflexivity. }
    split; [| split; [| split]].
    + intros e n' Hf. by rewrite (Hall _ _ Hf).
    + intros ok e n' Hf. by rewrite (Hall _ _ Hf).
    + intros ok n' Hf. by rewrite (Hall _ _ Hf).
    + intros result n' Hn Hf. rewrite (Hall _ _ Hf). simpl. by rewrite Hn.
  - intros thrown Hc H. split.
    + destruct c; [done | |]; simpl;
        [unfold Runtime.RestApiDataService.apiCall
        | unfold Runtime.RestApiDataService.apiListCall];
        unfold Runtime.try_catch, Runtime.bind, Runtime.localStorage_getItem,
          Runtime.get, Runtime.caught, Runtime.ret;
        rewrite H; simpl; by destruct (Runtime.nullish thrown).
    + apply rt_issued_none.
      destruct (rt_data_apiCall_denied engine fetch this endpoint options w thrown H)
        as [E1 E2].
      destruct c; [done | |]; simpl; by rewrite ?E1, ?E2.
Qed.

Lemma rest_failures_keep_their_message_witness :
  let w := Runtime.browser (Runtime.accessible ∅) [] in
  (Runtime.RestApiDataService.apiListCall Runtime.v8 (Runtime.garbled true) api
     "/families/f1/rewards" Rest.no_options w).1
  = Runtime.Return
      {| Runtime.Envelope.data := Runtime.Null;
         Runtime.Envelope.error := Runtime.Str "Unexpected token < in JSON at position 0";
         Runtime.Envelope.count := Runtime.Undefined |}
  ∧ (Runtime.RestApiAuthService.apiCall Runtime.v8
       (Runtime.answering true Runtime.Null) api "/auth/me" Rest.no_options w).1
    = Runtime.Return
        {| Runtime.Envelope.data := Runtime.Null;
           Runtime.Envelope.error :=
             Runtime.Str "Cannot read properties of null (reading 'data')";
           Runtime.Envelope.count := Runtime.Undefined |}
  ∧ (Runtime.RestApiDataService.apiCall Runtime.v8 Runtime.unreachable api
       "/activities" Rest.no_options (Runtime.browser Runtime.denied [])).1
    = Runtime.Return
        {| Runtime.Envelope.data := Runtime.Null;
           Runtime.Envelope.error := Runtime.Str "The operation is insecure.";
           Runtime.Envelope.count := Runtime.Undefined |}.
Proof.
  intros w. split; [| split].
  - pose proof (rest_failures_keep_their_message Runtime.v8 (Runtime.garbled true) api w
                  Runtime.DataApiListCall "/families/f1/rewards" Rest.no_options) as H.
    cbv zeta in H. destruct H as [H _].
    destruct (H (or_intror eq_refl)) as (_ & Hparse & _).
    exact (Hparse true Runtime.syntax_error tt (λ request, eq_refl)).
  - pose proof (rest_failures_keep_their_message Runtime.v8
                  (Runtime.answering true Runtime.Null) api w
                  Runtime.AuthApiCall "/auth/me" Rest.no_options) as H.
    cbv zeta in H. destruct H as [H _].
    destruct (H (or_introl eq_refl)) as (_ & _ & Hnull & _).
    exact (Hnull true tt (λ request, eq_refl)).
  - pose proof (rest_failures_keep_their_message Runtime.v8 Runtime.unreachable api
                  (Runtime.browser Runtime.denied []) Runtime.DataApiCall
                  "/activities" Rest.no_options) as H.
    cbv zeta in H. destruct H as [_ H].
    exact (proj1 (H Runtime.security_error ltac:(discriminate) eq_refl)).
Defined.

(** X7.  The remote-HTTP [getSession] rejects in two cases only: when
    reading the storage throws, with what the storage threw and before any
    request, and when [fetch] or [json()] rejects with [null] or [undefined],
    which the [catch] block of the request cannot read.  Otherwise it
    resolves.  Without a token, or with the empty string as token, the user is
    null and the world is untouched.  With a token it issues one request, for
    "/auth/me" and without method or body, changes neither the storage nor the
    listeners and calls no listener; the user is the [data] of the body of a
    response that is ok, and null when the transport fails, when the body does
    not parse, when the body is [null] or when the response is not ok. *)
Theorem rest_getSession_rejects_in_two_cases
    {N} (engine : Runtime.Engine) (fetch : Runtime.Fetch N) (this : Rest.Instance)
    (w : Runtime.World N) :
  let storage := Runtime.localStorage (Runtime.page w) in
  let getSession := Runtime.RestApiAuthService.getSession engine fetch this in
  let request :=
    {| Rest.url := Rest.baseUrl this +:+ "/auth/me";
       Rest.method := undefined;
       Rest.body := undefined;
       Rest.headers := Rest.request_headers (val (Rest.apiKey this)) Rest.no_options |} in
  let sent := fetch request (Runtime.network (Runtime.page w)) in
  let unreadable e :=
    if Runtime.nullish e
    then Runtime.Reject
           (Runtime.Err "TypeError" (Runtime.cannot_read engine e Runtime.Key.message))
    else Runtime.Return {| Runtime.Session.user := Runtime.Null |} in
  (∀ thrown, Runtime.getItem_throws storage = Some thrown →
             getSession w = (Runtime.Reject thrown, w))
  ∧ (Runtime.getItem_throws storage = None →
     js_truthy (Runtime.stored_token (Runtime.page w)) = false →
     getSession w = (Runtime.Return {| Runtime.Session.user := Runtime.Null |}, w))
  ∧ (Runtime.getItem_throws storage = None →
     js_truthy (Runtime.stored_token (Runtime.page w)) = true →
     (getSession w).2
     = {| Runtime.page :=
            {| Runtime.localStorage := storage;
               Runtime.network := sent.2;
               Runtime.authStateCallbacks :=
                 Runtime.authStateCallbacks (Runtime.page w) |};
          Runtime.requests := Runtime.requests w ++ [request];
          Runtime.delivered := Runtime.delivered w |}
     ∧ (getSession w).1
       = match sent.1 with
         | Runtime.Reject e => unreadable e
         | Runtime.Return response =>
             match Runtime.json response with
             | Runtime.Reject e => unreadable e
             | Runtime.Return result =>
                 Runtime.Return
                   {| Runtime.Session.user :=
                        if Runtime.ok response && negb (Runtime.nullish result)
                        then Runtime.property result Runtime.Key.data
                        else Runtime.Null |}
             end
         end).
Proof.
  intros storage getSession request sent unreadable.
  subst storage getSession request sent unreadable.
  split; [intros thrown H; by apply rt_getSession_denied|].
  split; [intros H Ht; by apply rt_getSession_without_token|].
  intros H Ht. rewrite rt_getSession_with_token by done.
  unfold Runtime.RestApiAuthService.apiCall, Runtime.try_catch, Runtime.bind,
    Runtime.call_fetch, Runtime.response_json, Runtime.get, Runtime.ret.
  change (Rest.request_of (Rest.baseUrl this +:+ "/auth/me") (val (Rest.apiKey this))
            Rest.no_options)
    with {| Rest.url := Rest.baseUrl this +:+ "/auth/me";
            Rest.method := undefined;
            Rest.body := undefined;
            Rest.headers :=
              Rest.request_headers (val (Rest.apiKey this)) Rest.no_options |}.
  destruct (fetch _ _) as [[[ok [result|e]]|e] n]; simpl.
  - destruct ok; simpl; destruct (Runtime.nullish result); by split.
  - destruct ok; simpl; destruct (Runtime.nullish e); by split.
  - destruct (Runtime.nullish e); by split.
Qed.

Lemma rest_getSession_rejects_in_two_cases_witness :
  let w := Runtime.browser (Runtime.accessible {["auth_token" := "t1"]}) [3] in
  let rejecting : Runtime.Fetch unit := λ _ n, (Runtime.Reject Runtime.Undefined, n) in
  (Runtime.RestApiAuthService.getSession Runtime.v8 Runtime.unreachable api
     (Runtime.browser Runtime.denied [3])).1
  = Runtime.Reject Runtime.security_error
  ∧ (Runtime.RestApiAuthService.getSession Runtime.v8 rejecting api w).1
    = Runtime.Reject
        (Runtime.Err "TypeError"
           "Cannot read properties of undefined (reading 'message')")
  ∧ (Runtime.RestApiAuthService.getSession Runtime.v8 Runtime.unreachable api w).1
    = Runtime.Return {| Runtime.Session.user := Runtime.Null |}
  ∧ (Runtime.RestApiAuthService.getSession Runtime.v8
       (Runtime.answering true
          (Runtime.Obj [("data", Runtime.Obj [("id", Runtime.Str "p1")])])) api w).1
    = Runtime.Return
        {| Runtime.Session.user := Runtime.Obj [("id", Runtime.Str "p1")] |}.
Proof.
  intros w rejecting. split; [| split; [| split]].
  - pose proof (rest_getSession_rejects_in_two_cases Runtime.v8 Runtime.unreachable api
                  (Runtime.browser Runtime.denied [3])) as H.
    cbv zeta in H. destruct H as [H _]. by rewrite (H Runtime.security_error eq_refl).
  - pose proof (rest_getSession_rejects_in_two_cases Runtime.v8 rejecting api w) as H.
    cbv zeta in H. destruct H as (_ & _ & H). destruct (H eq_refl eq_refl) as [_ E].
    exact E.
  - pose proof (rest_getSession_rejects_in_two_cases Runtime.v8 Runtime.unreachable api w)
      as H.
    cbv zeta in H. destruct H as (_ & _ & H). destruct (H eq_refl eq_refl) as [_ E].
    exact E.
  - pose proof (rest_getSession_rejects_in_two_cases Runtime.v8
                  (Runtime.answering true
                     (Runtime.Obj [("data", Runtime.Obj [("id", Runtime.Str "p1")])]))
                  api w) as H.
    cbv zeta in H. destruct H as (_ & _ & H). destruct (H eq_refl eq_refl) as [_ E].
    exact E.
Defined.

(** ** Sign-up over HTTP *)

Section RuntimeSignUp.
Import Runtime.
Context {N : Type} (engine : Engine) (fetch : Fetch N) (listeners : Listeners N)
  (this : Rest.Instance).

(** Idle listeners are called one after the other and leave the page as it
    is. *)
Lemma rt_forEach_idle event session turns index (w : World N) :
  (∀ c, c ∈ authStateCallbacks (page w) → idle listeners c) →
  RestApiAuthService.forEach_from listeners event session turns index w
  = (Return tt,
     {| page := page w;
        requests := requests w;
        delivered :=
          delivered w
          ++ (notice event session
                <$> take turns (drop index (authStateCallbacks (page w)))) |}).
Proof.
  revert index w. induction turns as [|turns IH]; intros index w Hi.
  - simpl. rewrite app_nil_r. by destruct w.
  - simpl. destruct (authStateCallbacks (page w) !! index) as [c|] eqn:Ec.
    + unfold bind, call. rewrite (Hi c) by (by eapply list_elem_of_lookup_2).
      rewrite IH by exact Hi. simpl. rewrite <- app_assoc.
      by rewrite (drop_S _ _ _ Ec).
    + rewrite IH by exact Hi. apply lookup_ge_None in Ec.
      by rewrite !drop_ge, !take_nil by lia.
Qed.

(** A listener that throws after idle ones ends the loop where it stands. *)
Lemma rt_forEach_fails event session turns index (w : World N) l1 c l2 thrown :
  authStateCallbacks (page w) = l1 ++ c :: l2 →
  (∀ x, x ∈ l1 → idle listeners x) →
  fails listeners c thrown →
  index ≤ length l1 < index + turns →
  RestApiAuthService.forEach_from listeners event session turns index w
  = (Reject thrown,
     {| page := page w;
        requests := requests w;
        delivered := delivered w ++ (notice event session <$> (drop index l1 ++ [c])) |}).
Proof.
  revert index w. induction turns as [|turns IH]; intros index w El Hi Hf Hb; [lia|].
  simpl. destruct (decide (index = length l1)) as [->|Hne].
  - rewrite El, list_lookup_middle by reflexivity.
    unfold bind, call. rewrite Hf. by rewrite drop_all.
  - assert (index < length l1) as Hlt by lia.
    destruct (lookup_lt_is_Some_2 l1 index Hlt) as [x Ex].
    rewrite El, (lookup_app_l_Some _ _ _ _ Ex).
    unfold bind, call. rewrite (Hi x) by (by eapply list_elem_of_lookup_2).
    rewrite (IH (S index)); [| exact El | exact Hi | exact Hf | lia].
    simpl. rewrite <- app_assoc. by rewrite (drop_S _ _ _ Ex).
Qed.

(** [signUp] after its request has come back. *)
Lemma rt_signUp_unfold email password displayName role (w : World N) :
  let answered :=
    RestApiAuthService.apiCall engine fetch this "/auth/signup"
      {| Rest.opt_method := val "POST";
         Rest.opt_body := val (Rest.Registration email password displayName role);
         Rest.opt_headers := ∅ |} w in
  RestApiAuthService.signUp engine fetch listeners this email password displayName role w
  = match answered.1 with
    | Reject thrown => (Reject thrown, answered.2)
    | Return r =>
        if truthy (Envelope.data r) then
          match ToString engine (property (Envelope.data r) Key.token) with
          | Reject thrown => (Reject thrown, answered.2)
          | Return text =>
              match setItem_throws (localStorage (page answered.2)) with
              | Some thrown => (Reject thrown, answered.2)
              | None =>
                  let notified :=
                    RestApiAuthService.notifyAuthStateChange listeners "SIGNED_UP"
                      (Obj [("user", property (Envelope.data r) Key.user)])
                      (on_page (set_items (λ m, <["auth_token" := text]> m)) answered.2) in
                  match notified.1 with
                  | Reject thrown => (Reject thrown, notified.2)
                  | Return _ =>
                      (Return {| Envelope.data := property (Envelope.data r) Key.user;
                                 Envelope.error := Null;
                                 Envelope.count := Undefined |}, notified.2)
                  end
              end
          end
        else (Return {| Envelope.data := Null; Envelope.error := Envelope.error r;
                        Envelope.count := Undefined |}, answered.2)
    end.
Proof.
  intros answered. subst answered.
  unfold RestApiAuthService.signUp, RestApiAuthService.session_of, bind, ret, get,
    localStorage_setItem.
  destruct (RestApiAuthService.apiCall _ _ _ _ _ _) as [[r|thrown] w1]; simpl;
    [|reflexivity].
  destruct (truthy (Envelope.data r)) eqn:Et; simpl; [|reflexivity].
  rewrite (truthy_not_nullish _ Et). simpl.
  destruct (ToString engine _) as [text|thrown]; simpl; [|reflexivity].
  destruct (setItem_throws _) as [thrown|]; simpl; [reflexivity|].
  by destruct (RestApiAuthService.notifyAuthStateChange _ _ _ _) as [[[]|thrown] w2].
Qed.
End RuntimeSignUp.

(** X4.  The remote-HTTP [signUp] stores the token before it calls the
    listeners, and calls them before it returns.  Take the envelope that its
    request comes back with.  When its data is falsy, [signUp] returns null
    data with that envelope's error; the storage and the listeners are what
    they were and no listener is called.  When its data is truthy but the
    token cannot be converted or stored, [signUp] rejects and no listener is
    called.  Otherwise the token is stored under "auth_token" and the
    listeners are called with "SIGNED_UP" and the user of the data: when they
    all return and do nothing else, each registration receives the event once,
    in the order of registration, and the user is returned without an error;
    when one of them throws, [signUp] rejects with what it threw, the
    registrations after it receive nothing, and the token stays in storage. *)
Theorem signUp_stores_then_notifies
    {N} (engine : Runtime.Engine) (fetch : Runtime.Fetch N)
    (listeners : Runtime.Listeners N) (this : Rest.Instance)
    email password displayName role (w : Runtime.World N) :
  let signUp :=
    Runtime.RestApiAuthService.signUp engine fetch listeners this
      email password displayName role in
  let answered :=
    Runtime.RestApiAuthService.apiCall engine fetch this "/auth/signup"
      {| Rest.opt_method := val "POST";
         Rest.opt_body := val (Rest.Registration email password displayName role);
         Rest.opt_headers := ∅ |} w in
  let callbacks := Runtime.authStateCallbacks (Runtime.page w) in
  (Runtime.localStorage (Runtime.page answered.2)
   = Runtime.localStorage (Runtime.page w)
   ∧ Runtime.authStateCallbacks (Runtime.page answered.2) = callbacks
   ∧ Runtime.delivered answered.2 = Runtime.delivered w)
  ∧ (∀ thrown, answered.1 = Runtime.Reject thrown →
               signUp w = (Runtime.Reject thrown, answered.2))
  ∧ (∀ r, answered.1 = Runtime.Return r →
       let data := Runtime.Envelope.data r in
       let user := Runtime.property data Runtime.Key.user in
       let session := Runtime.Obj [("user", user)] in
       (truthy data = false →
        signUp w = (Runtime.Return {| Runtime.Envelope.data := Runtime.Null;
                                      Runtime.Envelope.error := Runtime.Envelope.error r;
                                      Runtime.Envelope.count := Runtime.Undefined |},
                    answered.2))
       ∧ (truthy data = true →
          (∀ thrown,
             Runtime.ToString engine (Runtime.property data Runtime.Key.token)
             = Runtime.Reject thrown →
             signUp w = (Runtime.Reject thrown, answered.2))
          ∧ (∀ text,
               Runtime.ToString engine (Runtime.property data Runtime.Key.token)
               = Runtime.Return text →
               (∀ thrown,
                  Runtime.setItem_throws (Runtime.localStorage (Runtime.page w))
                  = Some thrown →
                  signUp w = (Runtime.Reject thrown, answered.2))
               ∧ (Runtime.setItem_throws (Runtime.localStorage (Runtime.page w)) = None →
                  ((∀ c, c ∈ callbacks → Runtime.idle listeners c) →
                   (signUp w).1
                   = Runtime.Return {| Runtime.Envelope.data := user;
                                       Runtime.Envelope.error := Runtime.Null;
                                       Runtime.Envelope.count := Runtime.Undefined |}
                   ∧ Runtime.stored_token (Runtime.page (signUp w).2) = val text
                   ∧ Runtime.fired signUp w
                     = (Runtime.notice "SIGNED_UP" session <$> callbacks))
                  ∧ (∀ l1 c l2 thrown,
                       callbacks = l1 ++ c :: l2 →
                       (∀ x, x ∈ l1 → Runtime.idle listeners x) →
                       Runtime.fails listeners c thrown →
                       (signUp w).1 = Runtime.Reject thrown
                       ∧ Runtime.stored_token (Runtime.page (signUp w).2) = val text
                       ∧ Runtime.fired signUp w
                         = (Runtime.notice "SIGNED_UP" session <$> (l1 ++ [c]))))))).
Proof.
  intros signUp answered callbacks.
  assert (Runtime.localStorage (Runtime.page answered.2)
          = Runtime.localStorage (Runtime.page w)
          ∧ Runtime.authStateCallbacks (Runtime.page answered.2) = callbacks
          ∧ Runtime.delivered answered.2 = Runtime.delivered w) as (Hs & Hc & Hd).
  { subst answered. rewrite rt_auth_apiCall_world. apply rt_call_fetch_page. }
  pose proof (rt_signUp_unfold engine fetch listeners this email password displayName
                role w) as Hunfold.
  cbv zeta in Hunfold. fold answered in Hunfold. fold signUp in Hunfold.
  split; [by repeat split|].
  split; [intros thrown E; by rewrite Hunfold, E|].
  intros r E data user session. rewrite E in Hunfold. split.
  { intros Ht. fold data in Hunfold. by rewrite Ht in Hunfold. }
  intros Ht. fold data in Hunfold. rewrite Ht in Hunfold. split.
  { intros thrown Es. by rewrite Es in Hunfold. }
  intros text Es. rewrite Es, Hs in Hunfold. split.
  { intros thrown Ef. by rewrite Ef in Hunfold. }
  intros Ef. rewrite Ef in Hunfold. fold user session in Hunfold.
  set (stored := Runtime.on_page
                   (Runtime.set_items (λ m, <["auth_token" := text]> m)) answered.2)
    in Hunfold.
  assert (Runtime.authStateCallbacks (Runtime.page stored) = callbacks) as Hcs
    by exact Hc.
  assert (Runtime.stored_token (Runtime.page stored) = val text) as Htoken.
  { unfold Runtime.stored_token. simpl. by rewrite lookup_insert_eq. }
  assert (Runtime.delivered stored = Runtime.delivered w) as Hds by exact Hd.
  split.
  - intros Hidle. unfold Runtime.fired.
    rewrite Hunfold. unfold Runtime.RestApiAuthService.notifyAuthStateChange.
    rewrite rt_forEach_idle by (by rewrite Hcs).
    rewrite Hcs, drop_0, firstn_all, Hds.
    cbn [fst snd Runtime.page Runtime.delivered].
    split; [reflexivity|]. split; [exact Htoken|]. by rewrite drop_app_length.
  - intros l1 c l2 thrown El Hidle Hfails. unfold Runtime.fired.
    rewrite Hunfold. unfold Runtime.RestApiAuthService.notifyAuthStateChange.
    rewrite (rt_forEach_fails listeners _ _ _ 0 stored l1 c l2 thrown);
      [| by rewrite Hcs | exact Hidle | exact Hfails
       | rewrite Hcs, El, length_app; simpl; lia].
    rewrite Hds, drop_0.
    cbn [fst snd Runtime.page Runtime.delivered].
    split; [reflexivity|]. split; [exact Htoken|]. by rewrite drop_app_length.
Qed.

Lemma signUp_stores_then_notifies_witness :
  let w := Runtime.browser (Runtime.accessible ∅) [3; 5; 8] in
  let account :=
    Runtime.Obj [("user", Runtime.Obj [("id", Runtime.Str "p1")]);
                 ("token", Runtime.Str "t9")] in
  let granting := Runtime.answering true (Runtime.Obj [("data", account)]) in
  let session := Runtime.Obj [("user", Runtime.Obj [("id", Runtime.Str "p1")])] in
  let signUp listeners :=
    Runtime.RestApiAuthService.signUp Runtime.v8 granting listeners api
      "pat@example.org" "secret" "Pat" parent in
  ((signUp Runtime.inert w).1
   = Runtime.Return {| Runtime.Envelope.data := Runtime.Obj [("id", Runtime.Str "p1")];
                       Runtime.Envelope.error := Runtime.Null;
                       Runtime.Envelope.count := Runtime.Undefined |}
   ∧ Runtime.stored_token (Runtime.page (signUp Runtime.inert w).2) = val "t9"
   ∧ Runtime.fired (signUp Runtime.inert) w
     = [Runtime.notice "SIGNED_UP" session 3; Runtime.notice "SIGNED_UP" session 5;
        Runtime.notice "SIGNED_UP" session 8])
  ∧ ((signUp (Runtime.failing 5 (Runtime.Err "Error" "boom")) w).1
     = Runtime.Reject (Runtime.Err "Error" "boom")
     ∧ Runtime.stored_token
         (Runtime.page (signUp (Runtime.failing 5 (Runtime.Err "Error" "boom")) w).2)
       = val "t9"
     ∧ Runtime.fired (signUp (Runtime.failing 5 (Runtime.Err "Error" "boom"))) w
       = [Runtime.notice "SIGNED_UP" session 3; Runtime.notice "SIGNED_UP" session 5]).
Proof.
  intros w account granting session signUp. split.
  - pose proof (signUp_stores_then_notifies Runtime.v8 granting Runtime.inert api
                  "pat@example.org" "secret" "Pat" parent w) as H.
    cbv zeta in H. destruct H as (_ & _ & H).
    destruct (H _ eq_refl) as [_ H1]. destruct (H1 eq_refl) as [_ H2].
    destruct (H2 "t9" eq_refl) as [_ H3]. destruct (H3 eq_refl) as [H4 _].
    apply H4. intros c _ event session' p. reflexivity.
  - pose proof (signUp_stores_then_notifies Runtime.v8 granting
                  (Runtime.failing 5 (Runtime.Err "Error" "boom")) api
                  "pat@example.org" "secret" "Pat" parent w) as H.
    cbv zeta in H. destruct H as (_ & _ & H).
    destruct (H _ eq_refl) as [_ H1]. destruct (H1 eq_refl) as [_ H2].
    destruct (H2 "t9" eq_refl) as [_ H3]. destruct (H3 eq_refl) as [_ H4].
    apply (H4 [3] 5 [8] (Runtime.Err "Error" "boom") eq_refl).
    + intros x Hx%list_elem_of_singleton event session' p. subst x. reflexivity.
    + intros event session' p. reflexivity.
Defined.

(** ** The two embeddings

    On the values of the announced types, with a storage that answers and
    listeners that only receive, the methods above do what
    [RestApiAuthService] and [RestApiDataService] of the first part do. *)

Section Announced.
Context {N T : Type} (encode : T → Runtime.value) (number : Z → Runtime.value)
  (of_session : js SessionView → Runtime.value) (engine : Runtime.Engine)
  (this : Rest.Instance).

Lemma or_of_message (m : js string) :
  Runtime.or (Runtime.of_js Runtime.Str m) (Runtime.Str "API request failed")
  = Runtime.Str (js_or m "API request failed").
Proof.
  destruct m as [| |s]; try reflexivity. unfold Runtime.or, js_or. simpl.
  change (truthy (Runtime.Str s)) with (truthy s). by destruct (truthy s).
Qed.

Lemma member_of_body (m d c : Runtime.value) :
  let members := [("message", m); ("data", d); ("count", c)] in
  Runtime.member "message" members = m
  ∧ Runtime.member "data" members = d
  ∧ Runtime.member "count" members = c.
Proof. by repeat split. Qed.

Lemma member_of_payload (u t : Runtime.value) :
  let members := [("user", u); ("token", t)] in
  Runtime.member "user" members = u ∧ Runtime.member "token" members = t.
Proof. by repeat split. Qed.

Lemma announced_auth_apiCall (fetch : Rest.Fetch N T) endpoint options (w : Rest.World N) :
  Runtime.RestApiAuthService.apiCall engine (Runtime.of_fetch encode number fetch) this
    endpoint options (Runtime.of_world of_session w)
  = (Runtime.of_outcome (Runtime.of_envelope encode)
       (RestApiAuthService.apiCall this fetch endpoint options w).1,
     Runtime.of_world of_session (RestApiAuthService.apiCall this fetch endpoint options w).2).
Proof.
  unfold Runtime.RestApiAuthService.apiCall, RestApiAuthService.apiCall,
    Runtime.try_catch, Runtime.bind, Runtime.call_fetch, Runtime.response_json,
    Runtime.get, Runtime.ret, Runtime.of_fetch, try_catch, bind, Rest.call_fetch,
    Rest.response_json, ret, error_response.
  simpl. destruct (fetch _ _) as [[[ok [body|e]]|e] n]; simpl; try reflexivity.
  destruct ok; simpl.
  - by rewrite (proj1 (proj2 (member_of_body _ _ _))).
  - rewrite (proj1 (member_of_body _ _ _)). unfold Runtime.of_envelope. simpl.
    by rewrite or_of_message.
Qed.
Lemma announced_data_apiCall (fetch : Rest.Fetch N T) endpoint options (w : Rest.World N) :
  Runtime.RestApiDataService.apiCall engine (Runtime.of_fetch encode number fetch) this
    endpoint options (Runtime.of_world of_session w)
  = (Runtime.of_outcome (Runtime.of_envelope encode)
       (RestApiDataService.apiCall this fetch endpoint options w).1,
     Runtime.of_world of_session (RestApiDataService.apiCall this fetch endpoint options w).2).
Proof.
  unfold Runtime.RestApiDataService.apiCall, RestApiDataService.apiCall,
    Runtime.try_catch, Runtime.bind, Runtime.call_fetch, Runtime.response_json,
    Runtime.get, Runtime.ret, Runtime.of_fetch, Runtime.localStorage_getItem,
    try_catch, bind, Rest.call_fetch, Rest.response_json, Rest.localStorage_getItem, ret,
    error_response.
  simpl. destruct (fetch _ _) as [[[ok [body|e]]|e] n]; simpl; try reflexivity.
  destruct ok; simpl.
  - by rewrite (proj1 (proj2 (member_of_body _ _ _))).
  - rewrite (proj1 (member_of_body _ _ _)). unfold Runtime.of_envelope. simpl.
    by rewrite or_of_message.
Qed.

Lemma announced_data_apiListCall (fetch : Rest.Fetch N (list T)) endpoint options
    (w : Rest.World N) :
  Runtime.RestApiDataService.apiListCall engine
    (Runtime.of_fetch (λ l, Runtime.Arr (encode <$> l)) number fetch) this
    endpoint options (Runtime.of_world of_session w)
  = (Runtime.of_outcome (Runtime.of_list_envelope encode number)
       (RestApiDataService.apiListCall this fetch endpoint options w).1,
     Runtime.of_world of_session
       (RestApiDataService.apiListCall this fetch endpoint options w).2).
Proof.
  unfold Runtime.RestApiDataService.apiListCall, RestApiDataService.apiListCall,
    Runtime.try_catch, Runtime.bind, Runtime.call_fetch, Runtime.response_json,
    Runtime.get, Runtime.ret, Runtime.of_fetch, Runtime.localStorage_getItem,
    try_catch, bind, Rest.call_fetch, Rest.response_json, Rest.localStorage_getItem, ret,
    error_list_response.
  simpl. destruct (fetch _ _) as [[[ok [body|e]]|e] n]; simpl; try reflexivity.
  destruct ok; simpl.
  - by rewrite (proj1 (proj2 (member_of_body _ _ _))), (proj2 (proj2 (member_of_body _ _ _))).
  - rewrite (proj1 (member_of_body _ _ _)). unfold Runtime.of_list_envelope. simpl.
    by rewrite or_of_message.
Qed.

(** Listeners that only receive. *)
Lemma announced_notify (listeners : Runtime.Listeners N) event session (w : Rest.World N) :
  (∀ c, c ∈ Rest.authStateCallbacks w → Runtime.idle listeners c) →
  Runtime.RestApiAuthService.notifyAuthStateChange listeners event (of_session session)
    (Runtime.of_world of_session w)
  = (Runtime.Return tt,
     Runtime.of_world of_session
       (RestApiAuthService.notifyAuthStateChange event session w).2).
Proof.
  intros Hidle. unfold Runtime.RestApiAuthService.notifyAuthStateChange.
  rewrite rt_forEach_idle by exact Hidle.
  unfold Runtime.of_world. simpl. rewrite drop_0, firstn_all, fmap_app.
  by rewrite <- list_fmap_compose.
Qed.

Lemma announced_signOut (listeners : Runtime.Listeners N) (w : Rest.World N) :
  (∀ c, c ∈ Rest.authStateCallbacks w → Runtime.idle listeners c) →
  of_session null = Runtime.Null →
  Runtime.RestApiAuthService.signOut listeners (Runtime.of_world of_session w)
  = (Runtime.Return {| Runtime.Envelope.data := Runtime.Null;
                       Runtime.Envelope.error := Runtime.Null;
                       Runtime.Envelope.count := Runtime.Undefined |},
     Runtime.of_world of_session (RestApiAuthService.signOut w).2).
Proof.
  intros Hidle Hnull.
  unfold Runtime.RestApiAuthService.signOut, Runtime.bind,
    Runtime.localStorage_removeItem. simpl.
  pose proof (announced_notify listeners "SIGNED_OUT" null
                (Rest.localStorage_removeItem "auth_token" w).2 Hidle) as E.
  rewrite Hnull in E. unfold Runtime.of_world in E at 1. simpl in E.
  unfold Runtime.on_page, Runtime.set_items, Runtime.accessible in E |- *. simpl.
  by rewrite E.
Qed.
End Announced.

Section AnnouncedSession.
Context {N : Type} (encode_user : AuthUser.t → Runtime.value)
  (number : Z → Runtime.value) (of_session : js SessionView → Runtime.value)
  (engine : Runtime.Engine) (listeners : Runtime.Listeners N) (this : Rest.Instance).
Hypothesis of_session_null : of_session null = Runtime.Null.
Hypothesis of_session_user :
  ∀ u, of_session (val (Build_SessionView (val u)))
       = Runtime.Obj [("user", encode_user u)].
Hypothesis ToString_string : ∀ s, Runtime.ToString engine (Runtime.Str s) = Runtime.Return s.

Lemma announced_getSession (fetch : Rest.Fetch N AuthUser.t) (w : Rest.World N) :
  Runtime.RestApiAuthService.getSession engine
    (Runtime.of_fetch encode_user number fetch) this (Runtime.of_world of_session w)
  = (Runtime.of_outcome (Runtime.of_view encode_user)
       (RestApiAuthService.getSession this fetch w).1,
     Runtime.of_world of_session (RestApiAuthService.getSession this fetch w).2).
Proof.
  unfold Runtime.RestApiAuthService.getSession, RestApiAuthService.getSession,
    Runtime.bind, bind, Runtime.localStorage_getItem, Rest.localStorage_getItem. simpl.
  destruct (js_truthy _); simpl; [|reflexivity].
  rewrite (announced_auth_apiCall encode_user number of_session engine this fetch).
  by destruct (RestApiAuthService.apiCall this fetch "/auth/me" Rest.no_options w)
    as [[r|e] w'].
Qed.

Local Ltac announce_session fetch w :=
  rewrite (announced_auth_apiCall (Runtime.of_payload encode_user) number of_session
             engine this fetch);
  match goal with
  | |- context [RestApiAuthService.apiCall this fetch ?endpoint ?options w] =>
      let r := fresh "r" in let e := fresh "e" in let w' := fresh "w'" in
      let E := fresh "E" in let d := fresh "d" in let Ed := fresh "Ed" in
      let Eu := fresh "Eu" in let Et := fresh "Et" in let Hcb := fresh "Hcb" in
      let Hw := fresh "Hw" in let r' := fresh "r'" in
      assert (Rest.authStateCallbacks
                (RestApiAuthService.apiCall this fetch endpoint options w).2
              = Rest.authStateCallbacks w) as Hcb
        by (destruct (auth_apiCall_world this fetch endpoint options w) as (r' & Hw);
            rewrite Hw; apply (call_fetch_requests fetch));
      destruct (RestApiAuthService.apiCall this fetch endpoint options w)
        as [[r|e] w'] eqn:E; simpl in Hcb |- *; [|reflexivity];
      destruct (data r) as [| |d] eqn:Ed; simpl; try reflexivity;
      unfold Runtime.get; simpl;
      destruct (member_of_payload (encode_user (RestApiAuthService.payload_user d))
                  (Runtime.Str (RestApiAuthService.token d))) as (Eu & Et);
      cbv zeta in Eu, Et; rewrite ?Eu, ?Et, ?ToString_string;
      unfold Runtime.localStorage_setItem; simpl; rewrite ?Eu, ?Et;
      match goal with
      | |- context [Runtime.RestApiAuthService.notifyAuthStateChange listeners ?event] =>
          let En := fresh "En" in
          pose proof (announced_notify of_session listeners event
                        (val (Build_SessionView (val (RestApiAuthService.payload_user d))))
                        (Rest.localStorage_setItem "auth_token"
                           (RestApiAuthService.token d) w').2) as En;
          rewrite of_session_user in En; unfold Runtime.of_world in En at 1;
          simpl in En;
          unfold Runtime.on_page, Runtime.set_items, Runtime.accessible in En |- *;
          simpl; rewrite En by (simpl; by rewrite Hcb); reflexivity
      end
  end.

Lemma announced_signIn (fetch : Rest.Fetch N RestApiAuthService.AuthPayload)
    (email password : string) (w : Rest.World N) :
  (∀ c, c ∈ Rest.authStateCallbacks w → Runtime.idle listeners c) →
  Runtime.RestApiAuthService.signIn engine
    (Runtime.of_fetch (Runtime.of_payload encode_user) number fetch) listeners this
    email password (Runtime.of_world of_session w)
  = (Runtime.of_outcome (Runtime.of_envelope encode_user)
       (RestApiAuthService.signIn this fetch email password w).1,
     Runtime.of_world of_session (RestApiAuthService.signIn this fetch email password w).2).
Proof.
  intros Hidle.
  unfold Runtime.RestApiAuthService.signIn, RestApiAuthService.signIn,
    Runtime.RestApiAuthService.session_of, Runtime.bind, Runtime.ret, bind, ret.
  announce_session fetch w.
Qed.

Lemma announced_signUp (fetch : Rest.Fetch N RestApiAuthService.AuthPayload)
    (email password displayName : string) (role : UserRole) (w : Rest.World N) :
  (∀ c, c ∈ Rest.authStateCallbacks w → Runtime.idle listeners c) →
  Runtime.RestApiAuthService.signUp engine
    (Runtime.of_fetch (Runtime.of_payload encode_user) number fetch) listeners this
    email password displayName role (Runtime.of_world of_session w)
  = (Runtime.of_outcome (Runtime.of_envelope encode_user)
       (RestApiAuthService.signUp this fetch email password displayName role w).1,
     Runtime.of_world of_session
       (RestApiAuthService.signUp this fetch email password displayName role w).2).
Proof.
  intros Hidle.
  unfold Runtime.RestApiAuthService.signUp, RestApiAuthService.signUp,
    Runtime.RestApiAuthService.session_of, Runtime.bind, Runtime.ret, bind, ret.
  announce_session fetch w.
Qed.
End AnnouncedSession.

(** * Further properties *)

(** ** The embedded-backend auth service on the reference store *)

(** The user that [fetchUserProfile] returns for what the profile query
    resolved to. *)
Lemma fetchUserProfile_resolved {W} (supabase : Supabase.Client W) userId w r w' :
  Supabase.select_profile supabase userId w = (Ok r, w') →
  (∀ e, sb_error r = val e → err_code e = val "PGRST116") →
  SupabaseAuthService.fetchUserProfile supabase userId w
  = (Ok {| data :=
             val {| AuthUser.id := userId;
                    AuthUser.email := undefined;
                    AuthUser.role := js_chain (sb_data r) (λ p, val (ProfileCols.role p));
                    AuthUser.family_id := js_chain (sb_data r) ProfileCols.family_id;
                    AuthUser.display_name :=
                      js_chain (sb_data r) (λ p, val (ProfileCols.display_name p));
                    AuthUser.created_at := undefined;
                    AuthUser.updated_at := undefined |};
           error := null |}, w').
Proof.
  intros E H. unfold SupabaseAuthService.fetchUserProfile, try_catch, bind. rewrite E.
  destruct (sb_error r) as [| |e] eqn:Ee; try reflexivity.
  rewrite (bool_decide_eq_false_2 (err_code e ≠ val "PGRST116")); [reflexivity|].
  intros Hne. apply Hne. by apply H.
Qed.

(** What the profile query of the reference store resolves to. *)
Lemma select_profile_on_the_store policy uuid userId s :
  permits policy (Store.SelectProfile userId) s →
  Supabase.select_profile (Store.client policy uuid) userId s
  = (Ok match filter (λ p, UserProfile.user_id p = userId)
                     (Store.user_profiles (Store.tables s)) with
        | [p] => Store.ok_response
                   (val {| ProfileCols.role := UserProfile.role p;
                           ProfileCols.family_id := UserProfile.family_id p;
                           ProfileCols.display_name := UserProfile.display_name p |})
        | _ => Store.error_of Store.not_single
        end, s).
Proof.
  intros Hp. cbn [Supabase.select_profile Store.client]. by rewrite guarded_permitted.
Qed.

Lemma fetchUserProfile_without_row policy uuid userId s :
  permits policy (Store.SelectProfile userId) s →
  filter (λ p, UserProfile.user_id p = userId) (Store.user_profiles (Store.tables s)) = [] →
  SupabaseAuthService.fetchUserProfile (Store.client policy uuid) userId s
  = (Ok {| data := val (bare_user userId); error := null |}, s).
Proof.
  intros Hp E. pose proof (select_profile_on_the_store policy uuid userId s Hp) as Q.
  rewrite E in Q. rewrite (fetchUserProfile_resolved _ _ _ _ _ Q); [reflexivity|].
  simpl. by intros e [= <-].
Qed.

Lemma fetchUserProfile_with_row policy uuid userId s p :
  permits policy (Store.SelectProfile userId) s →
  filter (λ p, UserProfile.user_id p = userId) (Store.user_profiles (Store.tables s)) = [p] →
  SupabaseAuthService.fetchUserProfile (Store.client policy uuid) userId s
  = (Ok {| data := val (user_of_profile userId p); error := null |}, s).
Proof.
  intros Hp E. pose proof (select_profile_on_the_store policy uuid userId s Hp) as Q.
  rewrite E in Q. rewrite (fetchUserProfile_resolved _ _ _ _ _ Q); [reflexivity|].
  simpl. intros e [=].
Qed.

(** X1.  On the reference store, when the backend does not refuse the query:
    [fetchUserProfile] of a user without a profile row is no error, it returns
    the user with the id alone; of a user with one profile row it returns the
    id with the role, the family and the display name of that row, and no
    e-mail address.  For every client, an error of the query with code
    PGRST116 is never reported: the call returns a user with the given id. *)
Theorem fetchUserProfile_without_profile_is_no_error :
  (∀ policy uuid userId s,
     permits policy (Store.SelectProfile userId) s →
     (filter (λ p, UserProfile.user_id p = userId) (Store.user_profiles (Store.tables s))
      = [] →
      SupabaseAuthService.fetchUserProfile (Store.client policy uuid) userId s
      = (Ok {| data := val (bare_user userId); error := null |}, s))
     ∧ (∀ p,
          filter (λ p, UserProfile.user_id p = userId)
                 (Store.user_profiles (Store.tables s)) = [p] →
          SupabaseAuthService.fetchUserProfile (Store.client policy uuid) userId s
          = (Ok {| data := val (user_of_profile userId p); error := null |}, s)))
  ∧ (∀ W (supabase : Supabase.Client W) userId w r w' e,
       Supabase.select_profile supabase userId w = (Ok r, w') →
       sb_error r = val e → err_code e = val "PGRST116" →
       ∃ u, SupabaseAuthService.fetchUserProfile supabase userId w
            = (Ok {| data := val u; error := null |}, w')
            ∧ AuthUser.id u = userId).
Proof.
  split.
  - intros policy uuid userId s Hp. split.
    + by apply fetchUserProfile_without_row.
    + intros p. by apply fetchUserProfile_with_row.
  - intros W supabase userId w r w' e E Ee Hc.
    eexists. split.
    + apply fetchUserProfile_resolved; [exact E|].
      intros e' He'. rewrite Ee in He'. by injection He' as <-.
    + reflexivity.
Qed.

Lemma fetchUserProfile_without_profile_is_no_error_witness :
  permits Store.permissive (Store.SelectProfile "k9") household
  ∧ SupabaseAuthService.fetchUserProfile (Store.client Store.permissive pretty) "k9" household
    = (Ok {| data := val (bare_user "k9"); error := null |}, household)
  ∧ SupabaseAuthService.fetchUserProfile (Store.client Store.permissive pretty) "k1" household
    = (Ok {| data := val (user_of_profile "k1" (member "k1" "Kim" kid)); error := null |},
       household).
Proof.
  split; [apply permissive_permits|].
  destruct (proj1 fetchUserProfile_without_profile_is_no_error
              Store.permissive pretty "k9" household (permissive_permits _ _)) as [H9 _].
  destruct (proj1 fetchUserProfile_without_profile_is_no_error
              Store.permissive pretty "k1" household (permissive_permits _ _)) as [_ H1].
  split; [apply H9 | apply H1]; vm_compute; reflexivity.
Defined.

(** What [signUp] comes to on the reference store. *)
Lemma signUp_on_the_store policy uuid email password displayName role s :
  (∃ e, Store.sign_up policy uuid email password displayName role s
        = (Ok {| auth_user := null; auth_error := val e |}, s)
        ∧ SupabaseAuthService.signUp (Store.client policy uuid)
            email password displayName role s
          = (Ok {| data := null; error := val (err_message e) |}, s))
  ∨ (∃ u s1,
       Store.sign_up policy uuid email password displayName role s
       = (Ok {| auth_user := val u; auth_error := null |}, s1)
       ∧ let profile := SupabaseAuthService.profile_row u email displayName role in
         let family := SupabaseAuthService.family_row u displayName in
         let signUp :=
           SupabaseAuthService.signUp (Store.client policy uuid)
             email password displayName role s in
         (∃ e, policy (Store.InsertUserProfile profile) s1 = val e
               ∧ signUp = (Ok {| data := null; error := val (err_message e) |}, s1))
         ∨ (permits policy (Store.InsertUserProfile profile) s1
            ∧ ((role ≠ parent
                ∧ signUp = (Ok {| data := val u; error := null |},
                            Store.add_user_profile profile s1))
               ∨ (role = parent
                  ∧ ((∃ e, policy (Store.InsertFamily family)
                             (Store.add_user_profile profile s1) = val e
                           ∧ signUp = (Ok {| data := null; error := val (err_message e) |},
                                       Store.add_user_profile profile s1))
                     ∨ (permits policy (Store.InsertFamily family)
                          (Store.add_user_profile profile s1)
                        ∧ signUp = (Ok {| data := val u; error := null |},
                                    Store.add_family family
                                      (Store.add_user_profile profile s1)))))))).
Proof.
  destruct (sign_up_cases policy uuid email password displayName role s)
    as [(e0 & E0) | (u0 & s1 & E0)].
  { left. exists e0. split; [exact E0|].
    unfold SupabaseAuthService.signUp, try_catch, bind.
    cbn [Supabase.auth_signUp Store.client]. by rewrite E0. }
  right. exists u0, s1. split; [exact E0|]. cbv zeta.
  unfold SupabaseAuthService.signUp, try_catch, bind.
  cbn [Supabase.auth_signUp Supabase.insert_user_profile Supabase.insert_family Store.client].
  rewrite E0. signUp_step.
  destruct (guarded_cases policy
              (Store.InsertUserProfile
                 (SupabaseAuthService.profile_row u0 email displayName role))
              (λ s, (Store.ok_response (T:=unit) null,
                     Store.add_user_profile
                       (SupabaseAuthService.profile_row u0 email displayName role) s))
              s1) as [(e1 & P1 & G1) | (P1 & G1)]; rewrite G1; signUp_step.
  { left. exists e1. by split. }
  right. split; [exact P1|].
  destruct (decide (role = parent)) as [Hr|Hr]; [right | left; by split].
  split; [exact Hr|].
  destruct (guarded_cases policy
              (Store.InsertFamily (SupabaseAuthService.family_row u0 displayName))
              (λ s, (Store.ok_response (T:=unit) null,
                     Store.add_family
                       (SupabaseAuthService.family_row u0 displayName) s))
              (Store.add_user_profile
                 (SupabaseAuthService.profile_row u0 email displayName role) s1))
    as [(e2 & P2 & G2) | (P2 & G2)]; rewrite G2; signUp_step.
  { left. exists e2. by split. }
  right. by split.
Qed.

(** What a successful [auth.signUp] of the store has done. *)
Lemma sign_up_state policy uuid email password displayName role s u s1 :
  Store.sign_up policy uuid email password displayName role s
  = (Ok {| auth_user := val u; auth_error := null |}, s1) →
  Store.tables s1 = Store.tables s
  ∧ Store.clock s1 = Store.clock s
  ∧ Store.accounts s1
    = Store.accounts s ++ [{| Store.account_password := password;
                              Store.account_user := u |}]
  ∧ Store.session s1 = val {| session_user := val u |}
  ∧ AuthUser.id u = uuid (Store.serial s).
Proof.
  unfold Store.sign_up.
  destruct (policy _ s); intros [= <- <-]; by repeat split.
Qed.

(** X2.  On the reference store, a [signUp] with a role other than parent
    never touches the table of families, whatever the backend refuses; when it
    returns the new user without an error, it has added exactly one profile:
    the user's, with the given e-mail address, display name and role and with
    a null family. *)
Theorem signUp_of_a_kid_creates_no_family
    policy uuid email password displayName role s :
  role ≠ parent →
  let signUp :=
    SupabaseAuthService.signUp (Store.client policy uuid)
      email password displayName role s in
  Store.families (Store.tables signUp.2) = Store.families (Store.tables s)
  ∧ ∀ u, signUp.1 = Ok {| data := val u; error := null |} →
      ∃ p, Store.user_profiles (Store.tables signUp.2)
           = Store.user_profiles (Store.tables s) ++ [p]
           ∧ UserProfile.user_id p = AuthUser.id u
           ∧ UserProfile.email p = email
           ∧ UserProfile.display_name p = displayName
           ∧ UserProfile.role p = role
           ∧ UserProfile.family_id p = null.
Proof.
  intros Hrole. cbv zeta.
  destruct (signUp_on_the_store policy uuid email password displayName role s)
    as [(e & _ & ->) | (u0 & s1 & E0 & H)].
  { split; [reflexivity | intros u [=]]. }
  apply sign_up_state in E0 as (Ht & Hc & _ & _ & _).
  cbv zeta in H.
  destruct H as [(e & _ & ->) | (_ & [[_ ->] | [Hr _]])]; [| | by destruct Hrole].
  { simpl. rewrite Ht. split; [reflexivity | intros u [=]]. }
  simpl. rewrite Ht. split; [reflexivity|].
  intros u [= <-]. eexists. split; [reflexivity|]. simpl.
  repeat split. by destruct (decide (role = parent)).
Qed.

Lemma signUp_of_a_kid_creates_no_family_witness :
  let signUp :=
    SupabaseAuthService.signUp (Store.client Store.permissive pretty)
      "sam@example.org" "secret" "Sam" kid household in
  kid ≠ parent
  ∧ Store.families (Store.tables signUp.2) = Store.families (Store.tables household)
  ∧ ∃ u p, signUp.1 = Ok {| data := val u; error := null |}
           ∧ Store.user_profiles (Store.tables signUp.2)
             = Store.user_profiles (Store.tables household) ++ [p]
           ∧ UserProfile.user_id p = AuthUser.id u
           ∧ UserProfile.email p = "sam@example.org"
           ∧ UserProfile.display_name p = "Sam"
           ∧ UserProfile.role p = kid
           ∧ UserProfile.family_id p = null.
Proof.
  intros signUp.
  assert (kid ≠ parent) as Hk by discriminate.
  destruct (signUp_of_a_kid_creates_no_family Store.permissive pretty
              "sam@example.org" "secret" "Sam" kid household Hk) as [Hf Hp].
  split; [exact Hk|]. split; [exact Hf|].
  eexists. destruct (Hp _ eq_refl) as (p & H). exists p. split; [reflexivity | exact H].
Defined.

(** X3.  On the reference store, a [signUp] of a parent is not undone when
    the backend accepts the account and the profile and refuses the family:
    the call returns the refusal as an error, and the account exists, the
    session is the new user's, and the user's profile is in the table with a
    [family_id] for which no family was added. *)
Theorem signUp_is_not_rolled_back
    policy uuid email password displayName s u s1 e :
  Store.sign_up policy uuid email password displayName parent s
  = (Ok {| auth_user := val u; auth_error := null |}, s1) →
  let profile := SupabaseAuthService.profile_row u email displayName parent in
  permits policy (Store.InsertUserProfile profile) s1 →
  policy (Store.InsertFamily (SupabaseAuthService.family_row u displayName))
         (Store.add_user_profile profile s1) = val e →
  ∃ s',
    SupabaseAuthService.signUp (Store.client policy uuid)
      email password displayName parent s
    = (Ok {| data := null; error := val (err_message e) |}, s')
    ∧ Store.accounts s'
      = Store.accounts s ++ [{| Store.account_password := password;
                                Store.account_user := u |}]
    ∧ Store.session s' = val {| session_user := val u |}
    ∧ (∃ p, Store.user_profiles (Store.tables s')
            = Store.user_profiles (Store.tables s) ++ [p]
            ∧ UserProfile.user_id p = AuthUser.id u
            ∧ UserProfile.role p = parent
            ∧ UserProfile.family_id p = val (AuthUser.id u))
    ∧ Store.families (Store.tables s') = Store.families (Store.tables s).
Proof.
  intros E0 profile Hp He.
  destruct (signUp_on_the_store policy uuid email password displayName parent s)
    as [(e' & E' & _) | (u' & s1' & E' & H)]; rewrite E0 in E'; [discriminate|].
  injection E' as <- <-. cbv zeta in H. fold profile in H.
  apply sign_up_state in E0 as (Ht & _ & Ha & Hs & _).
  destruct H as [(e1 & H1 & _) | (_ & [[Hr _] | (_ & [(e2 & H2 & ->) | (P2 & _)])])].
  - by destruct (Hp e1).
  - by destruct Hr.
  - rewrite He in H2. injection H2 as <-.
    eexists. split; [reflexivity|]. simpl. rewrite Ht.
    split; [exact Ha|]. split; [exact Hs|]. split; [|reflexivity].
    eexists. split; [reflexivity|]. by repeat split.
  - by destruct (P2 e).
Qed.

Lemma signUp_is_not_rolled_back_witness :
  ∃ u s1 e s',
    Store.sign_up families_closed pretty "alice@example.org" "secret" "Alice" parent household
    = (Ok {| auth_user := val u; auth_error := null |}, s1)
    ∧ permits families_closed
        (Store.InsertUserProfile
           (SupabaseAuthService.profile_row u "alice@example.org" "Alice" parent)) s1
    ∧ families_closed
        (Store.InsertFamily (SupabaseAuthService.family_row u "Alice"))
        (Store.add_user_profile
           (SupabaseAuthService.profile_row u "alice@example.org" "Alice" parent) s1)
      = val e
    ∧ SupabaseAuthService.signUp (Store.client families_closed pretty)
        "alice@example.org" "secret" "Alice" parent household
      = (Ok {| data := null; error := val "new row violates row-level security policy" |},
         s')
    ∧ Store.session s' = val {| session_user := val u |}
    ∧ (∃ p, Store.user_profiles (Store.tables s')
            = Store.user_profiles (Store.tables household) ++ [p]
            ∧ UserProfile.family_id p = val (AuthUser.id u))
    ∧ Store.families (Store.tables s') = Store.families (Store.tables household).
Proof.
  do 3 eexists.
  assert (permits families_closed
            (Store.InsertUserProfile
               (SupabaseAuthService.profile_row
                  {| AuthUser.id := pretty 0; AuthUser.email := val "alice@example.org";
                     AuthUser.role := undefined; AuthUser.family_id := undefined;
                     AuthUser.display_name := undefined;
                     AuthUser.created_at := val 50%Z; AuthUser.updated_at := val 50%Z |}
                  "alice@example.org" "Alice" parent))
            (Store.sign_up families_closed pretty "alice@example.org" "secret" "Alice"
               parent household).2) as Hp by (intros e'; discriminate).
  destruct (signUp_is_not_rolled_back families_closed pretty
              "alice@example.org" "secret" "Alice" household _ _ _ eq_refl Hp eq_refl)
    as (s' & E & _ & Hs & (p & Hps & _ & _ & Hf) & Hfam).
  exists s'. split; [reflexivity|]. split; [exact Hp|]. split; [reflexivity|].
  split; [exact E|]. split; [exact Hs|]. split; [|exact Hfam].
  exists p. by split.
Defined.

(** ** The remote-HTTP auth service *)

Section SessionRequests.
Context {N : Type} (this : Rest.Instance).
Import Rest.



(** The one request of [signIn] and of [signUp]. *)
Lemma signIn_issued fetch email password (w : World N) :
  issued (RestApiAuthService.signIn this fetch email password) w
  = [request_of (baseUrl this +:+ "/auth/signin") (val (apiKey this))
       (signin_options email password)].
Proof.
  destruct (auth_apiCall_world this fetch "/auth/signin"
              (signin_options email password) w) as [r E].
  unfold issued, RestApiAuthService.signIn, bind.
  change {| opt_method := val "POST"; opt_body := val (Credentials email password);
            opt_headers := ∅ |} with (signin_options email password).
  rewrite E.
  destruct (call_fetch_requests fetch
              (request_of (baseUrl this +:+ "/auth/signin") (val (apiKey this))
                 (signin_options email password)) w) as (Hr & _).
  destruct (data r) as [| |d]; simpl; rewrite Hr; apply drop_app_length.
Qed.

Lemma signUp_issued fetch email password displayName role (w : World N) :
  issued (RestApiAuthService.signUp this fetch email password displayName role) w
  = [request_of (baseUrl this +:+ "/auth/signup") (val (apiKey this))
       (signup_options email password displayName role)].
Proof.
  destruct (auth_apiCall_world this fetch "/auth/signup"
              (signup_options email password displayName role) w) as [r E].
  unfold issued, RestApiAuthService.signUp, bind.
  change {| opt_method := val "POST";
            opt_body := val (Registration email password displayName role);
            opt_headers := ∅ |} with (signup_options email password displayName role).
  rewrite E.
  destruct (call_fetch_requests fetch
              (request_of (baseUrl this +:+ "/auth/signup") (val (apiKey this))
                 (signup_options email password displayName role)) w) as (Hr & _).
  destruct (data r) as [| |d]; simpl; rewrite Hr; apply drop_app_length.
Qed.

Lemma getSession_issued fetch (w : World N) :
  js_truthy (stored_token w) = true →
  issued (RestApiAuthService.getSession this fetch) w
  = [request_of (baseUrl this +:+ "/auth/me") (val (apiKey this)) no_options].
Proof.
  intros H.
  destruct (auth_apiCall_world this fetch "/auth/me" no_options w) as [r E].
  unfold issued, RestApiAuthService.getSession, bind.
  rewrite getItem_token, H. simpl. rewrite E. simpl.
  rewrite (proj1 (call_fetch_requests fetch _ w)). apply drop_app_length.
Qed.
End SessionRequests.



(** X6.  The requests of the remote-HTTP auth service are authorised with
    the API key of the instance, whatever token is in storage: each request
    that [signIn], [signUp], [fetchUserProfile] or [getSession] issues has the
    Authorization header "Bearer " followed by [apiKey]. *)
Theorem auth_requests_carry_the_api_key {N} (this : Rest.Instance) (w : Rest.World N) :
  (∀ c : RestAuthCall N,
     Forall (λ request, Rest.headers request !! "Authorization"
                        = Some ("Bearer " +:+ Rest.apiKey this))
            (issued (run_rest_auth this c) w))
  ∧ (∀ fetch,
       Forall (λ request, Rest.headers request !! "Authorization"
                          = Some ("Bearer " +:+ Rest.apiKey this))
              (issued (RestApiAuthService.getSession this fetch) w)).
Proof.
  split.
  - intros c. destruct c; simpl; rewrite issued_single.
    + rewrite signIn_issued. apply Forall_singleton. by apply authorization_header.
    + rewrite signUp_issued. apply Forall_singleton. by apply authorization_header.
    + rewrite signOut_issued. constructor.
    + unfold RestApiAuthService.fetchUserProfile.
      destruct (auth_apiCall_credential this fetch ("/auth/profile/" +:+ userId)
                  Rest.no_options w eq_refl) as (request & -> & Hh).
      by apply Forall_singleton.
  - intros fetch. destruct (js_truthy (stored_token w)) eqn:Ht.
    + rewrite getSession_issued by exact Ht. apply Forall_singleton.
      by apply authorization_header.
    + rewrite (proj2 (getSession_without_token this fetch w Ht)). constructor.
Qed.

Lemma first_occurrence_unique {A} (x : A) (l1 l2 k1 k2 : list A) :
  l1 ++ x :: l2 = k1 ++ x :: k2 → x ∉ l1 → x ∉ k1 → l1 = k1 ∧ l2 = k2.
Proof.
  revert k1. induction l1 as [|a l1 IH]; intros [|b k1] E H1 H2; simpl in E.
  - by injection E as <-.
  - injection E as <- _. exfalso. apply H2. by left.
  - injection E as -> _. exfalso. apply H1. by left.
  - injection E as <- E.
    apply not_elem_of_cons in H1 as [_ H1]. apply not_elem_of_cons in H2 as [_ H2].
    destruct (IH k1 E H1 H2) as [-> ->]. done.
Qed.

(** X8.  In the remote-HTTP auth service, registering a callback that is not
    yet registered and calling the [unsubscribe()] of the handle gives back the
    world as it was.  When the callback was registered before, it is the
    earlier registration that goes: the callback moves to the end of the list.
    The [unsubscribe()] of any handle removes at most one registration and
    touches neither the storage nor the logs. *)
Theorem subscribe_then_unsubscribe {N} (w : Rest.World N) (callback : Callback) :
  let handle := (RestApiAuthService.onAuthStateChange callback w).1 in
  let w1 := (RestApiAuthService.onAuthStateChange callback w).2 in
  ((callback ∉ Rest.authStateCallbacks w) → RestApiAuthService.unsubscribe handle w1 = w)
  ∧ (∀ l1 l2,
       Rest.authStateCallbacks w = l1 ++ callback :: l2 → (callback ∉ l1) →
       Rest.authStateCallbacks (RestApiAuthService.unsubscribe handle w1)
       = l1 ++ l2 ++ [callback])
  ∧ ∀ h : RestApiAuthService.Handle,
      length (Rest.authStateCallbacks w)
      ≤ S (length (Rest.authStateCallbacks (RestApiAuthService.unsubscribe h w)))
      ∧ Rest.localStorage (RestApiAuthService.unsubscribe h w) = Rest.localStorage w
      ∧ Rest.requests (RestApiAuthService.unsubscribe h w) = Rest.requests w
      ∧ Rest.delivered (RestApiAuthService.unsubscribe h w) = Rest.delivered w.
Proof.
  intros handle w1.
  assert (∀ l1 l2, Rest.authStateCallbacks w1 = l1 ++ callback :: l2 → (callback ∉ l1) →
          RestApiAuthService.unsubscribe handle w1
          = RestApiAuthService.set_callbacks (l1 ++ l2) w1) as Hun.
  { intros l1 l2 E Hn.
    destruct (unsubscribe_callbacks handle w1) as [[Hno _] | (k1 & k2 & Ek & Hk & ->)].
    - exfalso. apply Hno. rewrite E. apply elem_of_app. right. by left.
    - rewrite E in Ek. destruct (first_occurrence_unique _ _ _ _ _ Ek Hn Hk) as [-> ->].
      reflexivity. }
  split; [| split].
  - intros Hn.
    rewrite (Hun (Rest.authStateCallbacks w) []); [| reflexivity | exact Hn].
    rewrite app_nil_r. by destruct w.
  - intros l1 l2 E Hn.
    rewrite (Hun l1 (l2 ++ [callback])); [reflexivity | | exact Hn].
    subst w1. simpl. rewrite E. by rewrite <- app_assoc.
  - intros h. destruct (unsubscribe_callbacks h w) as [[_ ->] | (l1 & l2 & E & _ & ->)].
    + repeat split. lia.
    + simpl. repeat split. rewrite E, !length_app. simpl. lia.
Qed.

Lemma subscribe_then_unsubscribe_witness :
  let w := browser {["auth_token" := "t1"]} [3; 5] in
  (9 ∉ Rest.authStateCallbacks w)
  ∧ RestApiAuthService.unsubscribe (RestApiAuthService.onAuthStateChange 9 w).1
      (RestApiAuthService.onAuthStateChange 9 w).2 = w
  ∧ Rest.authStateCallbacks
      (RestApiAuthService.unsubscribe (RestApiAuthService.onAuthStateChange 3 w).1
         (RestApiAuthService.onAuthStateChange 3 w).2)
    = [5; 3].
Proof.
  intros w.
  assert (9 ∉ Rest.authStateCallbacks w) as H9.
  { apply (bool_decide_unpack _). vm_compute. exact I. }
  split; [exact H9|].
  split; [exact (proj1 (subscribe_then_unsubscribe w 9) H9)|].
  exact (proj1 (proj2 (subscribe_then_unsubscribe w 3)) [] [5] eq_refl (not_elem_of_nil 3)).
Defined.

(** ** The embedded-backend data service *)

Ltac list_fact :=
  simpl; split;
  [ first [ left; eexists; split; reflexivity
          | right; split; [reflexivity | eexists; reflexivity] ]
  | reflexivity ].

Ltac list_guard_step :=
  first
    [ apply guards_ret; list_fact
    | apply guards_throw
    | apply guards_bind; intros
    | match goal with
      | |- guards _ (match ?x with _ => _ end) => destruct x
      | |- guards _ (if ?b then _ else _) => destruct b
      end ].

Lemma list_call_holds {W T} (body : Async W (ApiListResponse T)) :
  guards list_or_error body →
  returns list_or_error (try_catch body (λ e, error_list_response e)).
Proof.
  intros H. apply returns_try; [exact H|].
  intros e. apply returns_ret. list_fact.
Qed.

(** X9.  For every client, each of the six list operations of the
    embedded-backend data service returns an envelope that holds either a list
    and a null error, or null data and an error message, never both and never
    neither; on success the data is a list even when the client resolved with
    no data; the envelope never has a [count]. *)
Theorem supabase_lists_hold_a_list_or_an_error {W} (supabase : Supabase.Client W) :
  (∀ familyId,
     returns list_or_error (SupabaseDataService.fetchKidsWithPoints supabase familyId))
  ∧ (∀ familyId,
       returns list_or_error (SupabaseDataService.fetchPendingActivities supabase familyId))
  ∧ (∀ familyId,
       returns list_or_error (SupabaseDataService.fetchActivities supabase familyId))
  ∧ (∀ familyId,
       returns list_or_error (SupabaseDataService.fetchRewards supabase familyId))
  ∧ (∀ familyId userId,
       returns list_or_error
         (SupabaseDataService.fetchPointEntries supabase familyId userId))
  ∧ (∀ familyId userId,
       returns list_or_error
         (SupabaseDataService.fetchRewardRedemptions supabase familyId userId)).
Proof.
  repeat split; intros; apply list_call_holds;
    unfold SupabaseDataService.list_result; repeat list_guard_step.
Qed.

(** What [fetchDashboardStats] returns when its four queries resolve: the
    errors that the responses carry are not looked at. *)
Lemma fetchDashboardStats_resolved {W} (supabase : Supabase.Client W) familyId
    w k w1 a w2 r w3 p w4 :
  Supabase.count_kids supabase familyId w = (Ok k, w1) →
  Supabase.count_activities supabase familyId w1 = (Ok a, w2) →
  Supabase.count_rewards supabase familyId w2 = (Ok r, w3) →
  Supabase.count_pending supabase familyId w3 = (Ok p, w4) →
  SupabaseDataService.fetchDashboardStats supabase familyId w
  = (Ok {| data :=
             val {| DashboardStats.totalKids := js_or (sb_count k) 0%Z;
                    DashboardStats.totalActivities := js_or (sb_count a) 0%Z;
                    DashboardStats.totalRewards := js_or (sb_count r) 0%Z;
                    DashboardStats.pendingApprovals := js_or (sb_count p) 0%Z |};
           error := null |}, w4).
Proof.
  intros Hk Ha Hr Hp.
  unfold SupabaseDataService.fetchDashboardStats, try_catch, bind, promise_all4.
  by rewrite Hk, Ha, Hr, Hp.
Qed.

Lemma counted_or_refused {R} policy request (key : R → string) (rows : Store.t → list R) s :
  ∃ c, Store.guarded policy request (λ s, (Store.count_response key (rows s), s)) s
       = (Ok c, s)
       ∧ js_or (sb_count c) 0%Z = tally policy request s (length (rows s)).
Proof.
  unfold Store.guarded, tally.
  destruct (policy request s); eexists; (split; [reflexivity|]); simpl;
    try reflexivity; apply js_or_Z.
Qed.

(** X10.  On the reference store [fetchDashboardStats] never returns an
    error and changes nothing: each of the four numbers is the number of rows
    of the family (profiles with role kid, activities, rewards, pending point
    entries) when the backend answers that count, and 0 when the backend
    refuses it. *)
Theorem fetchDashboardStats_reads_a_refusal_as_zero policy uuid familyId s :
  SupabaseDataService.fetchDashboardStats (Store.client policy uuid) familyId s
  = (Ok {| data :=
             val {| DashboardStats.totalKids :=
                      tally policy (Store.CountKids familyId) s
                        (length (Store.kid_profiles (Store.tables s) familyId));
                    DashboardStats.totalActivities :=
                      tally policy (Store.CountActivities familyId) s
                        (length (filter (λ r, Activity.family_id r = familyId)
                                        (Store.activities (Store.tables s))));
                    DashboardStats.totalRewards :=
                      tally policy (Store.CountRewards familyId) s
                        (length (filter (λ r, Reward.family_id r = familyId)
                                        (Store.rewards (Store.tables s))));
                    DashboardStats.pendingApprovals :=
                      tally policy (Store.CountPending familyId) s
                        (length (Store.pending_of (Store.tables s) familyId)) |};
           error := null |}, s).
Proof.
  destruct (counted_or_refused policy (Store.CountKids familyId) UserProfile.user_id
              (λ s, Store.kid_profiles (Store.tables s) familyId) s) as (k & Ek & <-).
  destruct (counted_or_refused policy (Store.CountActivities familyId) Activity.id
              (λ s, filter (λ r, Activity.family_id r = familyId)
                           (Store.activities (Store.tables s))) s) as (a & Ea & <-).
  destruct (counted_or_refused policy (Store.CountRewards familyId) Reward.id
              (λ s, filter (λ r, Reward.family_id r = familyId)
                           (Store.rewards (Store.tables s))) s) as (r & Er & <-).
  destruct (counted_or_refused policy (Store.CountPending familyId) PointEntry.id
              (λ s, Store.pending_of (Store.tables s) familyId) s) as (p & Ep & <-).
  exact (fetchDashboardStats_resolved (Store.client policy uuid) familyId
           s k s a s r s p s Ek Ea Er Ep).
Qed.

(** ** Approval of a reward redemption *)

Lemma patch_reward_redemption_id u r :
  RewardRedemption.id (Store.patch_reward_redemption u r) = RewardRedemption.id r.
Proof. reflexivity. Qed.

(** What [approveRewardRedemption] comes to on the reference store. *)
Lemma approveRewardRedemption_unfold policy uuid id approved approvedBy s :
  SupabaseDataService.approveRewardRedemption (Store.client policy uuid) Store.clock
    id approved approvedBy s
  = let u := SupabaseDataService.redemption_approval approved (Store.clock s) approvedBy in
    match policy (Store.UpdateRewardRedemption id u) s with
    | val e => (Ok {| data := null; error := val (err_message e) |}, s)
    | _ =>
        match Store.update_single RewardRedemption.id (Store.patch_reward_redemption u) id
                (Store.reward_redemptions (Store.tables s)) with
        | Some (r, rows) =>
            (Ok {| data := val r; error := null |},
             Store.set_tables (Store.set_reward_redemptions rows) s)
        | None => (Ok {| data := null; error := val (err_message Store.not_single) |}, s)
        end
    end.
Proof.
  unfold SupabaseDataService.approveRewardRedemption, try_catch, bind, get_world. simpl.
  unfold Store.update_returning, Store.guarded.
  destruct (policy _ s); try reflexivity;
    destruct (Store.update_single _ _ _ _) as [[r rows]|]; reflexivity.
Qed.

(** X11.  On the reference store, an [approveRewardRedemption] that returns
    the redemption without an error has found exactly one redemption with that
    id and leaves exactly one: a copy of the one it found, with status approved
    or rejected as the flag says, [approved_at] the time of the call and
    [approved_by] the approver, and every other field as it was; the other
    tables are untouched.  The status it found is not looked at: a redemption
    that was already approved or rejected is stamped again. *)
Theorem approveRewardRedemption_stamps
    policy uuid id flag approvedBy s r s' :
  SupabaseDataService.approveRewardRedemption (Store.client policy uuid) Store.clock
    id flag approvedBy s
  = (Ok {| data := val r; error := null |}, s') →
  ∃ r0,
    filter (λ x, RewardRedemption.id x = id) (Store.reward_redemptions (Store.tables s))
    = [r0]
    ∧ r = redemption_restamped r0 flag (Store.clock s) approvedBy
    ∧ filter (λ x, RewardRedemption.id x = id) (Store.reward_redemptions (Store.tables s'))
      = [r]
    ∧ filter (λ x, RewardRedemption.id x ≠ id) (Store.reward_redemptions (Store.tables s'))
      = filter (λ x, RewardRedemption.id x ≠ id) (Store.reward_redemptions (Store.tables s))
    ∧ Store.point_entries (Store.tables s') = Store.point_entries (Store.tables s)
    ∧ Store.rewards (Store.tables s') = Store.rewards (Store.tables s).
Proof.
  rewrite approveRewardRedemption_unfold. cbv zeta. intros H.
  assert (∃ rows,
    Store.update_single RewardRedemption.id
      (Store.patch_reward_redemption
         (SupabaseDataService.redemption_approval flag (Store.clock s) approvedBy)) id
      (Store.reward_redemptions (Store.tables s)) = Some (r, rows)
    ∧ s' = Store.set_tables (Store.set_reward_redemptions rows) s) as (rows & Hu & ->).
  { destruct (policy _ s); try discriminate;
      destruct (Store.update_single _ _ _ _) as [[r' rows]|]; try discriminate;
      injection H as <- <-; eauto. }
  clear H.
  assert (rows = (λ x, if decide (RewardRedemption.id x = id)
                       then Store.patch_reward_redemption
                              (SupabaseDataService.redemption_approval flag
                                 (Store.clock s) approvedBy) x
                       else x) <$> Store.reward_redemptions (Store.tables s)) as Hrows.
  { unfold Store.update_single in Hu.
    destruct (filter _ _) as [|? [|? ?]]; try discriminate. by injection Hu as _ <-. }
  apply update_single_Some in Hu as (r0 & Hr0 & -> & Hf);
    [| apply patch_reward_redemption_id].
  exists r0. split; [exact Hr0|]. split; [by destruct flag|]. split; [exact Hf|].
  split; [| by split].
  simpl. rewrite Hrows. clear.
  induction (Store.reward_redemptions (Store.tables s)) as [|x l IH]; [reflexivity|].
  rewrite fmap_cons. destruct (decide (RewardRedemption.id x = id)) as [E|E].
  - rewrite !filter_cons_False; [exact IH | | ]; intros Hne; by apply Hne.
  - rewrite !filter_cons_True by done. by rewrite IH.
Qed.

Lemma approveRewardRedemption_stamps_witness :
  ∃ s',
    SupabaseDataService.approveRewardRedemption (Store.client Store.permissive pretty)
      Store.clock "v2" false "p1" redeeming
    = (Ok {| data := val (redemption_restamped (voucher "v2" approved) false 50%Z "p1");
             error := null |}, s')
    ∧ filter (λ x, RewardRedemption.id x = "v2") (Store.reward_redemptions (Store.tables s'))
      = [redemption_restamped (voucher "v2" approved) false 50%Z "p1"]
    ∧ filter (λ x, RewardRedemption.id x ≠ "v2")
             (Store.reward_redemptions (Store.tables s'))
      = [voucher "v1" pending].
Proof.
  eexists.
  assert (SupabaseDataService.approveRewardRedemption (Store.client Store.permissive pretty)
            Store.clock "v2" false "p1" redeeming
          = (Ok {| data := val (redemption_restamped (voucher "v2" approved) false 50%Z "p1");
                   error := null |},
             (SupabaseDataService.approveRewardRedemption
                (Store.client Store.permissive pretty)
                Store.clock "v2" false "p1" redeeming).2)) as E
    by (vm_compute; reflexivity).
  split; [exact E|].
  destruct (approveRewardRedemption_stamps _ _ _ _ _ _ _ _ E)
    as (r0 & _ & _ & Hf & Hrest & _).
  split; [exact Hf|]. rewrite Hrest. vm_compute. reflexivity.
Defined.

(** ** Rows that are not there *)

Lemma filter_none_other {R} (key : R → string) (id : string) (rows : list R) :
  filter (λ r, key r = id) rows = [] → filter (λ r, key r ≠ id) rows = rows.
Proof.
  induction rows as [|x rows IH]; [reflexivity|].
  destruct (decide (key x = id)) as [E|E].
  - rewrite filter_cons_True by exact E. discriminate.
  - rewrite filter_cons_False by exact E. intros H.
    rewrite filter_cons_True by exact E. by rewrite IH.
Qed.

Section MissingRows.
Context {R : Type} (policy : Store.Request → Store.t → js JsError) (uuid : nat → string).
Context (request : Store.Request) (key : R → string) (id : string).
Context (table : Store.Tables → list R) (set : list R → Store.Tables → Store.Tables).

Lemma delete_where_permitted s :
  permits policy request s →
  Store.delete_where policy request key id table set s
  = (Ok (Store.ok_response null),
     Store.set_tables (λ d, set (filter (λ r, key r ≠ id) (table d)) d) s).
Proof. intros H. unfold Store.delete_where. by rewrite guarded_permitted. Qed.

Lemma update_returning_missing (patch : R → R) s :
  permits policy request s →
  filter (λ r, key r = id) (table (Store.tables s)) = [] →
  Store.update_returning policy request key patch id table set s
  = (Ok (Store.error_of Store.not_single), s).
Proof.
  intros H E. unfold Store.update_returning. rewrite guarded_permitted by exact H.
  unfold Store.update_single. by rewrite E.
Qed.
End MissingRows.

(** X12.  On the reference store, when the backend does not refuse the
    request: [deleteActivity] and [deleteReward] return the envelope with null
    data and null error whether or not a row has the id, and leave the rows
    with another id, in their order, and the other tables; [updateActivity]
    and [updateReward] of an id that no row has return null data with the
    error message of a query for one row that found none, and change
    nothing. *)
Theorem delete_needs_no_row_and_update_needs_one policy uuid id s :
  (permits policy (Store.DeleteActivity id) s →
   ∃ s',
     SupabaseDataService.deleteActivity (Store.client policy uuid) id s
     = (Ok {| data := null; error := null |}, s')
     ∧ Store.activities (Store.tables s')
       = filter (λ r, Activity.id r ≠ id) (Store.activities (Store.tables s))
     ∧ Store.rewards (Store.tables s') = Store.rewards (Store.tables s)
     ∧ Store.point_entries (Store.tables s') = Store.point_entries (Store.tables s))
  ∧ (permits policy (Store.DeleteReward id) s →
     ∃ s',
       SupabaseDataService.deleteReward (Store.client policy uuid) id s
       = (Ok {| data := null; error := null |}, s')
       ∧ Store.rewards (Store.tables s')
         = filter (λ r, Reward.id r ≠ id) (Store.rewards (Store.tables s))
       ∧ Store.activities (Store.tables s') = Store.activities (Store.tables s)
       ∧ Store.reward_redemptions (Store.tables s')
         = Store.reward_redemptions (Store.tables s))
  ∧ (∀ updates,
       permits policy (Store.UpdateActivity id updates) s →
       filter (λ r, Activity.id r = id) (Store.activities (Store.tables s)) = [] →
       SupabaseDataService.updateActivity (Store.client policy uuid) id updates s
       = (Ok {| data := null;
                error := val "JSON object requested, multiple (or no) rows returned" |},
          s))
  ∧ (∀ updates,
       permits policy (Store.UpdateReward id updates) s →
       filter (λ r, Reward.id r = id) (Store.rewards (Store.tables s)) = [] →
       SupabaseDataService.updateReward (Store.client policy uuid) id updates s
       = (Ok {| data := null;
                error := val "JSON object requested, multiple (or no) rows returned" |},
          s)).
Proof.
  split; [| split; [| split]].
  - intros H. eexists.
    unfold SupabaseDataService.deleteActivity, try_catch, bind.
    cbn [Supabase.delete_activity Store.client].
    rewrite delete_where_permitted by exact H. simpl. by repeat split.
  - intros H. eexists.
    unfold SupabaseDataService.deleteReward, try_catch, bind.
    cbn [Supabase.delete_reward Store.client].
    rewrite delete_where_permitted by exact H. simpl. by repeat split.
  - intros updates H E.
    unfold SupabaseDataService.updateActivity, try_catch, bind.
    cbn [Supabase.update_activity Store.client].
    by rewrite update_returning_missing.
  - intros updates H E.
    unfold SupabaseDataService.updateReward, try_catch, bind.
    cbn [Supabase.update_reward Store.client].
    by rewrite update_returning_missing.
Qed.

Lemma delete_needs_no_row_and_update_needs_one_witness :
  let rename := {| Activity.p_name := Some "Laundry"; Activity.p_description := None;
                   Activity.p_points := None; Activity.p_category := None |} in
  permits Store.permissive (Store.DeleteActivity "a9") household
  ∧ filter (λ r, Activity.id r = "a9") (Store.activities (Store.tables household)) = []
  ∧ (∃ s',
       SupabaseDataService.deleteActivity (Store.client Store.permissive pretty) "a9" household
       = (Ok {| data := null; error := null |}, s')
       ∧ Store.activities (Store.tables s') = Store.activities (Store.tables household))
  ∧ SupabaseDataService.updateActivity (Store.client Store.permissive pretty) "a9" rename
      household
    = (Ok {| data := null;
             error := val "JSON object requested, multiple (or no) rows returned" |},
       household).
Proof.
  intros rename.
  pose proof (delete_needs_no_row_and_update_needs_one Store.permissive pretty "a9" household)
    as (Hd & _ & Hu & _).
  split; [apply permissive_permits|]. split; [reflexivity|]. split.
  - destruct (Hd (permissive_permits _ _)) as (s' & E & Ha & _).
    exists s'. split; [exact E|]. rewrite Ha. reflexivity.
  - apply Hu; [apply permissive_permits | reflexivity].
Defined.

(** ** Insert and lookup *)

Lemma order_desc_perm {R} (created_at : R → timestamp) (rows : list R) :
  Store.order_desc created_at rows ≡ₚ rows.
Proof. apply merge_sort_Permutation. Qed.

Lemma order_desc_sorted {R} (created_at : R → timestamp) (rows : list R) :
  StronglySorted (λ a b, created_at b ≤ created_at a)%Z (Store.order_desc created_at rows).
Proof.
  apply (@StronglySorted_merge_sort _ (Store.newest_first created_at) _
           (newest_first_trans _) (newest_first_total _)).
Qed.

Lemma fetchActivities_permitted policy uuid familyId s :
  permits policy (Store.SelectActivities familyId) s →
  SupabaseDataService.fetchActivities (Store.client policy uuid) familyId s
  = (Ok {| list_data :=
             val (Store.order_desc Activity.created_at
                    (filter (λ r, Activity.family_id r = familyId)
                            (Store.activities (Store.tables s))));
           list_error := null; count := undefined |}, s).
Proof.
  intros H. unfold SupabaseDataService.fetchActivities, try_catch, bind.
  cbn [Supabase.select_activities Store.client]. unfold Store.read.
  by rewrite guarded_permitted.
Qed.

(** X13.  On the reference store, a [createActivity] that returns a row
    without an error has appended that row to the table: it has the fields that
    were passed, the next generated id, and the time of the call as
    [created_at] and [updated_at].  A [fetchActivities] of the row's family
    that the backend then answers returns the row together with the activities
    that the family had, each once, newest first. *)
Theorem created_activity_is_fetched policy uuid activity s r s' :
  SupabaseDataService.createActivity (Store.client policy uuid) activity s
  = (Ok {| data := val r; error := null |}, s') →
  r = Store.new_activity activity (uuid (Store.serial s)) (Store.clock s)
  ∧ Store.activities (Store.tables s') = Store.activities (Store.tables s) ++ [r]
  ∧ (permits policy (Store.SelectActivities (Activity.i_family_id activity)) s' →
     ∃ l,
       SupabaseDataService.fetchActivities (Store.client policy uuid)
         (Activity.i_family_id activity) s'
       = (Ok {| list_data := val l; list_error := null; count := undefined |}, s')
       ∧ r ∈ l
       ∧ l ≡ₚ r :: filter (λ x, Activity.family_id x = Activity.i_family_id activity)
                          (Store.activities (Store.tables s))
       ∧ StronglySorted (λ a b, Activity.created_at b ≤ Activity.created_at a)%Z l).
Proof.
  unfold SupabaseDataService.createActivity, try_catch, bind.
  cbn [Supabase.insert_activity Store.client].
  unfold Store.insert_returning, Store.guarded.
  intros H.
  assert (r = Store.new_activity activity (uuid (Store.serial s)) (Store.clock s)
          ∧ s' = Store.next_serial
                   (Store.set_tables
                      (λ d, Store.set_activities
                              (Store.activities d
                               ++ [Store.new_activity activity (uuid (Store.serial s))
                                     (Store.clock s)]) d) s)) as [-> ->].
  { destruct (policy _ s); simpl in H; try discriminate; by injection H as <- <-. }
  clear H. split; [reflexivity|]. split; [reflexivity|].
  intros Hp. rewrite fetchActivities_permitted by exact Hp.
  eexists. split; [reflexivity|].
  assert (Store.order_desc Activity.created_at
            (filter (λ r, Activity.family_id r = Activity.i_family_id activity)
               (Store.activities
                  (Store.tables
                     (Store.next_serial
                        (Store.set_tables
                           (λ d, Store.set_activities
                                   (Store.activities d
                                    ++ [Store.new_activity activity
                                          (uuid (Store.serial s)) (Store.clock s)]) d)
                           s)))))
          ≡ₚ Store.new_activity activity (uuid (Store.serial s)) (Store.clock s)
             :: filter (λ x, Activity.family_id x = Activity.i_family_id activity)
                       (Store.activities (Store.tables s))) as Hperm.
  { rewrite order_desc_perm. simpl. rewrite filter_app.
    rewrite (filter_cons_True _ _ []) by reflexivity.
    rewrite filter_nil. by rewrite Permutation_app_comm. }
  split; [| split; [exact Hperm | apply order_desc_sorted]].
  rewrite Hperm. by left.
Qed.

Lemma created_activity_is_fetched_witness :
  let laundry := {| Activity.i_name := "Laundry"; Activity.i_description := null;
                    Activity.i_points := 3; Activity.i_category := val "nice_to_have";
                    Activity.i_family_id := "f1"; Activity.i_created_by := "p1" |} in
  ∃ r s' l,
    SupabaseDataService.createActivity (Store.client Store.permissive pretty) laundry household
    = (Ok {| data := val r; error := null |}, s')
    ∧ Activity.id r = "0" ∧ Activity.created_at r = 50%Z
    ∧ permits Store.permissive (Store.SelectActivities "f1") s'
    ∧ SupabaseDataService.fetchActivities (Store.client Store.permissive pretty) "f1" s'
      = (Ok {| list_data := val l; list_error := null; count := undefined |}, s')
    ∧ r ∈ l
    ∧ length l = 3.
Proof.
  intros laundry.
  destruct (created_activity_is_fetched Store.permissive pretty laundry household _ _ eq_refl)
    as (Hr & _ & Hl).
  destruct (Hl (permissive_permits _ _)) as (l & E & Hin & Hperm & _).
  do 2 eexists. exists l. split; [reflexivity|].
  split; [reflexivity|]. split; [reflexivity|].
  split; [apply permissive_permits|]. split; [exact E|]. split; [exact Hin|].
  by rewrite Hperm.
Defined.

(** ** The optional user of a query *)

Lemma by_user_asked_for {R} (user_id : R → string) (userId : js string) (r : R) :
  Store.by_user user_id (SupabaseDataService.user_filter userId) r
  ↔ asked_for userId (user_id r).
Proof.
  unfold Store.by_user, SupabaseDataService.user_filter, asked_for.
  destruct userId as [| |u]; try done.
  unfold truthy, string_truthy.
  destruct (String.eqb_spec u EmptyString); case_decide; simpl; done.
Qed.

(** X14.  On the reference store, when the backend does not refuse the
    query, [fetchPointEntries] and [fetchRewardRedemptions] return without an
    error the rows of the family, newest first, each once: those of the given
    user when a user id is passed, and those of every user when the argument is
    missing, null or the empty string. *)
Theorem fetches_filter_by_a_user_that_is_given policy uuid familyId userId s :
  (permits policy
     (Store.SelectPointEntries familyId (SupabaseDataService.user_filter userId)) s →
   ∃ entries,
     SupabaseDataService.fetchPointEntries (Store.client policy uuid) familyId userId s
     = (Ok {| list_data := val entries; list_error := null; count := undefined |}, s)
     ∧ entries ≡ₚ filter (λ e, PointEntry.family_id e = familyId
                               ∧ asked_for userId (PointEntry.user_id e))
                         (Store.point_entries (Store.tables s))
     ∧ StronglySorted (λ a b, PointEntry.created_at b ≤ PointEntry.created_at a)%Z entries)
  ∧ (permits policy
       (Store.SelectRewardRedemptions familyId (SupabaseDataService.user_filter userId)) s →
     ∃ redemptions,
       SupabaseDataService.fetchRewardRedemptions (Store.client policy uuid)
         familyId userId s
       = (Ok {| list_data := val redemptions; list_error := null; count := undefined |}, s)
       ∧ redemptions ≡ₚ filter (λ e, RewardRedemption.family_id e = familyId
                                     ∧ asked_for userId (RewardRedemption.user_id e))
                               (Store.reward_redemptions (Store.tables s))
       ∧ StronglySorted
           (λ a b, RewardRedemption.created_at b ≤ RewardRedemption.created_at a)%Z
           redemptions).
Proof.
  split; intros H.
  - eexists. split; [| split; [| apply order_desc_sorted]].
    + unfold SupabaseDataService.fetchPointEntries, try_catch, bind.
      cbn [Supabase.select_point_entries Store.client]. unfold Store.read.
      rewrite guarded_permitted by exact H. reflexivity.
    + rewrite order_desc_perm. apply reflexive_eq, list_filter_iff.
      intros e. by rewrite by_user_asked_for.
  - eexists. split; [| split; [| apply order_desc_sorted]].
    + unfold SupabaseDataService.fetchRewardRedemptions, try_catch, bind.
      cbn [Supabase.select_reward_redemptions Store.client]. unfold Store.read.
      rewrite guarded_permitted by exact H. reflexivity.
    + rewrite order_desc_perm. apply reflexive_eq, list_filter_iff.
      intros e. by rewrite by_user_asked_for.
Qed.

Lemma fetches_filter_by_a_user_that_is_given_witness :
  permits Store.permissive
    (Store.SelectPointEntries "f1" (SupabaseDataService.user_filter (val EmptyString)))
    household
  ∧ (∃ entries,
       SupabaseDataService.fetchPointEntries (Store.client Store.permissive pretty)
         "f1" (val EmptyString) household
       = (Ok {| list_data := val entries; list_error := null; count := undefined |},
          household)
       ∧ length entries = 4)
  ∧ (∃ entries,
       SupabaseDataService.fetchPointEntries (Store.client Store.permissive pretty)
         "f1" (val "k2") household
       = (Ok {| list_data := val entries; list_error := null; count := undefined |},
          household)
       ∧ length entries = 1).
Proof.
  split; [apply permissive_permits|]. split.
  - destruct (proj1 (fetches_filter_by_a_user_that_is_given Store.permissive pretty
                       "f1" (val EmptyString) household) (permissive_permits _ _))
      as (entries & E & Hperm & _).
    exists entries. split; [exact E|]. by rewrite Hperm.
  - destruct (proj1 (fetches_filter_by_a_user_that_is_given Store.permissive pretty
                       "f1" (val "k2") household) (permissive_permits _ _))
      as (entries & E & Hperm & _).
    exists entries. split; [exact E|]. by rewrite Hperm.
Defined.

(** ** The service factory: where the configuration is read *)

Section FactoryConfiguration.
Import ServiceFactory.

Lemma createSupabaseClient_missing w :
  ¬ (configured (env_get (env w) "NEXT_PUBLIC_SUPABASE_URL") "your-supabase-url-here"
     ∧ configured (env_get (env w) "NEXT_PUBLIC_SUPABASE_ANON_KEY")
         "your-supabase-anon-key-here") →
  createSupabaseClient w = (Throw supabase_configuration_missing, w).
Proof.
  intros H. unfold createSupabaseClient, bind, get_world.
  destruct (env_get (env w) "NEXT_PUBLIC_SUPABASE_URL") as [| |u]; try reflexivity.
  destruct (env_get (env w) "NEXT_PUBLIC_SUPABASE_ANON_KEY") as [| |k]; try reflexivity.
  destruct (negb (truthy u) || negb (truthy k)
            || bool_decide (u = "your-supabase-url-here")
            || bool_decide (k = "your-supabase-anon-key-here")) eqn:E; [reflexivity|].
  exfalso. apply H.
  apply orb_false_elim in E as [E Ek']. apply orb_false_elim in E as [E Eu'].
  apply orb_false_elim in E as [Eu Ek].
  apply negb_false_iff in Eu, Ek.
  apply bool_decide_eq_false in Eu', Ek'.
  split; eexists; (split; [reflexivity|]); split; try done;
    intros ->; discriminate.
Qed.
End FactoryConfiguration.

(** X16.  A factory whose service type is "supabase" creates its services
    exactly when NEXT_PUBLIC_SUPABASE_URL and NEXT_PUBLIC_SUPABASE_ANON_KEY are
    both set, not empty and not the placeholders of the template: then each
    getter returns a new service on a client for that URL and key, and
    otherwise each getter throws the configuration error and leaves the
    factory as it was.  The two variables are read from the environment of the
    getter call, not from that of the construction. *)
Theorem supabase_services_need_url_and_key (w : ServiceFactory.World) :
  ServiceConfig.type (ServiceFactory.config (ServiceFactory.this w)) = "supabase" →
  ServiceFactory.authService (ServiceFactory.this w) = null →
  ServiceFactory.dataService (ServiceFactory.this w) = null →
  let url := ServiceFactory.env_get (ServiceFactory.env w) "NEXT_PUBLIC_SUPABASE_URL" in
  let key := ServiceFactory.env_get (ServiceFactory.env w) "NEXT_PUBLIC_SUPABASE_ANON_KEY" in
  (configured url "your-supabase-url-here" →
   configured key "your-supabase-anon-key-here" →
   ∃ u k,
     url = val u ∧ key = val k
     ∧ (∃ w1,
          ServiceFactory.getAuthService w
          = (Ok (val {| ServiceFactory.address := ServiceFactory.next_address w;
                        ServiceFactory.fields :=
                          ServiceFactory.NewSupabaseAuthService
                            {| ServiceFactory.supabaseUrl := u;
                               ServiceFactory.supabaseAnonKey := k |} |}), w1))
     ∧ (∃ w1,
          ServiceFactory.getDataService w
          = (Ok (val {| ServiceFactory.address := ServiceFactory.next_address w;
                        ServiceFactory.fields :=
                          ServiceFactory.NewSupabaseDataService
                            {| ServiceFactory.supabaseUrl := u;
                               ServiceFactory.supabaseAnonKey := k |} |}), w1)))
  ∧ (¬ (configured url "your-supabase-url-here"
        ∧ configured key "your-supabase-anon-key-here") →
     ServiceFactory.getAuthService w
     = (Throw ServiceFactory.supabase_configuration_missing, w)
     ∧ ServiceFactory.getDataService w
       = (Throw ServiceFactory.supabase_configuration_missing, w)).
Proof.
  intros Ht Ha Hd url key. split.
  - intros (u & Eu & Hu & Hu') (k & Ek & Hk & Hk'). exists u, k.
    split; [exact Eu|]. split; [exact Ek|].
    pose proof (createSupabaseClient_configured w u k Eu Ek Hu Hu' Hk Hk') as Hc.
    split; eexists.
    + unfold ServiceFactory.getAuthService, bind, get_world. rewrite Ha, Ht. simpl.
      rewrite Hc. reflexivity.
    + unfold ServiceFactory.getDataService, bind, get_world. rewrite Hd, Ht. simpl.
      rewrite Hc. reflexivity.
  - intros H. pose proof (createSupabaseClient_missing w H) as Hc. split.
    + unfold ServiceFactory.getAuthService, bind, get_world. rewrite Ha, Ht. simpl.
      by rewrite Hc.
    + unfold ServiceFactory.getDataService, bind, get_world. rewrite Hd, Ht. simpl.
      by rewrite Hc.
Qed.

Lemma supabase_services_need_url_and_key_witness :
  (∃ w1,
     ServiceFactory.getAuthService (constructed supabase_env 0)
     = (Ok (val {| ServiceFactory.address := 0;
                   ServiceFactory.fields :=
                     ServiceFactory.NewSupabaseAuthService
                       {| ServiceFactory.supabaseUrl := "https://family.supabase.co";
                          ServiceFactory.supabaseAnonKey := "anon-1" |} |}), w1))
  ∧ ServiceFactory.getDataService (constructed template_env 0)
    = (Throw ServiceFactory.supabase_configuration_missing, constructed template_env 0)
  ∧ ServiceFactory.getDataService (use (ChangeEnv supabase_env) (constructed template_env 0))
    = (Ok (val {| ServiceFactory.address := 0;
                  ServiceFactory.fields :=
                    ServiceFactory.NewSupabaseDataService
                      {| ServiceFactory.supabaseUrl := "https://family.supabase.co";
                         ServiceFactory.supabaseAnonKey := "anon-1" |} |}),
       (ServiceFactory.getDataService
          (use (ChangeEnv supabase_env) (constructed template_env 0))).2).
Proof.
  assert (configured (ServiceFactory.env_get supabase_env "NEXT_PUBLIC_SUPABASE_URL")
            "your-supabase-url-here") as Hu.
  { eexists. split; [reflexivity|]. split; discriminate. }
  assert (configured (ServiceFactory.env_get supabase_env "NEXT_PUBLIC_SUPABASE_ANON_KEY")
            "your-supabase-anon-key-here") as Hk.
  { eexists. split; [reflexivity|]. split; discriminate. }
  split; [| split].
  - destruct (proj1 (supabase_services_need_url_and_key (constructed supabase_env 0)
                       eq_refl eq_refl eq_refl) Hu Hk)
      as (u & k & Eu & Ek & (w1 & E) & _).
    injection Eu as <-. injection Ek as <-. by exists w1.
  - apply (supabase_services_need_url_and_key (constructed template_env 0)
             eq_refl eq_refl eq_refl).
    intros [(v & E & _ & Hv) _]. injection E as <-. by apply Hv.
  - destruct (proj1 (supabase_services_need_url_and_key
                       (use (ChangeEnv supabase_env) (constructed template_env 0))
                       eq_refl eq_refl eq_refl) Hu Hk)
      as (u & k & Eu & Ek & _ & (w1 & E)).
    injection Eu as <-. injection Ek as <-. rewrite E. reflexivity.
Defined.

(** X17.  A factory whose service type is not "supabase" does not look at
    the environment again: after any change of the environment each getter
    returns or throws what it would have returned or thrown before the change,
    and leaves the same factory, so a missing base URL or API key is not cured
    by setting the variable; [reset()] is what reads the changed environment. *)
Theorem other_types_ignore_the_environment (w : ServiceFactory.World) env' :
  ServiceConfig.type (ServiceFactory.config (ServiceFactory.this w)) ≠ "supabase" →
  let w' := use (ChangeEnv env') w in
  (ServiceFactory.getAuthService w').1 = (ServiceFactory.getAuthService w).1
  ∧ ServiceFactory.this (ServiceFactory.getAuthService w').2
    = ServiceFactory.this (ServiceFactory.getAuthService w).2
  ∧ (ServiceFactory.getDataService w').1 = (ServiceFactory.getDataService w).1
  ∧ ServiceFactory.this (ServiceFactory.getDataService w').2
    = ServiceFactory.this (ServiceFactory.getDataService w).2
  ∧ (ServiceFactory.reset w').2 = constructed env' (ServiceFactory.next_address w).
Proof.
  intros Ht w'. subst w'. destruct w as [env next [config a d]]. simpl in *.
  unfold ServiceFactory.getAuthService, ServiceFactory.getDataService, bind, get_world.
  simpl.
  destruct (decide (ServiceConfig.type config = "supabase")) as [E|_]; [by destruct Ht|].
  repeat split.
  - destruct a as [| |o]; simpl; try reflexivity;
      destruct (decide (ServiceConfig.type config = "rest-api")); try reflexivity;
      destruct (ServiceConfig.baseUrl config) as [| |b]; try reflexivity;
      destruct (ServiceConfig.apiKey config) as [| |k]; try reflexivity;
      destruct (negb (truthy b) || negb (truthy k)); reflexivity.
  - destruct a as [| |o]; simpl; try reflexivity;
      destruct (decide (ServiceConfig.type config = "rest-api")); try reflexivity;
      destruct (ServiceConfig.baseUrl config) as [| |b]; try reflexivity;
      destruct (ServiceConfig.apiKey config) as [| |k]; try reflexivity;
      destruct (negb (truthy b) || negb (truthy k)); reflexivity.
  - destruct d as [| |o]; simpl; try reflexivity;
      destruct (decide (ServiceConfig.type config = "rest-api")); try reflexivity;
      destruct (ServiceConfig.baseUrl config) as [| |b]; try reflexivity;
      destruct (ServiceConfig.apiKey config) as [| |k]; try reflexivity;
      destruct (negb (truthy b) || negb (truthy k)); reflexivity.
  - destruct d as [| |o]; simpl; try reflexivity;
      destruct (decide (ServiceConfig.type config = "rest-api")); try reflexivity;
      destruct (ServiceConfig.baseUrl config) as [| |b]; try reflexivity;
      destruct (ServiceConfig.apiKey config) as [| |k]; try reflexivity;
      destruct (negb (truthy b) || negb (truthy k)); reflexivity.
Qed.

Lemma other_types_ignore_the_environment_witness :
  let w := constructed keyless_env 0 in
  let w' := use (ChangeEnv rest_env) w in
  ServiceConfig.type (ServiceFactory.config (ServiceFactory.this w)) ≠ "supabase"
  ∧ (ServiceFactory.getAuthService w').1 = Throw rest_configuration_missing
  ∧ (ServiceFactory.getAuthService (ServiceFactory.reset w').2).1
    = Ok (val first_auth_service).
Proof.
  intros w w'.
  assert (ServiceConfig.type (ServiceFactory.config (ServiceFactory.this w)) ≠ "supabase")
    as Ht by (vm_compute; discriminate).
  destruct (other_types_ignore_the_environment w rest_env Ht) as (Ha & _ & _ & _ & Hr).
  split; [exact Ht|]. split.
  - subst w'. rewrite Ha. reflexivity.
  - subst w'. rewrite Hr. reflexivity.
Defined.

(** X18.  [getInstance()] constructs the factory when the static field is
    empty and returns the same factory on every later call, whatever the
    environment has become; the configuration of a new factory has the service
    type of NEXT_PUBLIC_SERVICE_TYPE, and "supabase" when that variable is not
    set or is the empty string, so the type is never empty. *)
Theorem getInstance_is_a_singleton env env' (instance : js ServiceFactory.t) :
  let first := ServiceFactory.getInstance env instance in
  ServiceFactory.getInstance env' first.2 = first
  ∧ (js_truthy instance = false → first = (ServiceFactory.constructor env,
                                           val (ServiceFactory.constructor env)))
  ∧ (∀ f, instance = val f → first = (f, val f))
  ∧ ServiceConfig.type (ServiceFactory.config (ServiceFactory.constructor env))
    = match env !! "NEXT_PUBLIC_SERVICE_TYPE" with
      | Some type => if decide (type = EmptyString) then "supabase" else type
      | None => "supabase"
      end
  ∧ ServiceConfig.type (ServiceFactory.config (ServiceFactory.constructor env))
    ≠ EmptyString.
Proof.
  intros first. subst first.
  assert (ServiceConfig.type (ServiceFactory.config (ServiceFactory.constructor env))
          = match env !! "NEXT_PUBLIC_SERVICE_TYPE" with
            | Some type => if decide (type = EmptyString) then "supabase" else type
            | None => "supabase"
            end) as Htype.
  { simpl. unfold ServiceFactory.env_get.
    destruct (env !! "NEXT_PUBLIC_SERVICE_TYPE") as [type|]; [|reflexivity].
    rewrite js_or_string. reflexivity. }
  split; [| split; [| split; [| split]]].
  - destruct instance as [| |f]; reflexivity.
  - destruct instance as [| |f]; try reflexivity. discriminate.
  - intros f ->. reflexivity.
  - exact Htype.
  - rewrite Htype. destruct (env !! "NEXT_PUBLIC_SERVICE_TYPE") as [type|]; [|discriminate].
    case_decide; [discriminate | done].
Qed.

(** ** The auth context *)

Section Provider.
Context {W : Type} (authService : IAuthService.t W).
Import AuthProvider.

(** What [fetchUserProfile] of the provider does with what the service
    returns. *)
Lemma provider_fetchUserProfile_outcome userId (w : W) (s : State) :
  fetchUserProfile authService userId (w, s)
  = (Ok tt,
     ((IAuthService.fetchUserProfile authService userId w).2,
      match (IAuthService.fetchUserProfile authService userId w).1 with
      | Ok r =>
          match error r with
          | val message =>
              if truthy message then
                {| user := val (bare_user userId); loading := false; mounted := mounted s;
                   console := console s ++ [("Error fetching user profile:", message)] |}
              else
                {| user := data r; loading := false; mounted := mounted s;
                   console := console s |}
          | _ => {| user := data r; loading := false; mounted := mounted s;
                    console := console s |}
          end
      | Throw e =>
          {| user := val (bare_user userId); loading := false; mounted := mounted s;
             console := console s ++ [("Error fetching user profile:", err_message e)] |}
      end)).
Proof.
  unfold fetchUserProfile, try_finally, try_catch, bind, await. simpl.
  destruct (IAuthService.fetchUserProfile authService userId w) as [[r|e] w']; simpl;
    [|reflexivity].
  destruct (error r) as [| |message]; try reflexivity.
  destruct (truthy message); reflexivity.
Qed.
End Provider.

(** The envelope of the embedded-backend [fetchUserProfile]: a user with the
    id that was asked for, or an error. *)
Lemma supabase_fetchUserProfile_envelope {W} (supabase : Supabase.Client W) userId w :
  ∃ r w',
    SupabaseAuthService.fetchUserProfile supabase userId w = (Ok r, w')
    ∧ ((∃ u, data r = val u ∧ AuthUser.id u = userId ∧ error r = null)
       ∨ (data r = null ∧ ∃ message, error r = val message)).
Proof.
  unfold SupabaseAuthService.fetchUserProfile, try_catch, bind.
  destruct (Supabase.select_profile supabase userId w) as [[r|e] w']; simpl.
  - destruct (sb_error r) as [| |e]; simpl;
      try (do 2 eexists; split; [reflexivity|]; left; eexists; by repeat split).
    destruct (bool_decide (err_code e ≠ val "PGRST116")); simpl;
      do 2 eexists; (split; [reflexivity|]);
      [right; split; [reflexivity | by eexists] | left; eexists; by repeat split].
  - do 2 eexists. split; [reflexivity|]. right. split; [reflexivity | by eexists].
Qed.

(** X19.  [fetchUserProfile] of the auth context never rejects and always
    ends with [loading] false, whatever the auth service does: when the service
    rejects, or returns an error that is not the empty string, the user becomes
    the bare [{ id: userId }] and the error is logged; otherwise the user
    becomes the [data] of the envelope.  On the embedded-backend service, for
    every client, the user is then either a user with the id that was asked
    for, or null. *)
Theorem provider_fetchUserProfile_settles :
  (∀ W (authService : IAuthService.t W) userId w s,
     ∃ w' s',
       AuthProvider.fetchUserProfile authService userId (w, s) = (Ok tt, (w', s'))
       ∧ AuthProvider.loading s' = false
       ∧ AuthProvider.mounted s' = AuthProvider.mounted s
       ∧ AuthProvider.user s'
         = match (IAuthService.fetchUserProfile authService userId w).1 with
           | Ok r => if js_truthy (error r) then val (bare_user userId) else data r
           | Throw _ => val (bare_user userId)
           end)
  ∧ (∀ W (supabase : Supabase.Client W) userId w s,
       let s' := (AuthProvider.fetchUserProfile (supabase_auth_service supabase) userId
                    (w, s)).2.2 in
       AuthProvider.user s' = null
       ∨ ∃ u, AuthProvider.user s' = val u ∧ AuthUser.id u = userId).
Proof.
  split.
  - intros W authService userId w s. do 2 eexists.
    split; [apply provider_fetchUserProfile_outcome|].
    destruct (IAuthService.fetchUserProfile authService userId w) as [[r|e] w']; simpl;
      [|by repeat split].
    destruct (error r) as [| |message]; simpl; try by repeat split.
    destruct (truthy message); by repeat split.
  - intros W supabase userId w s. cbv zeta.
    rewrite provider_fetchUserProfile_outcome. simpl.
    destruct (supabase_fetchUserProfile_envelope supabase userId w)
      as (r & w' & -> & [(u & Ed & Hu & Ee) | (Ed & message & Ee)]); simpl; rewrite Ee.
    + right. exists u. by split.
    + destruct (truthy message); simpl; [right; by eexists | left; exact Ed].
Qed.

Section ProviderSession.
Context {W : Type} (authService : IAuthService.t W).
Import AuthProvider.

(** Nothing happening while [fetchUserProfile] waits gives the handler of the
    provider. *)
Lemma fetchUserProfile_while_nothing userId (ws : W * State) :
  fetchUserProfile_while authService (λ x, x) userId ws
  = fetchUserProfile authService userId ws.
Proof.
  destruct ws as [w s].
  unfold fetchUserProfile_while, fetchUserProfile, try_finally, try_catch, bind,
    await_while, await. simpl.
  by destruct (IAuthService.fetchUserProfile authService userId w) as [[r|e] w'].
Qed.

Lemma fetchUserProfile_while_outcome meanwhile userId (w : W) (s : State) :
  let lookup := IAuthService.fetchUserProfile authService userId w in
  let resumed := meanwhile (lookup.2, s) in
  fetchUserProfile_while authService meanwhile userId (w, s)
  = (Ok tt, (resumed.1, looked_up userId lookup.1 resumed.2)).
Proof.
  unfold fetchUserProfile_while, try_finally, try_catch, bind, await_while, await. simpl.
  destruct (IAuthService.fetchUserProfile authService userId w) as [[r|e] w']; simpl;
    destruct (meanwhile _) as [w2 s2]; simpl; [|reflexivity].
  destruct (error r) as [| |message]; try reflexivity.
  destruct (truthy message); reflexivity.
Qed.

Lemma looked_up_settles userId lookup s :
  loading (looked_up userId lookup s) = false
  ∧ mounted (looked_up userId lookup s) = mounted s
  ∧ user (looked_up userId lookup s)
    = match lookup with
      | Ok r => if js_truthy (error r) then val (bare_user userId) else data r
      | Throw _ => val (bare_user userId)
      end.
Proof.
  destruct lookup as [r|e]; simpl; [|done].
  destruct (error r) as [| |message]; simpl; try done.
  by destruct (truthy message).
Qed.

Lemma provider_getInitialSession_rejected first second (w : W) (s : State) e w1 :
  IAuthService.getSession authService w = (Throw e, w1) →
  let waited := first (w1, s) in
  getInitialSession authService first second (w, s)
  = (Ok tt,
     (waited.1,
      {| user := user waited.2;
         loading := if mounted waited.2 then false else loading waited.2;
         mounted := mounted waited.2;
         console := console waited.2
                    ++ [("Error getting initial session:", err_message e)] |})).
Proof.
  intros E. unfold getInitialSession, try_catch, bind, await_while, await. simpl.
  rewrite E. simpl. destruct (first (w1, s)) as [w2 s2]. simpl.
  destruct (mounted s2) eqn:Em; simpl; rewrite ?Em; reflexivity.
Qed.

Lemma provider_getInitialSession_resolved first second (w : W) (s : State) u w1 :
  IAuthService.getSession authService w = (Ok (Build_SessionView u), w1) →
  let waited := first (w1, s) in
  getInitialSession authService first second (w, s)
  = (Ok tt,
     if mounted waited.2 then
       match u with
       | val a =>
           let lookup :=
             IAuthService.fetchUserProfile authService (AuthUser.id a) waited.1 in
           let resumed := second (lookup.2, waited.2) in
           (resumed.1, looked_up (AuthUser.id a) lookup.1 resumed.2)
       | _ => (waited.1,
               {| user := user waited.2; loading := false; mounted := mounted waited.2;
                  console := console waited.2 |})
       end
     else waited).
Proof.
  intros E. unfold getInitialSession, try_catch, bind, await_while, await, get_state.
  simpl. rewrite E. simpl. destruct (first (w1, s)) as [w2 s2]. simpl.
  destruct (mounted s2) eqn:Em; [|reflexivity].
  destruct u as [| |a]; try (simpl; rewrite Em; reflexivity).
  change (truthy a) with true. cbv iota.
  by rewrite fetchUserProfile_while_outcome.
Qed.
End ProviderSession.

(** X20.  [getInitialSession] of the auth context never rejects, whatever
    the auth service does and whatever happens while it waits.  It reads
    [mounted] once, when [getSession()] has settled: if the cleanup has run by
    then, it looks up no profile, and when [getSession()] resolved it changes
    nothing at all.  If the component is still mounted then, it ends with
    [loading] false, and with a signed-in user it sets the user from the
    profile lookup when that settles, also when the cleanup has run while the
    lookup was awaited: the state of the unmounted component is set.  When
    [getSession()] rejects, the user is left as it was and the error is
    logged. *)
Theorem provider_getInitialSession_settles
    {W} (authService : IAuthService.t W) (first second : W * AuthProvider.State →
                                                         W * AuthProvider.State)
    (w : W) (s : AuthProvider.State) :
  let session := IAuthService.getSession authService w in
  let waited := first (session.2, s) in
  ∃ w' s',
    AuthProvider.getInitialSession authService first second (w, s) = (Ok tt, (w', s'))
    ∧ match session.1 with
      | Throw e =>
          w' = waited.1
          ∧ AuthProvider.user s' = AuthProvider.user waited.2
          ∧ AuthProvider.mounted s' = AuthProvider.mounted waited.2
          ∧ AuthProvider.loading s'
            = (if AuthProvider.mounted waited.2 then false
               else AuthProvider.loading waited.2)
          ∧ AuthProvider.console s'
            = AuthProvider.console waited.2
              ++ [("Error getting initial session:", err_message e)]
      | Ok r =>
          if AuthProvider.mounted waited.2 then
            match user r with
            | val a =>
                let lookup :=
                  IAuthService.fetchUserProfile authService (AuthUser.id a) waited.1 in
                let resumed := second (lookup.2, waited.2) in
                w' = resumed.1
                ∧ AuthProvider.loading s' = false
                ∧ AuthProvider.mounted s' = AuthProvider.mounted resumed.2
                ∧ AuthProvider.user s'
                  = match lookup.1 with
                    | Ok r' => if js_truthy (error r') then val (bare_user (AuthUser.id a))
                               else data r'
                    | Throw _ => val (bare_user (AuthUser.id a))
                    end
            | _ =>
                w' = waited.1
                ∧ AuthProvider.loading s' = false
                ∧ AuthProvider.user s' = AuthProvider.user waited.2
                ∧ AuthProvider.mounted s' = AuthProvider.mounted waited.2
            end
          else (w', s') = waited
      end.
Proof.
  intros session waited. subst session waited.
  destruct (IAuthService.getSession authService w) as [[[u]|e] w1] eqn:E.
  - rewrite (provider_getInitialSession_resolved authService first second w s u w1 E).
    simpl. destruct (first (w1, s)) as [w2 s2]. simpl.
    destruct (AuthProvider.mounted s2) eqn:Em.
    + destruct u as [| |a]; simpl.
      1, 2: do 2 eexists; split; [reflexivity|]; by repeat split.
      do 2 eexists. split; [reflexivity|]. split; [reflexivity|].
      apply looked_up_settles.
    + exists w2, s2. by split.
  - rewrite (provider_getInitialSession_rejected authService first second w s e w1 E).
    do 2 eexists. split; [reflexivity|]. simpl. by repeat split.
Qed.

Lemma provider_getInitialSession_settles_witness :
  let authService := supabase_auth_service (Store.client Store.permissive pretty) in
  let unmount := AuthProvider.cleanup (W:=Store.t) (λ d, d) in
  (∃ d' s',
     AuthProvider.getInitialSession authService (λ x, x) unmount
       (signed_in_household, AuthProvider.initial) = (Ok tt, (d', s'))
     ∧ AuthProvider.mounted s' = false
     ∧ AuthProvider.loading s' = false
     ∧ ∃ u, AuthProvider.user s' = val u ∧ AuthUser.id u = "p1"
            ∧ AuthUser.display_name u = val "Pat")
  ∧ AuthProvider.getInitialSession authService unmount (λ x, x)
      (signed_in_household, AuthProvider.initial)
    = (Ok tt, unmount (signed_in_household, AuthProvider.initial)).
Proof.
  intros authService unmount. split.
  - destruct (provider_getInitialSession_settles authService (λ x, x) unmount
                signed_in_household AuthProvider.initial)
      as (d' & s' & E & _ & Hl & Hm & Hu).
    exists d', s'. split; [exact E|]. split; [rewrite Hm; reflexivity|].
    split; [exact Hl|]. rewrite Hu. eexists. split; [vm_compute; reflexivity|].
    split; reflexivity.
  - destruct (provider_getInitialSession_settles authService unmount (λ x, x)
                signed_in_household AuthProvider.initial)
      as (d' & s' & E & H).
    rewrite E. f_equal. exact H.
Defined.

(** ** From the client to the service layer *)

Lemma throw_new_Error_val {W} (message : string) (w : W) :
  throw_new_Error (val message) w
  = (if decide (message = EmptyString) then Ok tt else Throw (new_Error message), w).
Proof.
  unfold throw_new_Error, truthy, string_truthy.
  destruct (String.eqb_spec message EmptyString); case_decide; simpl;
    first [reflexivity | contradiction].
Qed.

(** A handler of the provider whose service call is a [try] around the old
    handler. *)
Lemma carried_over_try {W A}
    (old : Async W unit) (body : Async W (ApiResponse A)) :
  (∀ w, match old w with
        | (Ok _, w') => ∃ r, body w = (Ok r, w') ∧ error r = null
        | (Throw e, w') => body w = (Throw e, w')
        end) →
  carried_over (S:=AuthProvider.State) old
    (r <- await (try_catch body (λ e, error_response e)) ;; throw_new_Error (error r)).
Proof.
  intros H w s. specialize (H w). unfold bind, await, try_catch. simpl.
  destruct (old w) as [[[]|e] w'].
  - destruct H as (r & -> & Er). simpl. by rewrite Er.
  - rewrite H. simpl. apply throw_new_Error_val.
Qed.

(** X21.  Moving the auth context from the Supabase client onto the service
    layer kept what [signIn], [signUp] and [signOut] do: for every client, the
    handler on the embedded-backend service makes the calls of the client that
    the old handler made and leaves the component's state alone; it resolves
    when the old handler resolved, and when the old handler rejected it rejects
    with a new error of the same message, except that a failure whose message
    is the empty string is now taken for success. *)
Theorem service_layer_keeps_the_auth_handlers {W} (supabase : Supabase.Client W) :
  (∀ email password,
     carried_over (SupabaseAuthProvider.signIn supabase email password)
       (AuthProvider.signIn (supabase_auth_service supabase) email password))
  ∧ (∀ email password displayName role,
       carried_over (SupabaseAuthProvider.signUp supabase email password displayName role)
         (AuthProvider.signUp (supabase_auth_service supabase)
            email password displayName role))
  ∧ carried_over (SupabaseAuthProvider.signOut supabase)
      (AuthProvider.signOut (supabase_auth_service supabase)).
Proof.
  split; [| split].
  - intros email password. apply carried_over_try. intros w.
    unfold SupabaseAuthProvider.signIn, bind.
    destruct (Supabase.auth_signInWithPassword supabase email password w)
      as [[r|e] w']; [|reflexivity].
    destruct (auth_error r) as [| |e]; simpl; eauto.
  - intros email password displayName role. apply carried_over_try. intros w.
    unfold SupabaseAuthProvider.signUp, bind.
    destruct (Supabase.auth_signUp supabase email password displayName role w)
      as [[r|e] w']; [|reflexivity].
    destruct (auth_error r) as [| |e]; simpl; [| |reflexivity].
    all: destruct (auth_user r) as [| |u]; simpl; eauto.
    all: destruct (Supabase.insert_user_profile supabase _ w') as [[p|e1] w1];
           [|reflexivity].
    all: destruct (sb_error p) as [| |e1]; simpl; [| |reflexivity].
    all: destruct (decide (role = parent)); simpl; eauto.
    all: destruct (Supabase.insert_family supabase _ w1) as [[f|e2] w2]; [|reflexivity].
    all: destruct (sb_error f) as [| |e2]; simpl; eauto.
  - apply carried_over_try. intros w.
    unfold SupabaseAuthProvider.signOut, bind.
    destruct (Supabase.auth_signOut supabase w) as [[r|e] w']; [|reflexivity].
    destruct (sb_error r) as [| |e]; simpl; eauto.
Qed.

(** ** The home page *)

(** X22.  The home page renders nothing and redirects nowhere exactly when
    loading is over and the user is signed in without a role.  That is where
    [fetchUserProfile] of the auth context leaves a user whose profile lookup
    failed: when the auth service rejects or returns an error that is not the
    empty string, the page is blank and no [router.push] happens; and so it is
    on the embedded-backend service over the reference store for a user that
    has no profile row. *)
Theorem failed_profile_lookup_strands_the_user :
  (∀ user loading,
     HomePage.render user loading = HomePage.Nothing
     ∧ HomePage.redirect user loading = None
     ↔ loading = false
       ∧ ∃ u, user = val u ∧ ∀ role, AuthUser.role u ≠ val role)
  ∧ (∀ W (authService : IAuthService.t W) userId w s,
       match (IAuthService.fetchUserProfile authService userId w).1 with
       | Ok r => js_truthy (error r) = true
       | Throw _ => True
       end →
       let s' := (AuthProvider.fetchUserProfile authService userId (w, s)).2.2 in
       HomePage.render (AuthProvider.user s') (AuthProvider.loading s') = HomePage.Nothing
       ∧ HomePage.redirect (AuthProvider.user s') (AuthProvider.loading s') = None)
  ∧ (∀ policy uuid userId d s,
       permits policy (Store.SelectProfile userId) d →
       filter (λ p, UserProfile.user_id p = userId) (Store.user_profiles (Store.tables d))
       = [] →
       let s' := (AuthProvider.fetchUserProfile
                    (supabase_auth_service (Store.client policy uuid)) userId (d, s)).2.2 in
       HomePage.render (AuthProvider.user s') (AuthProvider.loading s') = HomePage.Nothing
       ∧ HomePage.redirect (AuthProvider.user s') (AuthProvider.loading s') = None).
Proof.
  split; [| split].
  - intros user loading. unfold HomePage.render, HomePage.redirect. split.
    + intros [Hr Hd]. destruct loading; [discriminate|]. split; [reflexivity|].
      destruct user as [| |u]; try discriminate. exists u. split; [reflexivity|].
      intros role Hrole. simpl in Hd. rewrite Hrole in Hd. by destruct role.
    + intros [-> (u & -> & Hrole)]. simpl. split; [reflexivity|].
      destruct (AuthUser.role u) as [| |role] eqn:E; try reflexivity.
      by destruct (Hrole role).
  - intros W authService userId w s H. cbv zeta.
    rewrite provider_fetchUserProfile_outcome. simpl.
    destruct (IAuthService.fetchUserProfile authService userId w) as [[r|e] w']; simpl in *;
      [|by split].
    destruct (error r) as [| |message]; try discriminate. simpl in H. rewrite H. by split.
  - intros policy uuid userId d s Hp Hnone. cbv zeta.
    rewrite provider_fetchUserProfile_outcome. simpl.
    change (IAuthService.fetchUserProfile
              (supabase_auth_service (Store.client policy uuid)) userId d)
      with (SupabaseAuthService.fetchUserProfile (Store.client policy uuid) userId d).
    rewrite (fetchUserProfile_without_row policy uuid userId d Hp Hnone).
    by split.
Qed.

(** ** The parent layout *)

Lemma prefix_of_both (a b s : string) :
  String.prefix a s = true → String.prefix b s = true →
  String.prefix a b = true ∨ String.prefix b a = true.
Proof.
  revert b s. induction a as [|x a IH]; intros b s Ha Hb; [left; by destruct b|].
  destruct b as [|y b]; [by right|].
  destruct s as [|z s]; [discriminate|].
  simpl in *.
  destruct (Ascii.ascii_dec x z) as [->|]; [|discriminate].
  destruct (Ascii.ascii_dec y z) as [->|]; [|discriminate].
  destruct (Ascii.ascii_dec z z) as [_|Hne]; [|by destruct Hne].
  by apply (IH b s).
Qed.

(** X23.  No path marks two entries of the navigation as active: the five
    links are such that none begins with another, so at most one of them is a
    beginning of the path. *)
Theorem at_most_one_entry_is_active (pathname : string) :
  length (filter (λ item, ParentLayout.isActive pathname item = true)
                 ParentLayout.navigation) ≤ 1.
Proof.
  unfold ParentLayout.navigation.
  repeat match goal with
         | |- context [filter _ (?x :: ?l)] =>
             destruct (decide (ParentLayout.isActive pathname x = true));
             [ rewrite (filter_cons_True _ x l) by assumption
             | rewrite (filter_cons_False _ x l) by assumption ]
         end;
    rewrite filter_nil; simpl; try lia; exfalso.
  all: match goal with
       | H1 : ParentLayout.isActive ?p ?a = true,
         H2 : ParentLayout.isActive ?p ?b = true |- _ =>
           destruct (prefix_of_both _ _ _ H1 H2) as [H|H]; vm_compute in H; discriminate
       end.
Qed.




(** ** The parent dashboard *)

Section Dashboard.
Context {W : Type} (dataService : IDataService.t W).
Import ParentDashboard.

Lemma handle_outcome error label (set : Async (W * State) unit) (ws : W * State) :
  handle error label set ws
  = if js_truthy error then console_error label (js_or error EmptyString) ws else set ws.
Proof.
  unfold handle. destruct error as [| |message]; try reflexivity. simpl.
  by destruct (truthy message).
Qed.

Lemma fetchDashboardData_outcome user familyId (w : W) (s : State) :
  js_chain user AuthUser.family_id = val familyId → truthy familyId = true →
  fetchDashboardData dataService user (w, s)
  = let kidsResult := IDataService.fetchKidsWithPoints dataService familyId w in
    let pendingResult :=
      IDataService.fetchPendingActivities dataService familyId kidsResult.2 in
    let statsResult :=
      IDataService.fetchDashboardStats dataService familyId pendingResult.2 in
    (Ok tt,
     (statsResult.2,
      match kidsResult.1, pendingResult.1, statsResult.1 with
      | Ok k, Ok p, Ok t => shown k p t s
      | Throw e, _, _ => failed e s
      | _, Throw e, _ => failed e s
      | _, _, Throw e => failed e s
      end)).
Proof.
  intros Ef Ht. unfold fetchDashboardData. rewrite Ef, Ht. cbv zeta.
  unfold try_finally, try_catch, bind, await, promise_all3. cbn [fst snd].
  destruct (IDataService.fetchKidsWithPoints dataService familyId w) as [rk w1].
  cbn [fst snd].
  destruct (IDataService.fetchPendingActivities dataService familyId w1) as [rp w2].
  cbn [fst snd].
  destruct (IDataService.fetchDashboardStats dataService familyId w2) as [rs w3].
  cbn [fst snd].
  destruct rk as [k|e]; [| by destruct rp, rs].
  destruct rp as [p|e]; [| by destruct rs].
  destruct rs as [t|e]; [| reflexivity].
  rewrite !handle_outcome. unfold shown, logged.
  destruct (list_error k) as [| |mk]; simpl;
    [ | | destruct (truthy mk); simpl ];
    (destruct (list_error p) as [| |mp]; simpl;
       [ | | destruct (truthy mp); simpl ]);
    (destruct (error t) as [| |mt]; simpl;
       [ | | destruct (truthy mt); simpl ]);
    rewrite ?app_nil_r, <- ?app_assoc; reflexivity.
Qed.

Lemma fetchDashboardData_resolves user (ws : W * State) :
  ∃ ws', fetchDashboardData dataService user ws = (Ok tt, ws').
Proof.
  destruct ws as [w s].
  destruct (js_chain user AuthUser.family_id) as [| |familyId] eqn:Ef.
  1, 2: unfold fetchDashboardData; rewrite Ef; by eexists.
  destruct (truthy familyId) eqn:Ht.
  - rewrite (fetchDashboardData_outcome user familyId w s Ef Ht). by eexists.
  - unfold fetchDashboardData. rewrite Ef, Ht. by eexists.
Qed.
End Dashboard.

(** X25.  [fetchDashboardData] of the parent dashboard does nothing, and
    calls no service, for a user that is null or has no family id or the empty
    one: [loading] stays as it is.  Otherwise it makes the three calls, never
    rejects and ends with [loading] false.  When the three calls return, each
    part of the state is decided by its own envelope: kids, pending activities
    and stats are each replaced when their envelope has no error (by an empty
    list or by zeros when it has no data either) and kept, with the error
    logged, when it has one; an error that is the empty string counts as none.
    When one of the calls rejects, all three parts are kept. *)
Theorem dashboard_parts_are_independent
    {W} (dataService : IDataService.t W) user (w : W) (s : ParentDashboard.State) :
  (js_truthy (js_chain user AuthUser.family_id) = false →
   ParentDashboard.fetchDashboardData dataService user (w, s) = (Ok tt, (w, s)))
  ∧ (∀ familyId,
       js_chain user AuthUser.family_id = val familyId → familyId ≠ EmptyString →
       ∃ w' s',
         ParentDashboard.fetchDashboardData dataService user (w, s) = (Ok tt, (w', s'))
         ∧ ParentDashboard.loading s' = false
         ∧ (∀ k w1 p w2 t w3,
              IDataService.fetchKidsWithPoints dataService familyId w = (Ok k, w1) →
              IDataService.fetchPendingActivities dataService familyId w1 = (Ok p, w2) →
              IDataService.fetchDashboardStats dataService familyId w2 = (Ok t, w3) →
              w' = w3 ∧ s' = shown k p t s)
         ∧ (let kidsResult := IDataService.fetchKidsWithPoints dataService familyId w in
            let pendingResult :=
              IDataService.fetchPendingActivities dataService familyId kidsResult.2 in
            let statsResult :=
              IDataService.fetchDashboardStats dataService familyId pendingResult.2 in
            (∃ e, kidsResult.1 = Throw e ∨ pendingResult.1 = Throw e
                  ∨ statsResult.1 = Throw e) →
            w' = statsResult.2
            ∧ ParentDashboard.kids s' = ParentDashboard.kids s
            ∧ ParentDashboard.pendingActivities s' = ParentDashboard.pendingActivities s
            ∧ ParentDashboard.stats s' = ParentDashboard.stats s)).
Proof.
  split.
  - intros H. unfold ParentDashboard.fetchDashboardData.
    destruct (js_chain user AuthUser.family_id) as [| |familyId]; try reflexivity.
    simpl in H. by rewrite H.
  - intros familyId Ef Hne.
    rewrite (fetchDashboardData_outcome dataService user familyId w s Ef
               (truthy_nonempty _ Hne)). cbv zeta.
    do 2 eexists. split; [reflexivity|]. split; [| split].
    + destruct (IDataService.fetchKidsWithPoints dataService familyId w) as [[k|e] w1];
        simpl; [|reflexivity].
      destruct (IDataService.fetchPendingActivities dataService familyId w1)
        as [[p|e] w2]; simpl; [|reflexivity].
      by destruct (IDataService.fetchDashboardStats dataService familyId w2)
        as [[t|e] w3].
    + intros k w1 p w2 t w3 Ek Ep Et. rewrite Ek. simpl. rewrite Ep. simpl.
      rewrite Et. by split.
    + cbv zeta. intros [e He].
      destruct (IDataService.fetchKidsWithPoints dataService familyId w) as [[k|e1] w1];
        simpl in *;
        destruct (IDataService.fetchPendingActivities dataService familyId w1)
          as [[p|e2] w2]; simpl in *;
        destruct (IDataService.fetchDashboardStats dataService familyId w2)
          as [[t|e3] w3]; simpl in *;
        try (by repeat split).
      by destruct He as [|[|]].
Qed.

Lemma dashboard_parts_are_independent_witness :
  let row := {| PendingActivity.id := "e4"; PendingActivity.activity_name := "Dishes";
                PendingActivity.kid_name := "Lee"; PendingActivity.points := 7;
                PendingActivity.submitted_at := 4%Z |} in
  let kim := {| Kid.id := "k1"; Kid.display_name := "Kim"; Kid.total_points := 15 |} in
  let dataService : IDataService.t unit :=
    dashboard_service
      (λ _, ret {| list_data := null; list_error := val "permission denied";
                   count := undefined |})
      (λ _, ret {| list_data := val [row]; list_error := null; count := undefined |})
      (λ _, ret {| data := null; error := val EmptyString |}) in
  let s := {| ParentDashboard.kids := [kim]; ParentDashboard.pendingActivities := [];
              ParentDashboard.stats := ParentDashboard.no_stats;
              ParentDashboard.loading := true; ParentDashboard.console := [] |} in
  js_truthy (js_chain (val (bare_user "p1")) AuthUser.family_id) = false
  ∧ ParentDashboard.fetchDashboardData dataService (val (bare_user "p1")) (tt, s)
    = (Ok tt, (tt, s))
  ∧ ∃ s',
      ParentDashboard.fetchDashboardData dataService (val pat) (tt, s) = (Ok tt, (tt, s'))
      ∧ ParentDashboard.kids s' = [kim]
      ∧ ParentDashboard.pendingActivities s' = [row]
      ∧ ParentDashboard.stats s' = ParentDashboard.no_stats
      ∧ ParentDashboard.loading s' = false
      ∧ ParentDashboard.console s' = [("Error fetching kids:", "permission denied")].
Proof.
  intros row kim dataService s. split; [reflexivity|]. split.
  - exact (proj1 (dashboard_parts_are_independent dataService (val (bare_user "p1")) tt s)
             eq_refl).
  - destruct (proj2 (dashboard_parts_are_independent dataService (val pat) tt s)
                "f1" eq_refl ltac:(discriminate)) as (w' & s' & E & Hl & Hall & _).
    destruct (Hall _ _ _ _ _ _ eq_refl eq_refl eq_refl) as [-> ->].
    eexists. split; [exact E|]. by repeat split.
Defined.

(** ** An approval through the dashboard, on the reference store *)

Section Approval.
Import ParentDashboard.

Lemma handleApproval_outcome {W} (dataService : IDataService.t W) u entryId flag
    (w : W) (s : State) :
  AuthUser.id u ≠ EmptyString →
  handleApproval dataService (val u) entryId flag (w, s)
  = match IDataService.approvePointEntry dataService entryId flag (AuthUser.id u) w with
    | (Ok r, w1) =>
        if js_truthy (error r) then
          (Ok tt,
           (w1, {| kids := kids s; pendingActivities := pendingActivities s;
                   stats := stats s; loading := loading s;
                   console := console s
                              ++ logged "Error updating approval:" (error r) |}))
        else fetchDashboardData dataService (val u) (w1, s)
    | (Throw e, w1) =>
        (Ok tt,
         (w1, {| kids := kids s; pendingActivities := pendingActivities s;
                 stats := stats s; loading := loading s;
                 console := console s ++ [("Error updating approval:", err_message e)] |}))
    end.
Proof.
  intros Hu. unfold handleApproval. cbn [js_chain]. rewrite truthy_nonempty by exact Hu.
  unfold try_catch, bind, await. cbn [fst snd].
  destruct (IDataService.approvePointEntry dataService entryId flag (AuthUser.id u) w)
    as [[r|e] w1]; cbn [fst snd]; [|reflexivity].
  destruct (fetchDashboardData_resolves dataService (val u) (w1, s)) as [ws' Ef].
  destruct (error r) as [| |message]; unfold logged; simpl;
    try destruct (truthy message); try reflexivity; by rewrite Ef.
Qed.

(** The pending entries of a family after one entry has been stamped. *)
Lemma pending_after_stamp (rows : list PointEntry.t) familyId entryId flag now approvedBy :
  filter (λ x, PointEntry.family_id x = familyId ∧ PointEntry.status x = pending)
         ((λ x, if decide (PointEntry.id x = entryId)
                then Store.patch_point_entry
                       (SupabaseDataService.approval flag now approvedBy) x
                else x) <$> rows)
  = filter (λ x, PointEntry.id x ≠ entryId)
           (filter (λ x, PointEntry.family_id x = familyId ∧ PointEntry.status x = pending)
                   rows).
Proof.
  induction rows as [|x rows IH]; [reflexivity|].
  rewrite fmap_cons. destruct (decide (PointEntry.id x = entryId)) as [E|E].
  - rewrite filter_cons_False by (intros [_ H]; simpl in H; by destruct flag).
    destruct (decide (PointEntry.family_id x = familyId ∧ PointEntry.status x = pending)).
    + rewrite (filter_cons_True _ x rows) by assumption.
      rewrite filter_cons_False by (intros H; by apply H). exact IH.
    + rewrite (filter_cons_False _ x rows) by assumption. exact IH.
  - destruct (decide (PointEntry.family_id x = familyId ∧ PointEntry.status x = pending)).
    + rewrite !(filter_cons_True _ x) by assumption. by rewrite IH.
    + rewrite !(filter_cons_False _ x) by assumption. exact IH.
Qed.

Lemma fetchPendingActivities_permitted policy uuid familyId d :
  permits policy (Store.SelectPendingEntries familyId) d →
  SupabaseDataService.fetchPendingActivities (Store.client policy uuid) familyId d
  = (Ok {| list_data :=
             val (pending_view (Store.tables d)
                    <$> Store.order_desc PointEntry.created_at
                          (Store.pending_of (Store.tables d) familyId));
           list_error := null; count := undefined |}, d).
Proof.
  intros H. unfold SupabaseDataService.fetchPendingActivities, try_catch, bind. simpl.
  unfold Store.read. rewrite guarded_permitted by done. simpl.
  unfold ret. do 4 f_equal. unfold Store.pending_entries.
  rewrite <- list_fmap_compose. apply list_fmap_ext. intros i e _.
  apply pending_of_row_view.
Qed.
End Approval.

Lemma fetchDashboardStats_permissive uuid familyId d :
  SupabaseDataService.fetchDashboardStats (Store.client Store.permissive uuid) familyId d
  = (Ok {| data :=
             val {| DashboardStats.totalKids :=
                      Z.of_nat (length (Store.kid_profiles (Store.tables d) familyId));
                    DashboardStats.totalActivities :=
                      Z.of_nat (length (filter (λ r, Activity.family_id r = familyId)
                                               (Store.activities (Store.tables d))));
                    DashboardStats.totalRewards :=
                      Z.of_nat (length (filter (λ r, Reward.family_id r = familyId)
                                               (Store.rewards (Store.tables d))));
                    DashboardStats.pendingApprovals :=
                      Z.of_nat (length (Store.pending_of (Store.tables d) familyId)) |};
           error := null |}, d).
Proof.
  destruct (counted_or_refused Store.permissive (Store.CountKids familyId)
              UserProfile.user_id
              (λ s, Store.kid_profiles (Store.tables s) familyId) d) as (k & Ek & Hk).
  destruct (counted_or_refused Store.permissive (Store.CountActivities familyId) Activity.id
              (λ s, filter (λ r, Activity.family_id r = familyId)
                           (Store.activities (Store.tables s))) d) as (a & Ea & Ha).
  destruct (counted_or_refused Store.permissive (Store.CountRewards familyId) Reward.id
              (λ s, filter (λ r, Reward.family_id r = familyId)
                           (Store.rewards (Store.tables s))) d) as (r & Er & Hr).
  destruct (counted_or_refused Store.permissive (Store.CountPending familyId) PointEntry.id
              (λ s, Store.pending_of (Store.tables s) familyId) d) as (p & Ep & Hp).
  rewrite (fetchDashboardStats_resolved (Store.client Store.permissive uuid) familyId
             d k d a d r d p d Ek Ea Er Ep).
  by rewrite Hk, Ha, Hr, Hp.
Qed.

(** X26.  On the reference store with a backend that refuses nothing: when a
    signed-in user with a family approves or rejects, on the dashboard, the
    entry that has a given id, the entry is stamped with the user's id and the
    time, and the dashboard, refreshed, ends with [loading] false and shows the
    entries that were pending in the family without that one, each once, and
    their number as pending approvals; after an approval the kid the entry
    belongs to is on the leaderboard, with the sum of its approved entries. *)
Theorem approval_through_the_dashboard uuid u familyId entryId flag d s e :
  AuthUser.id u ≠ EmptyString →
  AuthUser.family_id u = val familyId → familyId ≠ EmptyString →
  filter (λ x, PointEntry.id x = entryId) (Store.point_entries (Store.tables d)) = [e] →
  let dataService :=
    supabase_data_service (Store.client Store.permissive uuid) Store.clock in
  let others :=
    filter (λ x, PointEntry.id x ≠ entryId) (Store.pending_of (Store.tables d) familyId) in
  ∃ d' s',
    ParentDashboard.handleApproval dataService (val u) entryId flag (d, s)
    = (Ok tt, (d', s'))
    ∧ filter (λ x, PointEntry.id x = entryId) (Store.point_entries (Store.tables d'))
      = [restamped e flag (Store.clock d) (AuthUser.id u)]
    ∧ ParentDashboard.loading s' = false
    ∧ PendingActivity.id <$> ParentDashboard.pendingActivities s'
      ≡ₚ PointEntry.id <$> others
    ∧ DashboardStats.pendingApprovals (ParentDashboard.stats s') = Z.of_nat (length others)
    ∧ (flag = true →
       ∀ p, p ∈ Store.kid_profiles (Store.tables d) familyId →
            UserProfile.user_id p = PointEntry.user_id e →
            {| Kid.id := UserProfile.user_id p;
               Kid.display_name := UserProfile.display_name p;
               Kid.total_points :=
                 points_total
                   (Store.approved_entries_of (Store.tables d') (UserProfile.user_id p)) |}
            ∈ ParentDashboard.kids s').
Proof.
  intros Hu Hf Hfne He dataService others.
  set (stamp := SupabaseDataService.approval flag (Store.clock d) (AuthUser.id u)).
  set (rows' := (λ x, if decide (PointEntry.id x = entryId)
                      then Store.patch_point_entry stamp x else x)
                <$> Store.point_entries (Store.tables d)).
  set (d' := Store.set_tables (Store.set_point_entries rows') d).
  assert (IDataService.approvePointEntry dataService entryId flag (AuthUser.id u) d
          = (Ok {| data := val (Store.patch_point_entry stamp e); error := null |}, d'))
    as Eapprove.
  { change (IDataService.approvePointEntry dataService entryId flag (AuthUser.id u) d)
      with (SupabaseDataService.approvePointEntry (Store.client Store.permissive uuid)
              Store.clock entryId flag (AuthUser.id u) d).
    rewrite approvePointEntry_unfold. cbv zeta. fold stamp.
    unfold Store.permissive at 1.
    by rewrite (update_single_again PointEntry.id (Store.patch_point_entry stamp) entryId
                  _ e He). }
  assert (Store.pending_of (Store.tables d') familyId = others) as Hpending.
  { unfold others, Store.pending_of, d', rows', stamp. simpl. apply pending_after_stamp. }
  exists d'.
  rewrite (handleApproval_outcome dataService u entryId flag d s Hu), Eapprove.
  cbn [error js_truthy].
  rewrite (fetchDashboardData_outcome dataService (val u) familyId d' s Hf
             (truthy_nonempty _ Hfne)).
  cbv zeta.
  change (IDataService.fetchKidsWithPoints dataService familyId d')
    with (SupabaseDataService.fetchKidsWithPoints (Store.client Store.permissive uuid)
            familyId d').
  rewrite (fetchKidsWithPoints_permitted Store.permissive uuid familyId d'
             (permissive_permits _ _)).
  cbn [fst snd].
  change (IDataService.fetchPendingActivities dataService familyId d')
    with (SupabaseDataService.fetchPendingActivities (Store.client Store.permissive uuid)
            familyId d').
  rewrite (fetchPendingActivities_permitted Store.permissive uuid familyId d'
             (permissive_permits _ _)).
  cbn [fst snd].
  change (IDataService.fetchDashboardStats dataService familyId d')
    with (SupabaseDataService.fetchDashboardStats (Store.client Store.permissive uuid)
            familyId d').
  rewrite fetchDashboardStats_permissive. cbn [fst snd].
  eexists. split; [reflexivity|].
  split; [| split; [reflexivity | split; [| split]]].
  - unfold d', rows'. simpl.
    rewrite (filter_patched PointEntry.id (Store.patch_point_entry stamp) entryId
               (patch_point_entry_id stamp)), He.
    by destruct flag.
  - cbn [shown ParentDashboard.pendingActivities list_error list_data js_truthy js_or
         truthy list_truthy].
    rewrite <- list_fmap_compose.
    rewrite (list_fmap_ext (PendingActivity.id ∘ pending_view (Store.tables d'))
               PointEntry.id _ (λ _ _ _, eq_refl)).
    by rewrite order_desc_perm, Hpending.
  - cbn [shown ParentDashboard.stats error data js_truthy js_or truthy
         DashboardStats_truthy DashboardStats.pendingApprovals].
    by rewrite Hpending.
  - intros -> p Hp Hpu.
    cbn [shown ParentDashboard.kids list_error list_data js_truthy js_or truthy
         list_truthy].
    apply (list_elem_of_fmap_2 (kid_per_spec (Store.tables d')) _ p).
    apply list_elem_of_filter. split; [| exact Hp].
    rewrite Hpu. intros Hnil.
    assert (Store.patch_point_entry stamp e
              ∈ Store.approved_entries_of (Store.tables d') (PointEntry.user_id e)) as Hin.
    { unfold Store.approved_entries_of. apply list_elem_of_filter. split; [by split|].
      assert (Store.patch_point_entry stamp e
                ∈ filter (λ x, PointEntry.id x = entryId)
                         (Store.point_entries (Store.tables d'))) as Hin'.
      { unfold d', rows'. simpl.
        rewrite (filter_patched PointEntry.id (Store.patch_point_entry stamp) entryId
                   (patch_point_entry_id stamp)), He. by left. }
      by apply list_elem_of_filter in Hin' as [_ ?]. }
    rewrite Hnil in Hin. by apply elem_of_nil in Hin.
Qed.

Lemma approval_through_the_dashboard_witness :
  let dataService :=
    supabase_data_service (Store.client Store.permissive pretty) Store.clock in
  ∃ d' s',
    ParentDashboard.handleApproval dataService (val pat) "e4" true
      (household, ParentDashboard.initial)
    = (Ok tt, (d', s'))
    ∧ filter (λ x, PointEntry.id x = "e4") (Store.point_entries (Store.tables d'))
      = [restamped (entry "e4" "k2" (val "a2") 7 pending 4%Z) true 50%Z "p1"]
    ∧ ParentDashboard.loading s' = false
    ∧ ParentDashboard.pendingActivities s' = []
    ∧ DashboardStats.pendingApprovals (ParentDashboard.stats s') = 0%Z
    ∧ {| Kid.id := "k2"; Kid.display_name := "Lee"; Kid.total_points := 7 |}
      ∈ ParentDashboard.kids s'.
Proof.
  intros dataService.
  destruct (approval_through_the_dashboard pretty pat "f1" "e4" true household
              ParentDashboard.initial (entry "e4" "k2" (val "a2") 7 pending 4%Z))
    as (d' & s' & E & Hstamp & Hl & Hperm & Hcount & Hkid);
    [discriminate | reflexivity | discriminate | reflexivity |].
  exists d', s'. split; [exact E|]. split; [exact Hstamp|]. split; [exact Hl|].
  split; [| split; [exact Hcount|]].
  - apply Permutation_nil_r in Hperm. by apply fmap_nil_inv in Hperm.
  - assert (member "k2" "Lee" kid ∈ Store.kid_profiles (Store.tables household) "f1") as Hin.
    { vm_compute. repeat constructor. }
    pose proof (Hkid eq_refl _ Hin eq_refl) as Hk.
    assert (d' = (ParentDashboard.handleApproval
                    (supabase_data_service (Store.client Store.permissive pretty) Store.clock)
                    (val pat) "e4" true (household, ParentDashboard.initial)).2.1) as Hd'
      by (by rewrite E).
    assert (points_total (Store.approved_entries_of (Store.tables d') "k2") = 7%Z) as Ht
      by (rewrite Hd'; vm_compute; reflexivity).
    simpl in Hk. rewrite Ht in Hk. exact Hk.
Defined.

(** ** The leaderboard of the parent dashboard *)

Section Leaderboard.
Implicit Types (kids : list Kid.t) (p : Z).

Local Notation "'by_points'" := (λ a b : Kid.t, (Kid.total_points b - Kid.total_points a)%Z).
Local Notation "'not_below'" := (λ a b : Kid.t, (Kid.total_points b ≤ Kid.total_points a)%Z).

Lemma sort_insert_Permutation {A} (compareFn : A → A → Z) x (l : list A) :
  ParentDashboard.sort_insert compareFn x l ≡ₚ x :: l.
Proof.
  induction l as [|y l IH]; simpl; [done|].
  destruct (compareFn x y <=? 0)%Z; [done|].
  rewrite IH. apply Permutation_swap.
Qed.

Lemma array_sort_Permutation {A} (compareFn : A → A → Z) (l : list A) :
  ParentDashboard.array_sort compareFn l ≡ₚ l.
Proof.
  induction l as [|x l IH]; simpl; [done|].
  unfold ParentDashboard.array_sort in *. simpl.
  by rewrite sort_insert_Permutation, IH.
Qed.

Lemma sort_insert_sorted x kids :
  StronglySorted not_below kids →
  StronglySorted not_below (ParentDashboard.sort_insert by_points x kids).
Proof.
  induction 1 as [|y l Hs IH Hall]; simpl.
  - repeat constructor.
  - destruct (Z.leb_spec (by_points x y) 0) as [Hle|Hgt].
    + constructor; [by constructor|].
      constructor; [simpl in *; lia|].
      eapply Forall_impl; [exact Hall|].
      intros z Hz. simpl in *; lia.
    + constructor; [exact IH|].
      rewrite sort_insert_Permutation. constructor; [|exact Hall].
      simpl in *; lia.
Qed.

Lemma sort_insert_stable p x kids :
  filter (λ k, Kid.total_points k = p) (ParentDashboard.sort_insert by_points x kids)
  = filter (λ k, Kid.total_points k = p) (x :: kids).
Proof.
  induction kids as [|y l IH]; simpl; [done|].
  destruct (Z.leb_spec (by_points x y) 0) as [Hle|Hgt]; [done|].
  simpl in Hgt.
  destruct (decide (Kid.total_points y = p)) as [Hy|Hy].
  - rewrite (filter_cons_True _ y) by done. rewrite IH.
    rewrite !(filter_cons_False _ x) by lia.
    by rewrite (filter_cons_True _ y) by done.
  - rewrite (filter_cons_False _ y) by done. rewrite IH.
    destruct (decide (Kid.total_points x = p)) as [Hx|Hx].
    + rewrite !(filter_cons_True _ x) by done.
      by rewrite (filter_cons_False _ y) by done.
    + rewrite !(filter_cons_False _ x) by done.
      by rewrite (filter_cons_False _ y) by done.
Qed.

Lemma imap_ranks {A} (l : list A) (n : nat) :
  fst <$> imap (λ index x, (Z.of_nat (n + index) + 1, x)%Z) l
  = (λ index, Z.of_nat index + 1)%Z <$> seq n (length l).
Proof.
  revert n. induction l as [|x l IH]; intros n; simpl; [done|].
  f_equal; [by rewrite Nat.add_0_r|].
  rewrite <- IH. f_equal. apply imap_ext. intros i y _. simpl.
  by rewrite Nat.add_succ_r.
Qed.

Lemma imap_rows {A B} (f : nat → B) (l : list A) :
  snd <$> imap (λ index x, (f index, x)) l = l.
Proof.
  revert f. induction l as [|x l IH]; intros f; simpl; [done|].
  f_equal. apply (IH (f ∘ S)).
Qed.

(** X27. The leaderboard shows every kid once, ranked 1, 2, ... with no
    kid above one who has more points, and kids with the same points in
    the order in which they were fetched. *)
Theorem leaderboard_ranks_by_points kids :
  let rows := snd <$> ParentDashboard.leaderboard kids in
  rows ≡ₚ kids
  ∧ fst <$> ParentDashboard.leaderboard kids
    = (λ index, Z.of_nat index + 1)%Z <$> seq 0 (length kids)
  ∧ StronglySorted (λ a b, (Kid.total_points b ≤ Kid.total_points a)%Z) rows
  ∧ ∀ p, filter (λ k, Kid.total_points k = p) rows
         = filter (λ k, Kid.total_points k = p) kids.
Proof.
  intros rows. subst rows. unfold ParentDashboard.leaderboard.
  rewrite imap_rows.
  split; [apply array_sort_Permutation|].
  split.
  { rewrite <- (Permutation_length (array_sort_Permutation by_points kids)).
    apply (imap_ranks _ 0). }
  split.
  - unfold ParentDashboard.array_sort.
    induction kids as [|x l IH]; simpl; [constructor|].
    by apply sort_insert_sorted.
  - intros p. unfold ParentDashboard.array_sort.
    induction kids as [|x l IH]; simpl; [done|].
    rewrite (sort_insert_stable p x).
    destruct (decide (Kid.total_points x = p)).
    + rewrite !(filter_cons_True _ x) by done. by rewrite IH.
    + rewrite !(filter_cons_False _ x) by done. by rewrite IH.
Qed.
End Leaderboard.
